(** * bind-to-tinydns: a shallow embedding of [bind-to-tinydns.c]

    The C program converts a BIND master zone file read from standard
    input into tinydns-data lines.  This development embeds its helper
    functions ([sanitize_string], [qualify_domain], [str_to_uint],
    [sanitize_ip]), the tokenizer ([tokenize]), the [$GENERATE] template
    functions ([parse_gen_string], [construct_gen_output]) and the
    entry handler ([handle_entry]) together with the loop of [main], and
    proves properties of them.

    Conventions of the embedding.
    - A C [char] is an [ascii]; its value as an [int] is [schar] (the
      type is signed on the platforms the program was written for).
    - A NUL-terminated C string is a Rocq [string] holding the characters
      before the terminator.  Buffers in which the program writes NUL
      bytes itself (the line buffer of the tokenizer, the template line of
      [parse_gen_string]) are [list ascii] with the NUL bytes explicit.
    - [unsigned int] and [int] are 32 bits wide; values are kept in [Z]
      and the wrap-around is written out with [u32] and [i32].
    - [warning] and [fatal] write to the diagnostic stream; the stream is
      a list of [diag] values, oldest first.
    - The program stores into arrays of fixed size without a test in three
      places: [sprintf] of a negative [char] in [sanitize_string] (thirteen
      bytes where four are counted), the token of a quoted text in
      [tokenize] (no test against [MAX_TOKENS]), and the address written
      into [ip] for an A record (sixteen bytes).  The embedding follows the
      calls that stay inside these arrays; what the program does past them
      is not defined by its text and is not described.  [Bounds] and the
      hypotheses on the number of tokens give the conditions, and the
      statements that reach these places carry them.  *)

From Stdlib Require Import ZArith List String Ascii Bool Lia.
Import ListNotations.

#[local] Open Scope bool_scope.
#[local] Open Scope string_scope.
#[local] Open Scope Z_scope.

(** ** Constants of the program *)

Definition LINE_LEN : Z := 8192.
Definition DOMAIN_LEN : Z := 255.
Definition MAX_TOKENS : Z := 32.
Definition MAX_PAREN : Z := 3.
Definition MAX_GEN_PARTS : Z := 10.
Definition DEFAULT_TTL : Z := 86400.
Definition DOMAIN_STR_LEN : Z := DOMAIN_LEN * 4 + 1.

(** ** Machine integers and characters *)

Definition u32 (z : Z) : Z := z mod 2 ^ 32.

Definition i32 (z : Z) : Z :=
  let r := z mod 2 ^ 32 in if r <? 2 ^ 31 then r else r - 2 ^ 32.

Definition code (c : ascii) : Z := Z.of_N (N_of_ascii c).

(** Value of a [char] promoted to [int]. *)
Definition schar (c : ascii) : Z :=
  if code c <? 128 then code c else code c - 256.

Definition chr (z : Z) : ascii := ascii_of_N (Z.to_N (z mod 256)).

Definition nul : ascii := zero.

(** [isprint] and [isdigit] of the C locale, on an [int]. *)
Definition isprint (v : Z) : bool := (32 <=? v) && (v <=? 126).
Definition isdigit (v : Z) : bool := (48 <=? v) && (v <=? 57).

Definition ch_is (c : ascii) (d : string) : bool :=
  match d with
  | String d0 EmptyString => Ascii.eqb c d0
  | _ => false
  end.

Definition tolower (c : ascii) : ascii :=
  if (65 <=? code c) && (code c <=? 90) then chr (code c + 32) else c.

(** [strcasecmp a b == 0] *)
Fixpoint strcaseeq (a b : string) : bool :=
  match a, b with
  | EmptyString, EmptyString => true
  | String x a', String y b' => Ascii.eqb (tolower x) (tolower y) && strcaseeq a' b'
  | _, _ => false
  end.

(** ** The diagnostic stream *)

Inductive diag : Type :=
| Warning (message : string) (line_number : Z)
| FatalMsg (message : string) (line_number : Z).

(** Result of a helper that returns 0 on success and 1 on failure: the
    failure carries the warnings the helper printed before returning. *)
Inductive res (A : Type) : Type :=
| Ok (a : A)
| Err (w : list diag).
Arguments Ok {A} a.
Arguments Err {A} w.

(** ** printf conversions *)

Definition digit_char (upper : bool) (d : Z) : ascii :=
  if d <? 10 then chr (48 + d)
  else if upper then chr (65 + (d - 10)) else chr (97 + (d - 10)).

Fixpoint digits_aux (fuel : nat) (base : Z) (upper : bool) (n : Z) (acc : string) : string :=
  match fuel with
  | O => acc
  | S fuel' =>
    let acc' := String (digit_char upper (n mod base)) acc in
    if n / base =? 0 then acc' else digits_aux fuel' base upper (n / base) acc'
  end.

(** Digits of a non-negative number, most significant first. *)
Definition digits (base : Z) (upper : bool) (n : Z) : string :=
  digits_aux (S (Z.to_nat (Z.log2 n))) base upper n "".

Fixpoint repeat_char (c : ascii) (n : nat) : string :=
  match n with O => "" | S n' => String c (repeat_char c n') end.

Definition strlen (s : string) : Z := Z.of_nat (String.length s).

(** Zero flag with a field width: zeros on the left up to [width].  A
    negative [width] printed into the format reads as the [-] flag, which
    overrides the zero flag: spaces on the right up to [- width]. *)
Definition pad (sign : string) (width : Z) (s : string) : string :=
  if width <? 0
  then sign ++ s ++ repeat_char " " (Z.to_nat (- width - strlen sign - strlen s))
  else sign ++ repeat_char "0" (Z.to_nat (width - strlen sign - strlen s)) ++ s.

(** ["%0<width>o"], ["%0<width>x"], ["%0<width>X"] and ["%u"] (width 0): the
    argument is read as an [unsigned int]. *)
Definition fmt_unsigned (base : Z) (upper : bool) (width : Z) (v : Z) : string :=
  pad "" width (digits base upper (u32 v)).

(** ["%0<width>d"] and ["%d"] (width 0): the argument is read as an [int];
    the sign counts in the width. *)
Definition fmt_d (width : Z) (v : Z) : string :=
  let s := i32 v in
  if s <? 0 then pad "-" width (digits 10 false (- s))
  else pad "" width (digits 10 false s).

(** ** The [string] struct *)

(** [struct string]: [text] is the encoded text, [len] the number of
    characters it stands for and [real_len] the number of bytes of
    [text]. *)
Record string_t : Type := mk_string { text : string; len : Z; real_len : Z }.

Definition empty_string_t : string_t := mk_string "" 0 0.

(** ** sanitize_string *)

(** [temp.text[temp.real_len] = c; temp.len++; temp.real_len++], and the
    terminator written at line 160. *)
Definition put_char (temp : string_t) (c : ascii) : string_t :=
  mk_string (text temp ++ String c "") (len temp + 1) (real_len temp + 1).

(** [sprintf (temp.text + temp.real_len, "\\%03o", v); temp.real_len += 4;
    temp.len++], and the terminator written at [temp.text[temp.real_len]]
    at line 160, which keeps four bytes of what [sprintf] wrote.  For a
    negative [v] that is the backslash and the first three of eleven
    digits; the thirteen bytes written are taken to end inside
    [temp.text], that is [real_len temp] to be at most 1008. *)
Definition put_octal (temp : string_t) (v : Z) : string_t :=
  mk_string (text temp ++ substring 0 4 (String "\" (fmt_unsigned 8 false 3 v)))
            (len temp + 1) (real_len temp + 4).

Definition w_too_long := Warning "sanitize_string: src string too long" (-1).
Definition w_no_escaped := Warning "sanitize_string: backslash escape in src with no escaped char" (-1).
Definition w_too_large := Warning "sanitize_string: escaped decimal number too large" (-1).
Definition w_malformed := Warning "sanitize_string: malformed escaped decimal sequence" (-1).

Fixpoint sanitize_loop (src : string) (temp : string_t) {struct src} : res string_t :=
  match src with
  | EmptyString => Ok temp
  | String c rest =>
    if len temp =? DOMAIN_LEN then Err [w_too_long]
    else if isprint (schar c) && negb (ch_is c "\") && negb (ch_is c ":") then
      sanitize_loop rest (put_char temp c)
    else if ch_is c "\" then
      match rest with
      | EmptyString => Err [w_no_escaped]
      | String c1 rest1 =>
        if negb (isdigit (schar c1)) then
          if ch_is c1 ":" || ch_is c1 "\" || ch_is c1 "." || negb (isprint (schar c1))
          then sanitize_loop rest1 (put_octal temp (schar c1))
          else sanitize_loop rest1 (put_char temp c1)
        else
          match rest1 with
          | String c2 (String c3 rest3) =>
            if isdigit (schar c2) && isdigit (schar c3) then
              let num := (schar c1 - 48) * 100 + (schar c2 - 48) * 10 + (schar c3 - 48) in
              if num >? 255 then Err [w_too_large]
              else if isprint num && negb (num =? 58) && negb (num =? 46)
                      && negb (num =? 92)
              then sanitize_loop rest3 (put_char temp (chr num))
              else sanitize_loop rest3 (put_octal temp num)
            else Err [w_malformed]
          | _ => Err [w_malformed]
          end
      end
    else sanitize_loop rest (put_octal temp (schar c))
  end.

Definition sanitize_string (src : string) : res string_t :=
  sanitize_loop src empty_string_t.


(** ** qualify_domain *)

(** [s[i]], the terminator when [i] is past the text. *)
Definition char_at (s : string) (i : Z) : ascii :=
  if i <? 0 then nul
  else match String.get (Z.to_nat i) s with Some c => c | None => nul end.

(** [strstr (s, "..") != NULL] *)
Fixpoint has_dotdot (s : string) : bool :=
  match s with
  | String a t =>
    match t with
    | String b _ => ((a =? ".")%char && (b =? ".")%char) || has_dotdot t
    | EmptyString => false
    end
  | EmptyString => false
  end.

(** [s[0] == c && s[1] == '\0'] *)
Definition only_char (s : string) (c : ascii) : bool :=
  match s with
  | String a EmptyString => (a =? c)%char
  | _ => false
  end.

(** [s[0] == '.' && s[1] != '\0'] *)
Definition leading_dot (s : string) : bool :=
  match s with
  | String a (String _ _) => (a =? ".")%char
  | _ => false
  end.

Definition wq (m : string) : diag := Warning ("qualify_domain: " ++ m) (-1).

Definition qualify_domain (name : string) (origin : option string_t) : res string_t :=
  match sanitize_string name with
  | Err w => Err (w ++ [wq "unable to sanitize name"])
  | Ok sname =>
    if negb (len sname =? 0) then
      if leading_dot (text sname) then Err [wq "empty label"]
      else if has_dotdot (text sname) then Err [wq "empty label"]
      else if only_char (text sname) "@" then
        match origin with
        | Some o => if len o =? 0 then Err [wq "name is '@', origin is missing"] else Ok o
        | None => Err [wq "name is '@', origin is missing"]
        end
      else if (char_at (text sname) (real_len sname - 1) =? ".")%char then Ok sname
      else
        match origin with
        | None => Err [wq "name is not fully qualified and origin is missing"]
        | Some o =>
          if len o =? 0
          then Err [wq "name is not fully qualified and origin is missing"]
          else if only_char (text o) "." then
            if len sname + 1 >? DOMAIN_LEN then Err [wq "name is too long"]
            else Ok (mk_string (text sname ++ ".") (len sname + 1) (real_len sname + 1))
          else
            if len sname + 1 + len o >? DOMAIN_LEN
            then Err [wq "name plus origin is too long"]
            else Ok (mk_string (text sname ++ "." ++ text o)
                               (len sname + (1 + len o))
                               (real_len sname + (1 + real_len o)))
        end
    else
      match origin with
      | Some o =>
        if len o =? 0 then Err [wq "name and origin are both empty or missing"] else Ok o
      | None => Err [wq "name and origin are both empty or missing"]
      end
  end.

(** ** str_to_uint *)

(** Seconds in the unit [c] names, as the multiplications of lines 300 to
    309 compute them on [unsigned int]. *)
Definition unit_total (c : ascii) (part : Z) : option Z :=
  if (c =? "w")%char || (c =? "W")%char then Some (u32 (u32 (part * 86400) * 7))
  else if (c =? "d")%char || (c =? "D")%char then Some (u32 (part * 86400))
  else if (c =? "h")%char || (c =? "H")%char then Some (u32 (u32 (part * 60) * 60))
  else if (c =? "m")%char || (c =? "M")%char then Some (u32 (part * 60))
  else if (c =? "s")%char || (c =? "S")%char then Some part
  else None.

Fixpoint str_to_uint_loop (s : string) (allow_time_fmt in_time_fmt in_part : bool)
         (total part : Z) : res Z :=
  match s with
  | EmptyString =>
    if in_time_fmt && in_part
    then Err [Warning "str_to_uint: unfinished time string" (-1)]
    else Ok (if negb in_time_fmt then part else total)
  | String c s' =>
    if (schar c >=? 48) && (schar c <=? 57) then
      str_to_uint_loop s' allow_time_fmt in_time_fmt true total
                       (u32 (u32 (part * 10) + (schar c - 48)))
    else if negb allow_time_fmt || negb in_part then Err []
    else
      match unit_total c part with
      | Some t => str_to_uint_loop s' allow_time_fmt true false (u32 (total + t)) 0
      | None => Err []
      end
  end.

(** [Ok v]: [*ret = 0] and [v] returned; [Err w]: [*ret = 1] and 0 returned,
    after printing [w]. *)
Definition str_to_uint (s : string) (allow_time_fmt : bool) : res Z :=
  match s with
  | EmptyString => Err [Warning "str_to_uint: NULL or empty string" (-1)]
  | _ => str_to_uint_loop s allow_time_fmt false false 0 0
  end.

(** ** sanitize_ip *)

(** [strchr (src, '.')]: the text before the first dot and the text after it. *)
Fixpoint strchr_dot (s : string) : option (string * string) :=
  match s with
  | EmptyString => None
  | String c s' =>
    if (c =? ".")%char then Some ("", s')
    else match strchr_dot s' with
         | Some (a, b) => Some (String c a, b)
         | None => None
         end
  end.

(** The loop of lines 344 to 348 over the characters before [dot]. *)
Fixpoint ip_octet (s : string) (total : Z) : option Z :=
  match s with
  | EmptyString => Some total
  | String c s' =>
    if (schar c <? 48) || (schar c >? 57) then None
    else ip_octet s' (i32 (i32 (total * 10) + (schar c - 48)))
  end.

(** [n] counts the octets that end at a dot and are still to be read. *)
Fixpoint sanitize_ip_loop (n : nat) (src dest : string) : option string :=
  match n with
  | S n' =>
    match strchr_dot src with
    | None => None
    | Some (pre, post) =>
      if strlen pre =? 0 then None
      else match ip_octet pre 0 with
           | None => None
           | Some total =>
             if total >? 255 then None
             else sanitize_ip_loop n' post (dest ++ fmt_d 0 total ++ ".")
           end
    end
  | O =>
    if strlen src =? 0 then None
    else match ip_octet src 0 with
         | None => None
         | Some total => if total >? 255 then None else Some (dest ++ fmt_d 0 total)
         end
  end.

Definition sanitize_ip (src : string) : option string := sanitize_ip_loop 3 src "".

(** ** tokenize *)

Definition dquote : ascii := "034"%char.
Definition newline : ascii := "010"%char.
Definition tab : ascii := "009"%char.
Definition cr : ascii := "013"%char.

(** An element of the [token] array: [blank_token], or a pointer into the
    line buffer, kept as its offset. *)
Inductive token_ptr : Type :=
| BlankToken
| LinePtr (off : nat).

(** The C string that starts at the head of a buffer. *)
Fixpoint c_str (l : list ascii) : string :=
  match l with
  | [] => ""
  | c :: l' => if (c =? nul)%char then "" else String c (c_str l')
  end.

Definition token_str (line : list ascii) (t : token_ptr) : string :=
  match t with
  | BlankToken => " "
  | LinePtr off => c_str (skipn off line)
  end.

(** [line[i]]; the byte after the text that [fgets] stored is its
    terminator. *)
Definition line_at (line : list ascii) (i : nat) : ascii := nth i line nul.

(** [line[i] = c] *)
Definition line_set (line : list ascii) (i : nat) (c : ascii) : list ascii :=
  (firstn i line ++ c :: skipn (S i) line)%list.

(** The local variables of [tokenize] and the line buffer.  [token] holds
    [token[0]] to [token[num_tokens-1]], so [num_tokens] is its length. *)
Record tok_state : Type := mk_tok {
  line : list ascii;
  i : nat;
  in_doublequote : bool;
  paren_level : Z;
  in_quote : bool;
  set_in_quote : bool;
  in_txt : bool;
  token : list token_ptr;
  in_token : bool;
  found_nonblank_token : bool
}.

Definition num_tokens (s : tok_state) : Z := Z.of_nat (List.length (token s)).

Definition with_line (s : tok_state) (l : list ascii) : tok_state :=
  mk_tok l (i s) (in_doublequote s) (paren_level s) (in_quote s) (set_in_quote s)
         (in_txt s) (token s) (in_token s) (found_nonblank_token s).
Definition with_i (s : tok_state) (n : nat) : tok_state :=
  mk_tok (line s) n (in_doublequote s) (paren_level s) (in_quote s) (set_in_quote s)
         (in_txt s) (token s) (in_token s) (found_nonblank_token s).
Definition with_in_doublequote (s : tok_state) (b : bool) : tok_state :=
  mk_tok (line s) (i s) b (paren_level s) (in_quote s) (set_in_quote s)
         (in_txt s) (token s) (in_token s) (found_nonblank_token s).
Definition with_paren_level (s : tok_state) (p : Z) : tok_state :=
  mk_tok (line s) (i s) (in_doublequote s) p (in_quote s) (set_in_quote s)
         (in_txt s) (token s) (in_token s) (found_nonblank_token s).
Definition with_in_quote (s : tok_state) (b : bool) : tok_state :=
  mk_tok (line s) (i s) (in_doublequote s) (paren_level s) b (set_in_quote s)
         (in_txt s) (token s) (in_token s) (found_nonblank_token s).
Definition with_set_in_quote (s : tok_state) (b : bool) : tok_state :=
  mk_tok (line s) (i s) (in_doublequote s) (paren_level s) (in_quote s) b
         (in_txt s) (token s) (in_token s) (found_nonblank_token s).
Definition with_in_txt (s : tok_state) (b : bool) : tok_state :=
  mk_tok (line s) (i s) (in_doublequote s) (paren_level s) (in_quote s) (set_in_quote s)
         b (token s) (in_token s) (found_nonblank_token s).
Definition with_in_token (s : tok_state) (b : bool) : tok_state :=
  mk_tok (line s) (i s) (in_doublequote s) (paren_level s) (in_quote s) (set_in_quote s)
         (in_txt s) (token s) b (found_nonblank_token s).
Definition with_found_nonblank_token (s : tok_state) (b : bool) : tok_state :=
  mk_tok (line s) (i s) (in_doublequote s) (paren_level s) (in_quote s) (set_in_quote s)
         (in_txt s) (token s) (in_token s) b.

(** [token[num_tokens] = t; num_tokens++], for [num_tokens] below the 32
    slots of the array of [main]. *)
Definition push_token (s : tok_state) (t : token_ptr) : tok_state :=
  mk_tok (line s) (i s) (in_doublequote s) (paren_level s) (in_quote s) (set_in_quote s)
         (in_txt s) (token s ++ [t])%list (in_token s) (found_nonblank_token s).

(** [line[i] = '\0'] *)
Definition cut_here (s : tok_state) : tok_state :=
  with_line s (line_set (line s) (i s) nul).

(** [line[i] = '\0'; in_token = 0] *)
Definition end_token (s : tok_state) : tok_state := with_in_token (cut_here s) false.

(** [token[num_tokens-1]] as a C string, when [num_tokens > 0]. *)
Definition last_token_str (s : tok_state) : option string :=
  match rev (token s) with
  | [] => None
  | t :: _ => Some (token_str (line s) t)
  end.

(** [num_tokens == 0 || strcasecmp (token[num_tokens-1], "txt")], lines 420
    to 422. *)
Definition not_after_txt (s : tok_state) : bool :=
  match last_token_str s with
  | None => true
  | Some t => negb (strcaseeq t "txt")
  end.

Definition m_entry_too_long := "entry too long".
Definition m_too_many_paren := "too many nested parentheses".
Definition m_missing_paren := "missing opening parenthesis".
Definition m_improper_quotes :=
  "improper use of double-quotes (can only be used for TXT rdata)".
Definition m_too_many_tokens := "too many tokens in RR".
Definition m_open_paren_eof := "open parentheses at end of file".

(** One pass through the body of the [for] loop of lines 376 to 456, at
    the character [line[i]]. *)
Inductive step_result : Type :=
| Next (s : tok_state)           (* the body ended, or ran [continue] *)
| Break (s : tok_state)          (* the body ran [break] *)
| StepFatal (message : string).  (* the body called [fatal] *)

(** Lines 381 to 391: [inr] when the body runs [continue] there. *)
Definition escape_step (s : tok_state) : tok_state + tok_state :=
  let c := line_at (line s) (i s) in
  let s1 := if set_in_quote s
            then with_set_in_quote (with_in_quote s true) false else s in
  if (c =? "\")%char && negb (in_quote s1) then inl (with_set_in_quote s1 true)
  else if in_quote s1 && negb (c =? newline)%char then inr (with_in_quote s1 false)
  else inl s1.

(** Lines 414 to 434: the character is a double quote. *)
Definition quote_step (s : tok_state) : step_result :=
  let s1 := cut_here s in
  if in_doublequote s1 then
    Next (with_in_doublequote (with_in_token s1 false) (negb (in_doublequote s1)))
  else
    if negb (in_txt s1) && not_after_txt s1 then StepFatal m_improper_quotes
    else
      let s2 := if negb (in_txt s1) then with_in_txt s1 true else s1 in
      let s3 := with_in_token (push_token s2 (LinePtr (S (i s2)))) true in
      Next (with_in_doublequote s3 (negb (in_doublequote s3))).

(** Lines 393 to 455. *)
Definition syntax_step (s : tok_state) : step_result :=
  let c := line_at (line s) (i s) in
  if in_doublequote s && negb (c =? dquote)%char then Next s
  else if (c =? ";")%char then Break (end_token s)
  else if (c =? "(")%char then
    let s1 := with_paren_level (end_token s) (paren_level s + 1) in
    if paren_level s1 >? MAX_PAREN then StepFatal m_too_many_paren else Next s1
  else if (c =? ")")%char then
    let s1 := with_paren_level (end_token s) (paren_level s - 1) in
    if paren_level s1 <? 0 then StepFatal m_missing_paren else Next s1
  else if (c =? dquote)%char then quote_step s
  else if (c =? " ")%char || (c =? tab)%char then
    if Nat.eqb (i s) 0 then Next (push_token s BlankToken) else Next (end_token s)
  else if (c =? newline)%char || (c =? cr)%char then Next (end_token s)
  else if negb (in_token s) then
    if num_tokens s >=? MAX_TOKENS then StepFatal m_too_many_tokens
    else Next (with_found_nonblank_token
                 (with_in_token (push_token s (LinePtr (i s))) true) true)
  else Next s.

Definition scan_char (s : tok_state) : step_result :=
  if Z.of_nat (i s) =? LINE_LEN then StepFatal m_entry_too_long
  else match escape_step s with
       | inr s1 => Next s1
       | inl s1 => syntax_step s1
       end.

Inductive scan_result : Type :=
| ScanEnd (s : tok_state)
| ScanFatal (message : string).

(** The [for] loop of lines 376 to 456.  It runs the body once for each
    character from [line[i]] up to the terminator, so a [fuel] of the
    number of characters after [line[i]] is never used up. *)
Fixpoint scan (fuel : nat) (s : tok_state) : scan_result :=
  match fuel with
  | O => ScanEnd s
  | S fuel' =>
    if (line_at (line s) (i s) =? nul)%char then ScanEnd s
    else match scan_char s with
         | Next s1 => scan fuel' (with_i s1 (S (i s1)))
         | Break s1 => ScanEnd s1
         | StepFatal m => ScanFatal m
         end
  end.

(** [fgets (buf, size, stdin)] on the bytes still to be read: the bytes
    stored and the bytes left, or [None] for the null pointer at the end of
    the input.  With a [size] of 1 there is room for the terminator only,
    and the C library stores it and returns [buf] without reading. *)
Fixpoint fgets_read (n : nat) (input : list ascii) : list ascii * list ascii :=
  match n, input with
  | O, _ => ([], input)
  | S _, [] => ([], [])
  | S n', c :: rest =>
    if (c =? newline)%char then ([c], rest)
    else let (got, more) := fgets_read n' rest in (c :: got, more)
  end.

Definition fgets (size : Z) (input : list ascii) : option (list ascii * list ascii) :=
  if size <=? 1 then Some ([], input)
  else match input with
       | [] => None
       | _ => Some (fgets_read (Z.to_nat (size - 1)) input)
       end.

(** What a call of [tokenize] leaves behind. *)
Inductive tok_result : Type :=
| TokEOF                               (* returned -1 *)
| TokFatal                             (* called [fatal]: the process exited *)
| TokHang                              (* the [do] loop does not end *)
| TokEntry (tokens : list string).     (* returned the number of these tokens *)

Record tok_out : Type := mk_tok_out {
  result : tok_result;
  stdin_left : list ascii;
  line_num : Z;
  start_line_num : Z;
  printed : list diag
}.

Definition w_hanging_backslash (ln : Z) : diag :=
  Warning "hanging backslash at end of line; pretending it was terminated" ln.
Definition w_open_doublequote (ln : Z) : diag :=
  Warning "open doublequoted string at end of line; pretending it was closed" ln.

(** The warnings of lines 458 to 463. *)
Definition end_of_line_warnings (s : tok_state) (start : Z) : list diag :=
  ((if in_quote s then [w_hanging_backslash start] else []) ++
   (if in_doublequote s then [w_open_doublequote start] else []))%list.

(** The [do ... while (paren_level)] loop of lines 370 to 467 and the
    return of lines 469 to 472.  [fuel] bounds the number of passes. *)
Fixpoint tokenize_loop (fuel : nat) (s : tok_state) (input : list ascii)
         (ln start : Z) (d : list diag) : tok_out :=
  match fuel with
  | O => mk_tok_out TokHang input ln start d
  | S fuel' =>
    match fgets (LINE_LEN + 1 - Z.of_nat (i s)) input with
    | None => mk_tok_out TokEOF input ln start d
    | Some (got, more) =>
      let s1 := with_line s (firstn (i s) (line s) ++ got)%list in
      match scan (S (List.length got)) s1 with
      | ScanFatal m => mk_tok_out TokFatal more ln start (d ++ [FatalMsg m start])%list
      | ScanEnd s2 =>
        let d2 := (d ++ end_of_line_warnings s2 start)%list in
        if negb (paren_level s2 =? 0) then tokenize_loop fuel' s2 more (ln + 1) start d2
        else if negb (paren_level s2 =? 0)
        then mk_tok_out TokFatal more (ln + 1) start
                        (d2 ++ [FatalMsg m_open_paren_eof start])%list
        else mk_tok_out
               (TokEntry (if found_nonblank_token s2
                          then map (token_str (line s2)) (token s2) else []))
               more (ln + 1) start d2
      end
    end
  end.

Definition tok_init : tok_state :=
  mk_tok [] 0 false 0 false false false [] false false.

(** [tokenize (token)] with [input] left on standard input and the global
    [line_num] at [ln].  Every pass of the loop but one that finds the line
    buffer full reads a byte, so the fuel given runs out only when the
    loop does not end. *)
Definition tokenize (input : list ascii) (ln : Z) : tok_out :=
  tokenize_loop (S (List.length input)) tok_init input ln ln [].

(** ** parse_gen_string *)

(** Entry [k] of the arrays [parts], [offsets], [widths] and [bases]:
    [parts[k]] points into the template line, or is the null pointer and
    the other three arrays describe a placeholder. *)
Inductive gen_part : Type :=
| Literal (start : nat)
| Placeholder (offset width : Z) (base : ascii).

Record gen_state : Type := mk_gen {
  gline : list ascii;
  parts : list gen_part;
  ptr : nat;
  gin_quote : bool
}.

Definition num_parts (g : gen_state) : Z := Z.of_nat (List.length (parts g)).

Inductive gen_result : Type :=
| GenOk (line : list ascii) (parts : list gen_part)
| GenFatal (message : string).

(** The digit loops of lines 521 to 526 and 534 to 539, on the characters
    from [*ptr]: the number read, [found], and how far [ptr] moved. *)
Fixpoint digit_run (l : list ascii) (acc : Z) (found : bool) (moved : nat)
  : Z * bool * nat :=
  match l with
  | c :: l' =>
    if (schar c >=? 48) && (schar c <=? 57)
    then digit_run l' (i32 (i32 (acc * 10) + (schar c - 48))) true (S moved)
    else (acc, found, moved)
  | [] => (acc, found, moved)
  end.

(** Lines 506 to 512: the part that starts at this [$] becomes the
    placeholder, or a placeholder is added. *)
Definition open_placeholder (ps : list gen_part) (p : nat) : list gen_part :=
  match rev ps with
  | Literal start :: before =>
    if Nat.eqb start p then (rev before ++ [Placeholder 0 0 "d"])%list
    else (ps ++ [Placeholder 0 0 "d"])%list
  | _ => (ps ++ [Placeholder 0 0 "d"])%list
  end.

(** [offsets[*num_parts-1]], [widths[*num_parts-1]] and
    [bases[*num_parts-1]] are assigned. *)
Definition set_placeholder (ps : list gen_part) (offset width : Z) (base : ascii)
  : list gen_part :=
  match rev ps with
  | _ :: before => (rev before ++ [Placeholder offset width base])%list
  | [] => ps
  end.

Definition m_gen_parts := "$GENERATE directive has too many parts".
Definition m_gen_offset := "parse error in $GENERATE curly braces (at offset)".
Definition m_gen_width := "parse error in $GENERATE curly braces (at width)".
Definition m_gen_base := "$GENERATE has invalid base".
Definition m_gen_close := "parse error in $GENERATE (curly braces not closed after base)".

(** Lines 514 to 557, entered with [*(ptr+1) == '{']: the placeholder read
    and [ptr] at the closing brace. *)
Definition parse_braces (l : list ascii) (p : nat)
  : string + (Z * Z * ascii * nat) :=
  let p1 := (p + 2)%nat in
  let neg := (line_at l p1 =? "-")%char in
  let p2 := if neg then S p1 else p1 in
  let '(off, found, moved) := digit_run (skipn p2 l) 0 false 0 in
  let offset := if neg then i32 (off * -1) else i32 (off * 1) in
  let p3 := (p2 + moved)%nat in
  if negb found || (negb (line_at l p3 =? ",")%char && negb (line_at l p3 =? "}")%char)
  then inl m_gen_offset
  else if (line_at l p3 =? "}")%char then inr (offset, 0, "d"%char, p3)
  else
    let '(width, found, moved) := digit_run (skipn (S p3) l) 0 false 0 in
    let p4 := (S p3 + moved)%nat in
    if negb found || (negb (line_at l p4 =? ",")%char && negb (line_at l p4 =? "}")%char)
    then inl m_gen_width
    else if (line_at l p4 =? "}")%char then inr (offset, width, "d"%char, p4)
    else
      let p5 := S p4 in
      let b := line_at l p5 in
      if negb (b =? "d")%char && negb (b =? "o")%char &&
         negb (b =? "x")%char && negb (b =? "X")%char
      then inl m_gen_base
      else if negb (line_at l (S p5) =? "}")%char then inl m_gen_close
      else inr (offset, width, b, S p5).

(** Lines 558 to 563, with [ptr] at the last character of the
    placeholder. *)
Definition after_placeholder (l : list ascii) (ps : list gen_part) (p : nat)
  : gen_result + gen_state :=
  if negb (line_at l (S p) =? nul)%char then
    if Z.of_nat (List.length ps) >=? MAX_GEN_PARTS then inl (GenFatal m_gen_parts)
    else inr (mk_gen l (ps ++ [Literal (S p)])%list p false)
  else inr (mk_gen l ps p false).

(** One pass through the body of the [for] loop of lines 486 to 565; the
    state returned has [ptr] where the body left it. *)
Definition gen_step (g : gen_state) : gen_result + gen_state :=
  let c := line_at (gline g) (ptr g) in
  if gin_quote g then inr (mk_gen (gline g) (parts g) (ptr g) false)
  else if (c =? "\")%char then inr (mk_gen (gline g) (parts g) (ptr g) true)
  else if (c =? "$")%char then
    if (line_at (gline g) (S (ptr g)) =? "$")%char
    then inr (mk_gen (gline g) (parts g) (S (ptr g)) (gin_quote g))
    else if num_parts g >=? MAX_GEN_PARTS then inl (GenFatal m_gen_parts)
    else
      let l := line_set (gline g) (ptr g) nul in
      let ps := open_placeholder (parts g) (ptr g) in
      if (line_at l (S (ptr g)) =? "{")%char then
        match parse_braces l (ptr g) with
        | inl m => inl (GenFatal m)
        | inr (offset, width, base, p) =>
          after_placeholder l (set_placeholder ps offset width base) p
        end
      else after_placeholder l ps (ptr g)
  else inr g.

Fixpoint parse_gen_loop (fuel : nat) (g : gen_state) : gen_result :=
  match fuel with
  | O => GenOk (gline g) (parts g)
  | S fuel' =>
    if (line_at (gline g) (ptr g) =? nul)%char then GenOk (gline g) (parts g)
    else match gen_step g with
         | inl r => r
         | inr g1 =>
           parse_gen_loop fuel' (mk_gen (gline g1) (parts g1) (S (ptr g1)) (gin_quote g1))
         end
  end.

(** [parse_gen_string] on a copy of the template token.  [ptr] moves
    forward in every pass, so the fuel is never used up. *)
Definition parse_gen_string (template : string) : gen_result :=
  let l := list_ascii_of_string template in
  parse_gen_loop (S (List.length l)) (mk_gen l [Literal 0] 0 false).

(** ** construct_gen_output *)

(** What [snprintf] formats for part [p] at iterator value [iter]: the
    literal text, or [iter + offsets[i]] under the format
    ["%0<width><base>"]. *)
Definition part_text (l : list ascii) (p : gen_part) (iter : Z) : string :=
  match p with
  | Literal start => c_str (skipn start l)
  | Placeholder offset width base =>
    let v := i32 (iter + offset) in
    if (base =? "o")%char then fmt_unsigned 8 false width v
    else if (base =? "x")%char then fmt_unsigned 16 false width v
    else if (base =? "X")%char then fmt_unsigned 16 true width v
    else fmt_d width v
  end.

(** The loop of lines 578 to 591.  [dest] is the text stored so far and
    [pos] is [ptr - dest]; [snprintf] stores at most [size - 1] characters
    and nothing when [size] is 0.  [None] when [fatal] is called. *)
Fixpoint construct_loop (l : list ascii) (ps : list gen_part) (iter : Z)
         (dest : string) (pos : Z) : option string :=
  match ps with
  | [] => Some dest
  | p :: ps' =>
    let s := part_text l p iter in
    let size := DOMAIN_STR_LEN - pos in
    let ret := strlen s in
    let dest1 := if size >? 0 then dest ++ substring 0 (Z.to_nat (size - 1)) s else dest in
    if (ret <? 0) || (pos + ret >? DOMAIN_STR_LEN) then None
    else construct_loop l ps' iter dest1 (pos + ret)
  end.

Definition m_gen_too_long := "$GENERATE directive constructed a token that was too long".

Definition construct_gen_output (l : list ascii) (ps : list gen_part) (iter : Z)
  : option string :=
  construct_loop l ps iter "" 0.

(** A template parsed and expanded at [iter]: [None] when either step
    calls [fatal]. *)
Definition expand_template (template : string) (iter : Z) : option string :=
  match parse_gen_string template with
  | GenOk l ps => construct_gen_output l ps iter
  | GenFatal _ => None
  end.

(** ** handle_entry *)

(** The state that outlives a call of [handle_entry]: [cur_origin] and
    [ttl] of [main], reached through pointers, and the static variables
    [owner] and [prev_owner]. *)
Record run_state : Type := mk_run {
  cur_origin : string_t;
  ttl : Z;
  owner : string_t;
  prev_owner : bool
}.

Definition with_cur_origin (st : run_state) (o : string_t) : run_state :=
  mk_run o (ttl st) (owner st) (prev_owner st).
Definition with_ttl (st : run_state) (t : Z) : run_state :=
  mk_run (cur_origin st) t (owner st) (prev_owner st).
Definition with_owner (st : run_state) (o : string_t) : run_state :=
  mk_run (cur_origin st) (ttl st) o (prev_owner st).
Definition with_prev_owner (st : run_state) (b : bool) : run_state :=
  mk_run (cur_origin st) (ttl st) (owner st) b.

(** A computation that writes to the temp file and to the diagnostic
    stream and may end the process. *)
Inductive run (A : Type) : Type :=
| Stop (d : list diag)                       (* [fatal] was called; [d] was printed *)
| Unspecified                                (* a token slot the entry did not fill was read *)
| Go (a : A) (out : string) (d : list diag). (* [out] was written, [d] printed *)
Arguments Stop {A} d.
Arguments Unspecified {A}.
Arguments Go {A} a out d.

Definition ret {A : Type} (a : A) : run A := Go a "" [].

Definition bind {A B : Type} (m : run A) (k : A -> run B) : run B :=
  match m with
  | Stop d => Stop d
  | Unspecified => Unspecified
  | Go a out d =>
    match k a with
    | Stop d' => Stop (d ++ d')%list
    | Unspecified => Unspecified
    | Go b out' d' => Go b (out ++ out') (d ++ d')%list
    end
  end.

Notation "x <- m ;; k" := (bind m (fun x => k))
  (at level 61, m at next level, right associativity).
Notation "m ;;; k" := (bind m (fun _ => k))
  (at level 61, right associativity).

Definition fatal {A : Type} (message : string) (line_number : Z) : run A :=
  Stop [FatalMsg message line_number].

Definition warning (message : string) (line_number : Z) : run unit :=
  Go tt "" [Warning message line_number].

Definition fprintf (s : string) : run unit := Go tt s [].

(** A helper whose failure the caller turns into [fatal]. *)
Definition or_fatal {A : Type} (r : res A) (message : string) (line_number : Z) : run A :=
  match r with
  | Ok a => ret a
  | Err w => Stop (w ++ [FatalMsg message line_number])%list
  end.

(** A helper whose failure the caller tests. *)
Definition probe {A : Type} (r : res A) : run (option A) :=
  match r with
  | Ok a => ret (Some a)
  | Err w => Go None "" w
  end.

Definition check (b : bool) (message : string) (line_number : Z) : run unit :=
  if b then fatal message line_number else ret tt.

(** [token[k]] for a [k] below [num_tokens]. *)
Definition tk (tokens : list string) (k : Z) : string := nth (Z.to_nat k) tokens "".

(** The text of [s] from offset [n]. *)
Definition text_from (s : string) (n : Z) : string :=
  substring (Z.to_nat n) (String.length s - Z.to_nat n) s.

(** The test of lines 719 to 725. *)
Definition out_of_zone (top_origin o : string_t) : bool :=
  (real_len top_origin >? real_len o)
  || negb (strcaseeq (text top_origin) (text_from (text o) (real_len o - real_len top_origin)))
  || ((real_len o >? real_len top_origin)
      && negb (char_at (text o) (real_len o - real_len top_origin - 1) =? ".")%char).

Definition m_out_of_zone := "ignoring out-of-zone data".
Definition m_no_prev_owner :=
  "RR tried to inherit owner from previous record, but there was no previous RR".

(** Lines 715 to 737, the owner of the record.  The value is [Some 1]
    when the function returns 1 there; the state is the one the lines
    leave, with what [qualify_domain] stored in the static [owner]. *)
Definition rr_owner (top_origin : string_t) (sln : Z) (tokens : list string)
           (st : run_state) : run (option Z * run_state) :=
  if negb (String.eqb (tk tokens 0) " ") then
    o <- or_fatal (qualify_domain (tk tokens 0) (Some (cur_origin st)))
                  "choked on owner name in RR" sln ;;
    let st1 := with_owner st o in
    if out_of_zone top_origin (owner st1) then
      warning m_out_of_zone sln ;;;
      ret (Some 1, st1)
    else ret (None, with_prev_owner st1 true)
  else
    check (negb (prev_owner st)) m_no_prev_owner sln ;;;
    ret (None, st).

(** Lines 739 to 766, the TTL and the class: [local_ttl] and [next]. *)
Definition rr_ttl_class (sln : Z) (tokens : list string) (st : run_state)
  : run (Z * Z) :=
  let local_ttl := u32 (ttl st) in
  r1 <- probe (str_to_uint (tk tokens 1) true) ;;
  match r1 with
  | Some temp_ttl =>
    check (local_ttl >? 2147483646) "invalid TTL in RR" sln ;;;
    ret (temp_ttl, if strcaseeq (tk tokens 2) "IN" then 3 else 2)
  | None =>
    if strcaseeq (tk tokens 1) "IN" then
      r2 <- probe (str_to_uint (tk tokens 2) true) ;;
      match r2 with
      | Some temp_ttl =>
        check (local_ttl >? 2147483646) "invalid TTL in RR" sln ;;;
        ret (temp_ttl, 3)
      | None => ret (local_ttl, 2)
      end
    else ret (local_ttl, 1)
  end.

(** [str_to_uint] on an RDATA field that must parse. *)
Definition field (s : string) (allow_time_fmt : bool) (message : string) (sln : Z)
  : run Z :=
  or_fatal (str_to_uint s allow_time_fmt) message sln.

(** [str_to_uint] on an RDATA field that must parse and fit 16 bits. *)
Definition field16 (s : string) (message : string) (sln : Z) : run Z :=
  r <- probe (str_to_uint s false) ;;
  match r with
  | Some v => check (v >? 65535) message sln ;;; ret v
  | None => fatal message sln
  end.

Definition octal_escape (v : Z) : string := String "\" (fmt_unsigned 8 false 3 v).

(** The loop of lines 873 to 879. *)
Fixpoint txt_rdata (sln : Z) (tokens : list string) : run unit :=
  match tokens with
  | [] => ret tt
  | t :: rest =>
    s <- or_fatal (sanitize_string t) "choked while sanitizing TXT RDATA" sln ;;
    fprintf (octal_escape (len s) ++ text s) ;;;
    txt_rdata sln rest
  end.

(** Lines 768 to 912, the type of the record and its RDATA; [next] is
    below [num_tokens].  The address of an A record is taken to fit the
    sixteen bytes of [ip]. *)
Definition rr_rdata (sln : Z) (tokens : list string) (st : run_state)
           (local_ttl next : Z) : run unit :=
  let n := Z.of_nat (List.length tokens) - next - 1 in
  let type := tk tokens next in
  let o := text (owner st) in
  let origin := Some (cur_origin st) in
  if strcaseeq type "SOA" then
    check (n =? 2) ("wrong number of tokens in SOA RDATA (perhaps an opening " ++
                    "parenthesis is on the next line instead of this one?)") sln ;;;
    check (negb (n =? 7)) "wrong number of tokens in SOA RDATA" sln ;;;
    rdomain <- or_fatal (qualify_domain (tk tokens (next + 1)) origin)
                        "choked on MNAME in SOA RDATA" sln ;;
    rname <- or_fatal (qualify_domain (tk tokens (next + 2)) origin)
                      "choked on RNAME in SOA RDATA" sln ;;
    serial <- field (tk tokens (next + 3)) false "invalid SERIAL in SOA RDATA" sln ;;
    refresh <- field (tk tokens (next + 4)) true "invalid REFRESH in SOA RDATA" sln ;;
    retry <- field (tk tokens (next + 5)) true "invalid RETRY in SOA RDATA" sln ;;
    expire <- field (tk tokens (next + 6)) true "invalid EXPIRE in SOA RDATA" sln ;;
    minimum <- field (tk tokens (next + 7)) true "invalid MINIMUM in SOA RDATA" sln ;;
    fprintf ("Z" ++ o ++ ":" ++ text rdomain ++ ":" ++ text rname ++ ":" ++
             fmt_unsigned 10 false 0 serial ++ ":" ++ fmt_unsigned 10 false 0 refresh ++ ":" ++
             fmt_unsigned 10 false 0 retry ++ ":" ++ fmt_unsigned 10 false 0 expire ++ ":" ++
             fmt_unsigned 10 false 0 minimum ++ String newline "")
  else if strcaseeq type "NS" then
    check (negb (n =? 1)) "wrong number of tokens in NS RDATA" sln ;;;
    rdomain <- or_fatal (qualify_domain (tk tokens (next + 1)) origin)
                        "choked on domain name in NS RDATA" sln ;;
    fprintf ("&" ++ o ++ "::" ++ text rdomain ++ ":" ++ fmt_d 0 local_ttl ++ String newline "")
  else if strcaseeq type "MX" then
    check (negb (n =? 2)) "wrong number of tokens in MX RDATA" sln ;;;
    priority <- field16 (tk tokens (next + 1)) "invalid priority in MX RDATA" sln ;;
    rdomain <- or_fatal (qualify_domain (tk tokens (next + 2)) origin)
                        "choked on domain name in MX RDATA" sln ;;
    fprintf ("@" ++ o ++ "::" ++ text rdomain ++ ":" ++ fmt_d 0 priority ++ ":" ++
             fmt_d 0 local_ttl ++ String newline "")
  else if strcaseeq type "A" then
    check (negb (n =? 1)) "wrong number of tokens in A RDATA" sln ;;;
    match sanitize_ip (tk tokens (next + 1)) with
    | None => fatal "invalid IP address in A RDATA" sln
    | Some ip =>
      fprintf ("+" ++ o ++ ":" ++ ip ++ ":" ++ fmt_d 0 local_ttl ++ String newline "")
    end
  else if strcaseeq type "CNAME" then
    check (negb (n =? 1)) "wrong number of tokens in CNAME RDATA" sln ;;;
    rdomain <- or_fatal (qualify_domain (tk tokens (next + 1)) origin)
                        "choked on domain name in CNAME RDATA" sln ;;
    fprintf ("C" ++ o ++ ":" ++ text rdomain ++ ":" ++ fmt_d 0 local_ttl ++ String newline "")
  else if strcaseeq type "PTR" then
    check (negb (n =? 1)) "wrong number of tokens in PTR RDATA" sln ;;;
    rdomain <- or_fatal (qualify_domain (tk tokens (next + 1)) origin)
                        "choked on domain name in PTR RDATA" sln ;;
    fprintf ("^" ++ o ++ ":" ++ text rdomain ++ ":" ++ fmt_d 0 local_ttl ++ String newline "")
  else if strcaseeq type "TXT" then
    check (n <? 1) "too few tokens in TXT RDATA" sln ;;;
    fprintf (":" ++ o ++ ":16:") ;;;
    txt_rdata sln (skipn (Z.to_nat (next + 1)) tokens) ;;;
    fprintf (":" ++ fmt_d 0 local_ttl ++ String newline "")
  else if strcaseeq type "SRV" then
    check (negb (n =? 4)) "wrong number of tokens in SRV RDATA" sln ;;;
    priority <- field16 (tk tokens (next + 1)) "invalid priority in SRV RDATA" sln ;;
    weight <- field16 (tk tokens (next + 2)) "invalid weight in SRV RDATA" sln ;;
    port <- field16 (tk tokens (next + 3)) "invalid port in SRV RDATA" sln ;;
    rdomain <- or_fatal (qualify_domain (tk tokens (next + 4)) origin)
                        "choked on domain name in SRV RDATA" sln ;;
    fprintf (":" ++ o ++ ":33:" ++
             octal_escape (priority / 256) ++ octal_escape (priority mod 256) ++
             octal_escape (weight / 256) ++ octal_escape (weight mod 256) ++
             octal_escape (port / 256) ++ octal_escape (port mod 256) ++
             octal_escape (len rdomain) ++ text rdomain ++ ":" ++
             fmt_d 0 local_ttl ++ String newline "")
  else fatal "unknown RR type" sln.

(** Lines 704 to 913, an entry that is a record. *)
Definition handle_rr (top_origin : string_t) (sln : Z) (tokens : list string)
           (st : run_state) : run (Z * run_state) :=
  check (Z.of_nat (List.length tokens) <? 3) "RR does not have enough tokens" sln ;;;
  r <- rr_owner top_origin sln tokens st ;;
  match r with
  | (Some v, st1) => ret (v, st1)
  | (None, st1) =>
    p <- rr_ttl_class sln tokens st1 ;;
    let '(local_ttl, next) := p in
    if next >=? Z.of_nat (List.length tokens) then Unspecified
    else rr_rdata sln tokens st1 local_ttl next ;;; ret (0, st1)
  end.

(** The digit loops of lines 642 to 666 on the range token: the number
    read, [found], and the text from [token[1][i]]. *)
Fixpoint int_prefix (s : string) (acc : Z) (found : bool) : Z * bool * string :=
  match s with
  | String c s' =>
    if (schar c >=? 48) && (schar c <=? 57)
    then int_prefix s' (i32 (i32 (acc * 10) + (schar c - 48))) true
    else (acc, found, s)
  | EmptyString => (acc, found, s)
  end.

(** Lines 641 to 673: [start], [stop] and [step], or the message of the
    [fatal] call. *)
Definition parse_range (s : string) : string + (Z * Z * Z) :=
  let '(start, found, r1) := int_prefix s 0 false in
  if negb found || negb (char_at r1 0 =? "-")%char
  then inl "$GENERATE directive has invalid range (unable to parse start)"
  else
    let '(stop, found, r2) := int_prefix (text_from r1 1) 0 false in
    if negb found || (negb (char_at r2 0 =? nul)%char && negb (char_at r2 0 =? "/")%char)
    then inl "$GENERATE directive has invalid range (unable to parse stop)"
    else if (char_at r2 0 =? "/")%char then
      let '(step, found, r3) := int_prefix (text_from r2 1) 0 false in
      if negb found || negb (char_at r3 0 =? nul)%char || (step =? 0)
      then inl "$GENERATE directive has invalid range (unable to parse step)"
      else inr (start, stop, step)
    else inr (start, stop, 1).

Definition gen_parse (template : string) (sln : Z) : run (list ascii * list gen_part) :=
  match parse_gen_string template with
  | GenOk l ps => ret (l, ps)
  | GenFatal m => fatal m sln
  end.

Definition gen_construct (lp : list ascii * list gen_part) (iter sln : Z) : run string :=
  match construct_gen_output (fst lp) (snd lp) iter with
  | Some s => ret s
  | None => fatal m_gen_too_long sln
  end.

Section HandleEntry.

(** The call of [handle_entry] inside the [$GENERATE] loop. *)
Variable self : Z -> list string -> run_state -> run (Z * run_state).

(** The loop of lines 684 to 696 with [count] passes to go.  A [step]
    that takes [i] past the largest [int] is left unspecified. *)
Fixpoint generate_loop (count : nat) (i step : Z) (sln : Z)
         (lhs rhs : list ascii * list gen_part) (type : string) (st : run_state)
  : run run_state :=
  match count with
  | O => ret st
  | S count' =>
    lhs_str <- gen_construct lhs i sln ;;
    rhs_str <- gen_construct rhs i sln ;;
    r <- self sln [lhs_str; type; rhs_str] st ;;
    if i + step >? 2147483647 then Unspecified
    else generate_loop count' (i + step) step sln lhs rhs type (snd r)
  end.

(** Lines 619 to 696. *)
Definition handle_generate (sln : Z) (tokens : list string) (st : run_state)
  : run (Z * run_state) :=
  check (negb (Z.of_nat (List.length tokens) =? 5))
        "$GENERATE directive has wrong number of arguments" sln ;;;
  check (negb (strcaseeq (tk tokens 3) "PTR") && negb (strcaseeq (tk tokens 3) "CNAME")
         && negb (strcaseeq (tk tokens 3) "A") && negb (strcaseeq (tk tokens 3) "NS"))
        "$GENERATE directive has unknown RR type" sln ;;;
  match parse_range (tk tokens 1) with
  | inl m => fatal m sln
  | inr (start, stop, step) =>
    lhs <- gen_parse (tk tokens 2) sln ;;
    rhs <- gen_parse (tk tokens 4) sln ;;
    if step <? 0 then Unspecified
    else
      let count := if start <=? stop then Z.to_nat ((stop - start) / step + 1) else O in
      st1 <- generate_loop count start step sln lhs rhs (tk tokens 3) st ;;
      ret (0, st1)
  end.

Definition handle_entry_with (top_origin : string_t) (sln : Z) (tokens : list string)
           (st : run_state) : run (Z * run_state) :=
  if Z.of_nat (List.length tokens) =? 0 then ret (0, st)
  else if strcaseeq (tk tokens 0) "$ORIGIN" then
    check (negb (Z.of_nat (List.length tokens) =? 2))
          "$ORIGIN directive has wrong number of arguments" sln ;;;
    o <- or_fatal (qualify_domain (tk tokens 1) (Some (cur_origin st)))
                  "choked on domain name in $ORIGIN statement" sln ;;
    ret (0, with_cur_origin st o)
  else if strcaseeq (tk tokens 0) "$TTL" then
    check (negb (Z.of_nat (List.length tokens) =? 2))
          "$TTL directive has wrong number of arguments" sln ;;;
    r <- probe (str_to_uint (tk tokens 1) true) ;;
    match r with
    | Some v =>
      check (i32 v >? 2147483646) "invalid $TTL value" sln ;;;
      ret (0, with_ttl st (i32 v))
    | None => fatal "invalid $TTL value" sln
    end
  else if strcaseeq (tk tokens 0) "$GENERATE" then handle_generate sln tokens st
  else if strcaseeq (tk tokens 0) "$INCLUDE" then
    fatal "sorry, $INCLUDE directive is not implemented" sln
  else if (char_at (tk tokens 0) 0 =? "$")%char then fatal "unknown $ directive" sln
  else handle_rr top_origin sln tokens st.

End HandleEntry.

(** [handle_entry (num_tokens, token, cur_origin, top_origin, ttl)] with the
    global [start_line_num] at [sln].  The call inside the [$GENERATE] loop
    passes three tokens, and an entry of three tokens never reaches that
    loop, so one level of calls is all there is. *)
Definition handle_entry (top_origin : string_t) (sln : Z) (tokens : list string)
           (st : run_state) : run (Z * run_state) :=
  handle_entry_with
    (fun sln' tokens' st' =>
       handle_entry_with (fun _ _ _ => Unspecified) top_origin sln' tokens' st')
    top_origin sln tokens st.

(** ** main *)

(** How a run of the program ends. *)
Inductive final : Type :=
| Exit (status : Z) (file : option string) (printed : list diag)
      (* [file]: what is at the output path after a rename, or nothing *)
| NoExit   (* [tokenize] does not return *)
| Unknown. (* [handle_entry] read a token slot the entry did not fill *)

Definition root_origin : string_t := mk_string "." 1 1.

Definition init_state (origin : string_t) : run_state :=
  mk_run origin DEFAULT_TTL empty_string_t false.

(** The loop of lines 954 to 956. *)
Fixpoint main_loop (fuel : nat) (top_origin : string_t) (input : list ascii) (ln : Z)
         (st : run_state) (file : string) (d : list diag) : final :=
  match fuel with
  | O => NoExit
  | S fuel' =>
    let t := tokenize input ln in
    match result t with
    | TokEOF => Exit 0 (Some file) (d ++ printed t)%list
    | TokFatal => Exit 1 None (d ++ printed t)%list
    | TokHang => NoExit
    | TokEntry tokens =>
      match handle_entry top_origin (start_line_num t) tokens st with
      | Stop d' => Exit 1 None (d ++ printed t ++ d')%list
      | Unspecified => Unknown
      | Go r out d' =>
        main_loop fuel' top_origin (stdin_left t) (line_num t) (snd r)
                  (file ++ out) (d ++ printed t ++ d')%list
      end
    end
  end.

(** [main] called with [origin_arg] as [argv[1]] and [input] on standard
    input, when the temp file can be created and renamed.  Every call of
    [tokenize] that returns an entry has read a byte, so the fuel is never
    used up. *)
Definition main (origin_arg : string) (input : list ascii) : final :=
  match qualify_domain origin_arg (Some root_origin) with
  | Err w => Exit 1 None (w ++ [FatalMsg "unable to qualify initial origin" (-1)])%list
  | Ok origin =>
    main_loop (S (List.length input)) origin input 1 (init_state origin) "" []
  end.

(** * Vocabulary of the statements

    Predicates and sample data the properties below are stated with.  They
    are not part of the program. *)

Module Duration.

(** The seconds a unit letter stands for, as the specification lists
    them. *)
Definition unit_seconds (c : ascii) : option Z :=
  if (c =? "w")%char || (c =? "W")%char then Some 604800
  else if (c =? "d")%char || (c =? "D")%char then Some 86400
  else if (c =? "h")%char || (c =? "H")%char then Some 3600
  else if (c =? "m")%char || (c =? "M")%char then Some 60
  else if (c =? "s")%char || (c =? "S")%char then Some 1
  else None.

Definition is_digit (c : ascii) : bool := (48 <=? code c) && (code c <=? 57).

Fixpoint all_digits (ds : string) : bool :=
  match ds with
  | EmptyString => true
  | String c ds' => is_digit c && all_digits ds'
  end.

(** The number a run of decimal digits writes, after [acc]. *)
Fixpoint decimal_value (ds : string) (acc : Z) : Z :=
  match ds with
  | EmptyString => acc
  | String c ds' => decimal_value ds' (acc * 10 + (code c - 48))
  end.

(** A run: its digits and its unit letter. *)
Definition well_formed (r : string * ascii) : bool :=
  negb (String.eqb (fst r) "") && all_digits (fst r)
  && match unit_seconds (snd r) with Some _ => true | None => false end.

Definition run_seconds (r : string * ascii) : Z :=
  decimal_value (fst r) 0 * match unit_seconds (snd r) with Some k => k | None => 0 end.

Fixpoint duration_text (runs : list (string * ascii)) : string :=
  match runs with
  | [] => ""
  | r :: runs' => fst r ++ String (snd r) (duration_text runs')
  end.

Fixpoint duration_seconds (runs : list (string * ascii)) : Z :=
  match runs with
  | [] => 0
  | r :: runs' => run_seconds r + duration_seconds runs'
  end.

End Duration.

Module Sanitize.

(** The test of line 86: a character that is copied as it is. *)
Definition plain (c : ascii) : bool :=
  isprint (schar c) && negb (ch_is c "\") && negb (ch_is c ":").

Fixpoint all_plain (s : string) : bool :=
  match s with
  | EmptyString => true
  | String c s' => plain c && all_plain s'
  end.

(** An octal digit below 8 written as a character. *)
Definition octal_low (c : ascii) : bool := (48 <=? code c) && (code c <=? 55).

(** A text that reads the same in the convention of the input and in the
    convention of the output: plain characters, and escapes of three
    digits whose decimal and octal values agree, that is \000 to \007. *)
Fixpoint same_in_both (s : string) : bool :=
  match s with
  | EmptyString => true
  | String c rest =>
    if plain c then same_in_both rest
    else if ch_is c "\" then
      match rest with
      | String c1 (String c2 (String c3 rest3)) =>
        (c1 =? "0")%char && (c2 =? "0")%char && octal_low c3 && same_in_both rest3
      | _ => false
      end
    else false
  end.

(** The characters such a text stands for. *)
Fixpoint units (s : string) : Z :=
  match s with
  | EmptyString => 0
  | String c rest =>
    if ch_is c "\" then
      match rest with
      | String _ (String _ (String _ rest3)) => 1 + units rest3
      | _ => 1
      end
    else 1 + units rest
  end.

(** The four bytes [put_octal] stores for [v]. *)
Definition escape4 (v : Z) : string := substring 0 4 (String "\" (fmt_unsigned 8 false 3 v)).

(** What the four bytes look like: for 0 to 7 they are \00 and the digit;
    for the other values of a [char] or of a decimal escape the first two
    digits are not both 0. *)
Definition escape4_shape (v : Z) : bool :=
  match escape4 v with
  | String b (String c1 (String c2 (String c3 EmptyString))) =>
    (b =? "\")%char
    && if (0 <=? v) && (v <=? 7)
       then (c1 =? "0")%char && (c2 =? "0")%char && (c3 =? chr (48 + v))%char
       else negb ((c1 =? "0")%char && (c2 =? "0")%char && octal_low c3)
  | _ => false
  end.

(** What the loop keeps true of [temp], with the bound on [len]: either
    the text reads the same in both conventions, and then [len] and
    [real_len] are its two lengths, or no text that starts with it does. *)
Definition kept (t : string_t) : Prop :=
  0 <= len t <= DOMAIN_LEN
  /\ ((same_in_both (text t) = true /\ len t = units (text t)
       /\ real_len t = strlen (text t))
      \/ forall suffix, same_in_both (text t ++ suffix) = false).

(** Case analysis on the test of the [if] at the head of a hypothesis. *)
Ltac split_if H E :=
  match type of H with
  | (if ?b then _ else _) = _ => destruct b eqn:E
  end.

End Sanitize.

Module Qualify.


(** [real_len] is the length of the text, and [len] grows with every
    character read. *)
Definition grows (nonempty : bool) (t r : string_t) : Prop :=
  real_len r = strlen (text r) /\ (if nonempty then len t < len r else len t <= len r).

(** The last character of a text is a dot. *)
Fixpoint ends_with_dot (s : string) : bool :=
  match s with
  | EmptyString => false
  | String c EmptyString => (c =? ".")%char
  | String _ s' => ends_with_dot s'
  end.

(** A sanitized name that is relative and has no empty label: it is not
    the at sign, does not start with a dot, has no two dots in a row and
    does not end with a dot. *)
Definition relative (s : string) : bool :=
  negb (String.eqb s "@") && negb (leading_dot s)
  && negb (has_dotdot s) && negb (ends_with_dot s).

End Qualify.

Module Generate.

(** A template line in which every dollar sign belongs to a pair of
    dollar signs, and which holds no backslash. *)
Fixpoint pairs_only (l : list ascii) : bool :=
  match l with
  | [] => true
  | c :: l' =>
    if (c =? "$")%char then
      match l' with
      | d :: l'' => (d =? "$")%char && pairs_only l''
      | [] => false
      end
    else negb (c =? "\")%char && negb (c =? nul)%char && pairs_only l'
  end.

End Generate.

Module Words.

(** A character with no meaning of its own for the tokenizer. *)
Definition ordinary (c : ascii) : bool :=
  negb (c =? nul)%char && negb (c =? "\")%char && negb (c =? ";")%char
  && negb (c =? "(")%char && negb (c =? ")")%char && negb (c =? dquote)%char
  && negb (c =? " ")%char && negb (c =? tab)%char && negb (c =? newline)%char
  && negb (c =? cr)%char.

(** A word: one or more ordinary characters. *)
Definition word (w : list ascii) : bool :=
  negb (Nat.eqb (List.length w) 0) && forallb ordinary w.

(** A character that may stand between double quotes on one line. *)
Definition quotable (c : ascii) : bool :=
  negb (c =? nul)%char && negb (c =? "\")%char && negb (c =? dquote)%char
  && negb (c =? newline)%char.

(** The words, each followed by a blank. *)
Definition spaced (words : list (list ascii)) : list ascii :=
  flat_map (fun w => w ++ [" "%char])%list words.

(** The line: the words, a quoted text, the end of the line. *)
Definition quoted_line (words : list (list ascii)) (body : list ascii) : list ascii :=
  (spaced words ++ dquote :: body ++ [dquote; newline])%list.

Definition last_word_is_txt (words : list (list ascii)) : bool :=
  match rev words with
  | w :: _ => strcaseeq (string_of_list_ascii w) "txt"
  | [] => false
  end.

(** What the tokens stored so far read, whatever comes after the part of
    the line already scanned. *)
Definition tokens_read (done : list ascii) (toks : list token_ptr) (strs : list string)
  : Prop :=
  forall tail, map (token_str (done ++ tail)) toks = strs.

End Words.

Module Bounds.

(** The calls of [sprintf] at lines 110 and 155 pass a [char].  For a byte
    above 127 it is negative, and a backslash, eleven octal digits and the
    terminator are written at [temp.text + temp.real_len]: thirteen bytes,
    which end inside [temp.text] when they start at most at 1008.  An
    escape of a value that is not negative is four characters and the
    terminator, and always ends inside. *)
Definition escape_fits (temp : string_t) (v : Z) : bool :=
  (0 <=? v) || (real_len temp + 13 <=? DOMAIN_STR_LEN).

(** Every [sprintf] of the loop of [sanitize_string] on [src], from
    [temp], ends inside [temp.text]. *)
Fixpoint loop_inside (src : string) (temp : string_t) {struct src} : bool :=
  match src with
  | EmptyString => true
  | String c rest =>
    if len temp =? DOMAIN_LEN then true
    else if isprint (schar c) && negb (ch_is c "\") && negb (ch_is c ":") then
      loop_inside rest (put_char temp c)
    else if ch_is c "\" then
      match rest with
      | EmptyString => true
      | String c1 rest1 =>
        if negb (isdigit (schar c1)) then
          if ch_is c1 ":" || ch_is c1 "\" || ch_is c1 "." || negb (isprint (schar c1))
          then escape_fits temp (schar c1) && loop_inside rest1 (put_octal temp (schar c1))
          else loop_inside rest1 (put_char temp c1)
        else
          match rest1 with
          | String c2 (String c3 rest3) =>
            if isdigit (schar c2) && isdigit (schar c3) then
              let num := (schar c1 - 48) * 100 + (schar c2 - 48) * 10 + (schar c3 - 48) in
              if num >? 255 then true
              else if isprint num && negb (num =? 58) && negb (num =? 46)
                      && negb (num =? 92)
              then loop_inside rest3 (put_char temp (chr num))
              else loop_inside rest3 (put_octal temp num)
            else true
          | _ => true
          end
      end
    else escape_fits temp (schar c) && loop_inside rest (put_octal temp (schar c))
  end.

(** The call [sanitize_string (dest, src)] writes inside [temp.text]. *)
Definition inside (src : string) : bool := loop_inside src empty_string_t.

Fixpoint all_inside (srcs : list string) : bool :=
  match srcs with
  | [] => true
  | s :: srcs' => inside s && all_inside srcs'
  end.

(** The address [sanitize_ip] wrote fits the sixteen bytes of [ip] at
    line 835. *)
Definition ip_fits (ip : string) : bool := strlen ip <? 16.

End Bounds.

Module Records.

(** The tokens between the owner and the type of a record, and the TTL
    the record is written with: no TTL and no class, the class alone, the
    TTL alone, or the two in either order.  With no TTL token the record
    takes the default TTL; a TTL token is taken when the default TTL
    passes the test of lines 747 and 758. *)
Inductive heading (st : run_state) : list string -> Z -> Prop :=
| no_ttl : heading st [] (u32 (ttl st))
| class_only (cls : string) :
    strcaseeq cls "IN" = true -> heading st [cls] (u32 (ttl st))
| ttl_only (t : string) (v : Z) :
    str_to_uint t true = Ok v -> u32 (ttl st) <= 2147483646 -> heading st [t] v
| ttl_class (t cls : string) (v : Z) :
    str_to_uint t true = Ok v -> u32 (ttl st) <= 2147483646 ->
    strcaseeq cls "IN" = true -> heading st [t; cls] v
| class_ttl (cls t : string) (v : Z) :
    str_to_uint t true = Ok v -> u32 (ttl st) <= 2147483646 ->
    strcaseeq cls "IN" = true -> heading st [cls; t] v.

(** The domain name [d] that the token [n] of the RDATA stands for under
    the current origin. *)
Definition named (st : run_state) (n : string) (d : string_t) : Prop :=
  Bounds.inside n = true /\ qualify_domain n (Some (cur_origin st)) = Ok d.

(** A number of sixteen bits written in decimal digits. *)
Definition short (s : string) (v : Z) : Prop :=
  str_to_uint s false = Ok v /\ v <= 65535.

(** ["\\%03o"] *)
Definition octal (v : Z) : string := String "\" (fmt_unsigned 8 false 3 v).

(** The character strings of TXT RDATA: each text after the octal escape
    of the number of characters it stands for. *)
Fixpoint strings (rs : list string_t) : string :=
  match rs with
  | [] => ""
  | r :: rs' => octal (len r) ++ text r ++ strings rs'
  end.

(** Each text sanitizes to the one beside it. *)
Fixpoint texts (strs : list string) (rs : list string_t) : Prop :=
  match strs, rs with
  | [], [] => True
  | s :: strs', r :: rs' => sanitize_string s = Ok r /\ texts strs' rs'
  | _, _ => False
  end.

End Records.

(** Zone text used in the statements below. *)
Definition quo : string := String dquote "".
Definition eol : string := String newline "".
Definition zone (s : string) : list ascii := list_ascii_of_string s.

(** The state of the loop after [n] characters of a first line. *)
Definition scanned (n : nat) (first_line : list ascii) : tok_state :=
  match scan n (with_line tok_init first_line) with
  | ScanEnd s => s
  | ScanFatal _ => tok_init
  end.

Definition example_origin : string_t := mk_string "example.com." 12 12.

Module Keywords.

(** Settle the comparisons of two words that are both known. *)
Ltac settle :=
  repeat match goal with
         | |- context [strcaseeq ?p ?q] =>
           let b := eval vm_compute in (strcaseeq p q) in
           match b with
           | true => change (strcaseeq p q) with true
           | false => change (strcaseeq p q) with false
           end
         end.

(** The branch of [rr_rdata] that a type word selects: [same] tells that
    the word compares as the keyword does, [H] that it reads as the
    keyword. *)
Ltac branch same H :=
  unfold rr_rdata;
  match goal with
  | |- context [tk (?x :: ?ty :: ?r) 1] => change (tk (x :: ty :: r) 1) with ty
  end;
  rewrite !(same _ _ _ H); settle; cbv iota.

(** Run the steps of the branch, up to the calls of the helpers. *)
Ltac run_on :=
  cbv -[fmt_d fmt_unsigned u32 sanitize_ip qualify_domain str_to_uint sanitize_string
        append ttl owner text len cur_origin Z.gtb Z.div Z.modulo txt_rdata].

End Keywords.

(** A state whose stored owner lies outside the zone example.com. *)
Definition outsider : run_state :=
  mk_run example_origin DEFAULT_TTL (mk_string "b.other.org." 12 12) true.

(** ** Vocabulary of the further properties *)

Module Encoded.

(** A text in the convention of the output: plain characters, and escapes
    of a backslash and three octal digits. *)
Fixpoint well_encoded (s : string) : bool :=
  match s with
  | EmptyString => true
  | String c rest =>
    if Sanitize.plain c then well_encoded rest
    else if ch_is c "\" then
      match rest with
      | String c1 (String c2 (String c3 rest3)) =>
        Sanitize.octal_low c1 && Sanitize.octal_low c2 && Sanitize.octal_low c3
        && well_encoded rest3
      | _ => false
      end
    else false
  end.

(** The three decimal digits and the three octal digits of a byte. *)
Definition decimal3 (n : Z) : string :=
  String (chr (48 + n / 100))
         (String (chr (48 + (n / 10) mod 10)) (String (chr (48 + n mod 10)) "")).

Definition octal3 (n : Z) : string :=
  String (chr (48 + n / 64))
         (String (chr (48 + (n / 8) mod 8)) (String (chr (48 + n mod 8)) "")).

(** A byte value that is written as the character itself: printable, and
    not the colon, the dot or the backslash. *)
Definition literal (n : Z) : bool :=
  isprint n && negb (n =? 58) && negb (n =? 46) && negb (n =? 92).

(** The text that stands for the byte [n] in the output. *)
Definition encoding (n : Z) : string :=
  if literal n then String (chr n) "" else String "\" (octal3 n).

(** The text starts with two decimal digits. *)
Definition two_digits (s : string) : bool :=
  match s with
  | String c2 (String c3 _) => isdigit (schar c2) && isdigit (schar c3)
  | _ => false
  end.

(** What the loop keeps true of [temp]. *)
Definition shaped (t : string_t) : Prop :=
  well_encoded (text t) = true
  /\ len t = Sanitize.units (text t)
  /\ real_len t = strlen (text t)
  /\ 0 <= len t <= DOMAIN_LEN.

End Encoded.

Module Names.

(** The first character of a text is a dot. *)
Definition first_is_dot (s : string) : bool :=
  match s with
  | String c _ => (c =? ".")%char
  | EmptyString => false
  end.

(** A fully qualified name with its lengths: the text ends with a dot and
    has no empty label, [real_len] is the length of the text, [len] is
    positive and at most 255, and the text is at most four bytes for each
    character counted, so that it fits the 1021 bytes of [text]. *)
Definition qualified (o : string_t) : Prop :=
  Qualify.ends_with_dot (text o) = true
  /\ leading_dot (text o) = false
  /\ has_dotdot (text o) = false
  /\ real_len o = strlen (text o)
  /\ 0 < len o <= DOMAIN_LEN
  /\ real_len o <= 4 * len o.

(** A relative name written with plain characters only. *)
Definition plain_relative (s : string) : bool :=
  negb (String.eqb s "") && Sanitize.all_plain s && Qualify.relative s.

End Names.

Module Address.

(** Four texts joined by dots. *)
Definition dotted (a b c d : string) : string :=
  a ++ String "." (b ++ String "." (c ++ String "." d)).

(** A run of one or more decimal digits. *)
Definition digit_run_text (s : string) : bool :=
  negb (String.eqb s "") && Duration.all_digits s.

(** An octet written with [k] zeros before its decimal digits. *)
Definition octet (k : nat) (n : Z) : string := repeat_char "0" k ++ digits 10 false n.

End Address.

Module Lines.

(** Blanks at the start of a line. *)
Definition margin (k : nat) : list ascii := repeat " "%char k.

(** The words, with one blank between a word and the next. *)
Fixpoint joined (words : list (list ascii)) : list ascii :=
  match words with
  | [] => []
  | w :: ws =>
    match ws with
    | [] => w
    | _ :: _ => w ++ " "%char :: joined ws
    end
  end.

(** What may stand between the last word and the end of the line:
    nothing, or a comment. *)
Definition trailing (t : list ascii) : bool :=
  match t with
  | [] => true
  | c :: t' => (c =? ";")%char && forallb (fun c => negb (c =? newline)%char) t'
  end.

(** The tokens of a line of [words] after [k] blanks: the blank token
    comes first when the line has words and starts with a blank. *)
Definition entry_tokens (k : nat) (words : list (list ascii)) : list string :=
  match words with
  | [] => []
  | _ :: _ => ((if Nat.eqb k 0 then [] else [" "]) ++ map string_of_list_ascii words)%list
  end.

(** The number of slots of the token array such a line fills. *)
Definition slots (k : nat) (words : list (list ascii)) : nat :=
  ((if Nat.eqb k 0 then 0 else 1) + List.length words)%nat.

(** A line with no entry: blanks, and then the end of the line or a
    comment, within the line buffer. *)
Definition quiet (l : nat * list ascii) : bool :=
  trailing (snd l) && (Z.of_nat (fst l + List.length (snd l)) <? LINE_LEN).

Fixpoint quiet_lines (ls : list (nat * list ascii)) : list ascii :=
  match ls with
  | [] => []
  | l :: ls' => margin (fst l) ++ snd l ++ newline :: quiet_lines ls'
  end.

End Lines.

Module Template.

(** The texts of the parts at [iter], one after the other. *)
Fixpoint whole (l : list ascii) (ps : list gen_part) (iter : Z) : string :=
  match ps with
  | [] => ""
  | p :: ps' => part_text l p iter ++ whole l ps' iter
  end.

(** A text with no dollar sign, no backslash and no NUL. *)
Fixpoint literal (s : string) : bool :=
  match s with
  | EmptyString => true
  | String c s' =>
    negb (c =? "$")%char && negb (c =? "\")%char && negb (c =? nul)%char && literal s'
  end.

(** The text does not start with an opening brace. *)
Definition no_brace (s : string) : bool :=
  match s with
  | String c _ => negb (c =? "{")%char
  | EmptyString => true
  end.

(** A number as it is written in a template: a minus sign for a
    negative number, and decimal digits. *)
Definition number_text (n : Z) : string :=
  if n <? 0 then String "-" (digits 10 false (- n)) else digits 10 false n.

(** A placeholder written with its offset, its width and its base. *)
Definition braces (offset width : Z) (base : ascii) : string :=
  "${" ++ number_text offset ++ "," ++ digits 10 false width ++ "," ++ String base "}".

(** The letters [parse_gen_string] takes as the base. *)
Definition base_letter (b : ascii) : bool :=
  (b =? "d")%char || (b =? "o")%char || (b =? "x")%char || (b =? "X")%char.

(** The base a letter names, and whether its digits above 9 are capital
    letters. *)
Definition radix (b : ascii) : Z :=
  if (b =? "d")%char then 10 else if (b =? "o")%char then 8 else 16.

Definition capitals (b : ascii) : bool := (b =? "X")%char.

(** What [printf] writes for [v] under the zero flag, a width and the
    conversion [b]: [d] reads [v] as an [int], the others as an
    [unsigned int]. *)
Definition printed (b : ascii) (width v : Z) : string :=
  if (b =? "d")%char then fmt_d width v
  else fmt_unsigned (radix b) (capitals b) width v.

(** Digits with zeros on the left up to a width. *)
Definition zero_padded (width : Z) (ds : string) : string :=
  repeat_char "0" (Z.to_nat (width - strlen ds)) ++ ds.

End Template.

Module Zone.

(** The name is the origin of the zone or lies below it: its text is the
    text of the origin, compared without regard to case, or ends with a
    dot followed by that text. *)
Definition below (top_text name_text : string) : Prop :=
  exists pre suffix,
    name_text = pre ++ suffix
    /\ strcaseeq top_text suffix = true
    /\ (pre = "" \/ Qualify.ends_with_dot pre = true).

(** The character strings of TXT RDATA: each text after the octal escape
    of the number of characters it stands for. *)
Fixpoint txt_text (rs : list string_t) : string :=
  match rs with
  | [] => ""
  | r :: rs' => octal_escape (len r) ++ text r ++ txt_text rs'
  end.

(** Each text sanitizes to the one beside it. *)
Fixpoint sanitized (strs : list string) (rs : list string_t) : Prop :=
  match strs, rs with
  | [], [] => True
  | s :: strs', r :: rs' => sanitize_string s = Ok r /\ sanitized strs' rs'
  | _, _ => False
  end.

End Zone.

Module Entries.

(** What an entry is made of, outside quotes and escapes: blanks, words
    and parentheses. *)
Inductive item : Type :=
| Gap (k : nat)
| Word (w : list ascii)
| Open
| Close.

Definition item_text (it : item) : list ascii :=
  match it with
  | Gap k => repeat " "%char k
  | Word w => w
  | Open => ["("%char]
  | Close => [")"%char]
  end.

Definition items_text (its : list item) : list ascii := flat_map item_text its.

(** A line of an entry: its items, and a comment or nothing before the
    end of the line. *)
Definition line_text (l : list item * list ascii) : list ascii :=
  (items_text (fst l) ++ snd l ++ [newline])%list.

Definition entry_text (ls : list (list item * list ascii)) : list ascii :=
  flat_map line_text ls.

(** The tokens the items stand for; [col0] tells that the first item
    starts in the first column, where blanks stand for the blank token. *)
Definition item_strs (col0 : bool) (it : item) : list string :=
  match it with
  | Gap _ => if col0 then [" "] else []
  | Word w => [string_of_list_ascii w]
  | Open | Close => []
  end.

Fixpoint items_strs (col0 : bool) (its : list item) : list string :=
  match its with
  | [] => []
  | it :: r => (item_strs col0 it ++ items_strs false r)%list
  end.

Fixpoint lines_strs (col0 : bool) (ls : list (list item * list ascii)) : list string :=
  match ls with
  | [] => []
  | l :: ls' => (items_strs col0 (fst l) ++ lines_strs false ls')%list
  end.

Definition is_word (it : item) : bool :=
  match it with Word _ => true | _ => false end.

Definition has_word (ls : list (list item * list ascii)) : bool :=
  existsb (fun l => existsb is_word (fst l)) ls.

(** The tokens of the entry: none when it has no word. *)
Definition tokens_of (ls : list (list item * list ascii)) : list string :=
  if has_word ls then lines_strs true ls else [].

(** The walk over the items of a line from nesting level [p]: blanks are
    not empty, a word does not follow a word, and the level stays between
    0 and 3.  The result is the level at the end and whether the last item
    is a word. *)
Fixpoint walk (its : list item) (p : Z) (after_word : bool) : option (Z * bool) :=
  match its with
  | [] => Some (p, after_word)
  | Gap k :: r => if Nat.eqb k 0 then None else walk r p false
  | Word w :: r => if after_word || negb (Words.word w) then None else walk r p true
  | Open :: r => if p + 1 >? MAX_PAREN then None else walk r (p + 1) false
  | Close :: r => if p - 1 <? 0 then None else walk r (p - 1) false
  end.

Definition is_nil {A : Type} (l : list A) : bool :=
  match l with [] => true | _ => false end.

(** The lines of an entry from level [p]: every line but the last ends
    inside parentheses, and not with a comment right after a word; the last
    line ends at level 0. *)
Fixpoint balanced (ls : list (list item * list ascii)) (p : Z) : bool :=
  match ls with
  | [] => false
  | l :: ls' =>
    Lines.trailing (snd l)
    && match walk (fst l) p false with
       | None => false
       | Some (q, aw) =>
         match ls' with
         | [] => q =? 0
         | _ :: _ => negb (q =? 0) && (negb aw || is_nil (snd l)) && balanced ls' q
         end
       end
  end.

(** The entry fits the token array and the line buffer. *)
Definition fits (ls : list (list item * list ascii)) : bool :=
  (Z.of_nat (List.length (lines_strs true ls)) <=? MAX_TOKENS)
  && (Z.of_nat (List.length (entry_text ls)) <=? LINE_LEN).

(** What the tokens stored so far read: with a token under way the
    terminator is still to be written. *)
Definition read (tok : bool) (done : list ascii) (toks : list token_ptr)
           (strs : list string) : Prop :=
  if tok then forall tail, map (token_str (done ++ nul :: tail)) toks = strs
  else Words.tokens_read done toks strs.

End Entries.

(** * Properties *)

(** ** Strings and machine arithmetic *)

Lemma length_append (a b : string) :
  String.length (a ++ b) = (String.length a + String.length b)%nat.
Proof. induction a as [|c a IH]; simpl; [reflexivity | now rewrite IH]. Qed.

Lemma append_nil_r (a : string) : a ++ "" = a.
Proof. induction a as [|c a IH]; simpl; [reflexivity | now rewrite IH]. Qed.

Lemma append_assoc (a b c : string) : (a ++ b) ++ c = a ++ (b ++ c).
Proof. induction a as [|x a IH]; simpl; [reflexivity | now rewrite IH]. Qed.

Lemma length_repeat_char (c : ascii) (n : nat) : String.length (repeat_char c n) = n.
Proof. induction n as [|n IH]; simpl; [reflexivity | now rewrite IH]. Qed.

Lemma u32_range (z : Z) : 0 <= u32 z < 2 ^ 32.
Proof. unfold u32. apply Z.mod_pos_bound. reflexivity. Qed.

Lemma u32_idem (z : Z) : u32 (u32 z) = u32 z.
Proof. unfold u32. apply Z.mod_mod. discriminate. Qed.

Lemma u32_small (z : Z) : 0 <= z < 2 ^ 32 -> u32 z = z.
Proof. intros H. unfold u32. now apply Z.mod_small. Qed.

Lemma u32_add_l (a b : Z) : u32 (u32 a + b) = u32 (a + b).
Proof. unfold u32. now rewrite Zplus_mod_idemp_l. Qed.

Lemma u32_add_r (a b : Z) : u32 (a + u32 b) = u32 (a + b).
Proof. unfold u32. now rewrite Zplus_mod_idemp_r. Qed.

Lemma u32_mul_l (a b : Z) : u32 (u32 a * b) = u32 (a * b).
Proof. unfold u32. now rewrite Zmult_mod_idemp_l. Qed.

Lemma u32_mul_add (p k d : Z) : u32 (u32 p * k + d) = u32 (p * k + d).
Proof. now rewrite <- (u32_add_l (u32 p * k)), u32_mul_l, u32_add_l. Qed.

(** ** str_to_uint in duration mode *)

Module DurationFacts.

Import Duration.

Lemma is_digit_schar (c : ascii) :
  is_digit c = true -> schar c = code c /\ 48 <= code c <= 57.
Proof.
  unfold is_digit, schar. intros H.
  apply andb_true_iff in H as [H1 H2].
  apply Z.leb_le in H1. apply Z.leb_le in H2.
  destruct (Z.ltb_spec (code c) 128); lia.
Qed.

Lemma decimal_value_wrap (ds : string) (p : Z) :
  u32 (decimal_value ds (u32 p)) = u32 (decimal_value ds p).
Proof.
  revert p. induction ds as [|c ds IH]; intros p; simpl.
  - apply u32_idem.
  - rewrite <- IH. rewrite <- (IH (p * 10 + _)).
    f_equal. f_equal. apply u32_mul_add.
Qed.

(** The loop reads a run of digits into [part]. *)
Lemma loop_digits (ds rest : string) (atf itf ip : bool) (total part : Z) :
  all_digits ds = true ->
  str_to_uint_loop (ds ++ rest) atf itf ip total (u32 part)
  = str_to_uint_loop rest atf itf (ip || negb (String.eqb ds "")) total
                     (u32 (decimal_value ds part)).
Proof.
  revert ip part. induction ds as [|c ds IH]; intros ip part Hd; simpl.
  - now rewrite orb_false_r.
  - simpl in Hd. apply andb_true_iff in Hd as [Hc Hd].
    destruct (is_digit_schar c Hc) as [Hs Hr]. rewrite Hs.
    replace ((code c >=? 48) && (code c <=? 57)) with true
      by (symmetry; apply andb_true_iff; split;
          [apply Z.geb_le | apply Z.leb_le]; lia).
    replace (u32 (u32 (u32 part * 10) + (code c - 48)))
      with (u32 (part * 10 + (code c - 48)))
      by (now rewrite u32_add_l, u32_mul_add).
    rewrite (IH true _ Hd). now rewrite orb_true_r.
Qed.

Lemma unit_total_seconds (u : ascii) (k part : Z) :
  unit_seconds u = Some k -> unit_total u (u32 part) = Some (u32 (part * k)).
Proof.
  unfold unit_seconds, unit_total. intros H.
  repeat match type of H with
         | (if ?b then _ else _) = _ => destruct b
         end;
    inversion H; subst k; f_equal;
    rewrite ?u32_mul_l, ?u32_idem; try reflexivity.
  - rewrite <- Z.mul_assoc, u32_mul_l. f_equal.
  - rewrite <- Z.mul_assoc, u32_mul_l. f_equal.
  - f_equal. lia.
Qed.

(** One run, read from a state in which no digits are pending. *)
Lemma loop_run (r : string * ascii) (rest : string) (itf : bool) (total : Z) :
  well_formed r = true ->
  str_to_uint_loop (fst r ++ String (snd r) rest) true itf false total 0
  = str_to_uint_loop rest true true false (u32 (total + run_seconds r)) 0.
Proof.
  unfold well_formed, run_seconds. destruct r as [ds u]; simpl. intros H.
  apply andb_true_iff in H as [H Hu]. apply andb_true_iff in H as [Hne Hd].
  change 0 with (u32 0) at 1. rewrite (loop_digits ds _ true itf false total 0 Hd).
  rewrite Hne. simpl.
  destruct (unit_seconds u) as [k|] eqn:Ek; [|discriminate].
  destruct (is_digit u) eqn:Edu.
  { exfalso. destruct (is_digit_schar u Edu) as [_ Hr].
    unfold unit_seconds in Ek.
    repeat match type of Ek with
           | (if ?a || ?b then _ else _) = _ =>
             let Ea := fresh in let Eb := fresh in
             destruct a eqn:Ea;
               [apply Ascii.eqb_eq in Ea; subst u; vm_compute in Edu; discriminate|];
             destruct b eqn:Eb;
               [apply Ascii.eqb_eq in Eb; subst u; vm_compute in Edu; discriminate|];
             simpl in Ek
           end.
    discriminate. }
  replace ((schar u >=? 48) && (schar u <=? 57)) with false.
  2:{ symmetry. unfold is_digit in Edu. unfold schar. rewrite Z.geb_leb.
      destruct (Z.ltb_spec (code u) 128); [exact Edu|].
      apply andb_false_iff; left. apply Z.leb_gt.
      unfold code in *. pose proof (N_ascii_bounded u). lia. }
  rewrite (unit_total_seconds u k _ Ek).
  f_equal. rewrite u32_add_r. reflexivity.
Qed.

Lemma loop_runs (runs : list (string * ascii)) (total : Z) :
  forallb well_formed runs = true ->
  str_to_uint_loop (duration_text runs) true true false (u32 total) 0
  = Ok (u32 (total + duration_seconds runs)).
Proof.
  revert total. induction runs as [|r runs IH]; intros total H; simpl.
  - now rewrite Z.add_0_r.
  - simpl in H. apply andb_true_iff in H as [Hr H].
    rewrite (loop_run r _ true _ Hr). rewrite u32_add_l.
    rewrite (IH _ H). f_equal. f_equal. lia.
Qed.

End DurationFacts.

(** C7: in duration mode [str_to_uint] reads a sequence of digit runs
    each followed by a unit letter (w = 604800, d = 86400, h = 3600,
    m = 60, s = 1, in either case) and returns, with success, the sum of
    the runs' seconds reduced modulo 2^32; on the text 2w1d2h5m6s it
    returns 2*604800 + 86400 + 2*3600 + 5*60 + 6 = 1303506. *)
Theorem str_to_uint_duration (runs : list (string * ascii)) :
  runs <> [] ->
  forallb Duration.well_formed runs = true ->
  str_to_uint (Duration.duration_text runs) true
  = Ok (Duration.duration_seconds runs mod 2 ^ 32)
  /\ str_to_uint "2w1d2h5m6s" true = Ok (2 * 604800 + 86400 + 2 * 3600 + 5 * 60 + 6)
  /\ map Duration.unit_seconds (zone "wdhmsWDHMS")
     = map Some [604800; 86400; 3600; 60; 1; 604800; 86400; 3600; 60; 1].
Proof.
  intros Hne Hwf. split; [|split; reflexivity].
  destruct runs as [|r runs]; [congruence|]. simpl in Hwf |- *.
  apply andb_true_iff in Hwf as [Hr Hwf].
  assert (Hs : exists c t, fst r ++ String (snd r) (Duration.duration_text runs) = String c t).
  { destruct (fst r); simpl; eauto. }
  destruct Hs as (c & t & Hs). unfold str_to_uint. rewrite Hs, <- Hs.
  rewrite (DurationFacts.loop_run r _ false 0 Hr).
  rewrite (DurationFacts.loop_runs runs _ Hwf). reflexivity.
Qed.

Lemma str_to_uint_duration_witness :
  str_to_uint "1H30m" true = Ok (5400 mod 2 ^ 32)
  /\ str_to_uint "9999w1S" true = Ok ((9999 * 604800 + 1) mod 2 ^ 32).
Proof.
  split.
  - exact (proj1 (str_to_uint_duration [("1", "H"%char); ("30", "m"%char)]
                    ltac:(discriminate) eq_refl)).
  - exact (proj1 (str_to_uint_duration [("9999", "w"%char); ("1", "S"%char)]
                    ltac:(discriminate) eq_refl)).
Defined.

(** ** sanitize_string *)

Module SanitizeFacts.

Import Sanitize.

Lemma all_plain_app (a b : string) :
  all_plain (a ++ b) = all_plain a && all_plain b.
Proof.
  induction a as [|c a IH]; simpl; [reflexivity|].
  now rewrite IH, andb_assoc.
Qed.

Lemma code_chr (n : Z) : 0 <= n < 256 -> code (chr n) = n.
Proof.
  intros H. unfold code, chr. rewrite Z.mod_small by exact H.
  rewrite N_ascii_embedding by lia. lia.
Qed.

Lemma schar_chr (n : Z) : 0 <= n < 128 -> schar (chr n) = n.
Proof.
  intros H. unfold schar. rewrite code_chr by lia.
  destruct (Z.ltb_spec n 128); lia.
Qed.

Lemma chr_neq (n : Z) (c : ascii) :
  0 <= n < 256 -> n <> code c -> Ascii.eqb (chr n) c = false.
Proof.
  intros Hn Hc. apply Ascii.eqb_neq. intros E. apply Hc.
  rewrite <- E. symmetry. now apply code_chr.
Qed.

(** A decimal escape that is copied as it is (line 132) is plain. *)
Lemma plain_chr (num : Z) :
  isprint num && negb (num =? 58) && negb (num =? 46) && negb (num =? 92) = true ->
  plain (chr num) = true.
Proof.
  intros H. unfold isprint in H. repeat (apply andb_true_iff in H as [H ?]).
  repeat match goal with
         | E : negb (_ =? _) = true |- _ =>
           apply negb_true_iff in E; apply Z.eqb_neq in E
         | E : (_ <=? _) = true |- _ => apply Z.leb_le in E
         end.
  unfold plain, ch_is. rewrite schar_chr by lia.
  rewrite !chr_neq by (try lia; vm_compute; congruence).
  unfold isprint. simpl. rewrite !andb_true_r.
  apply andb_true_iff; split; apply Z.leb_le; lia.
Qed.

(** An escaped character that is copied as it is (line 110) is plain. *)
Lemma plain_escaped (c : ascii) :
  ch_is c ":" || ch_is c "\" || ch_is c "." || negb (isprint (schar c)) = false ->
  plain c = true.
Proof.
  intros H. apply orb_false_iff in H as [H Hp]. apply orb_false_iff in H as [H Hd].
  apply orb_false_iff in H as [Hc Hb]. apply negb_false_iff in Hp.
  unfold plain. now rewrite Hc, Hb, Hp.
Qed.

(** On plain text within the length budget the loop copies. *)
Lemma loop_plain (s : string) :
  forall t,
    all_plain s = true -> len t + strlen s <= DOMAIN_LEN ->
    sanitize_loop s t
    = Ok (mk_string (text t ++ s) (len t + strlen s) (real_len t + strlen s)).
Proof.
  unfold strlen.
  induction s as [|c s IH]; intros t Hp Hl; simpl.
  - rewrite append_nil_r, !Z.add_0_r. now destruct t.
  - simpl in Hp, Hl. apply andb_true_iff in Hp as [Hc Hp].
    replace (len t =? DOMAIN_LEN) with false by (symmetry; apply Z.eqb_neq; lia).
    change (isprint (schar c) && negb (c =? "\")%char && negb (c =? ":")%char)
      with (plain c).
    rewrite Hc.
    rewrite IH; [|exact Hp|simpl; lia].
    unfold put_char; simpl. rewrite append_assoc. simpl.
    f_equal. f_equal; lia.
Qed.

Lemma escape4_shapes :
  forallb (fun n => escape4_shape (Z.of_nat n - 128)) (seq 0 384) = true.
Proof. vm_compute. reflexivity. Qed.

Lemma escape4_shape_ok (v : Z) : -128 <= v <= 255 -> escape4_shape v = true.
Proof.
  intros H. pose proof escape4_shapes as Hall. rewrite forallb_forall in Hall.
  replace v with (Z.of_nat (Z.to_nat (v + 128)) - 128) by lia.
  apply Hall. apply in_seq. lia.
Qed.

Lemma schar_range (c : ascii) : -128 <= schar c <= 127.
Proof.
  unfold schar, code. pose proof (N_ascii_bounded c).
  destruct (Z.ltb_spec (Z.of_N (N_of_ascii c)) 128); lia.
Qed.

Lemma plain_not_backslash (c : ascii) : plain c = true -> ch_is c "\" = false.
Proof.
  unfold plain. intros H. apply andb_true_iff in H as [H _].
  apply andb_true_iff in H as [_ H]. now apply negb_true_iff in H.
Qed.

Lemma backslash_not_plain (c : ascii) : ch_is c "\" = true -> plain c = false.
Proof. unfold plain. intros H. rewrite H. cbn [negb]. now rewrite andb_false_r. Qed.

Lemma same_app_bounded (n : nat) :
  forall a b, (String.length a <= n)%nat -> same_in_both a = true ->
              same_in_both (a ++ b) = same_in_both b
              /\ units (a ++ b) = units a + units b.
Proof.
  induction n as [|n IH]; intros a b Hn Ha.
  - destruct a; [split; reflexivity | simpl in Hn; lia].
  - destruct a as [|c a]; [split; reflexivity|].
    cbn [same_in_both] in Ha. cbn [append same_in_both units]. simpl in Hn.
    destruct (plain c) eqn:Ec.
    + rewrite (plain_not_backslash c Ec).
      destruct (IH a b ltac:(lia) Ha) as [H1 H2]. split; [exact H1 | lia].
    + destruct (ch_is c "\") eqn:Eb; [|discriminate].
      destruct a as [|c1 [|c2 [|c3 a]]]; try discriminate.
      cbn [append]. simpl in Hn.
      apply andb_true_iff in Ha as [Ha Hsame]. apply andb_true_iff in Ha as [Ha H3].
      apply andb_true_iff in Ha as [Hc1 Hc2].
      destruct (IH a b ltac:(lia) Hsame) as [Hs Hu].
      split; [|lia]. now rewrite Hs, Hc1, Hc2, H3.
Qed.

Lemma same_app (a b : string) :
  same_in_both a = true -> same_in_both (a ++ b) = same_in_both b.
Proof. intros H. now apply (same_app_bounded (String.length a)). Qed.

Lemma units_app (a b : string) :
  same_in_both a = true -> units (a ++ b) = units a + units b.
Proof. intros H. now apply (same_app_bounded (String.length a)). Qed.

Lemma units_nonneg_bounded (n : nat) :
  forall s, (String.length s <= n)%nat -> 0 <= units s.
Proof.
  induction n as [|n IH]; intros s Hn.
  - destruct s; [simpl; lia | simpl in Hn; lia].
  - destruct s as [|c s]; [simpl; lia|]. cbn [units]. simpl in Hn.
    destruct (ch_is c "\").
    + destruct s as [|c1 [|c2 [|c3 s]]]; try lia. simpl in Hn.
      specialize (IH s ltac:(lia)). lia.
    + specialize (IH s ltac:(lia)). lia.
Qed.

Lemma units_nonneg (s : string) : 0 <= units s.
Proof. now apply (units_nonneg_bounded (String.length s)). Qed.

(** The escape of a value from 0 to 7. *)
Lemma escape4_low (v : Z) :
  0 <= v <= 7 -> escape4 v = String "\" (String "0" (String "0" (String (chr (48 + v)) ""))).
Proof.
  intros H. pose proof (escape4_shape_ok v ltac:(lia)) as Hs. unfold escape4_shape in Hs.
  destruct (escape4 v) as [|b [|c1 [|c2 [|c3 [|]]]]]; try discriminate.
  replace ((0 <=? v) && (v <=? 7)) with true in Hs
    by (symmetry; apply andb_true_iff; split; apply Z.leb_le; lia).
  apply andb_true_iff in Hs as [Hb Hs]. apply andb_true_iff in Hs as [Hs H3].
  apply andb_true_iff in Hs as [H1 H2].
  apply Ascii.eqb_eq in Hb, H1, H2, H3. now subst.
Qed.

(** The escape of any other value of a [char] or of a decimal escape. *)
Lemma escape4_high (v : Z) (suffix : string) :
  -128 <= v <= 255 -> ~ 0 <= v <= 7 -> same_in_both (escape4 v ++ suffix) = false.
Proof.
  intros H Hn. pose proof (escape4_shape_ok v H) as Hs. unfold escape4_shape in Hs.
  destruct (escape4 v) as [|b [|c1 [|c2 [|c3 [|]]]]]; try discriminate.
  replace ((0 <=? v) && (v <=? 7)) with false in Hs
    by (symmetry; apply andb_false_iff;
        destruct (Z.leb_spec 0 v); [right; apply Z.leb_gt; lia | now left]).
  apply andb_true_iff in Hs as [Hb Hs]. apply Ascii.eqb_eq in Hb. subst b.
  apply negb_true_iff in Hs. cbn [append same_in_both].
  change (plain "\") with false. change (ch_is "\" "\") with true. cbv iota.
  now rewrite Hs.
Qed.

Lemma chr_code (c : ascii) : chr (code c) = c.
Proof.
  unfold chr, code. pose proof (N_ascii_bounded c).
  rewrite Z.mod_small by lia. rewrite N2Z.id. apply ascii_N_embedding.
Qed.

Lemma octal_low_schar (c : ascii) :
  octal_low c = true -> schar c = code c /\ 48 <= code c <= 55.
Proof.
  unfold octal_low, schar. intros H. apply andb_true_iff in H as [H1 H2].
  apply Z.leb_le in H1. apply Z.leb_le in H2.
  destruct (Z.ltb_spec (code c) 128); lia.
Qed.

Lemma same_escape4_low (v : Z) :
  0 <= v <= 7 ->
  same_in_both (escape4 v) = true /\ units (escape4 v) = 1 /\ strlen (escape4 v) = 4.
Proof.
  intros H. rewrite (escape4_low v H). cbn [same_in_both units].
  change (plain "\") with false. change (ch_is "\" "\") with true. cbv iota.
  change ("0" =? "0")%char with true. cbn [andb].
  unfold octal_low. rewrite code_chr by lia.
  repeat split.
  rewrite andb_true_r. apply andb_true_iff; split; apply Z.leb_le; lia.
Qed.

Lemma kept_put_char (t : string_t) (c : ascii) :
  kept t -> (len t =? DOMAIN_LEN) = false -> plain c = true -> kept (put_char t c).
Proof.
  intros [Hb Hk] Hl Hc. apply Z.eqb_neq in Hl.
  split; [unfold put_char; simpl; lia|].
  destruct Hk as [(Hs & Hu & Hr)|Hk]; [left|right].
  - unfold put_char. cbn [text len real_len].
    rewrite (same_app _ _ Hs), (units_app _ _ Hs). cbn [same_in_both units].
    rewrite Hc, (plain_not_backslash c Hc). unfold strlen in *.
    rewrite length_append. simpl String.length. repeat split; lia.
  - intros suffix. unfold put_char. cbn [text]. rewrite append_assoc. apply Hk.
Qed.

Lemma kept_put_octal (t : string_t) (v : Z) :
  kept t -> (len t =? DOMAIN_LEN) = false -> -128 <= v <= 255 -> kept (put_octal t v).
Proof.
  intros [Hb Hk] Hl Hv. apply Z.eqb_neq in Hl.
  split; [unfold put_octal; simpl; lia|].
  change (text (put_octal t v)) with (text t ++ escape4 v).
  destruct Hk as [(Hs & Hu & Hr)|Hk].
  - destruct (Z.le_gt_cases 0 v) as [H0|H0]; [destruct (Z.le_gt_cases v 7) as [H7|H7]|].
    + left. destruct (same_escape4_low v (conj H0 H7)) as (E1 & E2 & E3).
      rewrite (same_app _ _ Hs), (units_app _ _ Hs), E1, E2.
      unfold strlen in *. rewrite length_append. cbn [len real_len put_octal].
      repeat split; lia.
    + right. intros suffix. rewrite append_assoc, (same_app _ _ Hs).
      apply escape4_high; lia.
    + right. intros suffix. rewrite append_assoc, (same_app _ _ Hs).
      apply escape4_high; lia.
  - right. intros suffix. rewrite append_assoc. apply Hk.
Qed.

Lemma isdigit_range (v : Z) : isdigit v = true -> 48 <= v <= 57.
Proof.
  unfold isdigit. intros H. apply andb_true_iff in H as [H1 H2].
  apply Z.leb_le in H1. apply Z.leb_le in H2. lia.
Qed.

Lemma loop_kept (n : nat) :
  forall src t r,
    (String.length src <= n)%nat -> kept t -> sanitize_loop src t = Ok r -> kept r.
Proof.
  induction n as [|n IH]; intros src t r Hn Ht Hr.
  - destruct src; simpl in Hn; [|lia]. simpl in Hr. now inversion Hr; subst.
  - destruct src as [|c rest]; simpl in Hr; [now inversion Hr; subst|].
    simpl in Hn. pose proof (schar_range c) as Rc.
    split_if Hr El; [discriminate|].
    split_if Hr Ec.
    { eapply (IH rest); [lia| |exact Hr]. now apply kept_put_char. }
    split_if Hr Eb.
    2:{ eapply (IH rest); [lia| |exact Hr]. apply kept_put_octal; auto; lia. }
    destruct rest as [|c1 rest1]; [discriminate|]. simpl in Hn.
    pose proof (schar_range c1) as Rc1.
    split_if Hr Ed.
    { split_if Hr E1.
      - eapply (IH rest1); [lia| |exact Hr]. apply kept_put_octal; auto; lia.
      - eapply (IH rest1); [lia| |exact Hr].
        apply kept_put_char; auto using plain_escaped. }
    destruct rest1 as [|c2 [|c3 rest3]]; try discriminate. simpl in Hn.
    split_if Hr E23; [|discriminate].
    split_if Hr Eg; [discriminate|].
    apply negb_false_iff in Ed. apply isdigit_range in Ed.
    apply andb_true_iff in E23 as [E2 E3].
    apply isdigit_range in E2. apply isdigit_range in E3.
    assert (Hnum : -128 <= (schar c1 - 48) * 100 + (schar c2 - 48) * 10 + (schar c3 - 48)
                   <= 255).
    { destruct (Z.gtb_spec ((schar c1 - 48) * 100 + (schar c2 - 48) * 10 + (schar c3 - 48))
                           255); [discriminate | lia]. }
    split_if Hr Ep.
    + eapply (IH rest3); [lia| |exact Hr].
      apply kept_put_char; auto using plain_chr.
    + eapply (IH rest3); [lia| |exact Hr]. now apply kept_put_octal.
Qed.

(** On a text that reads the same in both conventions the loop copies. *)
Lemma loop_same (n : nat) :
  forall s t,
    (String.length s <= n)%nat ->
    same_in_both s = true -> len t + units s <= DOMAIN_LEN ->
    sanitize_loop s t
    = Ok (mk_string (text t ++ s) (len t + units s) (real_len t + strlen s)).
Proof.
  induction n as [|n IH]; intros s t Hn Hs Hl.
  - destruct s; [|simpl in Hn; lia]. simpl. unfold strlen. simpl.
    rewrite append_nil_r, !Z.add_0_r. now destruct t.
  - destruct s as [|c s].
    { simpl. unfold strlen. simpl. rewrite append_nil_r, !Z.add_0_r. now destruct t. }
    simpl in Hn. cbn [same_in_both] in Hs. cbn [units] in Hl.
    destruct (plain c) eqn:Ec.
    + rewrite (plain_not_backslash c Ec) in Hl. pose proof (units_nonneg s).
      cbn [sanitize_loop].
      replace (len t =? DOMAIN_LEN) with false by (symmetry; apply Z.eqb_neq; lia).
      change (isprint (schar c) && negb (ch_is c "\") && negb (ch_is c ":")) with (plain c).
      rewrite Ec. rewrite IH; [|lia|exact Hs|unfold put_char; simpl; lia].
      unfold put_char; cbn [text len real_len units]. rewrite append_assoc.
      rewrite (plain_not_backslash c Ec). unfold strlen. cbn [append String.length].
      f_equal. f_equal; lia.
    + destruct (ch_is c "\") eqn:Eb; [|discriminate].
      destruct s as [|c1 [|c2 [|c3 s]]]; try discriminate. simpl in Hn.
      apply andb_true_iff in Hs as [Hs Hsame]. apply andb_true_iff in Hs as [Hs H3].
      apply andb_true_iff in Hs as [H1 H2].
      apply Ascii.eqb_eq in H1, H2. subst c1 c2.
      unfold ch_is in Eb. apply Ascii.eqb_eq in Eb. subst c.
      destruct (octal_low_schar c3 H3) as [Hsc Hr3]. pose proof (units_nonneg s).
      cbn [sanitize_loop].
      replace (len t =? DOMAIN_LEN) with false by (symmetry; apply Z.eqb_neq; lia).
      change (isprint (schar "\") && negb (ch_is "\" "\") && negb (ch_is "\" ":"))
        with false.
      change (ch_is "\" "\") with true. change (negb (isdigit (schar "0"))) with false.
      change (isdigit (schar "0")) with true. cbv iota. cbn [andb].
      replace (isdigit (schar c3)) with true
        by (symmetry; unfold isdigit; rewrite Hsc; apply andb_true_iff;
            split; apply Z.leb_le; lia).
      change ((schar "0" - 48) * 100 + (schar "0" - 48) * 10) with 0. rewrite Hsc.
      cbn [Z.add].
      destruct (Z.gtb_spec (code c3 - 48) 255); [lia|].
      replace (isprint (code c3 - 48)) with false
        by (symmetry; unfold isprint; apply andb_false_iff; left; apply Z.leb_gt; lia).
      cbn [andb].
      rewrite IH; [|lia|exact Hsame|unfold put_octal; simpl; lia].
      change (text (put_octal t (code c3 - 48))) with (text t ++ escape4 (code c3 - 48)).
      rewrite escape4_low by lia.
      replace (48 + (code c3 - 48)) with (code c3) by lia. rewrite chr_code.
      unfold put_octal; cbn [len real_len]. rewrite append_assoc.
      unfold strlen. cbn [append String.length units].
      change (ch_is "\" "\") with true. cbv iota.
      f_equal. f_equal; lia.
Qed.

End SanitizeFacts.

(** C2, counterexample: the colon is encoded as the octal
    escape \072, and sanitizing that text again reads 072 as a decimal
    escape, the letter H. *)
Lemma sanitize_string_not_idempotent :
  ~ (forall x r, sanitize_string x = Ok r ->
                 exists r', sanitize_string (text r) = Ok r' /\ text r' = text r).
Proof.
  intros H. destruct (H ":" (mk_string "\072" 1 4) eq_refl) as (r' & Hr & Ht).
  vm_compute in Hr. inversion Hr; subst r'. discriminate Ht.
Qed.

(** C2, amended: sanitizing is idempotent on every input whose encoded
    output reads the same in the convention of the input (decimal
    escapes) and in the convention of the output (octal escapes), that is
    whose encoded output holds no escape other than \000 to \007, and in
    particular on every input encoded with no escape at all: sanitizing
    the encoded output again succeeds and yields the same string, with
    the same two lengths. *)
Theorem sanitize_string_idempotent_when_same (x : string) (r : string_t) :
  sanitize_string x = Ok r ->
  Sanitize.same_in_both (text r) = true ->
  sanitize_string (text r) = Ok r.
Proof.
  intros Hx Hs.
  assert (Hk : Sanitize.kept r).
  { apply (SanitizeFacts.loop_kept (String.length x) x empty_string_t r (le_n _));
      [|exact Hx].
    split; [simpl; unfold DOMAIN_LEN; lia|]. left. repeat split. }
  destruct Hk as [Hb [(_ & Hu & Hr)|Hk]].
  2:{ specialize (Hk ""). rewrite append_nil_r in Hk. congruence. }
  unfold sanitize_string.
  rewrite (SanitizeFacts.loop_same (String.length (text r))); [|lia|exact Hs|simpl; lia].
  simpl. rewrite <- Hu, <- Hr. now destruct r.
Qed.

Lemma sanitize_string_idempotent_when_same_witness :
  sanitize_string "www.example.com." = Ok (mk_string "www.example.com." 16 16)
  /\ sanitize_string "a\001b" = Ok (mk_string "a\001b" 3 6).
Proof.
  split.
  - exact (sanitize_string_idempotent_when_same
             "w\119w.example.com." (mk_string "www.example.com." 16 16) eq_refl eq_refl).
  - exact (sanitize_string_idempotent_when_same
             "\097\001b" (mk_string "a\001b" 3 6) eq_refl eq_refl).
Defined.

(** ** qualify_domain *)

Module QualifyFacts.

Import Sanitize SanitizeFacts Qualify.

Lemma length_substring (n : nat) (s : string) :
  String.length (substring 0 n s) = Nat.min n (String.length s).
Proof.
  revert s. induction n as [|n IH]; intros s; destruct s as [|c s]; simpl; auto.
Qed.

Lemma length_pad_nonneg (width : Z) (s : string) :
  0 <= width -> width <= strlen (pad "" width s).
Proof.
  intros H. unfold pad, strlen.
  destruct (Z.ltb_spec width 0); [lia|]. simpl.
  rewrite length_append, length_repeat_char. unfold strlen. simpl. lia.
Qed.

(** The four bytes an octal escape leaves in the text. *)
Lemma length_put_octal (t : string_t) (v : Z) :
  strlen (text (put_octal t v)) = strlen (text t) + 4.
Proof.
  unfold put_octal, strlen. cbn [text]. rewrite length_append, length_substring.
  pose proof (length_pad_nonneg 3 (digits 8 false (u32 v)) ltac:(lia)) as H.
  unfold fmt_unsigned, strlen in *. cbn [String.length]. lia.
Qed.

Lemma length_put_char (t : string_t) (c : ascii) :
  strlen (text (put_char t c)) = strlen (text t) + 1.
Proof. unfold put_char, strlen; simpl. rewrite length_append. simpl. lia. Qed.

Lemma grows_step (t t' r : string_t) (b : bool) :
  len t' = len t + 1 -> grows b t' r -> grows true t r.
Proof. unfold grows. intros H [H1 H2]. split; [exact H1|]. destruct b; lia. Qed.

Lemma loop_grows (n : nat) :
  forall src t r,
    (String.length src <= n)%nat -> real_len t = strlen (text t) ->
    sanitize_loop src t = Ok r ->
    grows (negb (String.eqb src "")) t r.
Proof.
  induction n as [|n IH]; intros src t r Hn Ht Hr.
  - destruct src; simpl in Hn; [|lia]. simpl in Hr. inversion Hr; subst.
    split; [exact Ht | simpl; lia].
  - destruct src as [|c rest]; simpl in Hr.
    { inversion Hr; subst. split; [exact Ht | simpl; lia]. }
    simpl in Hn.
    assert (Hc : forall a, real_len (put_char t a) = strlen (text (put_char t a)))
      by (intros a; rewrite length_put_char; simpl; lia).
    assert (Ho : forall v, real_len (put_octal t v) = strlen (text (put_octal t v)))
      by (intros v; rewrite length_put_octal; simpl; lia).
    change (negb (String c rest =? "")%string) with true.
    split_if Hr El; [discriminate|].
    split_if Hr Ec.
    { eapply grows_step; [|eapply (IH rest); [lia|apply Hc|exact Hr]]. reflexivity. }
    split_if Hr Eb.
    2:{ eapply grows_step; [|eapply (IH rest); [lia|apply Ho|exact Hr]]. reflexivity. }
    destruct rest as [|c1 rest1]; [discriminate|]. simpl in Hn.
    split_if Hr Ed.
    { split_if Hr E1.
      - eapply grows_step; [|eapply (IH rest1); [lia|apply Ho|exact Hr]]. reflexivity.
      - eapply grows_step; [|eapply (IH rest1); [lia|apply Hc|exact Hr]]. reflexivity. }
    destruct rest1 as [|c2 [|c3 rest3]]; try discriminate. simpl in Hn.
    split_if Hr E23; [|discriminate].
    split_if Hr Eg; [discriminate|].
    split_if Hr Ep.
    + eapply grows_step; [|eapply (IH rest3); [lia|apply Hc|exact Hr]]. reflexivity.
    + eapply grows_step; [|eapply (IH rest3); [lia|apply Ho|exact Hr]]. reflexivity.
Qed.

Lemma sanitize_lengths (name : string) (sname : string_t) :
  sanitize_string name = Ok sname ->
  real_len sname = strlen (text sname) /\ (name <> "" -> 0 < len sname).
Proof.
  intros H.
  destruct (loop_grows (String.length name) name empty_string_t sname (le_n _) eq_refl H)
    as [H1 H2].
  split; [exact H1|]. intros Hne.
  destruct (String.eqb_spec name ""); [contradiction|]. simpl in H2. exact H2.
Qed.

Lemma char_at_last (s : string) :
  (char_at s (strlen s - 1) =? ".")%char = ends_with_dot s.
Proof.
  unfold char_at, strlen.
  induction s as [|c s IH]; [reflexivity|].
  destruct s as [|c' s'].
  - reflexivity.
  - change (ends_with_dot (String c (String c' s'))) with (ends_with_dot (String c' s')).
    rewrite <- IH.
    destruct (Z.ltb_spec (Z.of_nat (String.length (String c (String c' s'))) - 1) 0);
      [cbn [String.length] in *; lia|].
    destruct (Z.ltb_spec (Z.of_nat (String.length (String c' s')) - 1) 0);
      [cbn [String.length] in *; lia|].
    replace (Z.to_nat (Z.of_nat (String.length (String c (String c' s'))) - 1))
      with (S (Z.to_nat (Z.of_nat (String.length (String c' s')) - 1)))
      by (cbn [String.length]; lia).
    reflexivity.
Qed.

Lemma only_char_eqb (s : string) (c : ascii) :
  only_char s c = String.eqb s (String c "").
Proof.
  destruct s as [|a [|b s]]; simpl; try reflexivity.
  - now destruct (a =? c)%char.
  - destruct (a =? c)%char; reflexivity.
Qed.

End QualifyFacts.




(** ** The $GENERATE templates *)

Module GenerateFacts.

Import Generate.

Lemma line_at_app (a b : list ascii) : line_at (a ++ b) (List.length a) = line_at b 0.
Proof.
  unfold line_at. rewrite app_nth2 by lia. now rewrite Nat.sub_diag.
Qed.

Lemma line_at_app_S (a : list ascii) (c : ascii) (b : list ascii) :
  line_at (a ++ c :: b) (S (List.length a)) = line_at b 0.
Proof.
  unfold line_at. rewrite app_nth2 by lia.
  replace (S (List.length a) - List.length a)%nat with 1%nat by lia. reflexivity.
Qed.

(** The parser leaves such a line as one literal part. *)
Lemma parse_pairs (fuel : nat) :
  forall a b,
    pairs_only b = true -> (List.length b < fuel)%nat ->
    parse_gen_loop fuel (mk_gen (a ++ b) [Literal 0] (List.length a) false)
    = GenOk (a ++ b)%list [Literal 0].
Proof.
  induction fuel as [|fuel IH]; intros a b Hp Hf; [lia|].
  cbn [parse_gen_loop gline ptr parts].
  rewrite line_at_app.
  destruct b as [|c b]; [reflexivity|].
  cbn [pairs_only] in Hp. unfold line_at at 1. cbn [nth].
  destruct (c =? "$")%char eqn:Ec.
  - destruct b as [|d b]; [discriminate|].
    apply andb_true_iff in Hp as [Hd Hp].
    apply Ascii.eqb_eq in Ec. apply Ascii.eqb_eq in Hd. subst c d.
    change ("$" =? nul)%char with false. cbv iota.
    unfold gen_step. cbn [gin_quote gline ptr parts].
    rewrite line_at_app, line_at_app_S. unfold line_at. cbn [nth].
    change ("$" =? "\")%char with false. change ("$" =? "$")%char with true. cbv iota.
    cbn [gline parts ptr gin_quote].
    replace (a ++ "$"%char :: "$"%char :: b)%list
      with ((a ++ ["$"%char; "$"%char]) ++ b)%list by (now rewrite <- app_assoc).
    replace (S (S (List.length a))) with (List.length (a ++ ["$"%char; "$"%char])%list)
      by (rewrite length_app; simpl; lia).
    apply IH; [exact Hp | simpl in Hf; lia].
  - apply andb_true_iff in Hp as [Hc Hp]. apply andb_true_iff in Hc as [Hb Hn].
    apply negb_true_iff in Hb. apply negb_true_iff in Hn.
    rewrite Hn. unfold gen_step. cbn [gin_quote gline ptr parts].
    rewrite line_at_app. unfold line_at. cbn [nth]. rewrite Hb, Ec.
    cbn [gline parts ptr gin_quote].
    replace (a ++ c :: b)%list with ((a ++ [c]) ++ b)%list by (now rewrite <- app_assoc).
    replace (S (List.length a)) with (List.length (a ++ [c])%list)
      by (rewrite length_app; simpl; lia).
    apply IH; [exact Hp | simpl in Hf; lia].
Qed.

Lemma c_str_pairs_bounded (n : nat) :
  forall l, (List.length l <= n)%nat -> pairs_only l = true ->
            c_str l = string_of_list_ascii l.
Proof.
  induction n as [|n IH]; intros l Hn Hp.
  - destruct l; [reflexivity | simpl in Hn; lia].
  - destruct l as [|c l]; [reflexivity|].
    cbn [pairs_only] in Hp. cbn [c_str string_of_list_ascii]. simpl in Hn.
    destruct (c =? "$")%char eqn:Ec.
    + destruct l as [|d l]; [discriminate|].
      apply andb_true_iff in Hp as [Hd Hp].
      apply Ascii.eqb_eq in Ec. apply Ascii.eqb_eq in Hd. subst c d.
      change ("$" =? nul)%char with false. cbn [c_str string_of_list_ascii].
      change ("$" =? nul)%char with false. cbv iota.
      rewrite (IH l); [reflexivity | simpl in Hn; lia | exact Hp].
    + apply andb_true_iff in Hp as [Hc Hp]. apply andb_true_iff in Hc as [Hb Hnul].
      apply negb_true_iff in Hnul. rewrite Hnul.
      rewrite (IH l); [reflexivity | lia | exact Hp].
Qed.

Lemma c_str_pairs (l : list ascii) :
  pairs_only l = true -> c_str l = string_of_list_ascii l.
Proof. apply (c_str_pairs_bounded (List.length l)). apply le_n. Qed.

Lemma substring_all (n : nat) (s : string) :
  (String.length s <= n)%nat -> substring 0 n s = s.
Proof.
  revert s. induction n as [|n IH]; intros s H; destruct s as [|c s]; simpl in *;
    try reflexivity; try lia.
  rewrite IH by lia. reflexivity.
Qed.

Lemma length_list_ascii (s : string) :
  List.length (list_ascii_of_string s) = String.length s.
Proof. induction s as [|c s IH]; simpl; [reflexivity | now rewrite IH]. Qed.

End GenerateFacts.

(** C6, as the code behaves: a pair of dollar signs in a template is
    recognised (line 497 steps over the second sign, so that the pair opens
    no placeholder), but no character of the pair is dropped: the parts
    point into the template line and are copied whole.  Both dollar signs
    come out.  A template in which every dollar sign belongs to such a
    pair, with no backslash, shorter than the 1021 bytes of the token
    buffer, expands at every iteration to the template itself; the
    template a$$b expands to a$$b and not to a$b, also beside a
    placeholder that is replaced, and a [$GENERATE] directive with that
    owner writes its records under a$$b. *)
Theorem dollar_pair_copied_verbatim :
  (forall template iter,
      Generate.pairs_only (list_ascii_of_string template) = true ->
      strlen template < DOMAIN_STR_LEN ->
      expand_template template iter = Some template)
  /\ (forall iter,
         expand_template "a$$b" iter = Some "a$$b"
         /\ expand_template "a$$b" iter <> Some "a$b")
  /\ expand_template "a$$b${0,2,d}" 7 = Some "a$$b07"
  /\ main "example.com" (zone ("$GENERATE 3-4 a$$b A 10.0.0.$" ++ eol))
     = Exit 0 (Some ("+a$$b.example.com.:10.0.0.3:86400" ++ eol ++
                     "+a$$b.example.com.:10.0.0.4:86400" ++ eol)) [].
Proof.
  assert (Hgen : forall template iter,
             Generate.pairs_only (list_ascii_of_string template) = true ->
             strlen template < DOMAIN_STR_LEN ->
             expand_template template iter = Some template).
  { intros template iter Hp Hl. unfold expand_template, parse_gen_string.
    pose proof (GenerateFacts.parse_pairs (S (List.length (list_ascii_of_string template)))
                  [] (list_ascii_of_string template) Hp (Nat.lt_succ_diag_r _)) as H.
    cbn [app List.length] in H. rewrite H.
    unfold construct_gen_output, construct_loop, part_text.
    cbn [skipn]. rewrite (GenerateFacts.c_str_pairs _ Hp), string_of_list_ascii_of_string.
    unfold DOMAIN_STR_LEN, DOMAIN_LEN, strlen in *.
    destruct (Z.ltb_spec (Z.of_nat (String.length template)) 0); [lia|].
    destruct (Z.gtb_spec (0 + Z.of_nat (String.length template)) (255 * 4 + 1)); [lia|].
    cbn [orb]. cbv iota.
    destruct (Z.gtb_spec (255 * 4 + 1 - 0) 0); [|lia].
    rewrite GenerateFacts.substring_all by lia. reflexivity. }
  split; [exact Hgen|]. split; [|split; vm_compute; reflexivity].
  intros iter. rewrite (Hgen "a$$b" iter) by reflexivity.
  split; [reflexivity | discriminate].
Qed.

Lemma dollar_pair_copied_verbatim_witness :
  expand_template "host$$.example" 3 = Some "host$$.example".
Proof.
  apply (proj1 dollar_pair_copied_verbatim); [reflexivity | reflexivity].
Defined.

(** ** The fuel of the loops

    The loops of the program are embedded with a bound on the number of
    passes.  The bounds the definitions give are never the reason a loop
    stops. *)

Module Fuel.

Lemma length_line_set (l : list ascii) (n : nat) (c : ascii) :
  (n < List.length l)%nat -> List.length (line_set l n c) = List.length l.
Proof.
  intros H. unfold line_set. rewrite length_app. cbn [List.length].
  rewrite length_firstn, length_skipn. lia.
Qed.

Lemma line_at_inside (l : list ascii) (n : nat) :
  (line_at l n =? nul)%char = false -> (n < List.length l)%nat.
Proof.
  intros H. destruct (Nat.lt_ge_cases n (List.length l)) as [Hlt|Hge]; [exact Hlt|].
  unfold line_at in H. rewrite nth_overflow in H by exact Hge. discriminate.
Qed.

(** The body of the loop moves neither [i] nor the end of the line. *)
Lemma scan_char_keeps (s s1 : tok_state) :
  (line_at (line s) (i s) =? nul)%char = false ->
  scan_char s = Next s1 ->
  i s1 = i s /\ List.length (line s1) = List.length (line s).
Proof.
  intros Hc H. apply line_at_inside in Hc.
  assert (Hcut : List.length (line_set (line s) (i s) nul) = List.length (line s))
    by now apply length_line_set.
  unfold scan_char, escape_step, syntax_step, quote_step, end_token, cut_here in H.
  repeat match type of H with
         | context [if ?b then _ else _] => destruct b
         end;
    try discriminate; inversion H; subst s1; clear H; cbn; auto.
Qed.

(** More fuel than there are characters left does not change the scan. *)
Lemma scan_fuel (fuel : nat) :
  forall s, (List.length (line s) - i s < fuel)%nat -> scan (S fuel) s = scan fuel s.
Proof.
  induction fuel as [|fuel IH]; intros s H; [lia|].
  cbn [scan].
  destruct (line_at (line s) (i s) =? nul)%char eqn:Hc; [reflexivity|].
  destruct (scan_char s) as [s1|s1|m] eqn:Hs; try reflexivity.
  destruct (scan_char_keeps s s1 Hc Hs) as [Hi Hl].
  apply line_at_inside in Hc.
  change (scan (S fuel) (with_i s1 (S (i s1))) = scan fuel (with_i s1 (S (i s1)))).
  apply IH. cbn [with_i line i]. lia.
Qed.

Lemma scan_fuel_enough (k : nat) (s : tok_state) :
  scan (S (List.length (line s) - i s) + k) s = scan (S (List.length (line s) - i s)) s.
Proof.
  induction k as [|k IH]; [now rewrite Nat.add_0_r|].
  rewrite Nat.add_succ_r, scan_fuel; [exact IH | lia].
Qed.

(** The fuel [tokenize_loop] gives the scan of the bytes [fgets] stored. *)
Lemma tokenize_scan_fuel (k : nat) (s : tok_state) (got : list ascii) :
  scan (S (List.length got) + k) (with_line s (firstn (i s) (line s) ++ got))
  = scan (S (List.length got)) (with_line s (firstn (i s) (line s) ++ got)).
Proof.
  induction k as [|k IH]; [now rewrite Nat.add_0_r|].
  rewrite Nat.add_succ_r, scan_fuel; [exact IH|].
  cbn [with_line line i]. rewrite length_app, length_firstn. lia.
Qed.

Lemma parse_braces_forward (l : list ascii) (p : nat) (o w : Z) (b : ascii) (p' : nat) :
  parse_braces l p = inr (o, w, b, p') -> (p <= p')%nat.
Proof.
  unfold parse_braces. intros H.
  repeat match type of H with
         | context [digit_run ?x ?y ?z ?t] => destruct (digit_run x y z t) as [[? ?] ?]
         | context [if ?c then _ else _] => destruct c
         end;
    try discriminate; inversion H; subst; lia.
Qed.

(** The body of the template loop moves [ptr] forward only and keeps the
    end of the line. *)
Lemma gen_step_keeps (g g1 : gen_state) :
  (line_at (gline g) (ptr g) =? nul)%char = false ->
  gen_step g = inr g1 ->
  (ptr g <= ptr g1)%nat /\ List.length (gline g1) = List.length (gline g).
Proof.
  intros Hc H. apply line_at_inside in Hc.
  assert (Hcut : List.length (line_set (gline g) (ptr g) nul) = List.length (gline g))
    by now apply length_line_set.
  unfold gen_step in H.
  destruct (gin_quote g); [inversion H; subst g1; cbn; auto|].
  destruct (_ =? "\")%char; [inversion H; subst g1; cbn; auto|].
  destruct (_ =? "$")%char; [|inversion H; subst g1; auto].
  destruct (_ =? "$")%char; [inversion H; subst g1; cbn; auto|].
  destruct (_ >=? MAX_GEN_PARTS); [discriminate|].
  destruct (_ =? "{")%char.
  - destruct (parse_braces _ _) as [m|[[[o w] b] p']] eqn:Hb; [discriminate|].
    apply parse_braces_forward in Hb.
    unfold after_placeholder in H.
    repeat match type of H with
           | context [if ?c then _ else _] => destruct c
           end; try discriminate; inversion H; subst g1; cbn; auto.
  - unfold after_placeholder in H.
    repeat match type of H with
           | context [if ?c then _ else _] => destruct c
           end; try discriminate; inversion H; subst g1; cbn; auto.
Qed.

(** More fuel than there are characters left does not change the parse. *)
Lemma parse_gen_fuel (fuel : nat) :
  forall g, (List.length (gline g) - ptr g < fuel)%nat ->
            parse_gen_loop (S fuel) g = parse_gen_loop fuel g.
Proof.
  induction fuel as [|fuel IH]; intros g H; [lia|].
  cbn [parse_gen_loop].
  destruct (line_at (gline g) (ptr g) =? nul)%char eqn:Hc; [reflexivity|].
  destruct (gen_step g) as [r|g1] eqn:Hs; [reflexivity|].
  destruct (gen_step_keeps g g1 Hc Hs) as [Hp Hl].
  apply line_at_inside in Hc.
  change (parse_gen_loop (S fuel) (mk_gen (gline g1) (parts g1) (S (ptr g1)) (gin_quote g1))
          = parse_gen_loop fuel (mk_gen (gline g1) (parts g1) (S (ptr g1)) (gin_quote g1))).
  apply IH. cbn [gline ptr]. lia.
Qed.

(** The fuel [parse_gen_string] gives its loop. *)
Lemma parse_gen_string_fuel (k : nat) (template : string) :
  parse_gen_loop (S (List.length (list_ascii_of_string template)) + k)
                 (mk_gen (list_ascii_of_string template) [Literal 0] 0 false)
  = parse_gen_string template.
Proof.
  unfold parse_gen_string.
  induction k as [|k IH]; [now rewrite Nat.add_0_r|].
  rewrite Nat.add_succ_r, parse_gen_fuel; [exact IH|]. cbn [gline ptr]. lia.
Qed.

Lemma fgets_read_shrinks (n : nat) :
  forall input, (List.length (snd (fgets_read n input)) <= List.length input)%nat.
Proof.
  induction n as [|n IH]; intros input; [simpl; lia|].
  destruct input as [|c rest]; [simpl; lia|]. cbn [fgets_read].
  destruct (c =? newline)%char; [simpl; lia|].
  specialize (IH rest). destruct (fgets_read n rest) as [got more]. simpl in *. lia.
Qed.

Lemma fgets_shrinks (size : Z) (input got more : list ascii) :
  fgets size input = Some (got, more) ->
  (List.length more <= List.length input)%nat
  /\ (1 < size -> (List.length more < List.length input)%nat).
Proof.
  unfold fgets. destruct (Z.leb_spec size 1) as [Hs|Hs].
  - intros H. inversion H; subst. split; [lia|]. intros; lia.
  - destruct input as [|c rest]; [discriminate|]. intros H. inversion H as [Hr]. clear H.
    destruct (Z.to_nat (size - 1)) as [|n] eqn:En; [lia|].
    cbn [fgets_read] in Hr.
    destruct (c =? newline)%char.
    + inversion Hr; subst. simpl. split; [|intros _]; lia.
    + pose proof (fgets_read_shrinks n rest) as Hle.
      destruct (fgets_read n rest) as [g m]. inversion Hr; subst. simpl in *.
      split; [|intros _]; lia.
Qed.

(** The loop of [tokenize] never gives input back. *)
Lemma tokenize_loop_shrinks (fuel : nat) :
  forall s input ln start d,
    (List.length (stdin_left (tokenize_loop fuel s input ln start d))
     <= List.length input)%nat.
Proof.
  induction fuel as [|fuel IH]; intros s input ln start d; [simpl; lia|].
  cbn [tokenize_loop].
  destruct (fgets _ input) as [[got more]|] eqn:Hg; [|simpl; lia].
  apply fgets_shrinks in Hg as [Hle _].
  destruct (scan _ _) as [s2|m]; [|simpl; lia].
  destruct (negb (paren_level s2 =? 0)); [|simpl; lia].
  specialize (IH s2 more (ln + 1) start (d ++ end_of_line_warnings s2 start)%list). lia.
Qed.

(** A call of [tokenize] that returns an entry has read at least one
    byte. *)
Lemma tokenize_reads (input : list ascii) (ln : Z) (tokens : list string) :
  result (tokenize input ln) = TokEntry tokens ->
  (List.length (stdin_left (tokenize input ln)) < List.length input)%nat.
Proof.
  unfold tokenize. cbn [tokenize_loop]. change (i tok_init) with 0%nat.
  destruct (fgets _ input) as [[got more]|] eqn:Hg; [|discriminate].
  apply fgets_shrinks in Hg as [_ Hlt]. specialize (Hlt ltac:(unfold LINE_LEN; lia)).
  destruct (scan _ _) as [s2|m]; [|discriminate].
  destruct (negb (paren_level s2 =? 0)); [|simpl; lia].
  intros _.
  pose proof (tokenize_loop_shrinks (List.length input) s2 more (ln + 1) ln
                ([] ++ end_of_line_warnings s2 ln)%list). lia.
Qed.

(** With more fuel than input the loop of [main] does not run out. *)
Lemma main_loop_fuel (fuel : nat) :
  forall top input ln st file d,
    (List.length input < fuel)%nat ->
    main_loop (S fuel) top input ln st file d = main_loop fuel top input ln st file d.
Proof.
  induction fuel as [|fuel IH]; intros top input ln st file d H; [lia|].
  cbn [main_loop].
  destruct (result (tokenize input ln)) as [| | |tokens] eqn:Hr; try reflexivity.
  destruct (handle_entry _ _ _ _) as [d'| |r out d']; try reflexivity.
  apply tokenize_reads in Hr.
  change (main_loop (S fuel) top (stdin_left (tokenize input ln)) (line_num (tokenize input ln))
                    (snd r) (file ++ out) (d ++ printed (tokenize input ln) ++ d')%list
          = main_loop fuel top (stdin_left (tokenize input ln)) (line_num (tokenize input ln))
                      (snd r) (file ++ out) (d ++ printed (tokenize input ln) ++ d')%list).
  apply IH. lia.
Qed.

(** A call of [tokenize] that ends keeps its result with more fuel. *)
Lemma tokenize_loop_fuel (fuel : nat) :
  forall s input ln start d,
    result (tokenize_loop fuel s input ln start d) <> TokHang ->
    tokenize_loop (S fuel) s input ln start d = tokenize_loop fuel s input ln start d.
Proof.
  induction fuel as [|fuel IH]; intros s input ln start d H; [now contradiction H|].
  cbn [tokenize_loop] in H. cbn [tokenize_loop].
  destruct (fgets _ input) as [[got more]|]; [|reflexivity].
  destruct (scan _ _) as [s2|m]; [|reflexivity].
  destruct (negb (paren_level s2 =? 0)); [|reflexivity].
  now apply IH.
Qed.

End Fuel.

(** ** The tokenizer *)

Module Tokenizer.

(** At the end of the input the loop returns -1, whatever the nesting
    count is. *)
Lemma loop_at_eof (fuel : nat) (s : tok_state) (ln start : Z) (d : list diag) :
  Z.of_nat (i s) < LINE_LEN ->
  tokenize_loop (S fuel) s [] ln start d = mk_tok_out TokEOF [] ln start d.
Proof.
  intros H. cbn [tokenize_loop]. unfold fgets.
  destruct (Z.leb_spec (LINE_LEN + 1 - Z.of_nat (i s)) 1); [lia | reflexivity].
Qed.

(** The message of line 469 is never printed: the loop above it ends
    only with a nesting count of zero. *)
Lemma loop_never_reports_open_paren (fuel : nat) :
  forall s input ln start d,
    ~ In (FatalMsg m_open_paren_eof start) d ->
    ~ In (FatalMsg m_open_paren_eof start)
         (printed (tokenize_loop fuel s input ln start d)).
Proof.
  induction fuel as [|fuel IH]; intros s input ln start d Hd; [exact Hd|].
  cbn [tokenize_loop].
  destruct (fgets _ input) as [[got more]|]; [|exact Hd].
  destruct (scan _ _) as [s2|m] eqn:Es.
  - assert (Hd2 : ~ In (FatalMsg m_open_paren_eof start)
                       (d ++ end_of_line_warnings s2 start)).
    { intros Hin. apply in_app_or in Hin as [Hin|Hin]; [now apply Hd|].
      unfold end_of_line_warnings in Hin.
      destruct (in_quote s2), (in_doublequote s2); simpl in Hin;
        intuition discriminate. }
    destruct (negb (paren_level s2 =? 0)); [now apply IH | exact Hd2].
  - cbn [printed]. intros Hin. apply in_app_or in Hin as [Hin|[Hin|[]]]; [now apply Hd|].
    inversion Hin as [Hm]. clear Hin.
    (* the messages [scan] can report are other messages *)
    assert (Hscan : forall n st, scan n st = ScanFatal m_open_paren_eof -> False).
    { clear. induction n as [|n IHn]; intros st H; [discriminate|].
      cbn [scan] in H. destruct (_ =? nul)%char; [discriminate|].
      destruct (scan_char st) as [s1|s1|m1] eqn:Ec; [now apply IHn in H|discriminate|].
      inversion H; subst m1. clear H.
      unfold scan_char in Ec. destruct (_ =? LINE_LEN); [discriminate|].
      destruct (escape_step st) as [s1|s1]; [|discriminate].
      unfold syntax_step, quote_step in Ec.
      repeat match type of Ec with
             | (if ?b then _ else _) = _ => destruct b
             end; discriminate. }
    subst m. now apply Hscan in Es.
Qed.

End Tokenizer.

(** *** A line of words and a quoted text *)

Module WordsFacts.

Import Words.

Lemma line_set_app (a : list ascii) (c x : ascii) (b : list ascii) :
  line_set (a ++ c :: b) (List.length a) x = (a ++ x :: b)%list.
Proof.
  unfold line_set. induction a as [|y a IH]; [reflexivity|].
  cbn [List.length firstn skipn app] in *. now rewrite IH.
Qed.

Lemma line_at_mid (a : list ascii) (c : ascii) (b : list ascii) :
  line_at (a ++ c :: b) (List.length a) = c.
Proof. unfold line_at. now rewrite nth_middle. Qed.

Lemma ordinary_tests (c : ascii) :
  ordinary c = true ->
  (c =? nul)%char = false /\ (c =? "\")%char = false /\ (c =? ";")%char = false
  /\ (c =? "(")%char = false /\ (c =? ")")%char = false /\ (c =? dquote)%char = false
  /\ (c =? " ")%char = false /\ (c =? tab)%char = false /\ (c =? newline)%char = false
  /\ (c =? cr)%char = false.
Proof.
  unfold ordinary. intros H.
  repeat (apply andb_true_iff in H as [H ?]).
  repeat match goal with E : negb _ = true |- _ => apply negb_true_iff in E end.
  repeat split; assumption.
Qed.

(** The body of the loop at an ordinary character, outside quotes and
    escapes. *)
Lemma scan_char_ordinary (l : list ascii) (n : nat) (p : Z) (txt : bool)
      (toks : list token_ptr) (tok found : bool) :
  ordinary (line_at l n) = true ->
  Z.of_nat n <> LINE_LEN ->
  tok = true \/ Z.of_nat (List.length toks) < MAX_TOKENS ->
  scan_char (mk_tok l n false p false false txt toks tok found)
  = Next (if tok then mk_tok l n false p false false txt toks tok found
          else mk_tok l n false p false false txt (toks ++ [LinePtr n]) true true).
Proof.
  intros Ho Hn Ht. destruct (ordinary_tests _ Ho) as (E0&E1&E2&E3&E4&E5&E6&E7&E8&E9).
  unfold scan_char, escape_step. cbn [i line set_in_quote in_quote].
  apply Z.eqb_neq in Hn. rewrite Hn, E1. cbn [andb].
  unfold syntax_step. cbn [i line in_doublequote in_token andb].
  rewrite E2, E3, E4, E5, E6, E7, E8, E9. cbn [orb negb].
  destruct tok; [reflexivity|]. cbn [negb].
  unfold num_tokens. cbn [token].
  destruct Ht as [Ht|Ht]; [discriminate|].
  destruct (Z.geb_spec (Z.of_nat (List.length toks)) MAX_TOKENS); [lia|]. reflexivity.
Qed.

Lemma app_snoc (a : list ascii) (c : ascii) (b : list ascii) :
  (a ++ c :: b = (a ++ [c]) ++ b)%list.
Proof. now rewrite <- app_assoc. Qed.

Lemma length_snoc (a : list ascii) (c : ascii) :
  List.length (a ++ [c]) = S (List.length a).
Proof. rewrite length_app. simpl. lia. Qed.

(** The rest of a word, once its token is started. *)
Lemma scan_word_tail (w : list ascii) :
  forall done todo p txt toks found f,
    forallb ordinary w = true ->
    Z.of_nat (List.length done + List.length w) <= LINE_LEN ->
    scan (List.length w + f)
         (mk_tok (done ++ w ++ todo) (List.length done) false p false false txt toks true found)
    = scan f (mk_tok (done ++ w ++ todo) (List.length done + List.length w)
                     false p false false txt toks true found).
Proof.
  induction w as [|c w IH]; intros done todo p txt toks found f Ho Hl.
  - cbn [List.length Nat.add]. now rewrite Nat.add_0_r.
  - cbn [forallb] in Ho. apply andb_true_iff in Ho as [Hc Ho].
    cbn [List.length Nat.add] in *. cbn [app scan line i].
    rewrite line_at_mid. destruct (ordinary_tests c Hc) as [E0 _]. rewrite E0.
    rewrite scan_char_ordinary; [|rewrite line_at_mid; exact Hc|lia|now left].
    unfold with_i.
    cbn [line i in_doublequote paren_level in_quote set_in_quote in_txt token
         in_token found_nonblank_token].
    rewrite (app_snoc done c), <- (length_snoc done c).
    rewrite IH; [|exact Ho|rewrite length_snoc; lia].
    rewrite length_snoc. f_equal. f_equal. lia.
Qed.

(** A word read from its first character. *)
Lemma scan_word (w : list ascii) :
  forall done todo p txt toks found f,
    word w = true ->
    Z.of_nat (List.length done + List.length w) <= LINE_LEN ->
    Z.of_nat (List.length toks) < MAX_TOKENS ->
    scan (List.length w + f)
         (mk_tok (done ++ w ++ todo) (List.length done) false p false false txt toks false found)
    = scan f (mk_tok (done ++ w ++ todo) (List.length done + List.length w)
                     false p false false txt (toks ++ [LinePtr (List.length done)]) true true).
Proof.
  intros done todo p txt toks found f Hw Hl Ht.
  unfold word in Hw. apply andb_true_iff in Hw as [Hne Ho].
  destruct w as [|c w]; [discriminate|].
  cbn [forallb] in Ho. apply andb_true_iff in Ho as [Hc Ho].
  cbn [List.length Nat.add] in *. cbn [app scan line i].
  rewrite line_at_mid. destruct (ordinary_tests c Hc) as [E0 _]. rewrite E0.
  rewrite scan_char_ordinary; [|rewrite line_at_mid; exact Hc|lia|now right].
  unfold with_i.
  cbn [line i in_doublequote paren_level in_quote set_in_quote in_txt token
       in_token found_nonblank_token].
  rewrite (app_snoc done c), <- (length_snoc done c).
  rewrite scan_word_tail; [|exact Ho|rewrite length_snoc; lia].
  rewrite length_snoc. f_equal. f_equal. lia.
Qed.

(** A blank that is not the first character of the line. *)
Lemma scan_blank (done todo : list ascii) (p : Z) (txt : bool) (toks : list token_ptr)
      (tok found : bool) (f : nat) :
  done <> [] ->
  Z.of_nat (List.length done) < LINE_LEN ->
  scan (S f) (mk_tok (done ++ " "%char :: todo) (List.length done)
                     false p false false txt toks tok found)
  = scan f (mk_tok (done ++ nul :: todo) (S (List.length done))
                   false p false false txt toks false found).
Proof.
  intros Hd Hl. cbn [scan line i]. rewrite line_at_mid.
  change (" " =? nul)%char with false. cbv iota.
  unfold scan_char, escape_step. cbn [i line set_in_quote in_quote].
  destruct (Z.eqb_spec (Z.of_nat (List.length done)) LINE_LEN); [lia|].
  rewrite line_at_mid. change (" " =? "\")%char with false. cbn [andb].
  unfold syntax_step. cbn [i line in_doublequote andb]. rewrite line_at_mid.
  change (" " =? ";")%char with false. change (" " =? "(")%char with false.
  change (" " =? ")")%char with false. change (" " =? dquote)%char with false.
  change (" " =? " ")%char with true. cbn [orb].
  destruct (Nat.eqb_spec (List.length done) 0) as [E|E].
  { destruct done; [contradiction | discriminate]. }
  unfold end_token, cut_here, with_in_token, with_line, with_i.
  cbn [line i in_doublequote paren_level in_quote set_in_quote in_txt token in_token
       found_nonblank_token].
  now rewrite line_set_app.
Qed.

Lemma skipn_app_length (a b : list ascii) : skipn (List.length a) (a ++ b) = b.
Proof. induction a as [|x a IH]; [reflexivity | exact IH]. Qed.

Lemma c_str_terminated (w tail : list ascii) :
  forallb (fun c => negb (c =? nul)%char) w = true ->
  c_str (w ++ nul :: tail) = string_of_list_ascii w.
Proof.
  induction w as [|c w IH]; intros H; [reflexivity|].
  cbn [forallb] in H. apply andb_true_iff in H as [Hc H]. apply negb_true_iff in Hc.
  cbn [app c_str string_of_list_ascii]. rewrite Hc. now rewrite IH.
Qed.

Lemma ordinary_not_nul (w : list ascii) :
  forallb ordinary w = true -> forallb (fun c => negb (c =? nul)%char) w = true.
Proof.
  induction w as [|c w IH]; intros H; [reflexivity|].
  cbn [forallb] in *. apply andb_true_iff in H as [Hc H].
  destruct (ordinary_tests c Hc) as [E0 _]. rewrite E0. now rewrite IH.
Qed.

Lemma tokens_read_word (done w : list ascii) (toks : list token_ptr) (strs : list string) :
  forallb ordinary w = true ->
  tokens_read done toks strs ->
  tokens_read (done ++ w ++ [nul]) (toks ++ [LinePtr (List.length done)])
              (strs ++ [string_of_list_ascii w]).
Proof.
  intros Ho Hr tail. rewrite map_app. f_equal.
  - rewrite <- app_assoc. apply Hr.
  - cbn [map token_str]. rewrite <- !app_assoc. rewrite skipn_app_length.
    cbn [app]. now rewrite c_str_terminated by now apply ordinary_not_nul.
Qed.

Lemma length_spaced_cons (w : list ascii) (ws : list (list ascii)) :
  List.length (spaced (w :: ws)) = (List.length w + S (List.length (spaced ws)))%nat.
Proof. unfold spaced. cbn [flat_map]. rewrite !length_app. simpl. lia. Qed.

(** The words of a line, read one after the other. *)
Lemma scan_words (words : list (list ascii)) :
  forall done toks strs todo p txt found f,
    forallb word words = true ->
    tokens_read done toks strs ->
    Z.of_nat (List.length toks + List.length words) <= MAX_TOKENS ->
    Z.of_nat (List.length done + List.length (spaced words)) <= LINE_LEN ->
    exists done' toks',
      scan (List.length (spaced words) + f)
           (mk_tok (done ++ spaced words ++ todo) (List.length done)
                   false p false false txt toks false found)
      = scan f (mk_tok (done' ++ todo) (List.length done')
                       false p false false txt toks' false
                       (found || negb (Nat.eqb (List.length words) 0)))
      /\ tokens_read done' toks' (strs ++ map string_of_list_ascii words)
      /\ List.length done' = (List.length done + List.length (spaced words))%nat.
Proof.
  induction words as [|w ws IH]; intros done toks strs todo p txt found f Hw Hr Ht Hl.
  - exists done, toks. cbn. rewrite orb_false_r, app_nil_r, Nat.add_0_r. auto.
  - cbn [forallb] in Hw. apply andb_true_iff in Hw as [Hw Hws].
    rewrite length_spaced_cons in *. cbn [List.length] in Ht.
    assert (Hword := Hw). unfold word in Hword.
    apply andb_true_iff in Hword as [Hne Ho].
    assert (Hpos : (0 < List.length w)%nat) by (destruct w; [discriminate | simpl; lia]).
    unfold spaced at 2. cbn [flat_map]. fold (spaced ws).
    rewrite <- !app_assoc. cbn [app].
    replace (List.length w + S (List.length (spaced ws)) + f)%nat
      with (List.length w + S (List.length (spaced ws) + f))%nat by lia.
    rewrite scan_word; [|exact Hw|lia|lia].
    rewrite (app_assoc done w). rewrite <- (length_app done w).
    rewrite scan_blank;
      [|intros E; apply (f_equal (@List.length ascii)) in E; rewrite length_app in E;
        simpl in E; lia
       |rewrite length_app; lia].
    replace ((done ++ w) ++ nul :: spaced ws ++ todo)%list
      with ((done ++ w ++ [nul]) ++ spaced ws ++ todo)%list
      by (rewrite <- !app_assoc; reflexivity).
    replace (S (List.length (done ++ w))) with (List.length (done ++ w ++ [nul])%list)
      by (rewrite !length_app; simpl; lia).
    destruct (IH (done ++ w ++ [nul])%list (toks ++ [LinePtr (List.length done)])%list
                 (strs ++ [string_of_list_ascii w])%list todo p txt true f Hws
                 (tokens_read_word done w toks strs Ho Hr))
      as (done' & toks' & Hscan & Hread & Hlen).
    { rewrite length_app. simpl. lia. }
    { rewrite !length_app. simpl. lia. }
    exists done', toks'. split; [|split].
    + rewrite Hscan. cbn [List.length Nat.eqb negb orb]. now rewrite orb_true_r.
    + cbn [map]. rewrite <- app_assoc in Hread. exact Hread.
    + rewrite Hlen, !length_app. simpl. lia.
Qed.

(** A character between double quotes. *)
Lemma scan_quoted (body : list ascii) :
  forall done todo p txt toks tok found f,
    forallb quotable body = true ->
    Z.of_nat (List.length done + List.length body) <= LINE_LEN ->
    scan (List.length body + f)
         (mk_tok (done ++ body ++ todo) (List.length done) true p false false txt toks tok found)
    = scan f (mk_tok (done ++ body ++ todo) (List.length done + List.length body)
                     true p false false txt toks tok found).
Proof.
  induction body as [|c body IH]; intros done todo p txt toks tok found f Hq Hl.
  - cbn [List.length Nat.add]. now rewrite Nat.add_0_r.
  - cbn [forallb] in Hq. apply andb_true_iff in Hq as [Hc Hq].
    unfold quotable in Hc. repeat (apply andb_true_iff in Hc as [Hc ?]).
    repeat match goal with E : negb _ = true |- _ => apply negb_true_iff in E end.
    cbn [List.length Nat.add] in *. cbn [app scan line i].
    rewrite line_at_mid, Hc.
    unfold scan_char, escape_step. cbn [i line set_in_quote in_quote].
    destruct (Z.eqb_spec (Z.of_nat (List.length done)) LINE_LEN); [lia|].
    rewrite line_at_mid.
    match goal with E : (c =? "\")%char = false |- _ => rewrite E end. cbn [andb].
    unfold syntax_step. cbn [i line in_doublequote andb]. rewrite line_at_mid.
    match goal with E : (c =? dquote)%char = false |- _ => rewrite E end. cbn [negb].
    unfold with_i.
    cbn [line i in_doublequote paren_level in_quote set_in_quote in_txt token
         in_token found_nonblank_token].
    rewrite (app_snoc done c), <- (length_snoc done c).
    rewrite IH; [|exact Hq|rewrite length_snoc; lia].
    rewrite length_snoc. f_equal. f_equal. lia.
Qed.

Lemma last_token_read (done tail : list ascii) (toks : list token_ptr) (strs : list string)
      (s : tok_state) :
  tokens_read done toks strs ->
  line s = (done ++ tail)%list -> token s = toks ->
  last_token_str s = hd_error (rev strs).
Proof.
  intros Hr Hl Ht. unfold last_token_str. rewrite Hl, Ht, <- (Hr tail), <- map_rev.
  now destruct (rev toks).
Qed.

(** The first double quote of an entry, after the words. *)
Lemma scan_char_first_quote (done todo : list ascii) (p : Z) (toks : list token_ptr)
      (strs : list string) (tok found : bool) :
  tokens_read done toks strs ->
  Z.of_nat (List.length done) < LINE_LEN ->
  scan_char (mk_tok (done ++ dquote :: todo) (List.length done)
                    false p false false false toks tok found)
  = if match hd_error (rev strs) with Some t => strcaseeq t "txt" | None => false end
    then Next (mk_tok (done ++ nul :: todo) (List.length done) true p false false true
                      (toks ++ [LinePtr (S (List.length done))]) true found)
    else StepFatal m_improper_quotes.
Proof.
  intros Hr Hl. unfold scan_char, escape_step. cbn [i line set_in_quote in_quote].
  destruct (Z.eqb_spec (Z.of_nat (List.length done)) LINE_LEN); [lia|].
  rewrite line_at_mid. change (dquote =? "\")%char with false. cbn [andb].
  unfold syntax_step. cbn [i line in_doublequote andb]. rewrite line_at_mid.
  change (dquote =? ";")%char with false. change (dquote =? "(")%char with false.
  change (dquote =? ")")%char with false. change (dquote =? dquote)%char with true.
  cbv iota. unfold quote_step, cut_here, with_line.
  cbn [line i in_doublequote paren_level in_quote set_in_quote in_txt token
       in_token found_nonblank_token negb andb].
  rewrite line_set_app. unfold not_after_txt.
  erewrite (last_token_read done (nul :: todo) toks strs);
    [|exact Hr|reflexivity|reflexivity].
  destruct (hd_error (rev strs)) as [t|]; [|reflexivity].
  destruct (strcaseeq t "txt"); reflexivity.
Qed.

(** The double quote that closes a span. *)
Lemma scan_char_closing_quote (done todo : list ascii) (p : Z) (txt : bool)
      (toks : list token_ptr) (tok found : bool) :
  Z.of_nat (List.length done) < LINE_LEN ->
  scan_char (mk_tok (done ++ dquote :: todo) (List.length done)
                    true p false false txt toks tok found)
  = Next (mk_tok (done ++ nul :: todo) (List.length done) false p false false txt
                 toks false found).
Proof.
  intros Hl. unfold scan_char, escape_step. cbn [i line set_in_quote in_quote].
  destruct (Z.eqb_spec (Z.of_nat (List.length done)) LINE_LEN); [lia|].
  rewrite line_at_mid. change (dquote =? "\")%char with false. cbn [andb].
  unfold syntax_step. cbn [i line in_doublequote andb]. rewrite line_at_mid.
  change (dquote =? ";")%char with false. change (dquote =? "(")%char with false.
  change (dquote =? ")")%char with false. change (dquote =? dquote)%char with true.
  cbn [negb]. cbv iota. unfold quote_step, cut_here, with_line.
  cbn [line i in_doublequote paren_level in_quote set_in_quote in_txt token
       in_token found_nonblank_token negb andb].
  now rewrite line_set_app.
Qed.

(** The end of the line, outside quotes. *)
Lemma scan_char_newline (done todo : list ascii) (p : Z) (txt : bool)
      (toks : list token_ptr) (tok found : bool) :
  Z.of_nat (List.length done) < LINE_LEN ->
  scan_char (mk_tok (done ++ newline :: todo) (List.length done)
                    false p false false txt toks tok found)
  = Next (mk_tok (done ++ nul :: todo) (List.length done) false p false false txt
                 toks false found).
Proof.
  intros Hl. unfold scan_char, escape_step. cbn [i line set_in_quote in_quote].
  destruct (Z.eqb_spec (Z.of_nat (List.length done)) LINE_LEN); [lia|].
  rewrite line_at_mid. change (newline =? "\")%char with false. cbn [andb].
  unfold syntax_step. cbn [i line in_doublequote andb]. rewrite line_at_mid.
  change (newline =? ";")%char with false. change (newline =? "(")%char with false.
  change (newline =? ")")%char with false. change (newline =? dquote)%char with false.
  change (newline =? " ")%char with false. change (newline =? tab)%char with false.
  change (newline =? newline)%char with true. cbn [orb]. cbv iota.
  unfold end_token, cut_here, with_in_token, with_line.
  cbn [line i in_doublequote paren_level in_quote set_in_quote in_txt token
       in_token found_nonblank_token].
  now rewrite line_set_app.
Qed.

(** [fgets] on a line that fits the buffer. *)
Lemma fgets_read_line (pre rest : list ascii) (n : nat) :
  forallb (fun c => negb (c =? newline)%char) pre = true ->
  (List.length pre < n)%nat ->
  fgets_read n (pre ++ newline :: rest) = ((pre ++ [newline])%list, rest).
Proof.
  revert n. induction pre as [|c pre IH]; intros n Hp Hn.
  - destruct n; [lia|]. reflexivity.
  - destruct n; [simpl in Hn; lia|].
    cbn [forallb] in Hp. apply andb_true_iff in Hp as [Hc Hp]. apply negb_true_iff in Hc.
    cbn [app fgets_read]. rewrite Hc. rewrite IH; [reflexivity|exact Hp|simpl in Hn; lia].
Qed.

Lemma no_newline_spaced (words : list (list ascii)) :
  forallb word words = true ->
  forallb (fun c => negb (c =? newline)%char) (spaced words) = true.
Proof.
  induction words as [|w ws IH]; intros H; [reflexivity|].
  cbn [forallb] in H. apply andb_true_iff in H as [Hw Hws].
  unfold spaced. cbn [flat_map]. rewrite !forallb_app. fold (spaced ws).
  rewrite (IH Hws), andb_true_r. cbn [forallb]. rewrite ?andb_true_r.
  change (negb (" " =? newline)%char) with true. rewrite ?andb_true_r.
  unfold word in Hw. apply andb_true_iff in Hw as [_ Ho].
  clear -Ho. induction w as [|c w IHw]; [reflexivity|].
  cbn [forallb] in *. apply andb_true_iff in Ho as [Hc Ho].
  destruct (ordinary_tests c Hc) as (_&_&_&_&_&_&_&_&E&_). rewrite E. now apply IHw.
Qed.

Lemma no_newline_quoted (body : list ascii) :
  forallb quotable body = true ->
  forallb (fun c => negb (c =? newline)%char) body = true.
Proof.
  induction body as [|c body IH]; intros H; [reflexivity|].
  cbn [forallb] in *. apply andb_true_iff in H as [Hc H].
  unfold quotable in Hc. apply andb_true_iff in Hc as [_ Hc]. rewrite Hc. now apply IH.
Qed.

Lemma quotable_not_nul (body : list ascii) :
  forallb quotable body = true ->
  forallb (fun c => negb (c =? nul)%char) body = true.
Proof.
  induction body as [|c body IH]; intros H; [reflexivity|].
  cbn [forallb] in *. apply andb_true_iff in H as [Hc H].
  unfold quotable in Hc. repeat (apply andb_true_iff in Hc as [Hc ?]).
  rewrite Hc. now apply IH.
Qed.

Lemma fgets_line (pre : list ascii) :
  forallb (fun c => negb (c =? newline)%char) pre = true ->
  Z.of_nat (List.length pre) < LINE_LEN ->
  fgets (LINE_LEN + 1 - Z.of_nat 0) (pre ++ [newline]) = Some ((pre ++ [newline])%list, []).
Proof.
  intros Hp Hl. unfold fgets.
  destruct (Z.leb_spec (LINE_LEN + 1 - Z.of_nat 0) 1) as [H|H]; [unfold LINE_LEN in H; lia|].
  rewrite fgets_read_line; [|exact Hp|unfold LINE_LEN in *; lia].
  destruct pre; reflexivity.
Qed.

Lemma length_quoted_line (words : list (list ascii)) (body : list ascii) :
  List.length (quoted_line words body)
  = (List.length (spaced words) + S (List.length body + 2))%nat.
Proof. unfold quoted_line. rewrite length_app. cbn [List.length]. rewrite length_app. simpl. lia. Qed.

Lemma hd_last_word (words : list (list ascii)) :
  match hd_error (rev (map string_of_list_ascii words)) with
  | Some t => strcaseeq t "txt"
  | None => false
  end = last_word_is_txt words.
Proof. unfold last_word_is_txt. rewrite <- map_rev. now destruct (rev words). Qed.

Lemma scan_next (f : nat) (s s1 : tok_state) :
  (line_at (line s) (i s) =? nul)%char = false ->
  scan_char s = Next s1 ->
  scan (S f) s = scan f (with_i s1 (S (i s1))).
Proof. intros Hc Hs. cbn [scan]. now rewrite Hc, Hs. Qed.

Lemma scan_fatal (f : nat) (s : tok_state) (m : string) :
  (line_at (line s) (i s) =? nul)%char = false ->
  scan_char s = StepFatal m ->
  scan (S f) s = ScanFatal m.
Proof. intros Hc Hs. cbn [scan]. now rewrite Hc, Hs. Qed.

Lemma scan_end (f : nat) (l : list ascii) (p : Z) (dq q sq txt : bool)
      (toks : list token_ptr) (tok found : bool) :
  scan f (mk_tok l (List.length l) dq p q sq txt toks tok found)
  = ScanEnd (mk_tok l (List.length l) dq p q sq txt toks tok found).
Proof.
  destruct f; [reflexivity|]. cbn [scan line i].
  unfold line_at. now rewrite nth_overflow by lia.
Qed.

(** The scan of a whole line of words and a quoted text. *)
Lemma scan_quoted_line (words : list (list ascii)) (body : list ascii) :
  forallb word words = true ->
  forallb quotable body = true ->
  Z.of_nat (List.length words) <= MAX_TOKENS ->
  Z.of_nat (List.length (quoted_line words body)) <= LINE_LEN ->
  if last_word_is_txt words
  then exists l toks,
      scan (S (List.length (quoted_line words body)))
           (mk_tok (quoted_line words body) 0 false 0 false false false [] false false)
      = ScanEnd (mk_tok l (List.length l) false 0 false false true toks false true)
      /\ map (token_str l) toks
         = (map string_of_list_ascii words ++ [string_of_list_ascii body])%list
  else scan (S (List.length (quoted_line words body)))
            (mk_tok (quoted_line words body) 0 false 0 false false false [] false false)
       = ScanFatal m_improper_quotes.
Proof.
  intros Hw Hq Ht Hl. rewrite length_quoted_line in *.
  destruct (scan_words words [] [] [] (dquote :: body ++ [dquote; newline]) 0 false false
                       (S (S (List.length body + 2))) Hw)
    as (done & toks & Hscan & Hread & Hlen).
  { intros tail. reflexivity. }
  { simpl. lia. }
  { simpl. lia. }
  cbn [app List.length Nat.add] in Hscan, Hread, Hlen.
  replace (S (List.length (spaced words) + S (List.length body + 2)))
    with (List.length (spaced words) + S (S (List.length body + 2)))%nat by lia.
  unfold quoted_line. rewrite Hscan. clear Hscan.
  pose proof (scan_char_first_quote done (body ++ [dquote; newline]) 0 toks _ false
                (false || negb (Nat.eqb (List.length words) 0)) Hread ltac:(lia)) as Hfirst.
  rewrite hd_last_word in Hfirst.
  destruct (last_word_is_txt words) eqn:Etxt.
  2:{ apply scan_fatal; [cbn [line i]; now rewrite line_at_mid | exact Hfirst]. }
  assert (Hfound : false || negb (Nat.eqb (List.length words) 0) = true).
  { unfold last_word_is_txt in Etxt. destruct words; [discriminate | reflexivity]. }
  rewrite Hfound in Hfirst. rewrite Hfound.
  eexists. eexists. split.
  erewrite scan_next; [|cbn [line i]; now rewrite line_at_mid | exact Hfirst].
  unfold with_i.
  cbn [line i in_doublequote paren_level in_quote set_in_quote in_txt token
       in_token found_nonblank_token].
  set (t := LinePtr (S (List.length done))).
  rewrite (app_snoc done nul), <- (length_snoc done nul).
  replace (S (List.length body + 2)) with (List.length body + 3)%nat by lia.
  rewrite scan_quoted; [|exact Hq|rewrite length_snoc; lia].
  rewrite <- length_app. rewrite (app_assoc (done ++ [nul]) body).
  erewrite scan_next;
    [|cbn [line i]; now rewrite line_at_mid
     |apply scan_char_closing_quote; rewrite !length_app; simpl; lia].
  unfold with_i.
  cbn [line i in_doublequote paren_level in_quote set_in_quote in_txt token
       in_token found_nonblank_token].
  rewrite (app_snoc _ nul), <- (length_snoc _ nul).
  erewrite scan_next;
    [|cbn [line i]; now rewrite line_at_mid
     |apply scan_char_newline; rewrite !length_app; simpl; lia].
  unfold with_i.
  cbn [line i in_doublequote paren_level in_quote set_in_quote in_txt token
       in_token found_nonblank_token].
  rewrite (app_snoc _ nul []), <- (length_snoc _ nul), app_nil_r.
  rewrite scan_end. reflexivity.
  rewrite map_app. f_equal.
  - rewrite <- !app_assoc. apply Hread.
  - cbn [map token_str]. f_equal.
    rewrite <- (length_snoc done nul).
    rewrite <- (app_assoc (done ++ [nul]) body), <- (app_assoc (done ++ [nul])).
    rewrite skipn_app_length, <- app_assoc. cbn [app].
    now rewrite c_str_terminated by now apply quotable_not_nul.
Qed.

End WordsFacts.

(** C1, as the code behaves: when the input ends inside an open
    parenthesis, [tokenize] returns -1, the end-of-input value, and
    prints nothing; the entry is dropped and the run ends with status 0.
    The loop returns -1 at the end of the input whatever the nesting
    count is, and the message of line 469 is never printed. *)
Theorem open_paren_at_eof_returns_eof :
  result (tokenize (zone ("a A 1.2.3.4 (" ++ eol)) 1) = TokEOF
  /\ printed (tokenize (zone ("a A 1.2.3.4 (" ++ eol)) 1) = []
  /\ main "example.com" (zone ("a A 1.2.3.4 (" ++ eol)) = Exit 0 (Some "") []
  /\ (forall fuel s ln start d,
         Z.of_nat (i s) < LINE_LEN ->
         result (tokenize_loop (S fuel) s [] ln start d) = TokEOF)
  /\ (forall input ln,
         ~ In (FatalMsg m_open_paren_eof ln) (printed (tokenize input ln))).
Proof.
  split; [reflexivity|]. split; [reflexivity|]. split; [vm_compute; reflexivity|].
  split.
  - intros fuel s ln start d H. now rewrite Tokenizer.loop_at_eof.
  - intros input ln. apply Tokenizer.loop_never_reports_open_paren. intros [].
Qed.

Lemma open_paren_at_eof_returns_eof_witness :
  result (tokenize_loop 1 (with_paren_level tok_init 2) [] 5 4 []) = TokEOF.
Proof.
  apply (proj1 (proj2 (proj2 (proj2 open_paren_at_eof_returns_eof)))).
  vm_compute. reflexivity.
Defined.

(** C10, as the code behaves: the warnings of lines 458 to 463 are printed
    and nothing is reset.  Inside parentheses the quoted span stays open
    on the next line, so the token runs across the line end, and the
    pending escape takes the first character of the next line. *)
Theorem end_of_line_warnings_reset_nothing :
  tokenize (zone ("a TXT ( " ++ quo ++ "x" ++ eol ++ "y" ++ quo ++ " )" ++ eol)) 1
  = mk_tok_out (TokEntry ["a"; "TXT"; "x" ++ eol ++ "y"]) [] 3 1 [w_open_doublequote 1]
  /\ tokenize (zone ("( a\" ++ eol ++ "bc )" ++ eol)) 1
     = mk_tok_out (TokEntry ["a\"; "c"]) [] 3 1 [w_hanging_backslash 1].
Proof. split; vm_compute; reflexivity. Qed.

(** C5, counterexample, in both directions: the entry
    [a TXT "x"], whose first token is not TXT, is tokenized, and the entry
    [TXT a "x"], whose first token is TXT, is fatal. *)
Lemma quote_after_first_token_counterexample :
  result (tokenize (zone ("a TXT " ++ quo ++ "x" ++ quo ++ eol)) 1)
  = TokEntry ["a"; "TXT"; "x"]
  /\ strcaseeq "a" "TXT" = false
  /\ tokenize (zone ("TXT a " ++ quo ++ "x" ++ quo ++ eol)) 1
     = mk_tok_out TokFatal [] 1 1 [FatalMsg m_improper_quotes 1].
Proof. repeat split; vm_compute; reflexivity. Qed.

(** The body of the loop at an unescaped double quote outside a quoted
    span.  The store of lines 429 to 431 is not bounded by [MAX_TOKENS]:
    what is said of a quote that opens a span is said of a state whose
    token array has room. *)
Lemma quote_step_rule (s : tok_state) :
  line_at (line s) (i s) = dquote ->
  Z.of_nat (i s) <> LINE_LEN ->
  set_in_quote s = false -> in_quote s = false ->
  in_doublequote s = false ->
  (in_txt s = false ->
   (forall t, last_token_str (cut_here s) = Some t -> strcaseeq t "txt" = false) ->
   scan_char s = StepFatal m_improper_quotes)
  /\ (num_tokens s < MAX_TOKENS ->
      (scan_char s = StepFatal m_improper_quotes ->
       in_txt s = false
       /\ forall t, last_token_str (cut_here s) = Some t -> strcaseeq t "txt" = false)
      /\ (in_txt s = true
          \/ (exists t, last_token_str (cut_here s) = Some t /\ strcaseeq t "txt" = true) ->
          exists s', scan_char s = Next s'
                     /\ in_doublequote s' = true /\ in_txt s' = true /\ in_token s' = true
                     /\ token s' = (token s ++ [LinePtr (S (i s))])%list)).
Proof.
  intros Hc Hi Hs Hq Hd.
  assert (Hstep : scan_char s = quote_step s).
  { unfold scan_char, escape_step. apply Z.eqb_neq in Hi. rewrite Hi, Hs, Hc, Hq.
    cbn [negb andb]. change (dquote =? "\")%char with false. cbn [andb].
    unfold syntax_step. rewrite Hc, Hd. reflexivity. }
  rewrite Hstep. unfold quote_step.
  change (in_doublequote (cut_here s)) with (in_doublequote s).
  change (in_txt (cut_here s)) with (in_txt s). rewrite Hd.
  unfold not_after_txt.
  split; [|intros _; split].
  - intros Ht Hl. rewrite Ht. cbn [negb andb].
    destruct (last_token_str (cut_here s)) as [t|]; [|reflexivity].
    now rewrite (Hl t eq_refl).
  - intros H. destruct (in_txt s); [discriminate|]. split; [reflexivity|].
    intros t Ht. rewrite Ht in H. cbn [negb andb] in H.
    destruct (strcaseeq t "txt"); [discriminate | reflexivity].
  - intros H.
    assert (Hok : negb (in_txt s)
                  && match last_token_str (cut_here s) with
                     | Some t => negb (strcaseeq t "txt")
                     | None => true
                     end = false).
    { destruct H as [H|(t & Ht & Hl)]; [now rewrite H|].
      rewrite Ht, Hl. now destruct (in_txt s). }
    rewrite Hok. eexists. split; [reflexivity|].
    destruct (in_txt s) eqn:Et; cbn; rewrite ?Hd, ?Et; auto.
Qed.

(** C5, amended: an unescaped double quote outside a quoted span is fatal
    when the entry has not opened a double quote before and the token
    stored last, read up to the quote, is not TXT in any case (or there is
    no token yet); when the token array has room for one more token, it is
    fatal in that case only, and otherwise the quote opens a span and
    starts a new token after it.  The first token of the entry plays no
    part: a line of fewer than 32 words followed by a quoted text is
    tokenized into the words and the text when the last word is TXT in any
    case, and is fatal otherwise. *)
Theorem opening_quote_rule :
  (forall s,
      line_at (line s) (i s) = dquote ->
      Z.of_nat (i s) <> LINE_LEN ->
      set_in_quote s = false -> in_quote s = false ->
      in_doublequote s = false ->
      (in_txt s = false ->
       (forall t, last_token_str (cut_here s) = Some t -> strcaseeq t "txt" = false) ->
       scan_char s = StepFatal m_improper_quotes)
      /\ (num_tokens s < MAX_TOKENS ->
          (scan_char s = StepFatal m_improper_quotes ->
           in_txt s = false
           /\ forall t, last_token_str (cut_here s) = Some t -> strcaseeq t "txt" = false)
          /\ (in_txt s = true
              \/ (exists t, last_token_str (cut_here s) = Some t
                            /\ strcaseeq t "txt" = true) ->
              exists s', scan_char s = Next s'
                         /\ in_doublequote s' = true /\ in_txt s' = true
                         /\ in_token s' = true
                         /\ token s' = (token s ++ [LinePtr (S (i s))])%list)))
  /\ (forall words body ln,
         forallb Words.word words = true ->
         forallb Words.quotable body = true ->
         Z.of_nat (List.length words) < MAX_TOKENS ->
         Z.of_nat (List.length (Words.quoted_line words body)) <= LINE_LEN ->
         tokenize (Words.quoted_line words body) ln
         = if Words.last_word_is_txt words
           then mk_tok_out
                  (TokEntry (map string_of_list_ascii words ++ [string_of_list_ascii body]))
                  [] (ln + 1) ln []
           else mk_tok_out TokFatal [] ln ln [FatalMsg m_improper_quotes ln]).
Proof.
  split; [exact quote_step_rule|].
  intros words body ln Hw Hq Ht Hl. apply Z.lt_le_incl in Ht.
  pose proof (WordsFacts.scan_quoted_line words body Hw Hq Ht Hl) as Hscan.
  assert (Hgets : fgets (LINE_LEN + 1 - Z.of_nat 0) (Words.quoted_line words body)
                  = Some (Words.quoted_line words body, [])).
  { assert (Hline : Words.quoted_line words body
                    = ((Words.spaced words ++ dquote :: body ++ [dquote]) ++ [newline])%list).
    { unfold Words.quoted_line. rewrite <- !app_assoc. cbn [app].
      rewrite <- !app_assoc. reflexivity. }
    rewrite Hline. apply WordsFacts.fgets_line.
    - rewrite forallb_app, WordsFacts.no_newline_spaced by exact Hw. cbn [forallb andb].
      change (negb (dquote =? newline)%char) with true. cbn [andb].
      rewrite forallb_app, WordsFacts.no_newline_quoted by exact Hq. reflexivity.
    - rewrite Hline in Hl. rewrite length_app in Hl. simpl in Hl. lia. }
  unfold tokenize. cbn [tokenize_loop]. change (i tok_init) with 0%nat.
  rewrite Hgets.
  change (with_line tok_init (firstn 0 (line tok_init) ++ Words.quoted_line words body))
    with (mk_tok (Words.quoted_line words body) 0 false 0 false false false [] false false).
  destruct (Words.last_word_is_txt words).
  - destruct Hscan as (l & toks & Hs & Hm). rewrite Hs.
    unfold end_of_line_warnings.
    cbn [paren_level Z.eqb negb found_nonblank_token line token in_quote in_doublequote app].
    now rewrite Hm.
  - now rewrite Hscan.
Qed.

Lemma opening_quote_rule_witness :
  (exists s', scan_char (scanned 6 (zone ("a TXT " ++ quo ++ "x" ++ quo ++ eol))) = Next s'
              /\ in_doublequote s' = true /\ in_txt s' = true /\ in_token s' = true
              /\ token s' = [LinePtr 0; LinePtr 2; LinePtr 7])
  /\ scan_char (scanned 6 (zone ("TXT a " ++ quo ++ "x" ++ quo ++ eol)))
     = StepFatal m_improper_quotes
  /\ tokenize (Words.quoted_line [zone "www"; zone "300"; zone "Txt"] (zone "v=spf1 -all")) 1
     = mk_tok_out (TokEntry ["www"; "300"; "Txt"; "v=spf1 -all"]) [] 2 1 []
  /\ tokenize (Words.quoted_line [zone "TXT"; zone "www"] (zone "v=spf1 -all")) 1
     = mk_tok_out TokFatal [] 1 1 [FatalMsg m_improper_quotes 1].
Proof.
  split; [|split; [|split]].
  - apply (proj2 (proj2 (proj1 opening_quote_rule
                               (scanned 6 (zone ("a TXT " ++ quo ++ "x" ++ quo ++ eol)))
                               eq_refl ltac:(vm_compute; discriminate)
                               eq_refl eq_refl eq_refl)
                        ltac:(vm_compute; reflexivity))).
    right. exists "TXT". split; reflexivity.
  - apply (proj1 (proj1 opening_quote_rule
                        (scanned 6 (zone ("TXT a " ++ quo ++ "x" ++ quo ++ eol)))
                        eq_refl ltac:(vm_compute; discriminate) eq_refl eq_refl eq_refl)).
    + reflexivity.
    + intros t Ht. vm_compute in Ht. injection Ht as <-. reflexivity.
  - apply (proj2 opening_quote_rule [zone "www"; zone "300"; zone "Txt"]
                 (zone "v=spf1 -all") 1);
      [reflexivity | reflexivity | vm_compute; reflexivity | vm_compute; discriminate].
  - apply (proj2 opening_quote_rule [zone "TXT"; zone "www"] (zone "v=spf1 -all") 1);
      [reflexivity | reflexivity | vm_compute; reflexivity | vm_compute; discriminate].
Defined.

(** ** The entry handler *)

Module Entry.

(** An entry of three tokens does not reach the [$GENERATE] loop, so the
    call made inside that loop makes no further call. *)
Lemma three_tokens_no_call
      (f g : Z -> list string -> run_state -> run (Z * run_state))
      (top_origin : string_t) (sln : Z) (tokens : list string) (st : run_state) :
  List.length tokens = 3%nat ->
  handle_entry_with f top_origin sln tokens st
  = handle_entry_with g top_origin sln tokens st.
Proof.
  intros H. unfold handle_entry_with, handle_generate. rewrite H.
  repeat match goal with
         | |- (if ?b then _ else _) = (if ?b then _ else _) => destruct b; try reflexivity
         end.
Qed.

(** With a default TTL within the bound, a TTL token that parses is
    taken as it is: lines 747 and 758 test the default TTL. *)
Lemma parsed_ttl_not_checked (sln : Z) (tokens : list string) (st : run_state) (v : Z) :
  str_to_uint (tk tokens 1) true = Ok v ->
  u32 (ttl st) <= 2147483646 ->
  rr_ttl_class sln tokens st
  = Go (v, if strcaseeq (tk tokens 2) "IN" then 3 else 2) "" [].
Proof.
  intros Hv Ht. unfold rr_ttl_class. rewrite Hv. cbn [probe ret bind].
  destruct (Z.gtb_spec (u32 (ttl st)) 2147483646); [lia|]. reflexivity.
Qed.

(** A record whose first token is the blank token is handled without a
    look at the top origin. *)
Lemma blank_owner_ignores_top (top top' : string_t) (sln : Z) (tokens : list string)
      (st : run_state) :
  tk tokens 0 = " " ->
  handle_entry top sln tokens st = handle_entry top' sln tokens st.
Proof.
  intros H. unfold handle_entry, handle_entry_with. rewrite H.
  destruct (Z.of_nat (List.length tokens) =? 0); [reflexivity|].
  cbn [strcaseeq tolower]. cbn -[handle_rr handle_generate].
  unfold handle_rr, rr_owner. rewrite H. reflexivity.
Qed.

(** A token that does not start with a dollar sign is none of the
    directives. *)
Lemma not_a_directive (t d : string) :
  (char_at t 0 =? "$")%char = false ->
  strcaseeq t (String "$" d) = false.
Proof.
  destruct t as [|c t]; [reflexivity|]. unfold char_at. cbn [Z.ltb Z.compare Z.to_nat String.get].
  intros H. cbn [strcaseeq]. apply andb_false_iff. left.
  apply Ascii.eqb_neq. intros E. apply Ascii.eqb_neq in H. apply H.
  change (tolower "$") with "$"%char in E. unfold tolower in E.
  destruct ((65 <=? code c) && (code c <=? 90)) eqn:Eu; [|exact E].
  apply andb_true_iff in Eu as [H1 H2]. apply Z.leb_le in H1. apply Z.leb_le in H2.
  apply (f_equal code) in E. rewrite SanitizeFacts.code_chr in E by lia.
  change (code "$") with 36 in E. lia.
Qed.

(** A record whose owner is given and lies outside the zone: the warning
    is printed, nothing is written, 1 is returned, and the state is left
    with the owner just qualified. *)
Lemma out_of_zone_outcome (top : string_t) (sln : Z) (tokens : list string)
      (st : run_state) (o : string_t) :
  (3 <= List.length tokens)%nat ->
  (char_at (tk tokens 0) 0 =? "$")%char = false ->
  tk tokens 0 <> " " ->
  qualify_domain (tk tokens 0) (Some (cur_origin st)) = Ok o ->
  out_of_zone top o = true ->
  handle_entry top sln tokens st = Go (1, with_owner st o) "" [Warning m_out_of_zone sln].
Proof.
  intros Hn Hd Hb Hq Hz. unfold handle_entry, handle_entry_with.
  destruct (Z.eqb_spec (Z.of_nat (List.length tokens)) 0); [lia|].
  rewrite !not_a_directive by exact Hd. rewrite Hd.
  unfold handle_rr, rr_owner.
  destruct (Z.ltb_spec (Z.of_nat (List.length tokens)) 3); [lia|].
  apply String.eqb_neq in Hb. rewrite Hb, Hq. cbn [negb or_fatal ret bind check].
  cbn [owner with_owner]. rewrite Hz. reflexivity.
Qed.

(** A record that inherits its owner is handled by the steps after the
    owner, in the state as it is. *)
Lemma blank_owner_outcome (top : string_t) (sln : Z) (tokens : list string)
      (st : run_state) :
  (3 <= List.length tokens)%nat ->
  tk tokens 0 = " " ->
  prev_owner st = true ->
  handle_entry top sln tokens st
  = (p <- rr_ttl_class sln tokens st ;;
     if snd p >=? Z.of_nat (List.length tokens) then Unspecified
     else rr_rdata sln tokens st (fst p) (snd p) ;;; ret (0, st)).
Proof.
  intros Hn Hb Hp. unfold handle_entry, handle_entry_with.
  destruct (Z.eqb_spec (Z.of_nat (List.length tokens)) 0); [lia|].
  rewrite Hb. cbn [strcaseeq tolower]. cbn -[handle_rr handle_generate].
  unfold handle_rr, rr_owner. rewrite Hb, Hp.
  destruct (Z.ltb_spec (Z.of_nat (List.length tokens)) 3); [lia|].
  cbn [String.eqb Ascii.eqb Bool.eqb negb check ret bind app].
  destruct (rr_ttl_class sln tokens st) as [d| |[local_ttl next] out d]; try reflexivity.
  cbn [bind fst snd append].
  destruct (next >=? Z.of_nat (List.length tokens)); [reflexivity|].
  destruct (rr_rdata sln tokens st local_ttl next) as [d2| |u out2 d2]; reflexivity.
Qed.

End Entry.

(** C3, as the code behaves: a TTL token that parses to a value above
    2147483646 is not refused, in either order of TTL and class; the record
    is written with that TTL.  The test of lines 747 and 758 reads the
    default TTL, so with a default within the bound every TTL token that
    parses is taken. *)
Theorem rr_ttl_above_bound_emitted :
  str_to_uint "3000000000" true = Ok 3000000000
  /\ handle_entry example_origin 1 ["a"; "3000000000"; "A"; "1.2.3.4"]
                  (init_state example_origin)
     = Go (0, mk_run example_origin DEFAULT_TTL (mk_string "a.example.com." 14 14) true)
          ("+a.example.com.:1.2.3.4:-1294967296" ++ eol) []
  /\ handle_entry example_origin 1 ["a"; "IN"; "2147483647"; "A"; "1.2.3.4"]
                  (init_state example_origin)
     = Go (0, mk_run example_origin DEFAULT_TTL (mk_string "a.example.com." 14 14) true)
          ("+a.example.com.:1.2.3.4:2147483647" ++ eol) []
  /\ main "example.com" (zone ("a 3000000000 A 1.2.3.4" ++ eol))
     = Exit 0 (Some ("+a.example.com.:1.2.3.4:-1294967296" ++ eol)) []
  /\ (forall sln tokens st v,
         str_to_uint (tk tokens 1) true = Ok v ->
         u32 (ttl st) <= 2147483646 ->
         rr_ttl_class sln tokens st
         = Go (v, if strcaseeq (tk tokens 2) "IN" then 3 else 2) "" []).
Proof.
  split; [reflexivity|]. split; [vm_compute; reflexivity|].
  split; [vm_compute; reflexivity|]. split; [vm_compute; reflexivity|].
  exact Entry.parsed_ttl_not_checked.
Qed.

Lemma rr_ttl_above_bound_emitted_witness :
  rr_ttl_class 1 ["a"; "4000000000"; "IN"; "A"; "1.2.3.4"] (init_state example_origin)
  = Go (4000000000, 3) "" [].
Proof.
  apply (proj2 (proj2 (proj2 (proj2 rr_ttl_above_bound_emitted)))
               1 ["a"; "4000000000"; "IN"; "A"; "1.2.3.4"] (init_state example_origin)).
  - reflexivity.
  - vm_compute. discriminate.
Defined.

(** C4, as the code behaves: an owner outside the zone is stored in the
    static [owner] before the zone test, and the early return leaves it
    there.  The record itself prints the warning and writes nothing, but a
    later record that inherits its owner is written under the name that
    was outside the zone. *)
Theorem out_of_zone_owner_is_stored :
  (forall top sln tokens st o,
      (3 <= List.length tokens)%nat ->
      (char_at (tk tokens 0) 0 =? "$")%char = false ->
      tk tokens 0 <> " " ->
      qualify_domain (tk tokens 0) (Some (cur_origin st)) = Ok o ->
      out_of_zone top o = true ->
      handle_entry top sln tokens st
      = Go (1, with_owner st o) "" [Warning m_out_of_zone sln])
  /\ main "example.com"
          (zone ("a A 1.2.3.4" ++ eol ++ "b.other.org. A 1.2.3.4" ++ eol ++
                 " A 1.2.3.5" ++ eol))
     = Exit 0 (Some ("+a.example.com.:1.2.3.4:86400" ++ eol ++
                     "+b.other.org.:1.2.3.5:86400" ++ eol))
            [Warning m_out_of_zone 2].
Proof. split; [exact Entry.out_of_zone_outcome | vm_compute; reflexivity]. Qed.

Lemma out_of_zone_owner_is_stored_witness :
  handle_entry example_origin 2 ["b.other.org."; "A"; "1.2.3.4"]
               (mk_run example_origin DEFAULT_TTL (mk_string "a.example.com." 14 14) true)
  = Go (1, mk_run example_origin DEFAULT_TTL (mk_string "b.other.org." 12 12) true)
       "" [Warning m_out_of_zone 2].
Proof.
  apply (proj1 out_of_zone_owner_is_stored example_origin 2
               ["b.other.org."; "A"; "1.2.3.4"]
               (mk_run example_origin DEFAULT_TTL (mk_string "a.example.com." 14 14) true)
               (mk_string "b.other.org." 12 12)).
  - simpl. lia.
  - reflexivity.
  - discriminate.
  - reflexivity.
  - reflexivity.
Defined.

(** * Further properties of the code *)

(** ** sanitize_string: the text returned *)

Lemma Ok_inj {A : Type} (a b : A) : Ok a = Ok b -> a = b.
Proof. intros H. now injection H. Qed.

Module EncodedFacts.

Import Sanitize SanitizeFacts Encoded.

Lemma encoded_app_bounded (n : nat) :
  forall a b, (String.length a <= n)%nat -> well_encoded a = true ->
              well_encoded (a ++ b) = well_encoded b
              /\ units (a ++ b) = units a + units b.
Proof.
  induction n as [|n IH]; intros a b Hn Ha.
  - destruct a; [split; reflexivity | simpl in Hn; lia].
  - destruct a as [|c a]; [split; reflexivity|].
    cbn [well_encoded] in Ha. cbn [append well_encoded units]. simpl in Hn.
    destruct (plain c) eqn:Ec.
    + rewrite (plain_not_backslash c Ec).
      destruct (IH a b ltac:(lia) Ha) as [H1 H2]. split; [exact H1 | lia].
    + destruct (ch_is c "\") eqn:Eb; [|discriminate].
      destruct a as [|c1 [|c2 [|c3 a]]]; try discriminate.
      cbn [append]. simpl in Hn.
      apply andb_true_iff in Ha as [Ha Hsame]. apply andb_true_iff in Ha as [Ha H3].
      apply andb_true_iff in Ha as [Hc1 Hc2].
      destruct (IH a b ltac:(lia) Hsame) as [Hs Hu].
      split; [|lia]. now rewrite Hs, Hc1, Hc2, H3.
Qed.

Lemma encoded_app (a b : string) :
  well_encoded a = true -> well_encoded (a ++ b) = well_encoded b.
Proof. intros H. now apply (encoded_app_bounded (String.length a)). Qed.

Lemma encoded_units_app (a b : string) :
  well_encoded a = true -> units (a ++ b) = units a + units b.
Proof. intros H. now apply (encoded_app_bounded (String.length a)). Qed.

(** The four bytes stored for a value of a [char] or of a decimal
    escape are a backslash and three octal digits. *)
Lemma escape4_encoded_all :
  forallb (fun n => well_encoded (escape4 (Z.of_nat n - 128))
                    && (units (escape4 (Z.of_nat n - 128)) =? 1)
                    && (strlen (escape4 (Z.of_nat n - 128)) =? 4))
          (seq 0 384) = true.
Proof. vm_compute. reflexivity. Qed.

Lemma escape4_encoded (v : Z) :
  -128 <= v <= 255 ->
  well_encoded (escape4 v) = true /\ units (escape4 v) = 1 /\ strlen (escape4 v) = 4.
Proof.
  intros H. pose proof escape4_encoded_all as Hall. rewrite forallb_forall in Hall.
  specialize (Hall (Z.to_nat (v + 128))).
  replace (Z.of_nat (Z.to_nat (v + 128)) - 128) with v in Hall by lia.
  assert (Hin : In (Z.to_nat (v + 128)) (seq 0 384)) by (apply in_seq; lia).
  apply Hall in Hin. apply andb_true_iff in Hin as [Hin H3].
  apply andb_true_iff in Hin as [H1 H2].
  apply Z.eqb_eq in H2, H3. auto.
Qed.

Lemma shaped_put_char (t : string_t) (c : ascii) :
  shaped t -> len t <> DOMAIN_LEN -> plain c = true -> shaped (put_char t c).
Proof.
  intros (Hs & Hu & Hr & Hb) Hl Hc. unfold shaped, put_char. cbn [text len real_len].
  rewrite (encoded_app _ _ Hs), (encoded_units_app _ _ Hs). cbn [well_encoded units].
  rewrite Hc, (plain_not_backslash c Hc). unfold strlen in *.
  rewrite length_append. cbn [String.length]. repeat split; lia.
Qed.

Lemma shaped_put_octal (t : string_t) (v : Z) :
  shaped t -> len t <> DOMAIN_LEN -> -128 <= v <= 255 -> shaped (put_octal t v).
Proof.
  intros (Hs & Hu & Hr & Hb) Hl Hv. unfold shaped.
  change (text (put_octal t v)) with (text t ++ escape4 v).
  destruct (escape4_encoded v Hv) as (E1 & E2 & E3).
  rewrite (encoded_app _ _ Hs), (encoded_units_app _ _ Hs), E1, E2.
  unfold strlen in *. rewrite length_append. cbn [len real_len put_octal].
  repeat split; lia.
Qed.

(** A property of [temp] that storing a plain character and storing an
    escape keep is kept by the loop. *)
Lemma loop_keeps (I : string_t -> Prop) :
  (forall t c, I t -> len t <> DOMAIN_LEN -> plain c = true -> I (put_char t c)) ->
  (forall t v, I t -> len t <> DOMAIN_LEN -> -128 <= v <= 255 -> I (put_octal t v)) ->
  forall n src t r,
    (String.length src <= n)%nat -> I t -> sanitize_loop src t = Ok r -> I r.
Proof.
  intros Hchar Hoct.
  induction n as [|n IH]; intros src t r Hn Ht Hr.
  - destruct src; simpl in Hn; [|lia]. simpl in Hr. now inversion Hr; subst.
  - destruct src as [|c rest]; simpl in Hr; [now inversion Hr; subst|].
    simpl in Hn. pose proof (schar_range c) as Rc.
    split_if Hr El; [discriminate|]. apply Z.eqb_neq in El.
    split_if Hr Ec.
    { eapply (IH rest); [lia| |exact Hr]. now apply Hchar. }
    split_if Hr Eb.
    2:{ eapply (IH rest); [lia| |exact Hr]. apply Hoct; auto; lia. }
    destruct rest as [|c1 rest1]; [discriminate|]. simpl in Hn.
    pose proof (schar_range c1) as Rc1.
    split_if Hr Ed.
    { split_if Hr E1.
      - eapply (IH rest1); [lia| |exact Hr]. apply Hoct; auto; lia.
      - eapply (IH rest1); [lia| |exact Hr].
        apply Hchar; auto using plain_escaped. }
    destruct rest1 as [|c2 [|c3 rest3]]; try discriminate. simpl in Hn.
    split_if Hr E23; [|discriminate].
    split_if Hr Eg; [discriminate|].
    apply negb_false_iff in Ed. apply isdigit_range in Ed.
    apply andb_true_iff in E23 as [E2 E3].
    apply isdigit_range in E2. apply isdigit_range in E3.
    assert (Hnum : -128 <= (schar c1 - 48) * 100 + (schar c2 - 48) * 10 + (schar c3 - 48)
                   <= 255).
    { destruct (Z.gtb_spec ((schar c1 - 48) * 100 + (schar c2 - 48) * 10 + (schar c3 - 48))
                           255); [discriminate | lia]. }
    split_if Hr Ep.
    + eapply (IH rest3); [lia| |exact Hr].
      apply Hchar; auto using plain_chr.
    + eapply (IH rest3); [lia| |exact Hr]. now apply Hoct.
Qed.

Lemma encoded_length_bounded (n : nat) :
  forall s, (String.length s <= n)%nat -> well_encoded s = true ->
            units s <= strlen s <= 4 * units s.
Proof.
  unfold strlen.
  induction n as [|n IH]; intros s Hn Hs.
  - destruct s; [simpl; lia | simpl in Hn; lia].
  - destruct s as [|c s]; [simpl; lia|].
    cbn [well_encoded] in Hs. cbn [units String.length]. simpl in Hn.
    destruct (plain c) eqn:Ec.
    + rewrite (plain_not_backslash c Ec). specialize (IH s ltac:(lia) Hs). lia.
    + destruct (ch_is c "\") eqn:Eb; [|discriminate].
      destruct s as [|c1 [|c2 [|c3 s]]]; try discriminate.
      apply andb_true_iff in Hs as [_ Hs]. simpl in Hn.
      specialize (IH s ltac:(lia) Hs). cbn [String.length]. lia.
Qed.

(** A plain prefix within the length budget is copied. *)
Lemma loop_plain_prefix (s rest : string) :
  forall t,
    all_plain s = true -> len t + strlen s <= DOMAIN_LEN ->
    sanitize_loop (s ++ rest) t
    = sanitize_loop rest
        (mk_string (text t ++ s) (len t + strlen s) (real_len t + strlen s)).
Proof.
  unfold strlen.
  induction s as [|c s IH]; intros t Hp Hl; cbn [append].
  - cbn [String.length Z.of_nat]. rewrite append_nil_r, !Z.add_0_r. now destruct t.
  - simpl in Hp, Hl. apply andb_true_iff in Hp as [Hc Hp].
    cbn [sanitize_loop].
    replace (len t =? DOMAIN_LEN) with false by (symmetry; apply Z.eqb_neq; lia).
    change (isprint (schar c) && negb (ch_is c "\") && negb (ch_is c ":"))
      with (plain c).
    rewrite Hc.
    rewrite IH; [|exact Hp|simpl; lia].
    unfold put_char; cbn [text len real_len]. rewrite append_assoc. cbn [append String.length].
    f_equal. f_equal; lia.
Qed.

Lemma escape4_octal3_all :
  forallb (fun n => String.eqb (escape4 (Z.of_nat n)) (String "\" (octal3 (Z.of_nat n))))
          (seq 0 256) = true.
Proof. vm_compute. reflexivity. Qed.

Lemma escape4_octal3 (n : Z) : 0 <= n <= 255 -> escape4 n = String "\" (octal3 n).
Proof.
  intros H. pose proof escape4_octal3_all as Hall. rewrite forallb_forall in Hall.
  specialize (Hall (Z.to_nat n)). rewrite Z2Nat.id in Hall by lia.
  apply String.eqb_eq. apply Hall. apply in_seq. lia.
Qed.

Lemma schar_digit (d : Z) : 0 <= d <= 9 -> schar (chr (48 + d)) = 48 + d.
Proof. intros H. apply schar_chr. lia. Qed.

Lemma isdigit_digit (d : Z) : 0 <= d <= 9 -> isdigit (48 + d) = true.
Proof. intros H. unfold isdigit. apply andb_true_iff; split; apply Z.leb_le; lia. Qed.

(** One decimal escape: the byte it names is stored. *)
Lemma loop_decimal_escape (n : Z) (rest : string) (t : string_t) :
  0 <= n <= 255 -> len t <> DOMAIN_LEN ->
  sanitize_loop (String "\" (decimal3 n ++ rest)) t
  = sanitize_loop rest
      (mk_string (text t ++ encoding n) (len t + 1) (real_len t + strlen (encoding n))).
Proof.
  intros Hn Hl. unfold decimal3. cbn [append sanitize_loop].
  replace (len t =? DOMAIN_LEN) with false by (symmetry; now apply Z.eqb_neq).
  change (isprint (schar "\") && negb (ch_is "\" "\") && negb (ch_is "\" ":")) with false.
  change (ch_is "\" "\") with true. cbv iota.
  assert (H1 : 0 <= n / 100 <= 9) by (Z.div_mod_to_equations; lia).
  assert (H2 : 0 <= (n / 10) mod 10 <= 9) by (Z.div_mod_to_equations; lia).
  assert (H3 : 0 <= n mod 10 <= 9) by (Z.div_mod_to_equations; lia).
  rewrite !schar_digit by assumption. rewrite !isdigit_digit by assumption.
  cbn [negb andb].
  replace ((48 + n / 100 - 48) * 100 + (48 + (n / 10) mod 10 - 48) * 10 + (48 + n mod 10 - 48))
    with n by (Z.div_mod_to_equations; lia).
  destruct (Z.gtb_spec n 255); [lia|].
  unfold encoding, literal.
  destruct (isprint n && negb (n =? 58) && negb (n =? 46) && negb (n =? 92)).
  - unfold put_char. unfold strlen. cbn [String.length]. reflexivity.
  - unfold put_octal. fold (escape4 n). rewrite escape4_octal3 by lia.
    unfold strlen, octal3. cbn [String.length]. reflexivity.
Qed.

(** One raw character that is not plain and not the backslash: its value
    as a [char] is stored as an escape. *)
Lemma loop_raw (c : ascii) (rest : string) (t : string_t) :
  plain c = false -> ch_is c "\" = false -> len t <> DOMAIN_LEN ->
  sanitize_loop (String c rest) t = sanitize_loop rest (put_octal t (schar c)).
Proof.
  intros Hc Hb Hl. cbn [sanitize_loop].
  replace (len t =? DOMAIN_LEN) with false by (symmetry; now apply Z.eqb_neq).
  change (isprint (schar c) && negb (ch_is c "\") && negb (ch_is c ":")) with (plain c).
  now rewrite Hc, Hb.
Qed.

Lemma schar_low (c : ascii) : code c < 128 -> schar c = code c.
Proof. intros H. unfold schar. destruct (Z.ltb_spec (code c) 128); lia. Qed.

Lemma code_range (c : ascii) : 0 <= code c < 256.
Proof. unfold code. pose proof (N_ascii_bounded c). lia. Qed.

End EncodedFacts.

(** X1: [sanitize_string] returns a text of plain characters that is at
    most 255 characters long as it is, with both lengths the length of the
    text. *)
Theorem sanitize_string_plain_identity (s : string) :
  Sanitize.all_plain s = true ->
  strlen s <= DOMAIN_LEN ->
  sanitize_string s = Ok (mk_string s (strlen s) (strlen s)).
Proof.
  intros Hp Hl. unfold sanitize_string.
  rewrite SanitizeFacts.loop_plain by (cbn [len empty_string_t]; auto; lia).
  reflexivity.
Qed.

Lemma sanitize_string_plain_identity_witness :
  sanitize_string "mail.example.com." = Ok (mk_string "mail.example.com." 17 17).
Proof.
  apply (sanitize_string_plain_identity "mail.example.com."); vm_compute;
    [reflexivity | discriminate].
Defined.

(** X2: once 255 characters have been stored any further character of the
    input makes [sanitize_string] fail with the warning that the string is
    too long. *)
Theorem sanitize_string_too_long (pre more : string) :
  Sanitize.all_plain pre = true ->
  strlen pre = DOMAIN_LEN ->
  more <> "" ->
  sanitize_string (pre ++ more) = Err [w_too_long].
Proof.
  intros Hp Hl Hm. unfold sanitize_string.
  rewrite EncodedFacts.loop_plain_prefix by (cbn [len empty_string_t]; auto; lia).
  destruct more as [|c more]; [congruence|].
  cbn [sanitize_loop len empty_string_t]. rewrite Hl. reflexivity.
Qed.

Lemma sanitize_string_too_long_witness :
  sanitize_string (repeat_char "a" 255 ++ "b") = Err [w_too_long].
Proof.
  apply (sanitize_string_too_long (repeat_char "a" 255) "b");
    [vm_compute; reflexivity | vm_compute; reflexivity | discriminate].
Defined.

(** X3: when [sanitize_string] writes inside its buffer, what it returns
    is a text in the convention of the output: plain characters (printable,
    no backslash, no colon) and escapes of a backslash and three octal
    digits.  [len] counts its characters and escapes and is at most 255,
    [real_len] is the number of bytes of the text and lies between [len]
    and four times [len]. *)
Theorem sanitize_string_output_shape (x : string) (r : string_t) :
  Bounds.inside x = true ->
  sanitize_string x = Ok r ->
  Encoded.well_encoded (text r) = true
  /\ len r = Sanitize.units (text r)
  /\ real_len r = strlen (text r)
  /\ 0 <= len r <= DOMAIN_LEN
  /\ len r <= real_len r <= 4 * len r.
Proof.
  intros _ H. unfold sanitize_string in H.
  assert (Hs : Encoded.shaped r).
  { apply (EncodedFacts.loop_keeps Encoded.shaped EncodedFacts.shaped_put_char
             EncodedFacts.shaped_put_octal (String.length x) x empty_string_t r);
      [apply le_n | | exact H].
    unfold Encoded.shaped. cbn. repeat split; try reflexivity; discriminate. }
  destruct Hs as (H1 & H2 & H3 & H4). repeat split; try assumption; try lia.
  - rewrite H2, H3. apply (EncodedFacts.encoded_length_bounded (String.length (text r)));
      [apply le_n | exact H1].
  - rewrite H2, H3. apply (EncodedFacts.encoded_length_bounded (String.length (text r)));
      [apply le_n | exact H1].
Qed.

Lemma sanitize_string_output_shape_witness :
  Encoded.well_encoded "a\072b\056c" = true /\ 5 = Sanitize.units "a\072b\056c".
Proof.
  pose proof (sanitize_string_output_shape "a:b\.c" (mk_string "a\072b\056c" 5 11)
                ltac:(vm_compute; reflexivity) ltac:(vm_compute; reflexivity)) as H.
  split; [exact (proj1 H) | exact (proj1 (proj2 H))].
Defined.

(** X4: a decimal escape of the input, a backslash and the three decimal
    digits of a byte, is stored as that byte: as the character itself when it
    is printable and not the colon, the dot or the backslash, and as the
    backslash and the three octal digits of the byte otherwise. *)
Theorem sanitize_string_decimal_escape (pre post : string) (n : Z) :
  Sanitize.all_plain pre = true ->
  Sanitize.all_plain post = true ->
  0 <= n <= 255 ->
  strlen pre + 1 + strlen post <= DOMAIN_LEN ->
  sanitize_string (pre ++ String "\" (Encoded.decimal3 n ++ post))
  = Ok (mk_string (pre ++ Encoded.encoding n ++ post)
                  (strlen pre + 1 + strlen post)
                  (strlen pre + strlen (Encoded.encoding n) + strlen post)).
Proof.
  intros Hpre Hpost Hn Hl. unfold sanitize_string.
  pose proof (Zle_0_nat (String.length pre)). pose proof (Zle_0_nat (String.length post)).
  unfold strlen in *.
  rewrite EncodedFacts.loop_plain_prefix
    by (cbn [len empty_string_t]; unfold strlen; auto; lia).
  rewrite EncodedFacts.loop_decimal_escape by (cbn [len empty_string_t]; unfold strlen; lia).
  rewrite SanitizeFacts.loop_plain by (cbn [len empty_string_t]; unfold strlen; auto; lia).
  cbn [text len real_len empty_string_t append]. rewrite !append_assoc.
  reflexivity.
Qed.

Lemma sanitize_string_decimal_escape_witness :
  sanitize_string "a\058b" = Ok (mk_string "a\072b" 3 6)
  /\ sanitize_string "\065" = Ok (mk_string "A" 1 1).
Proof.
  split.
  - apply (sanitize_string_decimal_escape "a" "b" 58);
      [reflexivity | reflexivity | lia | vm_compute; discriminate].
  - apply (sanitize_string_decimal_escape "" "" 65);
      [reflexivity | reflexivity | lia | vm_compute; discriminate].
Defined.

(** X5: a raw character of the input that is not plain (a control
    character, the colon, the delete character) and whose code is below 128
    is stored as a backslash and the three octal digits of its code. *)
Theorem sanitize_string_raw_escape (pre post : string) (c : ascii) :
  Sanitize.all_plain pre = true ->
  Sanitize.all_plain post = true ->
  Sanitize.plain c = false ->
  ch_is c "\" = false ->
  code c < 128 ->
  strlen pre + 1 + strlen post <= DOMAIN_LEN ->
  sanitize_string (pre ++ String c post)
  = Ok (mk_string (pre ++ String "\" (Encoded.octal3 (code c)) ++ post)
                  (strlen pre + 1 + strlen post)
                  (strlen pre + 4 + strlen post)).
Proof.
  intros Hpre Hpost Hc Hb H7 Hl. unfold sanitize_string.
  pose proof (Zle_0_nat (String.length pre)). pose proof (Zle_0_nat (String.length post)).
  pose proof (EncodedFacts.code_range c).
  unfold strlen in *.
  rewrite EncodedFacts.loop_plain_prefix
    by (cbn [len empty_string_t]; unfold strlen; auto; lia).
  rewrite EncodedFacts.loop_raw by (cbn [len empty_string_t]; unfold strlen; auto; lia).
  rewrite SanitizeFacts.loop_plain
    by (unfold put_octal; cbn [len empty_string_t]; unfold strlen; auto; lia).
  rewrite EncodedFacts.schar_low by exact H7.
  unfold put_octal. fold (Sanitize.escape4 (code c)).
  rewrite EncodedFacts.escape4_octal3 by lia.
  cbn [text len real_len empty_string_t append]. rewrite !append_assoc.
  reflexivity.
Qed.

Lemma sanitize_string_raw_escape_witness :
  sanitize_string "a:b" = Ok (mk_string "a\072b" 3 6).
Proof.
  apply (sanitize_string_raw_escape "a" "b" ":");
    [reflexivity | reflexivity | reflexivity | reflexivity | vm_compute; reflexivity
     | vm_compute; discriminate].
Defined.

(** X6: after a plain text of fewer than 255 characters, [sanitize_string]
    fails with a warning on a backslash that ends the input, on a backslash
    and a digit that are not followed by two more digits, and on a decimal
    escape of a number above 255. *)
Theorem sanitize_string_bad_escape (pre : string) :
  Sanitize.all_plain pre = true ->
  strlen pre < DOMAIN_LEN ->
  sanitize_string (pre ++ "\") = Err [w_no_escaped]
  /\ (forall d tail,
         isdigit (schar d) = true -> Encoded.two_digits tail = false ->
         sanitize_string (pre ++ String "\" (String d tail)) = Err [w_malformed])
  /\ (forall n rest,
         255 < n <= 999 ->
         sanitize_string (pre ++ String "\" (Encoded.decimal3 n ++ rest)) = Err [w_too_large]).
Proof.
  intros Hpre Hl. unfold sanitize_string.
  pose proof (Zle_0_nat (String.length pre)).
  assert (Hne : (0 + strlen pre =? DOMAIN_LEN) = false) by (apply Z.eqb_neq; lia).
  repeat split.
  - rewrite EncodedFacts.loop_plain_prefix by (cbn [len empty_string_t]; auto; lia).
    cbn [sanitize_loop len empty_string_t]. rewrite Hne. reflexivity.
  - intros d tail Hd Ht.
    rewrite EncodedFacts.loop_plain_prefix by (cbn [len empty_string_t]; auto; lia).
    cbn [sanitize_loop len empty_string_t]. rewrite Hne.
    change (isprint (schar "\") && negb (ch_is "\" "\") && negb (ch_is "\" ":")) with false.
    change (ch_is "\" "\") with true. cbv iota. rewrite Hd. cbn [negb].
    destruct tail as [|c2 [|c3 rest]]; try reflexivity.
    cbn [Encoded.two_digits] in Ht. now rewrite Ht.
  - intros n rest Hn.
    rewrite EncodedFacts.loop_plain_prefix by (cbn [len empty_string_t]; auto; lia).
    unfold Encoded.decimal3. cbn [append sanitize_loop len empty_string_t]. rewrite Hne.
    change (isprint (schar "\") && negb (ch_is "\" "\") && negb (ch_is "\" ":")) with false.
    change (ch_is "\" "\") with true. cbv iota.
    assert (H1 : 0 <= n / 100 <= 9) by (Z.div_mod_to_equations; lia).
    assert (H2 : 0 <= (n / 10) mod 10 <= 9) by (Z.div_mod_to_equations; lia).
    assert (H3 : 0 <= n mod 10 <= 9) by (Z.div_mod_to_equations; lia).
    rewrite !EncodedFacts.schar_digit by assumption.
    rewrite !EncodedFacts.isdigit_digit by assumption.
    cbn [negb andb].
    replace ((48 + n / 100 - 48) * 100 + (48 + (n / 10) mod 10 - 48) * 10
             + (48 + n mod 10 - 48))
      with n by (Z.div_mod_to_equations; lia).
    destruct (Z.gtb_spec n 255); [reflexivity | lia].
Qed.

Lemma sanitize_string_bad_escape_witness :
  sanitize_string "ab\" = Err [w_no_escaped]
  /\ sanitize_string "ab\1x" = Err [w_malformed]
  /\ sanitize_string "ab\256" = Err [w_too_large].
Proof.
  pose proof (sanitize_string_bad_escape "ab" ltac:(reflexivity)
                ltac:(vm_compute; reflexivity)) as (H1 & H2 & H3).
  split; [exact H1 | split].
  - apply (H2 "1"%char "x"); reflexivity.
  - apply (H3 256 ""). lia.
Defined.

(** ** qualify_domain: qualified names *)

Module NamesFacts.

Import Sanitize SanitizeFacts Qualify QualifyFacts Encoded EncodedFacts Names.

Lemma ends_with_dot_app (a b : string) :
  b <> "" -> ends_with_dot (a ++ b) = ends_with_dot b.
Proof.
  intros Hb. induction a as [|c a IH]; [reflexivity|].
  cbn [append]. destruct (a ++ b) eqn:E.
  - destruct a; [simpl in E; congruence | discriminate].
  - cbn [ends_with_dot]. exact IH.
Qed.

Lemma ends_with_dot_snoc (a : string) : ends_with_dot (a ++ ".") = true.
Proof. rewrite ends_with_dot_app by discriminate. reflexivity. Qed.

Lemma has_dotdot_app (a b : string) :
  has_dotdot (a ++ b)
  = has_dotdot a || has_dotdot b || (ends_with_dot a && first_is_dot b).
Proof.
  induction a as [|c a IH]; [cbn; now rewrite orb_false_r|].
  cbn [append]. destruct a as [|c' a'].
  - cbn [append]. destruct b as [|d b']; [cbn; now rewrite andb_false_r|].
    cbn [has_dotdot ends_with_dot first_is_dot].
    destruct (c =? ".")%char, (d =? ".")%char; cbn; try reflexivity;
      destruct b'; cbn; try reflexivity; now rewrite ?orb_false_r, ?orb_true_r.
  - cbn [append] in *. cbn [has_dotdot]. cbn [has_dotdot] in IH. rewrite IH.
    change (ends_with_dot (String c (String c' a'))) with (ends_with_dot (String c' a')).
    now rewrite !orb_assoc.
Qed.

Lemma first_is_dot_app (a b : string) :
  a <> "" -> first_is_dot (a ++ b) = first_is_dot a.
Proof. destruct a; [congruence | reflexivity]. Qed.

Lemma leading_dot_first (s : string) :
  first_is_dot s = false -> leading_dot s = false.
Proof. destruct s as [|c [|d s]]; cbn; auto. Qed.

(** A text that does not end with a dot and has no leading dot does not
    start with a dot. *)
Lemma first_not_dot (s : string) :
  leading_dot s = false -> String.eqb s "." = false -> first_is_dot s = false.
Proof.
  destruct s as [|c [|d s]]; cbn; auto.
  intros _ H. destruct (c =? ".")%char eqn:E; [|reflexivity].
  apply Ascii.eqb_eq in E. subst. discriminate.
Qed.

Lemma ends_not_root (s : string) : ends_with_dot s = false -> String.eqb s "." = false.
Proof. intros H. destruct (String.eqb_spec s "."); [subst; discriminate | reflexivity]. Qed.

Lemma units_empty (s : string) : units s = 0 -> s = "".
Proof.
  destruct s as [|c s]; [reflexivity|]. cbn [units].
  destruct (ch_is c "\").
  - destruct s as [|c1 [|c2 [|c3 s]]]; try lia. pose proof (units_nonneg s). lia.
  - pose proof (units_nonneg s). lia.
Qed.

Lemma shaped_sanitized (x : string) (r : string_t) :
  sanitize_string x = Ok r -> shaped r.
Proof.
  intros H.
  apply (loop_keeps shaped shaped_put_char shaped_put_octal (String.length x) x
                    empty_string_t r); [apply le_n | | exact H].
  unfold shaped. cbn. repeat split; try reflexivity; discriminate.
Qed.

(** On a plain text that goes past the length budget the loop fails. *)
Lemma loop_plain_long (s : string) :
  forall t,
    all_plain s = true -> len t <= DOMAIN_LEN -> DOMAIN_LEN < len t + strlen s ->
    sanitize_loop s t = Err [w_too_long].
Proof.
  unfold strlen.
  induction s as [|c s IH]; intros t Hp Ht Hl.
  - cbn [String.length Z.of_nat] in Hl. lia.
  - cbn [all_plain] in Hp. apply andb_true_iff in Hp as [Hc Hp].
    cbn [sanitize_loop]. destruct (Z.eqb_spec (len t) DOMAIN_LEN) as [E|E]; [reflexivity|].
    change (isprint (schar c) && negb (ch_is c "\") && negb (ch_is c ":")) with (plain c).
    rewrite Hc. apply IH; [exact Hp | unfold put_char; cbn [len]; lia |].
    unfold put_char; cbn [len]. cbn [String.length] in Hl. lia.
Qed.

Lemma qualified_mk (t : string) (l r : Z) :
  ends_with_dot t = true -> leading_dot t = false -> has_dotdot t = false ->
  r = strlen t -> 0 < l <= DOMAIN_LEN -> r <= 4 * l ->
  qualified (mk_string t l r).
Proof. intros. unfold qualified. cbn [text len real_len]. repeat split; auto; lia. Qed.

Lemma plain_relative_parts (n : string) :
  plain_relative n = true <->
  n <> "" /\ all_plain n = true /\ String.eqb n "@" = false /\ leading_dot n = false
  /\ has_dotdot n = false /\ ends_with_dot n = false.
Proof.
  unfold plain_relative, relative. split.
  - intros Hn.
    apply andb_true_iff in Hn as [Hn Hrel]. apply andb_true_iff in Hn as [Hne Hp].
    apply andb_true_iff in Hrel as [Hrel He]. apply andb_true_iff in Hrel as [Hrel Hd].
    apply andb_true_iff in Hrel as [Hat Hl].
    apply negb_true_iff in Hat, Hl, Hd, He, Hne.
    repeat split; auto. intros ->. discriminate.
  - intros (Hne & Hp & Hat & Hl & Hd & He).
    rewrite Hp, Hat, Hl, Hd, He. destruct n; [congruence | reflexivity].
Qed.

(** [qualify_domain] on a relative name of plain characters. *)
Lemma qualify_plain_relative (n : string) (o : string_t) :
  plain_relative n = true -> len o <> 0 ->
  qualify_domain n (Some o)
  = if strlen n >? DOMAIN_LEN then Err [w_too_long; wq "unable to sanitize name"]
    else if only_char (text o) "." then
      if strlen n + 1 >? DOMAIN_LEN then Err [wq "name is too long"]
      else Ok (mk_string (n ++ ".") (strlen n + 1) (strlen n + 1))
    else if strlen n + 1 + len o >? DOMAIN_LEN then Err [wq "name plus origin is too long"]
    else Ok (mk_string (n ++ "." ++ text o) (strlen n + (1 + len o))
                       (strlen n + (1 + real_len o))).
Proof.
  intros Hn Ho. apply plain_relative_parts in Hn as (Hne & Hp & Hat & Hl & Hd & He).
  unfold qualify_domain, sanitize_string.
  destruct (Z.gtb_spec (strlen n) DOMAIN_LEN) as [Hlong|Hfit].
  - rewrite loop_plain_long by (cbn [len empty_string_t]; auto; unfold DOMAIN_LEN; lia).
    reflexivity.
  - rewrite loop_plain by (cbn [len empty_string_t]; auto; lia).
    cbn [text len real_len empty_string_t append Z.add].
    assert (Hpos : 0 < strlen n).
    { unfold strlen. destruct n; [congruence | cbn [String.length]; lia]. }
    replace (strlen n =? 0) with false by (symmetry; apply Z.eqb_neq; lia).
    cbn [negb]. rewrite Hl, Hd, only_char_eqb, Hat, char_at_last, He.
    apply Z.eqb_neq in Ho. rewrite Ho. reflexivity.
Qed.

Lemma relative_joined (n1 n2 : string) :
  plain_relative n1 = true -> plain_relative n2 = true ->
  plain_relative (n1 ++ "." ++ n2) = true.
Proof.
  intros H1 H2.
  apply plain_relative_parts in H1 as (N1 & P1 & A1 & L1 & D1 & E1).
  apply plain_relative_parts in H2 as (N2 & P2 & A2 & L2 & D2 & E2).
  assert (F1 : first_is_dot n1 = false)
    by (apply first_not_dot; auto using ends_not_root).
  assert (F2 : first_is_dot n2 = false)
    by (apply first_not_dot; auto using ends_not_root).
  apply plain_relative_parts. repeat split.
  - destruct n1; [congruence | discriminate].
  - rewrite all_plain_app, P1. change ("." ++ n2) with (String "." n2).
    cbn [all_plain andb]. change (plain ".") with true. assumption.
  - destruct n1 as [|c [|d n1]]; [congruence| |]; cbn; destruct (c =? "@")%char; auto.
  - apply leading_dot_first. now rewrite first_is_dot_app.
  - rewrite has_dotdot_app, D1, E1.
    change ("." ++ n2) with (String "." n2). cbn [orb andb].
    destruct n2 as [|c n2]; [congruence|]. cbn [has_dotdot first_is_dot] in *.
    rewrite D2, F2. reflexivity.
  - rewrite ends_with_dot_app by discriminate.
    change ("." ++ n2) with (String "." n2).
    destruct n2 as [|c n2]; [congruence|]. assumption.
Qed.

(** [qualify_domain] keeps names fully qualified. *)
Lemma keeps_qualified (name : string) (origin : option string_t) (r : string_t) :
  (forall o, origin = Some o -> qualified o) ->
  qualify_domain name origin = Ok r ->
  qualified r.
Proof.
  intros Ho H. unfold qualify_domain in H.
  destruct (sanitize_string name) as [sname|w] eqn:Es; [|discriminate].
  destruct (NamesFacts.shaped_sanitized name sname Es) as (Henc & Hu & Hr & Hb).
  pose proof (EncodedFacts.encoded_length_bounded (String.length (text sname))
                (text sname) (le_n _) Henc) as Hfit.
  rewrite <- Hu, <- Hr in Hfit.
  destruct (Z.eqb_spec (len sname) 0) as [E0|E0]; cbn [negb] in H.
  { destruct origin as [o|]; [|discriminate].
    destruct (len o =? 0); [discriminate|]. apply Ok_inj in H; subst r. now apply Ho. }
  Sanitize.split_if H El; [discriminate|].
  Sanitize.split_if H Ed; [discriminate|].
  Sanitize.split_if H Ea.
  { destruct origin as [o|]; [|discriminate].
    destruct (len o =? 0); [discriminate|]. apply Ok_inj in H; subst r. now apply Ho. }
  rewrite Hr, QualifyFacts.char_at_last in H.
  destruct (Qualify.ends_with_dot (text sname)) eqn:Ee.
  { apply Ok_inj in H; subst r. unfold Names.qualified. repeat split; auto; lia. }
  destruct origin as [o|]; [|discriminate].
  destruct (Ho o eq_refl) as (Oe & Ol & Od & Or & Ob & Of).
  destruct (len o =? 0); [discriminate|].
  assert (Hne : text sname <> "").
  { intros E. rewrite E in Hu. cbn in Hu. lia. }
  assert (Hf : Names.first_is_dot (text sname) = false)
    by (apply NamesFacts.first_not_dot; auto using NamesFacts.ends_not_root).
  Sanitize.split_if H Eroot.
  - destruct (Z.gtb_spec (len sname + 1) DOMAIN_LEN); [discriminate|].
    apply Ok_inj in H; subst r. apply NamesFacts.qualified_mk.
    + apply NamesFacts.ends_with_dot_snoc.
    + apply NamesFacts.leading_dot_first. now rewrite NamesFacts.first_is_dot_app.
    + rewrite NamesFacts.has_dotdot_app, Ed, Ee. reflexivity.
    + unfold strlen in *. rewrite length_append. cbn [String.length]. lia.
    + lia.
    + lia.
  - destruct (Z.gtb_spec (len sname + 1 + len o) DOMAIN_LEN); [discriminate|].
    apply Ok_inj in H; subst r.
    assert (Hon : text o <> "") by (intros E; rewrite E in Oe; discriminate).
    assert (Hof : Names.first_is_dot (text o) = false).
    { apply NamesFacts.first_not_dot; [exact Ol|].
      rewrite <- QualifyFacts.only_char_eqb. exact Eroot. }
    apply NamesFacts.qualified_mk.
    + rewrite NamesFacts.ends_with_dot_app by discriminate.
      change ("." ++ text o) with (String "." (text o)).
      destruct (text o); [congruence | exact Oe].
    + apply NamesFacts.leading_dot_first. now rewrite NamesFacts.first_is_dot_app.
    + rewrite NamesFacts.has_dotdot_app, Ed, Ee.
      change ("." ++ text o) with (String "." (text o)). cbn [orb andb].
      rewrite orb_false_r.
      destruct (text o) as [|c t]; [congruence|]. cbn [has_dotdot Names.first_is_dot] in *.
      rewrite Od, Hof. reflexivity.
    + unfold strlen in *. rewrite length_append. cbn [append String.length]. lia.
    + lia.
    + lia.
Qed.

End NamesFacts.

(** X7: [qualify_domain] keeps names fully qualified: when the origin, if
    there is one, is a fully qualified name with no empty label and
    consistent lengths, and the name is one that [sanitize_string] writes
    inside its buffer, so is every name the function returns: its text ends
    with a dot, has no empty label, [real_len] is the length of the text,
    [len] is positive and at most 255, and the text is at most four bytes
    for each character counted, which fits the buffer. *)
Theorem qualify_domain_keeps_qualified (name : string) (origin : option string_t)
        (r : string_t) :
  Bounds.inside name = true ->
  (forall o, origin = Some o -> Names.qualified o) ->
  qualify_domain name origin = Ok r ->
  Names.qualified r.
Proof. intros _. apply NamesFacts.keeps_qualified. Qed.

Lemma qualify_domain_keeps_qualified_witness :
  Names.qualified (mk_string "www.example.com." 16 16).
Proof.
  apply (qualify_domain_keeps_qualified "www" (Some example_origin)).
  - reflexivity.
  - intros o E. inversion E; subst. unfold Names.qualified. cbn.
    repeat split; try reflexivity; try discriminate; lia.
  - reflexivity.
Defined.

(** X8: a name whose sanitized form ends with a dot and has no empty label
    is returned in its sanitized form whatever the origin is, also when there
    is none. *)
Theorem qualify_domain_absolute (name : string) (sname : string_t)
        (origin : option string_t) :
  sanitize_string name = Ok sname ->
  Qualify.ends_with_dot (text sname) = true ->
  leading_dot (text sname) = false ->
  has_dotdot (text sname) = false ->
  qualify_domain name origin = Ok sname.
Proof.
  intros Hs He Hl Hd.
  destruct (QualifyFacts.sanitize_lengths name sname Hs) as [Hr Hpos].
  assert (Hne : name <> "").
  { intros ->. inversion Hs; subst. discriminate. }
  specialize (Hpos Hne).
  unfold qualify_domain. rewrite Hs.
  replace (len sname =? 0) with false by (symmetry; apply Z.eqb_neq; lia).
  cbn [negb]. rewrite Hl, Hd, QualifyFacts.only_char_eqb.
  destruct (String.eqb_spec (text sname) "@") as [E|E].
  { rewrite E in He. discriminate. }
  now rewrite Hr, QualifyFacts.char_at_last, He.
Qed.

Lemma qualify_domain_absolute_witness :
  qualify_domain "ns.other.org." None = Ok (mk_string "ns.other.org." 13 13)
  /\ qualify_domain "." (Some example_origin) = Ok (mk_string "." 1 1).
Proof.
  split.
  - apply (qualify_domain_absolute "ns.other.org."); reflexivity.
  - apply (qualify_domain_absolute "."); reflexivity.
Defined.

(** X9: a name whose sanitized form starts with a dot followed by more
    text, or has two dots in a row, is rejected with the warning of an
    empty label, whatever the origin is. *)
Theorem qualify_domain_empty_label (name : string) (sname : string_t)
        (origin : option string_t) :
  sanitize_string name = Ok sname ->
  leading_dot (text sname) || has_dotdot (text sname) = true ->
  qualify_domain name origin = Err [wq "empty label"].
Proof.
  intros Hs Hd.
  destruct (QualifyFacts.sanitize_lengths name sname Hs) as [Hr Hpos].
  assert (Hne : name <> "").
  { intros ->. inversion Hs; subst. discriminate. }
  specialize (Hpos Hne).
  unfold qualify_domain. rewrite Hs.
  replace (len sname =? 0) with false by (symmetry; apply Z.eqb_neq; lia).
  cbn [negb]. destruct (leading_dot (text sname)); [reflexivity|].
  cbn [orb] in Hd. now rewrite Hd.
Qed.

Lemma qualify_domain_empty_label_witness :
  qualify_domain "a..b" (Some example_origin) = Err [wq "empty label"]
  /\ qualify_domain ".a" None = Err [wq "empty label"].
Proof.
  split.
  - apply (qualify_domain_empty_label "a..b" (mk_string "a..b" 4 4)); reflexivity.
  - apply (qualify_domain_empty_label ".a" (mk_string ".a" 2 2)); reflexivity.
Defined.

(** X10: qualifying in two steps is qualifying the joined name: when a
    plain relative name is qualified against an origin, and a second plain
    relative name against the result, the name returned is the one
    [qualify_domain] returns for the second name, a dot and the first name
    against the first origin. *)
Theorem qualify_domain_two_steps (n1 n2 : string) (o o2 r : string_t) :
  Names.plain_relative n1 = true ->
  Names.plain_relative n2 = true ->
  0 < len o ->
  qualify_domain n2 (Some o) = Ok o2 ->
  qualify_domain n1 (Some o2) = Ok r ->
  qualify_domain (n1 ++ "." ++ n2) (Some o) = Ok r.
Proof.
  intros H1 H2 Ho Q2 Q1.
  pose proof (NamesFacts.relative_joined n1 n2 H1 H2) as H12.
  assert (L1 : 0 < strlen n1).
  { unfold Names.plain_relative in H1. destruct n1; [discriminate|].
    unfold strlen; cbn [String.length]; lia. }
  assert (L2 : 0 < strlen n2).
  { unfold Names.plain_relative in H2. destruct n2 as [|c n2]; [discriminate|].
    unfold strlen; cbn [String.length]; lia. }
  assert (L12 : strlen (n1 ++ "." ++ n2) = strlen n1 + 1 + strlen n2).
  { unfold strlen. rewrite !length_append. cbn [String.length]. lia. }
  assert (N2 : only_char (n2 ++ ".") "." = false).
  { destruct n2 as [|c [|d n2]]; [discriminate | reflexivity | reflexivity]. }
  destruct o as [ot ol orl]. cbv beta iota delta [len] in Ho.
  rewrite NamesFacts.qualify_plain_relative in Q2
    by (auto; cbv beta iota delta [len]; lia).
  rewrite (NamesFacts.qualify_plain_relative (n1 ++ "." ++ n2))
    by (auto; cbv beta iota delta [len]; lia).
  cbv beta iota delta [len text real_len] in Q2 |- *.
  rewrite L12.
  destruct (Z.gtb_spec (strlen n2) DOMAIN_LEN) as [G2|G2]; [discriminate|].
  destruct (only_char ot ".") eqn:Er.
  - destruct (Z.gtb_spec (strlen n2 + 1) DOMAIN_LEN) as [G3|G3]; [discriminate|].
    apply Ok_inj in Q2. subst o2.
    rewrite NamesFacts.qualify_plain_relative in Q1
      by (auto; cbv beta iota delta [len]; lia).
    cbv beta iota delta [len text real_len] in Q1. rewrite N2 in Q1.
    destruct (Z.gtb_spec (strlen n1) DOMAIN_LEN) as [G1|G1]; [discriminate|].
    destruct (Z.gtb_spec (strlen n1 + 1 + (strlen n2 + 1)) DOMAIN_LEN) as [G4|G4];
      [discriminate|].
    apply Ok_inj in Q1. subst r.
    destruct (Z.gtb_spec (strlen n1 + 1 + strlen n2) DOMAIN_LEN) as [G5|G5]; [lia|].
    destruct (Z.gtb_spec (strlen n1 + 1 + strlen n2 + 1) DOMAIN_LEN) as [G6|G6]; [lia|].
    rewrite !append_assoc. f_equal. f_equal; lia.
  - destruct (Z.gtb_spec (strlen n2 + 1 + ol) DOMAIN_LEN) as [G3|G3]; [discriminate|].
    apply Ok_inj in Q2. subst o2.
    rewrite NamesFacts.qualify_plain_relative in Q1
      by (auto; cbv beta iota delta [len]; lia).
    cbv beta iota delta [len text real_len] in Q1.
    assert (N3 : only_char (n2 ++ "." ++ ot) "." = false).
    { destruct n2 as [|c [|d n2]]; [discriminate | reflexivity | reflexivity]. }
    rewrite N3 in Q1.
    destruct (Z.gtb_spec (strlen n1) DOMAIN_LEN) as [G1|G1]; [discriminate|].
    destruct (Z.gtb_spec (strlen n1 + 1 + (strlen n2 + (1 + ol))) DOMAIN_LEN) as [G4|G4];
      [discriminate|].
    apply Ok_inj in Q1. subst r.
    destruct (Z.gtb_spec (strlen n1 + 1 + strlen n2) DOMAIN_LEN) as [G5|G5]; [lia|].
    destruct (Z.gtb_spec (strlen n1 + 1 + strlen n2 + 1 + ol) DOMAIN_LEN) as [G6|G6]; [lia|].
    rewrite !append_assoc. f_equal. f_equal; lia.
Qed.

Lemma qualify_domain_two_steps_witness :
  qualify_domain "www.sub" (Some example_origin)
  = Ok (mk_string "www.sub.example.com." 20 20).
Proof.
  apply (qualify_domain_two_steps "www" "sub" example_origin
           (mk_string "sub.example.com." 16 16));
    [reflexivity | reflexivity | vm_compute; reflexivity | reflexivity | reflexivity].
Defined.

(** ** str_to_uint: plain numbers *)

Module NumberFacts.

Import Duration DurationFacts SanitizeFacts.

Lemma not_digit_schar (c : ascii) :
  is_digit c = false -> (schar c >=? 48) && (schar c <=? 57) = false.
Proof.
  intros H. unfold is_digit in H. unfold schar. rewrite Z.geb_leb.
  destruct (Z.ltb_spec (code c) 128); [exact H|].
  apply andb_false_iff; left. apply Z.leb_gt.
  unfold code in *. pose proof (N_ascii_bounded c). lia.
Qed.

Lemma digit_schar (c : ascii) :
  is_digit c = true -> (schar c >=? 48) && (schar c <=? 57) = true.
Proof.
  intros H. destruct (is_digit_schar c H) as [Hs Hr]. rewrite Hs, Z.geb_leb.
  apply andb_true_iff; split; apply Z.leb_le; lia.
Qed.

(** Without the duration format a character that is not a digit ends the
    loop with a failure and no warning. *)
Lemma loop_not_digits (s : string) :
  forall itf ip total part,
    all_digits s = false -> str_to_uint_loop s false itf ip total part = Err [].
Proof.
  induction s as [|c s IH]; intros itf ip total part H; [discriminate|].
  cbn [all_digits] in H. cbn [str_to_uint_loop].
  destruct (is_digit c) eqn:Ec.
  - rewrite (digit_schar c Ec). apply IH. exact H.
  - rewrite (not_digit_schar c Ec). reflexivity.
Qed.

(** A text of digits only is read as its decimal value, in both modes. *)
Lemma digits_only (s : string) (atf : bool) :
  s <> "" -> all_digits s = true ->
  str_to_uint s atf = Ok (u32 (decimal_value s 0)).
Proof.
  intros Hne Hd. unfold str_to_uint. destruct s as [|c s]; [congruence|].
  pose proof (loop_digits (String c s) "" atf false false 0 0 Hd) as H.
  rewrite append_nil_r in H. change (u32 0) with 0 in H. rewrite H.
  reflexivity.
Qed.

(** A sequence of runs, read from a state in which no digits are
    pending, with more text after it. *)
Lemma loop_runs_then (runs : list (string * ascii)) (rest : string) :
  forall itf total,
    forallb well_formed runs = true ->
    str_to_uint_loop (duration_text runs ++ rest) true itf false (u32 total) 0
    = str_to_uint_loop rest true (itf || negb (Nat.eqb (List.length runs) 0)) false
                       (u32 (total + duration_seconds runs)) 0.
Proof.
  induction runs as [|r runs IH]; intros itf total H.
  - cbn. now rewrite orb_false_r, Z.add_0_r.
  - cbn [forallb] in H. apply andb_true_iff in H as [Hr H].
    cbn [duration_text duration_seconds List.length Nat.eqb negb].
    rewrite append_assoc. cbn [append].
    rewrite (loop_run r _ itf _ Hr), u32_add_l, (IH true _ H).
    rewrite orb_true_r. cbn [orb]. f_equal. f_equal. lia.
Qed.

Lemma unit_total_range (c : ascii) (part t : Z) :
  0 <= part < 2 ^ 32 -> unit_total c part = Some t -> 0 <= t < 2 ^ 32.
Proof.
  intros Hp H. unfold unit_total in H.
  repeat match type of H with
         | (if ?b then _ else _) = _ => destruct b
         end; inversion H; subst; try apply u32_range; exact Hp.
Qed.

(** The loop keeps [total] and [part] within 32 bits. *)
Lemma loop_range (s : string) :
  forall atf itf ip total part v,
    0 <= total < 2 ^ 32 -> 0 <= part < 2 ^ 32 ->
    str_to_uint_loop s atf itf ip total part = Ok v -> 0 <= v < 2 ^ 32.
Proof.
  induction s as [|c s IH]; intros atf itf ip total part v Ht Hp H; cbn [str_to_uint_loop] in H.
  - destruct (itf && ip); [discriminate|]. apply Ok_inj in H.
    destruct (negb itf); subst; assumption.
  - destruct ((schar c >=? 48) && (schar c <=? 57)).
    + apply (IH _ _ _ _ _ v Ht (u32_range _) H).
    + destruct (negb atf || negb ip); [discriminate|].
      destruct (unit_total c part) as [t|] eqn:Eu; [|discriminate].
      apply (IH atf true false (u32 (total + t)) 0 v);
        [apply u32_range | split; [lia | reflexivity] | exact H].
Qed.

Lemma digit_char_digit (d : Z) :
  0 <= d <= 9 -> is_digit (digit_char false d) = true /\ code (digit_char false d) - 48 = d.
Proof.
  intros H. unfold digit_char. destruct (Z.ltb_spec d 10); [|lia].
  unfold is_digit. rewrite code_chr by lia.
  split; [apply andb_true_iff; split; apply Z.leb_le; lia | lia].
Qed.

(** The decimal digits [printf] writes read back as the number. *)
Lemma digits_aux_value (fuel : nat) :
  forall n acc,
    0 <= n < 2 ^ Z.of_nat fuel -> all_digits acc = true ->
    all_digits (digits_aux fuel 10 false n acc) = true
    /\ decimal_value (digits_aux fuel 10 false n acc) 0 = decimal_value acc n.
Proof.
  induction fuel as [|fuel IH]; intros n acc Hn Ha.
  - cbn in Hn. assert (n = 0) by lia. subst. cbn [digits_aux]. split; [exact Ha | reflexivity].
  - cbn [digits_aux].
    assert (Hd : 0 <= n mod 10 <= 9) by (Z.div_mod_to_equations; lia).
    destruct (digit_char_digit (n mod 10) Hd) as [D1 D2].
    destruct (Z.eqb_spec (n / 10) 0) as [E|E].
    + cbn [all_digits decimal_value]. rewrite D1, D2, Ha. split; [reflexivity|].
      f_equal. Z.div_mod_to_equations; lia.
    + rewrite Nat2Z.inj_succ, Z.pow_succ_r in Hn by lia.
      destruct (IH (n / 10) (String (digit_char false (n mod 10)) acc)) as [I1 I2].
      * Z.div_mod_to_equations; lia.
      * cbn [all_digits]. now rewrite D1, Ha.
      * split; [exact I1|]. rewrite I2. cbn [decimal_value]. rewrite D2.
        f_equal. Z.div_mod_to_equations; lia.
Qed.

Lemma digits_aux_nonempty (fuel : nat) :
  forall base upper n acc, acc <> "" -> digits_aux fuel base upper n acc <> "".
Proof.
  induction fuel as [|fuel IH]; intros base upper n acc Ha; cbn [digits_aux]; [exact Ha|].
  destruct (n / base =? 0); [discriminate|]. apply IH. discriminate.
Qed.

Lemma digits_value (n : Z) :
  0 <= n ->
  all_digits (digits 10 false n) = true
  /\ decimal_value (digits 10 false n) 0 = n
  /\ digits 10 false n <> "".
Proof.
  intros Hn. unfold digits.
  assert (Hf : 0 <= n < 2 ^ Z.of_nat (S (Z.to_nat (Z.log2 n)))).
  { rewrite Nat2Z.inj_succ, Z2Nat.id by apply Z.log2_nonneg.
    destruct (Z.eq_dec n 0) as [->|Hz]; [cbn; lia|].
    pose proof (Z.log2_spec n ltac:(lia)). lia. }
  destruct (digits_aux_value _ n "" Hf eq_refl) as [H1 H2].
  repeat split; [exact H1 | exact H2 |].
  cbn [digits_aux]. destruct (n / 10 =? 0); [discriminate|].
  apply digits_aux_nonempty. discriminate.
Qed.

(** ["%u"] and ["%d"] with no width write the digits only. *)
Lemma pad_zero (s : string) : pad "" 0 s = s.
Proof.
  unfold pad. cbn [Z.ltb Z.compare append].
  replace (Z.to_nat (0 - strlen "" - strlen s)) with O by (unfold strlen; cbn; lia).
  reflexivity.
Qed.

Lemma fmt_unsigned_plain (v : Z) : fmt_unsigned 10 false 0 v = digits 10 false (u32 v).
Proof. unfold fmt_unsigned. apply pad_zero. Qed.

Lemma i32_small (v : Z) : 0 <= v < 2 ^ 31 -> i32 v = v.
Proof.
  intros H. unfold i32. rewrite Z.mod_small by lia.
  destruct (Z.ltb_spec v (2 ^ 31)); [reflexivity | lia].
Qed.

Lemma fmt_d_plain (v : Z) : 0 <= v < 2 ^ 31 -> fmt_d 0 v = digits 10 false v.
Proof.
  intros H. unfold fmt_d. rewrite i32_small by exact H. cbv zeta.
  destruct (Z.ltb_spec v 0); [lia|]. apply pad_zero.
Qed.

End NumberFacts.

(** X11: without the duration format [str_to_uint] accepts exactly the
    texts made of decimal digits: on such a text it returns the decimal
    value reduced modulo 2^32, and on any other text that is not empty it
    fails without a warning.  With the duration format a text of digits
    only is read in the same way. *)
Theorem str_to_uint_plain_number (s : string) :
  s <> "" ->
  str_to_uint s false
  = (if Duration.all_digits s then Ok (Duration.decimal_value s 0 mod 2 ^ 32) else Err [])
  /\ (Duration.all_digits s = true ->
      str_to_uint s true = Ok (Duration.decimal_value s 0 mod 2 ^ 32)).
Proof.
  intros Hne. split.
  - destruct (Duration.all_digits s) eqn:Hd.
    + now apply NumberFacts.digits_only.
    + unfold str_to_uint. destruct s as [|c s]; [congruence|].
      now apply NumberFacts.loop_not_digits.
  - intros Hd. now apply NumberFacts.digits_only.
Qed.

Lemma str_to_uint_plain_number_witness :
  str_to_uint "2024010101" false = Ok (2024010101 mod 2 ^ 32)
  /\ str_to_uint "1h" false = Err []
  /\ str_to_uint "4294967297" true = Ok (4294967297 mod 2 ^ 32).
Proof.
  split; [|split].
  - exact (proj1 (str_to_uint_plain_number "2024010101" ltac:(discriminate))).
  - exact (proj1 (str_to_uint_plain_number "1h" ltac:(discriminate))).
  - exact (proj2 (str_to_uint_plain_number "4294967297" ltac:(discriminate)) eq_refl).
Defined.

(** X12: in duration mode digits that follow the last unit letter make
    [str_to_uint] fail with the warning of an unfinished time string. *)
Theorem str_to_uint_unfinished (runs : list (string * ascii)) (ds : string) :
  runs <> [] ->
  forallb Duration.well_formed runs = true ->
  ds <> "" ->
  Duration.all_digits ds = true ->
  str_to_uint (Duration.duration_text runs ++ ds) true
  = Err [Warning "str_to_uint: unfinished time string" (-1)].
Proof.
  intros Hr Hw Hne Hd. unfold str_to_uint.
  destruct (Duration.duration_text runs ++ ds) eqn:E.
  { destruct runs as [|[a u] runs]; [congruence|]. cbn in E.
    destruct a; discriminate. }
  rewrite <- E. change 0 with (u32 0) at 1.
  rewrite NumberFacts.loop_runs_then by exact Hw.
  destruct runs as [|r runs]; [congruence|]. cbn [List.length Nat.eqb negb orb].
  pose proof (DurationFacts.loop_digits ds "" true true false
                (u32 (0 + Duration.duration_seconds (r :: runs))) 0 Hd) as H.
  rewrite append_nil_r in H. change (u32 0) with 0 in H. rewrite H.
  destruct ds; [congruence | reflexivity].
Qed.

Lemma str_to_uint_unfinished_witness :
  str_to_uint "1h30" true = Err [Warning "str_to_uint: unfinished time string" (-1)].
Proof.
  apply (str_to_uint_unfinished [("1", "h"%char)] "30");
    [discriminate | reflexivity | discriminate | reflexivity].
Defined.

(** X13: a number that [printf] writes with the conversion u reads back
    as itself: [str_to_uint], in either mode, on the decimal digits written
    for [v] returns [v] reduced modulo 2^32. *)
Theorem str_to_uint_reads_printed (v : Z) (allow_time_fmt : bool) :
  str_to_uint (fmt_unsigned 10 false 0 v) allow_time_fmt = Ok (v mod 2 ^ 32).
Proof.
  rewrite NumberFacts.fmt_unsigned_plain.
  destruct (NumberFacts.digits_value (u32 v)) as (H1 & H2 & H3);
    [apply u32_range|].
  rewrite NumberFacts.digits_only by assumption.
  rewrite H2. now rewrite u32_idem.
Qed.

(** ** sanitize_ip *)

Module AddressFacts.

Import Duration DurationFacts NumberFacts Address.

Lemma digit_not_dot (c : ascii) : is_digit c = true -> (c =? ".")%char = false.
Proof.
  intros H. destruct (Ascii.eqb_spec c "."); [subst; discriminate | reflexivity].
Qed.

Lemma strchr_dot_digits (pre post : string) :
  all_digits pre = true -> strchr_dot (pre ++ String "." post) = Some (pre, post).
Proof.
  induction pre as [|c pre IH]; intros H; cbn [append strchr_dot].
  - reflexivity.
  - cbn [all_digits] in H. apply andb_true_iff in H as [Hc H].
    rewrite (digit_not_dot c Hc), (IH H). reflexivity.
Qed.

Lemma strchr_dot_split (s pre post : string) :
  strchr_dot s = Some (pre, post) -> s = pre ++ String "." post.
Proof.
  revert pre post. induction s as [|c s IH]; intros pre post H; [discriminate|].
  cbn [strchr_dot] in H. destruct (Ascii.eqb_spec c ".") as [->|Hc].
  - injection H as <- <-. reflexivity.
  - destruct (strchr_dot s) as [[a b]|]; [|discriminate].
    injection H as <- <-. cbn [append]. now rewrite (IH a b eq_refl).
Qed.

(** The loop of an octet reads digits only. *)
Lemma ip_octet_digits (s : string) :
  forall total v, ip_octet s total = Some v -> all_digits s = true.
Proof.
  induction s as [|c s IH]; intros total v H; [reflexivity|].
  cbn [ip_octet] in H. cbn [all_digits].
  destruct (is_digit c) eqn:Ec.
  - destruct ((schar c <? 48) || (schar c >? 57)); [discriminate|]. now apply IH in H.
  - pose proof (not_digit_schar c Ec) as Hn.
    replace ((schar c <? 48) || (schar c >? 57)) with true in H; [discriminate|].
    symmetry. rewrite Z.geb_leb in Hn.
    destruct (Z.ltb_spec (schar c) 48); [reflexivity|].
    destruct (Z.gtb_spec (schar c) 57); [reflexivity|].
    apply andb_false_iff in Hn as [Hn|Hn]; [apply Z.leb_gt in Hn | apply Z.leb_gt in Hn]; lia.
Qed.

Lemma decimal_value_grows (ds : string) :
  forall acc, all_digits ds = true -> 0 <= acc -> acc <= decimal_value ds acc.
Proof.
  induction ds as [|c ds IH]; intros acc H Ha; cbn [decimal_value]; [lia|].
  cbn [all_digits] in H. apply andb_true_iff in H as [Hc H].
  destruct (is_digit_schar c Hc) as [_ Hr].
  specialize (IH (acc * 10 + (code c - 48)) H ltac:(lia)). lia.
Qed.

(** Digits read on an [int] with no overflow give their decimal value. *)
Lemma ip_octet_value (ds : string) :
  forall acc,
    all_digits ds = true -> 0 <= acc -> decimal_value ds acc < 2 ^ 31 ->
    ip_octet ds acc = Some (decimal_value ds acc).
Proof.
  induction ds as [|c ds IH]; intros acc H Ha Hv; cbn [ip_octet decimal_value]; [reflexivity|].
  cbn [all_digits] in H. apply andb_true_iff in H as [Hc H].
  destruct (is_digit_schar c Hc) as [Hs Hr]. cbn [decimal_value] in Hv.
  pose proof (decimal_value_grows ds (acc * 10 + (code c - 48)) H ltac:(lia)) as Hg.
  rewrite Hs.
  destruct (Z.ltb_spec (code c) 48); [lia|].
  destruct (Z.gtb_spec (code c) 57); [lia|]. cbn [orb].
  rewrite (i32_small (acc * 10)) by lia.
  rewrite i32_small by lia.
  apply IH; auto; lia.
Qed.

Lemma ip_octet_zeros (k : nat) (s : string) :
  ip_octet (repeat_char "0" k ++ s) 0 = ip_octet s 0.
Proof. induction k as [|k IH]; [reflexivity|]. cbn [repeat_char append ip_octet]. exact IH. Qed.

Lemma all_digits_app (a b : string) :
  all_digits (a ++ b) = all_digits a && all_digits b.
Proof.
  induction a as [|c a IH]; [reflexivity|]. cbn [append all_digits].
  now rewrite IH, andb_assoc.
Qed.

Lemma all_digits_zeros (k : nat) : all_digits (repeat_char "0" k) = true.
Proof. induction k as [|k IH]; [reflexivity | exact IH]. Qed.

(** An octet within 31 bits, with or without zeros before it. *)
Lemma octet_facts (k : nat) (n : Z) :
  0 <= n < 2 ^ 31 ->
  all_digits (octet k n) = true
  /\ (strlen (octet k n) =? 0) = false
  /\ ip_octet (octet k n) 0 = Some n.
Proof.
  intros Hn. unfold octet. destruct (digits_value n ltac:(lia)) as (H1 & H2 & H3).
  repeat split.
  - now rewrite all_digits_app, all_digits_zeros, H1.
  - apply Z.eqb_neq. unfold strlen. rewrite length_append.
    destruct (digits 10 false n); [congruence | cbn [String.length]; lia].
  - rewrite ip_octet_zeros, ip_octet_value by (auto; lia). now rewrite H2.
Qed.

(** One pass of the loop over an octet that ends at a dot. *)
Lemma loop_octet (m k : nat) (n : Z) (rest dest : string) :
  0 <= n <= 255 ->
  sanitize_ip_loop (S m) (octet k n ++ String "." rest) dest
  = sanitize_ip_loop m rest (dest ++ digits 10 false n ++ ".").
Proof.
  intros Hn. destruct (octet_facts k n ltac:(lia)) as (A1 & B1 & C1).
  cbn [sanitize_ip_loop]. rewrite strchr_dot_digits, B1, C1 by exact A1.
  destruct (Z.gtb_spec n 255); [lia|]. now rewrite fmt_d_plain by lia.
Qed.

Lemma nonempty_text (s : string) : (strlen s =? 0) = false -> String.eqb s "" = false.
Proof. destruct s; [discriminate | reflexivity]. Qed.

(** A pass of the loop that does not fail has read a run of digits that
    ends at a dot. *)
Lemma loop_octet_read (m : nat) (src dest r : string) :
  sanitize_ip_loop (S m) src dest = Some r ->
  exists a rest dest',
    src = a ++ String "." rest /\ digit_run_text a = true
    /\ sanitize_ip_loop m rest dest' = Some r.
Proof.
  cbn [sanitize_ip_loop]. intros H.
  destruct (strchr_dot src) as [[pre post]|] eqn:Es; [|discriminate].
  destruct (strlen pre =? 0) eqn:El; [discriminate|].
  destruct (ip_octet pre 0) as [total|] eqn:Eo; [|discriminate].
  destruct (total >? 255); [discriminate|].
  exists pre, post, (dest ++ fmt_d 0 total ++ "."). repeat split.
  - now apply strchr_dot_split.
  - unfold digit_run_text. now rewrite (nonempty_text pre El), (ip_octet_digits pre 0 total Eo).
  - exact H.
Qed.

Lemma last_octet_read (src dest r : string) :
  sanitize_ip_loop 0 src dest = Some r -> digit_run_text src = true.
Proof.
  cbn [sanitize_ip_loop]. intros H.
  destruct (strlen src =? 0) eqn:El; [discriminate|].
  destruct (ip_octet src 0) as [total|] eqn:Eo; [|discriminate].
  unfold digit_run_text. now rewrite (nonempty_text src El), (ip_octet_digits src 0 total Eo).
Qed.

End AddressFacts.

(** X14: [sanitize_ip] accepts four octets from 0 to 255 joined by dots,
    each written in decimal with any number of zeros before it, and
    returns the four octets joined by dots with those zeros removed. *)
Theorem sanitize_ip_canonical (k1 k2 k3 k4 : nat) (n1 n2 n3 n4 : Z) :
  0 <= n1 <= 255 -> 0 <= n2 <= 255 -> 0 <= n3 <= 255 -> 0 <= n4 <= 255 ->
  sanitize_ip (Address.dotted (Address.octet k1 n1) (Address.octet k2 n2)
                              (Address.octet k3 n3) (Address.octet k4 n4))
  = Some (Address.dotted (Address.octet 0 n1) (Address.octet 0 n2)
                         (Address.octet 0 n3) (Address.octet 0 n4)).
Proof.
  intros H1 H2 H3 H4.
  destruct (AddressFacts.octet_facts k4 n4 ltac:(lia)) as (A4 & B4 & C4).
  unfold sanitize_ip, Address.dotted.
  rewrite !AddressFacts.loop_octet by assumption.
  cbn [sanitize_ip_loop]. rewrite B4, C4.
  destruct (Z.gtb_spec n4 255); [lia|].
  rewrite NumberFacts.fmt_d_plain by lia.
  unfold Address.octet. cbn [repeat_char append]. rewrite !append_assoc.
  reflexivity.
Qed.

Lemma sanitize_ip_canonical_witness :
  sanitize_ip "127.00000.0.001" = Some "127.0.0.1".
Proof.
  apply (sanitize_ip_canonical 0 4 0 2 127 0 0 1); lia.
Defined.

(** X15: [sanitize_ip] accepts nothing but four runs of decimal digits
    joined by three dots: a text with fewer or more dots, an empty octet, a
    sign, a blank or any other character is rejected. *)
Theorem sanitize_ip_accepts_only_quads (s r : string) :
  sanitize_ip s = Some r ->
  exists a b c d,
    s = Address.dotted a b c d
    /\ Address.digit_run_text a = true /\ Address.digit_run_text b = true
    /\ Address.digit_run_text c = true /\ Address.digit_run_text d = true.
Proof.
  unfold sanitize_ip. intros H.
  apply AddressFacts.loop_octet_read in H as (a & r1 & d1 & E1 & Ha & H).
  apply AddressFacts.loop_octet_read in H as (b & r2 & d2 & E2 & Hb & H).
  apply AddressFacts.loop_octet_read in H as (c & r3 & d3 & E3 & Hc & H).
  apply AddressFacts.last_octet_read in H.
  exists a, b, c, r3. subst. unfold Address.dotted. auto.
Qed.

Lemma sanitize_ip_accepts_only_quads_witness :
  exists a b c d,
    "10.0.0.1" = Address.dotted a b c d
    /\ Address.digit_run_text a = true /\ Address.digit_run_text b = true
    /\ Address.digit_run_text c = true /\ Address.digit_run_text d = true.
Proof.
  apply (sanitize_ip_accepts_only_quads "10.0.0.1" "10.0.0.1"). reflexivity.
Defined.

(** ** tokenize: an entry on one line *)

Module LinesFacts.

Import Words WordsFacts Lines.

Lemma scan_break (f : nat) (s s1 : tok_state) :
  (line_at (line s) (i s) =? nul)%char = false ->
  scan_char s = Break s1 ->
  scan (S f) s = ScanEnd s1.
Proof. intros Hc Hs. cbn [scan]. now rewrite Hc, Hs. Qed.

(** A blank in the first column stores the blank token. *)
Lemma scan_char_first_blank (todo : list ascii) (p : Z) (txt : bool)
      (toks : list token_ptr) (tok found : bool) :
  scan_char (mk_tok (" "%char :: todo) 0 false p false false txt toks tok found)
  = Next (mk_tok (" "%char :: todo) 0 false p false false txt (toks ++ [BlankToken]) tok found).
Proof. reflexivity. Qed.

(** The semicolon that starts a comment, outside quotes. *)
Lemma scan_char_semicolon (done todo : list ascii) (p : Z) (txt : bool)
      (toks : list token_ptr) (tok found : bool) :
  Z.of_nat (List.length done) < LINE_LEN ->
  scan_char (mk_tok (done ++ ";"%char :: todo) (List.length done)
                    false p false false txt toks tok found)
  = Break (mk_tok (done ++ nul :: todo) (List.length done) false p false false txt
                  toks false found).
Proof.
  intros Hl. unfold scan_char, escape_step. cbn [i line set_in_quote in_quote].
  destruct (Z.eqb_spec (Z.of_nat (List.length done)) LINE_LEN); [lia|].
  rewrite line_at_mid. change (";" =? "\")%char with false. cbn [andb].
  unfold syntax_step. cbn [i line in_doublequote andb]. rewrite line_at_mid.
  change (";" =? ";")%char with true. cbv iota.
  unfold end_token, cut_here, with_in_token, with_line.
  cbn [line i in_doublequote paren_level in_quote set_in_quote in_txt token
       in_token found_nonblank_token].
  now rewrite line_set_app.
Qed.

(** Blanks after the first column. *)
Lemma scan_blanks (m : nat) :
  forall done todo p txt toks found f,
    done <> [] ->
    Z.of_nat (List.length done + m) <= LINE_LEN ->
    scan (m + f) (mk_tok (done ++ repeat " "%char m ++ todo) (List.length done)
                         false p false false txt toks false found)
    = scan f (mk_tok ((done ++ repeat nul m) ++ todo) (List.length done + m)
                     false p false false txt toks false found).
Proof.
  induction m as [|m IH]; intros done todo p txt toks found f Hd Hl.
  - cbn [repeat app Nat.add]. now rewrite app_nil_r, Nat.add_0_r.
  - cbn [repeat app Nat.add]. rewrite scan_blank by (auto; lia).
    rewrite (app_snoc done nul), <- (length_snoc done nul).
    rewrite IH; [|destruct done; discriminate|rewrite length_snoc; lia].
    rewrite length_snoc. rewrite <- !app_assoc. cbn [app].
    f_equal. f_equal. lia.
Qed.

(** The blanks at the start of a line. *)
Lemma scan_margin (k : nat) (todo : list ascii) (p : Z) (txt : bool) (f : nat) :
  Z.of_nat k <= LINE_LEN ->
  exists done toks,
    scan (k + f) (mk_tok (margin k ++ todo) 0 false p false false txt [] false false)
    = scan f (mk_tok (done ++ todo) (List.length done) false p false false txt toks false false)
    /\ List.length done = k
    /\ tokens_read done toks (if Nat.eqb k 0 then [] else [" "])
    /\ List.length toks = (if Nat.eqb k 0 then 0 else 1)%nat.
Proof.
  intros Hk. destruct k as [|m].
  - exists [], []. repeat split.
  - exists (" "%char :: repeat nul m), [BlankToken]. unfold margin.
    cbn [repeat app Nat.add Nat.eqb]. repeat split.
    + erewrite scan_next; [|reflexivity|apply scan_char_first_blank].
      unfold with_i.
      cbn [line i in_doublequote paren_level in_quote set_in_quote in_txt token
           in_token found_nonblank_token app].
      pose proof (scan_blanks m [" "%char] todo p txt [BlankToken] false f
                              ltac:(discriminate)) as H.
      cbn [List.length app Nat.add] in H. rewrite H by lia.
      cbn [List.length]. now rewrite repeat_length.
    + cbn [List.length]. now rewrite repeat_length.
Qed.

Lemma joined_snoc (ws : list (list ascii)) (w : list ascii) :
  joined (ws ++ [w]) = (spaced ws ++ w)%list.
Proof.
  induction ws as [|v ws IH]; [reflexivity|].
  cbn [app joined]. destruct (ws ++ [w])%list eqn:E.
  { destruct ws; discriminate. }
  rewrite IH. unfold spaced. cbn [flat_map]. now rewrite <- !app_assoc.
Qed.

(** The words of a line up to the last character of the last word. *)
Lemma scan_joined (words : list (list ascii)) :
  forall done toks strs todo p txt found f,
    words <> [] ->
    forallb word words = true ->
    tokens_read done toks strs ->
    Z.of_nat (List.length toks + List.length words) <= MAX_TOKENS ->
    Z.of_nat (List.length done + List.length (joined words)) <= LINE_LEN ->
    exists done' toks',
      scan (List.length (joined words) + f)
           (mk_tok (done ++ joined words ++ todo) (List.length done)
                   false p false false txt toks false found)
      = scan f (mk_tok (done' ++ todo) (List.length done')
                       false p false false txt toks' true true)
      /\ (forall tail, map (token_str (done' ++ nul :: tail)) toks'
                       = (strs ++ map string_of_list_ascii words)%list)
      /\ List.length done' = (List.length done + List.length (joined words))%nat.
Proof.
  intros done toks strs todo p txt found f Hne Hw Hr Ht Hl.
  destruct (exists_last Hne) as (ws & w & ->).
  rewrite joined_snoc in *. rewrite forallb_app in Hw.
  apply andb_true_iff in Hw as [Hws Hw]. cbn [forallb] in Hw. rewrite andb_true_r in Hw.
  rewrite !length_app in *. cbn [List.length] in Ht.
  destruct (scan_words ws done toks strs (w ++ todo) p txt found (List.length w + f) Hws Hr)
    as (d1 & t1 & Hscan & Hread & Hlen); [lia | lia |].
  rewrite <- app_assoc.
  replace (List.length (spaced ws) + List.length w + f)%nat
    with (List.length (spaced ws) + (List.length w + f))%nat by lia.
  rewrite Hscan.
  assert (Hcount : List.length t1 = (List.length toks + List.length ws)%nat).
  { pose proof (Hread []) as E. apply (f_equal (@List.length string)) in E.
    pose proof (Hr []) as E0. apply (f_equal (@List.length string)) in E0.
    rewrite length_map in E, E0. rewrite length_app, length_map in E. lia. }
  rewrite scan_word; [|exact Hw|lia|lia].
  exists (d1 ++ w)%list, (t1 ++ [LinePtr (List.length d1)])%list.
  rewrite <- app_assoc, length_app. split; [reflexivity|]. split; [|lia].
  intros tail. unfold word in Hw. apply andb_true_iff in Hw as [_ Ho].
  pose proof (tokens_read_word d1 w t1 _ Ho Hread tail) as E.
  replace ((d1 ++ w) ++ nul :: tail)%list with ((d1 ++ w ++ [nul]) ++ tail)%list
    by (rewrite <- !app_assoc; reflexivity).
  rewrite E. now rewrite map_app, <- app_assoc.
Qed.

(** The end of a line: a comment or nothing, and the newline. *)
Lemma scan_trailing (t : list ascii) (done : list ascii) (p : Z) (txt : bool)
      (toks : list token_ptr) (tok found : bool) (f : nat) :
  trailing t = true ->
  Z.of_nat (List.length done + List.length t) < LINE_LEN ->
  exists rest n,
    scan (S (S f)) (mk_tok (done ++ t ++ [newline]) (List.length done)
                          false p false false txt toks tok found)
    = ScanEnd (mk_tok (done ++ nul :: rest) n false p false false txt toks false found).
Proof.
  intros Ht Hl. destruct t as [|c t].
  - exists [], (S (List.length done)). cbn [app].
    erewrite scan_next;
      [|cbn [line i]; now rewrite line_at_mid|apply scan_char_newline; cbn in Hl; lia].
    unfold with_i.
    cbn [line i in_doublequote paren_level in_quote set_in_quote in_txt token
         in_token found_nonblank_token].
    rewrite <- (length_snoc done nul). rewrite (app_snoc done nul []), app_nil_r.
    apply scan_end.
  - cbn [trailing] in Ht. apply andb_true_iff in Ht as [Hc _].
    apply Ascii.eqb_eq in Hc. subst c.
    exists (t ++ [newline])%list, (List.length done). cbn [app].
    erewrite scan_break;
      [reflexivity|cbn [line i]; now rewrite line_at_mid
       |apply scan_char_semicolon; cbn in Hl; lia].
Qed.

Lemma joined_app (first : list (list ascii)) (w : list ascii) (more : list (list ascii)) :
  joined (first ++ w :: more) = (spaced first ++ joined (w :: more))%list.
Proof.
  induction first as [|v first IH]; [reflexivity|].
  cbn [app joined]. destruct (first ++ w :: more)%list eqn:E.
  { destruct first; discriminate. }
  rewrite IH. unfold spaced. cbn [flat_map]. now rewrite <- !app_assoc.
Qed.

(** The first character of a word when the token array is full. *)
Lemma scan_char_overflow (l : list ascii) (n : nat) (p : Z) (txt : bool)
      (toks : list token_ptr) (found : bool) :
  ordinary (line_at l n) = true ->
  Z.of_nat n <> LINE_LEN ->
  MAX_TOKENS <= Z.of_nat (List.length toks) ->
  scan_char (mk_tok l n false p false false txt toks false found)
  = StepFatal m_too_many_tokens.
Proof.
  intros Ho Hn Ht. destruct (ordinary_tests _ Ho) as (E0&E1&E2&E3&E4&E5&E6&E7&E8&E9).
  unfold scan_char, escape_step. cbn [i line set_in_quote in_quote].
  apply Z.eqb_neq in Hn. rewrite Hn, E1. cbn [andb].
  unfold syntax_step. cbn [i line in_doublequote in_token andb].
  rewrite E2, E3, E4, E5, E6, E7, E8, E9. cbn [orb negb].
  unfold num_tokens. cbn [token].
  destruct (Z.geb_spec (Z.of_nat (List.length toks)) MAX_TOKENS); [reflexivity | lia].
Qed.

Lemma length_margin (k : nat) : List.length (margin k) = k.
Proof. apply repeat_length. Qed.

(** The scan of a line: blanks, words, and the end of the line. *)
Lemma scan_line (k : nat) (words : list (list ascii)) (t : list ascii) (p : Z) (txt : bool) :
  forallb word words = true ->
  trailing t = true ->
  Z.of_nat (slots k words) <= MAX_TOKENS ->
  Z.of_nat (k + List.length (joined words) + List.length t) < LINE_LEN ->
  exists s2,
    scan (S (List.length (margin k ++ joined words ++ t ++ [newline])))
         (mk_tok (margin k ++ joined words ++ t ++ [newline]) 0
                 false p false false txt [] false false)
    = ScanEnd s2
    /\ paren_level s2 = p /\ in_quote s2 = false /\ in_doublequote s2 = false
    /\ in_txt s2 = txt
    /\ (if found_nonblank_token s2 then map (token_str (line s2)) (token s2) else [])
       = entry_tokens k words.
Proof.
  intros Hw Ht Hs Hl. unfold slots in Hs.
  rewrite !length_app, length_margin. cbn [List.length].
  destruct (scan_margin k (joined words ++ t ++ [newline]) p txt
                        (List.length (joined words) + S (S (List.length t))) ltac:(lia))
    as (d0 & t0 & Hscan0 & Hlen0 & Hread0 & Hcount0).
  replace (S (k + (List.length (joined words) + (List.length t + 1))))
    with (k + (List.length (joined words) + S (S (List.length t))))%nat by lia.
  rewrite Hscan0. clear Hscan0.
  destruct words as [|w0 ws0].
  - cbn [joined app List.length Nat.add].
    destruct (scan_trailing t d0 p txt t0 false false (List.length t) Ht)
      as (rest & n & Hscan); [cbn in Hl; lia|].
    rewrite Hscan. eexists. split; [reflexivity|]. repeat split.
  - set (words := w0 :: ws0) in *.
    destruct (scan_joined words d0 t0 _ (t ++ [newline]) p txt false (S (S (List.length t)))
                          ltac:(discriminate) Hw Hread0)
      as (d1 & t1 & Hscan1 & Hread1 & Hlen1); [lia | lia |].
    rewrite Hscan1. clear Hscan1.
    destruct (scan_trailing t d1 p txt t1 true true (List.length t) Ht)
      as (rest & n & Hscan); [lia|].
    rewrite Hscan. eexists. split; [reflexivity|].
    cbn [paren_level in_quote in_doublequote in_txt found_nonblank_token line token].
    repeat split. rewrite Hread1. reflexivity.
Qed.

(** [fgets] on the first line of the input, when it fits the buffer. *)
Lemma fgets_first_line (pre rest : list ascii) :
  forallb (fun c => negb (c =? newline)%char) pre = true ->
  Z.of_nat (List.length pre) < LINE_LEN ->
  fgets (LINE_LEN + 1 - Z.of_nat 0) (pre ++ newline :: rest)
  = Some ((pre ++ [newline])%list, rest).
Proof.
  intros Hp Hl. unfold fgets.
  destruct (Z.leb_spec (LINE_LEN + 1 - Z.of_nat 0) 1) as [H|H]; [unfold LINE_LEN in H; lia|].
  rewrite fgets_read_line; [|exact Hp|unfold LINE_LEN in *; lia].
  destruct pre; reflexivity.
Qed.

Lemma no_newline_margin (k : nat) :
  forallb (fun c => negb (c =? newline)%char) (margin k) = true.
Proof. induction k as [|k IH]; [reflexivity | exact IH]. Qed.

Lemma no_newline_word (w : list ascii) :
  forallb ordinary w = true -> forallb (fun c => negb (c =? newline)%char) w = true.
Proof.
  induction w as [|c w IH]; intros Ho; [reflexivity|].
  cbn [forallb] in *. apply andb_true_iff in Ho as [Hc Ho].
  destruct (ordinary_tests c Hc) as (_&_&_&_&_&_&_&_&E&_). rewrite E. now apply IH.
Qed.

Lemma no_newline_joined (words : list (list ascii)) :
  forallb word words = true ->
  forallb (fun c => negb (c =? newline)%char) (joined words) = true.
Proof.
  intros Hw. destruct words as [|w0 ws0]; [reflexivity|].
  destruct (@exists_last _ (w0 :: ws0) ltac:(discriminate)) as (ws & w & E).
  rewrite E in *. rewrite joined_snoc. rewrite forallb_app in *.
  apply andb_true_iff in Hw as [Hws Hw]. cbn [forallb] in Hw. rewrite andb_true_r in Hw.
  rewrite (no_newline_spaced ws Hws). unfold word in Hw.
  apply andb_true_iff in Hw as [_ Ho]. now rewrite (no_newline_word w Ho).
Qed.

Lemma no_newline_trailing (t : list ascii) :
  trailing t = true -> forallb (fun c => negb (c =? newline)%char) t = true.
Proof.
  destruct t as [|c t]; [reflexivity|]. cbn [trailing forallb]. intros H.
  apply andb_true_iff in H as [Hc H]. apply Ascii.eqb_eq in Hc. subst c.
  exact H.
Qed.

(** The scan of a line with more words than the token array holds. *)
Lemma scan_crowded_line (k : nat) (words : list (list ascii)) (t : list ascii) (p : Z)
      (txt : bool) :
  forallb word words = true ->
  MAX_TOKENS < Z.of_nat (slots k words) ->
  Z.of_nat (k + List.length (joined words) + List.length t) < LINE_LEN ->
  scan (S (List.length (margin k ++ joined words ++ t ++ [newline])))
       (mk_tok (margin k ++ joined words ++ t ++ [newline]) 0
               false p false false txt [] false false)
  = ScanFatal m_too_many_tokens.
Proof.
  intros Hw Hs Hl. unfold slots in Hs.
  set (b := (if Nat.eqb k 0 then 0 else 1)%nat) in *.
  assert (Hb : (b <= 1)%nat) by (unfold b; destruct (Nat.eqb k 0); lia).
  set (n0 := (32 - b)%nat).
  assert (Hsplit : words = (firstn n0 words ++ skipn n0 words)%list)
    by (symmetry; apply firstn_skipn).
  assert (Hfirst : List.length (firstn n0 words) = n0).
  { rewrite length_firstn. unfold n0, MAX_TOKENS in *. lia. }
  destruct (skipn n0 words) as [|w more] eqn:Eskip.
  { apply (f_equal (@List.length _)) in Eskip. rewrite length_skipn in Eskip.
    cbn [List.length] in Eskip. unfold n0, MAX_TOKENS in *. lia. }
  set (first := firstn n0 words) in *.
  rewrite Hsplit in Hw, Hl |- *. rewrite joined_app in *.
  rewrite forallb_app in Hw. apply andb_true_iff in Hw as [Hfw Hw].
  cbn [forallb] in Hw. apply andb_true_iff in Hw as [Hw _].
  unfold word in Hw. apply andb_true_iff in Hw as [Hne Ho].
  destruct w as [|c w]; [discriminate|]. cbn [forallb] in Ho.
  apply andb_true_iff in Ho as [Hc _].
  assert (Hj : exists tl, joined ((c :: w) :: more) = c :: tl).
  { cbn [joined]. destruct more; eexists; reflexivity. }
  destruct Hj as (tl & Hj). rewrite Hj in *.
  rewrite !length_app, length_margin in *. cbn [List.length] in *.
  set (f := (List.length tl + (List.length t + 1))%nat).
  destruct (scan_margin k ((spaced first ++ c :: tl) ++ t ++ [newline]) p txt
                        (List.length (spaced first) + S (S f)) ltac:(lia))
    as (d0 & t0 & Hscan0 & Hlen0 & Hread0 & Hcount0).
  replace (S (k + (List.length (spaced first) + S (List.length tl) + (List.length t + 1))))
    with (k + (List.length (spaced first) + S (S f)))%nat by (unfold f; lia).
  rewrite Hscan0. clear Hscan0. rewrite <- app_assoc.
  destruct (scan_words first d0 t0 _ ((c :: tl) ++ t ++ [newline]) p txt false (S (S f))
                       Hfw Hread0)
    as (d1 & t1 & Hscan1 & Hread1 & Hlen1).
  { fold b in Hcount0. unfold MAX_TOKENS. lia. }
  { lia. }
  rewrite Hscan1. clear Hscan1. cbn [app].
  assert (Hcount : List.length t1 = 32%nat).
  { pose proof (Hread1 []) as E. apply (f_equal (@List.length string)) in E.
    rewrite length_map, length_app, length_map in E. fold b in E.
    destruct (Nat.eqb k 0); cbn [List.length] in E; unfold b in *; lia. }
  apply scan_fatal; [cbn [line i]; rewrite line_at_mid; now destruct (ordinary_tests c Hc)|].
  apply scan_char_overflow; [now rewrite line_at_mid | lia | unfold MAX_TOKENS; lia].
Qed.

Lemma fgets_entry_line (k : nat) (words : list (list ascii)) (t rest : list ascii) :
  forallb word words = true ->
  trailing t = true ->
  Z.of_nat (k + List.length (joined words) + List.length t) < LINE_LEN ->
  fgets (LINE_LEN + 1 - Z.of_nat 0)
        (margin k ++ joined words ++ t ++ newline :: rest)
  = Some ((margin k ++ joined words ++ t ++ [newline])%list, rest).
Proof.
  intros Hw Ht Hl.
  replace (margin k ++ joined words ++ t ++ newline :: rest)%list
    with ((margin k ++ joined words ++ t) ++ newline :: rest)%list
    by (rewrite <- !app_assoc; reflexivity).
  replace (margin k ++ joined words ++ t ++ [newline])%list
    with ((margin k ++ joined words ++ t) ++ [newline])%list
    by (rewrite <- !app_assoc; reflexivity).
  apply fgets_first_line.
  - rewrite !forallb_app, no_newline_margin,
      no_newline_joined, no_newline_trailing by assumption.
    reflexivity.
  - rewrite !length_app, length_margin. lia.
Qed.

(** [tokenize] on input that starts with a line of blanks, words and
    the end of the line or a comment. *)
Lemma tokenize_line (k : nat) (words : list (list ascii)) (t rest : list ascii) (ln : Z) :
  forallb word words = true ->
  trailing t = true ->
  Z.of_nat (slots k words) <= MAX_TOKENS ->
  Z.of_nat (k + List.length (joined words) + List.length t) < LINE_LEN ->
  tokenize (margin k ++ joined words ++ t ++ newline :: rest) ln
  = mk_tok_out (TokEntry (entry_tokens k words)) rest (ln + 1) ln [].
Proof.
  intros Hw Ht Hs Hl.
  destruct (scan_line k words t 0 false Hw Ht Hs Hl)
    as (s2 & Hscan & Hp & Hq & Hdq & _ & Htok).
  pose proof (fgets_entry_line k words t rest Hw Ht Hl) as Hgets.
  unfold tokenize. cbn [tokenize_loop]. change (i tok_init) with 0%nat.
  rewrite Hgets.
  change (with_line tok_init (firstn 0 (line tok_init) ++ ?l))
    with (mk_tok l 0 false 0 false false false [] false false).
  rewrite Hscan. unfold end_of_line_warnings. rewrite Hp, Hq, Hdq, Htok.
  reflexivity.
Qed.

End LinesFacts.

(** X16: an entry on one line.  On input that starts with a line of [k]
    blanks, words separated by single blanks, and then the end of the line
    or a comment, [tokenize] returns the words as the tokens, with the
    blank token before them when the line starts with a blank; a line with
    no words gives no tokens.  The rest of the input is left unread, the
    line counter goes up by one, and nothing is printed. *)
Theorem tokenize_one_line (k : nat) (words : list (list ascii)) (t rest : list ascii)
        (ln : Z) :
  forallb Words.word words = true ->
  Lines.trailing t = true ->
  Z.of_nat (Lines.slots k words) <= MAX_TOKENS ->
  Z.of_nat (k + List.length (Lines.joined words) + List.length t) < LINE_LEN ->
  tokenize (Lines.margin k ++ Lines.joined words ++ t ++ newline :: rest) ln
  = mk_tok_out (TokEntry (Lines.entry_tokens k words)) rest (ln + 1) ln [].
Proof. apply LinesFacts.tokenize_line. Qed.

Lemma tokenize_one_line_witness :
  tokenize (zone ("www 300 IN A 10.0.0.1;web" ++ eol ++ " MX 10 mail" ++ eol)) 7
  = mk_tok_out (TokEntry ["www"; "300"; "IN"; "A"; "10.0.0.1"])
               (zone (" MX 10 mail" ++ eol)) 8 7 []
  /\ tokenize (zone (" MX 10 mail" ++ eol)) 8
     = mk_tok_out (TokEntry [" "; "MX"; "10"; "mail"]) [] 9 8 []
  /\ tokenize (zone ("  ; nothing here" ++ eol ++ "x")) 1
     = mk_tok_out (TokEntry []) (zone "x") 2 1 [].
Proof.
  split; [|split].
  - apply (tokenize_one_line 0 [zone "www"; zone "300"; zone "IN"; zone "A"; zone "10.0.0.1"]
                             (zone ";web") (zone (" MX 10 mail" ++ eol)) 7);
      [reflexivity | reflexivity | vm_compute; discriminate | vm_compute; reflexivity].
  - apply (tokenize_one_line 1 [zone "MX"; zone "10"; zone "mail"] [] [] 8);
      [reflexivity | reflexivity | vm_compute; discriminate | vm_compute; reflexivity].
  - apply (tokenize_one_line 2 [] (zone "; nothing here") (zone "x") 1);
      [reflexivity | reflexivity | vm_compute; discriminate | vm_compute; reflexivity].
Defined.

(** X17: a line with more words than the token array holds.  When the
    words of the line, with the blank token if the line starts with a blank,
    are more than 32, [tokenize] calls [fatal] with the message of too many
    tokens, at the line where the entry starts. *)
Theorem tokenize_too_many_tokens (k : nat) (words : list (list ascii)) (t rest : list ascii)
        (ln : Z) :
  forallb Words.word words = true ->
  Lines.trailing t = true ->
  MAX_TOKENS < Z.of_nat (Lines.slots k words) ->
  Z.of_nat (k + List.length (Lines.joined words) + List.length t) < LINE_LEN ->
  tokenize (Lines.margin k ++ Lines.joined words ++ t ++ newline :: rest) ln
  = mk_tok_out TokFatal rest ln ln [FatalMsg m_too_many_tokens ln].
Proof.
  intros Hw Ht Hs Hl.
  pose proof (LinesFacts.scan_crowded_line k words t 0 false Hw Hs Hl) as Hscan.
  pose proof (LinesFacts.fgets_entry_line k words t rest Hw Ht Hl) as Hgets.
  unfold tokenize. cbn [tokenize_loop]. change (i tok_init) with 0%nat.
  rewrite Hgets.
  change (with_line tok_init (firstn 0 (line tok_init) ++ ?l))
    with (mk_tok l 0 false 0 false false false [] false false).
  now rewrite Hscan.
Qed.

Lemma tokenize_too_many_tokens_witness :
  tokenize (Lines.margin 1 ++ Lines.joined (repeat (zone "a") 32) ++ [] ++ newline :: zone "b") 4
  = mk_tok_out TokFatal (zone "b") 4 4 [FatalMsg m_too_many_tokens 4].
Proof.
  apply (tokenize_too_many_tokens 1 (repeat (zone "a") 32) [] (zone "b") 4);
    [reflexivity | reflexivity | vm_compute; reflexivity | vm_compute; reflexivity].
Defined.

(** ** The $GENERATE directive: templates and ranges *)

Module TemplateFacts.

Import Generate GenerateFacts Template.

Lemma substring_app (a b : string) :
  forall n, substring 0 n (a ++ b)
            = substring 0 n a ++ substring 0 (n - String.length a) b.
Proof.
  induction a as [|c a IH]; intros n.
  - cbn [append String.length]. rewrite Nat.sub_0_r. now destruct n.
  - destruct n as [|n]; cbn [append substring String.length Nat.sub].
    + now destruct b.
    + now rewrite IH.
Qed.

Lemma strlen_nonneg (s : string) : 0 <= strlen s.
Proof. unfold strlen. lia. Qed.

Lemma strlen_app (a b : string) : strlen (a ++ b) = strlen a + strlen b.
Proof. unfold strlen. rewrite length_append. lia. Qed.

(** The loop stores the first 1020 characters of what the parts write,
    and calls [fatal] when they write more than 1021. *)
Lemma construct_loop_result (l : list ascii) (iter : Z) (ps : list gen_part) :
  forall full,
    strlen full <= DOMAIN_STR_LEN ->
    construct_loop l ps iter (substring 0 (Z.to_nat (DOMAIN_STR_LEN - 1)) full) (strlen full)
    = if strlen (full ++ whole l ps iter) >? DOMAIN_STR_LEN then None
      else Some (substring 0 (Z.to_nat (DOMAIN_STR_LEN - 1)) (full ++ whole l ps iter)).
Proof.
  induction ps as [|p ps IH]; intros full Hf.
  - cbn [construct_loop whole]. rewrite append_nil_r.
    destruct (Z.gtb_spec (strlen full) DOMAIN_STR_LEN); [lia | reflexivity].
  - cbn [construct_loop whole]. set (s := part_text l p iter).
    pose proof (strlen_nonneg s) as Hs. pose proof (strlen_nonneg full) as Hfull.
    pose proof (strlen_nonneg (whole l ps iter)) as Hw.
    destruct (Z.ltb_spec (strlen s) 0); [lia|]. cbn [orb].
    rewrite <- append_assoc.
    destruct (Z.gtb_spec (strlen full + strlen s) DOMAIN_STR_LEN) as [Hlong|Hfit].
    + rewrite !strlen_app.
      destruct (Z.gtb_spec (strlen full + strlen s + strlen (whole l ps iter)) DOMAIN_STR_LEN);
        [reflexivity | lia].
    + rewrite <- (IH (full ++ s)) by (rewrite strlen_app; lia).
      rewrite strlen_app. f_equal.
      rewrite substring_app.
      destruct (Z.gtb_spec (DOMAIN_STR_LEN - strlen full) 0) as [Hroom|Hnone].
      * f_equal. f_equal. unfold strlen. lia.
      * replace (Z.to_nat (DOMAIN_STR_LEN - 1) - String.length full)%nat with O
          by (unfold strlen in *; lia).
        replace (substring 0 0 s) with "" by (now destruct s).
        now rewrite append_nil_r.
Qed.

Lemma construct_result (l : list ascii) (ps : list gen_part) (iter : Z) :
  construct_gen_output l ps iter
  = if strlen (whole l ps iter) >? DOMAIN_STR_LEN then None
    else Some (substring 0 (Z.to_nat (DOMAIN_STR_LEN - 1)) (whole l ps iter)).
Proof.
  unfold construct_gen_output.
  apply (construct_loop_result l iter ps ""). cbn. lia.
Qed.

Lemma construct_fits (l : list ascii) (ps : list gen_part) (iter : Z) :
  strlen (whole l ps iter) < DOMAIN_STR_LEN ->
  construct_gen_output l ps iter = Some (whole l ps iter).
Proof.
  intros Hl. rewrite construct_result.
  destruct (Z.gtb_spec (strlen (whole l ps iter)) DOMAIN_STR_LEN); [lia|].
  rewrite substring_all; [reflexivity|].
  unfold strlen, DOMAIN_STR_LEN, DOMAIN_LEN in *. lia.
Qed.

End TemplateFacts.

(** X18: [construct_gen_output] writes the texts of the parts one after
    the other.  It calls [fatal] when they are more than 1021 characters
    together; otherwise it returns their first 1020 characters, which is all
    of them unless they are exactly 1021.  What it returns is never longer
    than 1020 characters. *)
Theorem construct_gen_output_result (l : list ascii) (ps : list gen_part) (iter : Z) :
  construct_gen_output l ps iter
  = (if strlen (Template.whole l ps iter) >? DOMAIN_STR_LEN then None
     else Some (substring 0 (Z.to_nat (DOMAIN_STR_LEN - 1)) (Template.whole l ps iter)))
  /\ (strlen (Template.whole l ps iter) < DOMAIN_STR_LEN ->
      construct_gen_output l ps iter = Some (Template.whole l ps iter))
  /\ (forall s, construct_gen_output l ps iter = Some s -> strlen s < DOMAIN_STR_LEN).
Proof.
  split; [apply TemplateFacts.construct_result|]. split.
  - apply TemplateFacts.construct_fits.
  - intros s Hs. rewrite TemplateFacts.construct_result in Hs.
    destruct (strlen (Template.whole l ps iter) >? DOMAIN_STR_LEN); [discriminate|].
    injection Hs as <-. unfold strlen. rewrite QualifyFacts.length_substring.
    unfold DOMAIN_STR_LEN, DOMAIN_LEN. lia.
Qed.

Lemma construct_gen_output_result_witness :
  construct_gen_output (zone "host") [Literal 0; Placeholder 1 3 "d"] 4 = Some "host005"
  /\ strlen "host005" < DOMAIN_STR_LEN.
Proof.
  pose proof (construct_gen_output_result (zone "host") [Literal 0; Placeholder 1 3 "d"] 4)
    as (_ & H2 & H3).
  split.
  - apply H2. vm_compute. reflexivity.
  - apply H3. apply H2. vm_compute. reflexivity.
Defined.

Module PlaceholderFacts.

Import Generate GenerateFacts WordsFacts Template TemplateFacts.

Lemma i32_mod (z : Z) : i32 z mod 2 ^ 32 = z mod 2 ^ 32.
Proof.
  unfold i32. destruct (z mod 2 ^ 32 <? 2 ^ 31).
  - apply Z.mod_mod. discriminate.
  - rewrite Zminus_mod, Z_mod_same_full, Z.sub_0_r, !Z.mod_mod; [reflexivity | discriminate | discriminate].
Qed.

Lemma i32_idem (z : Z) : i32 (i32 z) = i32 z.
Proof. unfold i32 at 1 3. now rewrite i32_mod. Qed.

Lemma fmt_d_i32 (width v : Z) : fmt_d width (i32 v) = fmt_d width v.
Proof. unfold fmt_d. now rewrite i32_idem. Qed.

Lemma literal_first (s : string) :
  literal s = true ->
  (line_at (list_ascii_of_string s) 0 =? "$")%char = false
  /\ (line_at (list_ascii_of_string s) 0 =? nul)%char = negb (negb (String.eqb s "")).
Proof.
  destruct s as [|c s]; [intros _; split; reflexivity|].
  cbn [literal list_ascii_of_string]. unfold line_at. cbn [nth]. intros H.
  apply andb_true_iff in H as [H _]. apply andb_true_iff in H as [H Hn].
  apply andb_true_iff in H as [Hd _].
  apply negb_true_iff in Hd, Hn. now rewrite Hd, Hn.
Qed.

Lemma no_brace_first (s : string) :
  no_brace s = true -> (line_at (list_ascii_of_string s) 0 =? "{")%char = false.
Proof.
  destruct s as [|c s]; [reflexivity|]. cbn [no_brace list_ascii_of_string].
  unfold line_at. cbn [nth]. intros H. now apply negb_true_iff in H.
Qed.

(** The parser walks over literal text. *)
Lemma parse_literal (s : string) :
  forall a c ps f,
    literal s = true ->
    parse_gen_loop (String.length s + f)
                   (mk_gen (a ++ list_ascii_of_string s ++ c) ps (List.length a) false)
    = parse_gen_loop f (mk_gen (a ++ list_ascii_of_string s ++ c) ps
                               (List.length a + String.length s) false).
Proof.
  induction s as [|ch s IH]; intros a c ps f H.
  - cbn [String.length Nat.add]. now rewrite Nat.add_0_r.
  - cbn [literal] in H. apply andb_true_iff in H as [H Hs].
    apply andb_true_iff in H as [H Hn]. apply andb_true_iff in H as [Hd Hb].
    apply negb_true_iff in Hd, Hb, Hn.
    cbn [String.length Nat.add list_ascii_of_string app parse_gen_loop gline ptr].
    rewrite line_at_mid, Hn. unfold gen_step. cbn [gin_quote gline ptr parts].
    rewrite line_at_mid, Hb, Hd. cbn [gline parts ptr gin_quote].
    rewrite (app_snoc a ch), <- (length_snoc a ch).
    rewrite IH by exact Hs. rewrite length_snoc. f_equal. f_equal. lia.
Qed.

Lemma c_str_literal (s : string) (tail : list ascii) :
  literal s = true ->
  c_str (list_ascii_of_string s ++ nul :: tail) = s /\ c_str (list_ascii_of_string s) = s.
Proof.
  induction s as [|ch s IH]; intros H; [split; reflexivity|].
  cbn [literal] in H. apply andb_true_iff in H as [H Hs].
  apply andb_true_iff in H as [_ Hn]. apply negb_true_iff in Hn.
  cbn [list_ascii_of_string app c_str]. rewrite Hn.
  destruct (IH Hs) as [H1 H2]. now rewrite H1, H2.
Qed.

Lemma list_ascii_app (a b : string) :
  list_ascii_of_string (a ++ b) = (list_ascii_of_string a ++ list_ascii_of_string b)%list.
Proof. induction a as [|c a IH]; [reflexivity|]. cbn. now rewrite IH. Qed.

(** The pass of the loop at a dollar sign that stands alone. *)
Lemma gen_step_dollar (a b : list ascii) (ps : list gen_part) :
  (line_at b 0 =? "$")%char = false ->
  (line_at b 0 =? "{")%char = false ->
  Z.of_nat (List.length ps) < MAX_GEN_PARTS ->
  gen_step (mk_gen (a ++ "$"%char :: b) ps (List.length a) false)
  = after_placeholder (a ++ nul :: b) (open_placeholder ps (List.length a)) (List.length a).
Proof.
  intros Hd Hb Hn. unfold gen_step. cbn [gin_quote gline ptr parts].
  rewrite line_at_mid, line_at_app_S, Hd.
  change ("$" =? "\")%char with false. change ("$" =? "$")%char with true. cbv iota.
  unfold num_parts. cbn [parts].
  destruct (Z.geb_spec (Z.of_nat (List.length ps)) MAX_GEN_PARTS); [lia|].
  rewrite line_set_app, line_at_app_S, Hb. reflexivity.
Qed.

(** A template with one placeholder written as a dollar sign. *)
Lemma parse_one_dollar (pre post : string) (iter : Z) :
  literal pre = true -> literal post = true -> no_brace post = true ->
  exists l ps,
    parse_gen_string (pre ++ String "$" post) = GenOk l ps
    /\ whole l ps iter = pre ++ fmt_d 0 iter ++ post.
Proof.
  intros Hpre Hpost Hbrace.
  destruct (literal_first post Hpost) as [Hd Hnul].
  pose proof (no_brace_first post Hbrace) as Hb.
  set (lpre := list_ascii_of_string pre) in *. set (lpost := list_ascii_of_string post) in *.
  unfold parse_gen_string. rewrite list_ascii_app.
  cbn [list_ascii_of_string]. fold lpre lpost.
  rewrite length_app. cbn [List.length]. unfold lpre, lpost at 1.
  rewrite !length_list_ascii. fold lpre.
  replace (S (String.length pre + S (String.length post)))
    with (String.length pre + S (S (String.length post)))%nat by lia.
  pose proof (parse_literal pre [] ("$"%char :: lpost) [Literal 0]
                            (S (S (String.length post))) Hpre) as Hp.
  cbn [app List.length Nat.add] in Hp. fold lpre in Hp. rewrite Hp. clear Hp.
  assert (Elen : String.length pre = List.length lpre)
    by (unfold lpre; now rewrite length_list_ascii).
  rewrite Elen.
  cbn [parse_gen_loop gline ptr]. rewrite line_at_mid.
  change ("$" =? nul)%char with false. cbv iota.
  rewrite gen_step_dollar by (auto; cbn; unfold MAX_GEN_PARTS; lia).
  unfold after_placeholder. rewrite line_at_app_S. fold lpost. rewrite Hnul.
  assert (Hrest : forall ps,
             parse_gen_loop (S (String.length post))
                            (mk_gen (lpre ++ nul :: lpost) ps (S (List.length lpre)) false)
             = GenOk (lpre ++ nul :: lpost) ps).
  { intros ps.
    pose proof (parse_literal post (lpre ++ [nul]) [] ps 1 Hpost) as Hq.
    rewrite app_nil_r in Hq. fold lpost in Hq.
    rewrite <- app_assoc, length_snoc in Hq. cbn [app] in Hq.
    replace (S (String.length post)) with (String.length post + 1)%nat by lia.
    rewrite Hq. cbn [parse_gen_loop gline ptr parts].
    replace (S (List.length lpre) + String.length post)%nat
      with (List.length (lpre ++ nul :: lpost)).
    2:{ rewrite length_app. cbn [List.length]. unfold lpost.
        rewrite length_list_ascii. lia. }
    unfold line_at. rewrite nth_overflow by lia. reflexivity. }
  destruct (c_str_literal pre lpost Hpre) as [Cpre _]. fold lpre in Cpre.
  destruct (c_str_literal post [] Hpost) as [_ Cpost]. fold lpost in Cpost.
  assert (Cskip : c_str (skipn (S (List.length lpre)) (lpre ++ nul :: lpost)) = post).
  { rewrite (app_snoc lpre nul), <- (length_snoc lpre nul), skipn_app_length. exact Cpost. }
  assert (Cph : part_text (lpre ++ nul :: lpost) (Placeholder 0 0 "d") iter = fmt_d 0 iter).
  { cbn [part_text]. change ("d" =? "o")%char with false.
    change ("d" =? "x")%char with false. change ("d" =? "X")%char with false. cbv iota.
    rewrite Z.add_0_r. apply fmt_d_i32. }
  assert (L0 : part_text (lpre ++ nul :: lpost) (Literal 0) iter = pre) by exact Cpre.
  assert (LS : part_text (lpre ++ nul :: lpost) (Literal (S (List.length lpre))) iter = post)
    by exact Cskip.
  unfold open_placeholder. cbn [rev app].
  destruct (Nat.eqb_spec 0 (List.length lpre)) as [E0|E0];
    destruct (String.eqb_spec post "") as [Ep|Ep]; cbn [negb app List.length Z.of_nat];
      cbn [gline parts ptr gin_quote].
  - eexists. eexists. split; [apply Hrest|].
    cbn [parts whole]. rewrite Cph, Ep, append_nil_r.
    destruct pre; [reflexivity | discriminate].
  - change (Z.of_nat 1 >=? MAX_GEN_PARTS) with false. cbv iota.
    cbn [gline parts ptr gin_quote].
    eexists. eexists. split; [apply Hrest|].
    cbn [parts whole]. rewrite Cph, LS, append_nil_r.
    destruct pre; [reflexivity | discriminate].
  - eexists. eexists. split; [apply Hrest|].
    cbn [parts whole]. rewrite Cph, L0, Ep, append_nil_r. reflexivity.
  - change (Z.pos (Pos.of_succ_nat 1) >=? MAX_GEN_PARTS) with false. cbv iota.
    cbn [gline parts ptr gin_quote].
    eexists. eexists. split; [apply Hrest|].
    cbn [parts whole]. rewrite Cph, L0, LS, append_nil_r. reflexivity.
Qed.

End PlaceholderFacts.

(** X19: a template with one placeholder.  A dollar sign that is not
    followed by a dollar sign or an opening brace, between two texts with
    no dollar sign and no backslash, is replaced at each iteration by the
    decimal digits of the iterator value, and the two texts are copied. *)
Theorem expand_template_one_dollar (pre post : string) (iter : Z) :
  Template.literal pre = true ->
  Template.literal post = true ->
  Template.no_brace post = true ->
  strlen (pre ++ fmt_d 0 iter ++ post) < DOMAIN_STR_LEN ->
  expand_template (pre ++ String "$" post) iter = Some (pre ++ fmt_d 0 iter ++ post).
Proof.
  intros Hpre Hpost Hb Hl.
  destruct (PlaceholderFacts.parse_one_dollar pre post iter Hpre Hpost Hb)
    as (l & ps & Hparse & Hwhole).
  unfold expand_template. rewrite Hparse.
  rewrite TemplateFacts.construct_fits; rewrite Hwhole; [reflexivity | exact Hl].
Qed.

Lemma expand_template_one_dollar_witness :
  expand_template "host$.lan" 17 = Some "host17.lan"
  /\ expand_template "10.0.0.$" 254 = Some "10.0.0.254".
Proof.
  split.
  - apply (expand_template_one_dollar "host" ".lan" 17);
      [reflexivity | reflexivity | reflexivity | vm_compute; reflexivity].
  - apply (expand_template_one_dollar "10.0.0." "" 254);
      [reflexivity | reflexivity | reflexivity | vm_compute; reflexivity].
Defined.

Module BracesFacts.

Import Duration DurationFacts NumberFacts AddressFacts.
Import Generate GenerateFacts WordsFacts Template TemplateFacts PlaceholderFacts.

Lemma i32_range_id (v : Z) : - 2 ^ 31 <= v < 2 ^ 31 -> i32 v = v.
Proof.
  intros H. destruct (Z.le_gt_cases 0 v) as [Hp|Hn]; [apply i32_small; lia|].
  unfold i32. replace (v mod 2 ^ 32) with (v + 2 ^ 32).
  - destruct (Z.ltb_spec (v + 2 ^ 32) (2 ^ 31)); lia.
  - apply Z.mod_unique with (q := -1); lia.
Qed.

(** The digit loop of the braces reads a decimal number. *)
Lemma digit_run_value (ds : string) :
  forall acc found moved c rest,
    all_digits ds = true -> 0 <= acc -> decimal_value ds acc < 2 ^ 31 ->
    is_digit c = false ->
    digit_run (list_ascii_of_string ds ++ c :: rest) acc found moved
    = (decimal_value ds acc, found || negb (String.eqb ds ""),
       (moved + String.length ds)%nat).
Proof.
  induction ds as [|d ds IH]; intros acc found moved c rest H Ha Hv Hc.
  - cbn [list_ascii_of_string app digit_run decimal_value String.length].
    rewrite (not_digit_schar c Hc), orb_false_r, Nat.add_0_r. reflexivity.
  - cbn [all_digits] in H. apply andb_true_iff in H as [Hd H].
    destruct (is_digit_schar d Hd) as [Hs Hr]. cbn [decimal_value] in Hv.
    pose proof (decimal_value_grows ds (acc * 10 + (code d - 48)) H ltac:(lia)) as Hg.
    cbn [list_ascii_of_string app digit_run decimal_value String.length].
    rewrite (digit_schar d Hd), Hs.
    rewrite (i32_small (acc * 10)) by lia. rewrite i32_small by lia.
    rewrite IH by (auto; lia). cbn [String.eqb negb orb]. rewrite orb_true_r.
    f_equal. lia.
Qed.

Lemma line_at_skip (a b : list ascii) (k : nat) :
  line_at (a ++ b) (List.length a + k) = line_at b k.
Proof.
  unfold line_at. rewrite app_nth2 by lia. f_equal. lia.
Qed.

Lemma skipn_skip (a b : list ascii) (k : nat) :
  skipn (List.length a + k) (a ++ b) = skipn k b.
Proof. induction a as [|x a IH]; [reflexivity | exact IH]. Qed.

Lemma line_at_digits (ds : string) (c : ascii) (rest : list ascii) :
  line_at (list_ascii_of_string ds ++ c :: rest) (String.length ds) = c.
Proof. rewrite <- (length_list_ascii ds). apply line_at_mid. Qed.

Lemma line_at_digits_S (ds : string) (c d : ascii) (rest : list ascii) :
  line_at (list_ascii_of_string ds ++ c :: d :: rest) (S (String.length ds)) = d.
Proof.
  rewrite <- (length_list_ascii ds), line_at_app_S. reflexivity.
Qed.

Lemma first_digit (n : Z) (rest : list ascii) :
  0 <= n ->
  (line_at (list_ascii_of_string (digits 10 false n) ++ rest) 0 =? "-")%char = false.
Proof.
  intros Hn. destruct (digits_value n Hn) as (Hd & _ & Hne).
  destruct (digits 10 false n) as [|c ds]; [congruence|].
  cbn [all_digits] in Hd. apply andb_true_iff in Hd as [Hc _].
  cbn [list_ascii_of_string app]. unfold line_at. cbn [nth].
  destruct (Ascii.eqb_spec c "-"); [subst; discriminate | reflexivity].
Qed.

Lemma skipn_after (x y : list ascii) (c : ascii) :
  skipn (S (List.length x)) (x ++ c :: y) = y.
Proof. induction x as [|d x IH]; [reflexivity | exact IH]. Qed.

Lemma line_at_after (x y : list ascii) (c : ascii) (k : nat) :
  line_at (x ++ c :: y) (S (List.length x) + k) = line_at y k.
Proof.
  unfold line_at. rewrite app_nth2 by lia.
  replace (S (List.length x) + k - List.length x)%nat with (S k) by lia. reflexivity.
Qed.

Lemma line_at_digits_SS (ds : string) (c d e : ascii) (rest : list ascii) :
  line_at (list_ascii_of_string ds ++ c :: d :: e :: rest) (S (S (String.length ds))) = e.
Proof.
  rewrite <- (length_list_ascii ds).
  replace (S (S (List.length (list_ascii_of_string ds))))
    with (S (List.length (list_ascii_of_string ds)) + 1)%nat by lia.
  now rewrite line_at_after.
Qed.

Lemma nonempty_flag (s : string) : s <> "" -> negb (String.eqb s "") = true.
Proof. destruct s; [congruence | reflexivity]. Qed.

(** The braces of a placeholder written in full. *)
Lemma parse_braces_full (a : list ascii) (p : nat) (offset width : Z) (b : ascii)
      (rest : list ascii) :
  List.length a = (p + 2)%nat ->
  - 2 ^ 31 < offset < 2 ^ 31 -> 0 <= width < 2 ^ 31 -> base_letter b = true ->
  parse_braces (a ++ list_ascii_of_string (number_text offset)
                  ++ ","%char :: list_ascii_of_string (digits 10 false width)
                  ++ ","%char :: b :: "}"%char :: rest) p
  = inr (offset, width, b,
         (List.length a + String.length (number_text offset) + 1
          + String.length (digits 10 false width) + 2)%nat).
Proof.
  intros Ha Ho Hw Hb.
  set (wd := digits 10 false width).
  set (tailw := (list_ascii_of_string wd ++ ","%char :: b :: "}"%char :: rest)%list).
  destruct (digits_value width ltac:(lia)) as (Wd & Wv & Wne). fold wd in Wd, Wv, Wne.
  assert (Hcomma : is_digit "," = false) by reflexivity.
  assert (Hwidth : digit_run tailw 0 false 0 = (width, true, String.length wd)).
  { unfold tailw. rewrite digit_run_value by (auto; rewrite ?Wv; lia).
    rewrite Wv, (nonempty_flag wd Wne). reflexivity. }
  assert (Hbase : negb (b =? "d")%char && negb (b =? "o")%char && negb (b =? "x")%char
                  && negb (b =? "X")%char = false).
  { unfold base_letter in Hb.
    destruct (b =? "d")%char, (b =? "o")%char, (b =? "x")%char, (b =? "X")%char;
      try reflexivity; discriminate. }
  set (num := number_text offset).
  set (od := digits 10 false (Z.abs offset)).
  destruct (digits_value (Z.abs offset) ltac:(lia)) as (Od & Ov & One).
  fold od in Od, Ov, One.
  set (sign := if offset <? 0 then ["-"%char] else []).
  assert (Enum : list_ascii_of_string num = (sign ++ list_ascii_of_string od)%list).
  { unfold num, number_text, sign, od. destruct (Z.ltb_spec offset 0).
    - replace (Z.abs offset) with (- offset) by lia. reflexivity.
    - replace (Z.abs offset) with offset by lia. reflexivity. }
  assert (Lnum : String.length num = (List.length sign + String.length od)%nat).
  { rewrite <- (length_list_ascii num), Enum, length_app, length_list_ascii. reflexivity. }
  set (L := (a ++ list_ascii_of_string num ++ ","%char :: tailw)%list).
  assert (E1 : (line_at L (p + 2) =? "-")%char = (offset <? 0)).
  { unfold L. rewrite <- Ha. replace (List.length a) with (List.length a + 0)%nat by lia.
    rewrite line_at_skip, Enum. unfold sign. destruct (offset <? 0); [reflexivity|].
    cbn [app]. apply first_digit. lia. }
  set (p2 := if offset <? 0 then S (p + 2) else (p + 2)%nat).
  assert (P2 : p2 = (List.length (a ++ sign))%nat).
  { unfold p2, sign. rewrite length_app. destruct (offset <? 0); cbn [List.length]; lia. }
  assert (EL : L = ((a ++ sign) ++ list_ascii_of_string od ++ ","%char :: tailw)%list).
  { unfold L. rewrite Enum, <- !app_assoc. reflexivity. }
  assert (E2 : digit_run (skipn p2 L) 0 false 0 = (Z.abs offset, true, String.length od)).
  { rewrite P2, EL, skipn_app_length.
    rewrite digit_run_value by (auto; rewrite ?Ov; lia).
    rewrite Ov, (nonempty_flag od One). reflexivity. }
  assert (E3 : line_at L (p2 + String.length od) = ","%char).
  { rewrite P2, EL, line_at_skip. apply line_at_digits. }
  assert (P3 : (p2 + String.length od)%nat
               = List.length ((a ++ sign) ++ list_ascii_of_string od)).
  { rewrite P2, (length_app (a ++ sign)), length_list_ascii. reflexivity. }
  assert (EL2 : L = (((a ++ sign) ++ list_ascii_of_string od) ++ ","%char :: tailw)%list).
  { rewrite EL, <- !app_assoc. reflexivity. }
  assert (E4 : skipn (S (p2 + String.length od)) L = tailw).
  { rewrite P3, EL2. apply skipn_after. }
  assert (E5 : line_at L (S (p2 + String.length od) + String.length wd) = ","%char).
  { rewrite P3, EL2, line_at_after. unfold tailw. apply line_at_digits. }
  assert (E6 : line_at L (S (S (p2 + String.length od) + String.length wd)) = b).
  { rewrite P3, EL2, <- Nat.add_succ_r, line_at_after. unfold tailw.
    apply line_at_digits_S. }
  assert (E7 : line_at L (S (S (S (p2 + String.length od) + String.length wd))) = "}"%char).
  { rewrite P3, EL2, <- !Nat.add_succ_r, line_at_after. unfold tailw.
    apply line_at_digits_SS. }
  unfold parse_braces. fold L. rewrite E1. fold p2. rewrite E2, E3.
  change ("," =? ",")%char with true. change ("," =? "}")%char with false.
  cbn [negb andb orb]. rewrite E4, Hwidth, E5.
  change ("," =? ",")%char with true. change ("," =? "}")%char with false.
  cbn [negb andb orb]. rewrite E6, Hbase, E7.
  change ("}" =? "}")%char with true. cbn [negb].
  assert (Hoff : (if offset <? 0 then i32 (Z.abs offset * -1) else i32 (Z.abs offset * 1))
                 = offset)
    by (destruct (Z.ltb_spec offset 0); rewrite i32_range_id; lia).
  assert (Hpos : S (S (S (p2 + String.length od) + String.length wd))
                 = (List.length a + String.length num + 1 + String.length wd + 2)%nat)
    by (rewrite P2, length_app, Lnum; lia).
  now rewrite Hoff, Hpos.
Qed.

Lemma parse_gen_fuel_add (k : nat) (fuel : nat) (g : gen_state) :
  (List.length (gline g) - ptr g < fuel)%nat ->
  parse_gen_loop (k + fuel) g = parse_gen_loop fuel g.
Proof.
  intros H. induction k as [|k IH]; [reflexivity|].
  cbn [Nat.add]. rewrite Fuel.parse_gen_fuel by lia. exact IH.
Qed.

(** The parser walks over literal text to the end of the line. *)
Lemma parse_to_end (x : list ascii) (post : string) (ps : list gen_part) (fuel : nat) :
  literal post = true -> (String.length post < fuel)%nat ->
  parse_gen_loop fuel (mk_gen (x ++ list_ascii_of_string post) ps (List.length x) false)
  = GenOk (x ++ list_ascii_of_string post) ps.
Proof.
  intros Hp Hf.
  replace fuel with ((fuel - S (String.length post)) + (String.length post + 1))%nat by lia.
  rewrite parse_gen_fuel_add
    by (cbn [gline ptr]; rewrite length_app, length_list_ascii; lia).
  pose proof (parse_literal post x [] ps 1 Hp) as Hq.
  rewrite app_nil_r in Hq. rewrite Hq.
  cbn [parse_gen_loop gline ptr parts].
  replace (List.length x + String.length post)%nat
    with (List.length (x ++ list_ascii_of_string post))
    by (rewrite length_app, length_list_ascii; reflexivity).
  unfold line_at. rewrite nth_overflow by lia. reflexivity.
Qed.

Lemma parse_next (f : nat) (g g1 : gen_state) :
  (line_at (gline g) (ptr g) =? nul)%char = false ->
  gen_step g = inr g1 ->
  parse_gen_loop (S f) g
  = parse_gen_loop f (mk_gen (gline g1) (parts g1) (S (ptr g1)) (gin_quote g1)).
Proof. intros Hc Hs. cbn [parse_gen_loop]. now rewrite Hc, Hs. Qed.

(** The pass of the loop at a dollar sign followed by a brace. *)
Lemma gen_step_braces (a body : list ascii) (ps : list gen_part) :
  Z.of_nat (List.length ps) < MAX_GEN_PARTS ->
  gen_step (mk_gen (a ++ "$"%char :: "{"%char :: body) ps (List.length a) false)
  = match parse_braces ((a ++ [nul; "{"%char]) ++ body) (List.length a) with
    | inl m => inl (GenFatal m)
    | inr (offset, width, base, p) =>
      after_placeholder ((a ++ [nul; "{"%char]) ++ body)
                        (set_placeholder (open_placeholder ps (List.length a))
                                         offset width base) p
    end.
Proof.
  intros Hn. unfold gen_step. cbn [gin_quote gline ptr parts].
  rewrite line_at_mid, line_at_app_S.
  change ("$" =? "\")%char with false. change ("$" =? "$")%char with true.
  unfold line_at at 1. cbn [nth]. change ("{" =? "$")%char with false. cbv iota.
  unfold num_parts. cbn [parts].
  destruct (Z.geb_spec (Z.of_nat (List.length ps)) MAX_GEN_PARTS); [lia|].
  rewrite line_set_app, line_at_app_S. unfold line_at at 1. cbn [nth].
  change ("{" =? "{")%char with true. cbv iota.
  replace (a ++ nul :: "{"%char :: body)%list
    with ((a ++ [nul; "{"%char]) ++ body)%list by (rewrite <- app_assoc; reflexivity).
  reflexivity.
Qed.

(** A template with one placeholder written with braces. *)
Lemma parse_one_braces (pre post : string) (offset width : Z) (b : ascii) (iter : Z) :
  literal pre = true -> literal post = true ->
  - 2 ^ 31 < offset < 2 ^ 31 -> 0 <= width < 2 ^ 31 -> base_letter b = true ->
  exists l ps,
    parse_gen_string (pre ++ braces offset width b ++ post) = GenOk l ps
    /\ whole l ps iter = pre ++ part_text [] (Placeholder offset width b) iter ++ post.
Proof.
  intros Hpre Hpost Ho Hw Hb.
  set (lpre := list_ascii_of_string pre). set (lpost := list_ascii_of_string post).
  set (lnum := list_ascii_of_string (number_text offset)).
  set (lwd := list_ascii_of_string (digits 10 false width)).
  set (body := (lnum ++ ","%char :: lwd ++ ","%char :: b :: "}"%char :: lpost)%list).
  assert (El : list_ascii_of_string (pre ++ braces offset width b ++ post)
               = (lpre ++ "$"%char :: "{"%char :: body)%list).
  { unfold braces, body, lpre, lpost, lnum, lwd.
    rewrite !list_ascii_app. cbn [list_ascii_of_string app].
    rewrite <- !app_assoc. cbn [app]. rewrite <- !app_assoc. reflexivity. }
  assert (Elen : String.length pre = List.length lpre)
    by (unfold lpre; now rewrite length_list_ascii).
  set (q := (List.length (lpre ++ [nul; "{"%char]) + String.length (number_text offset) + 1
             + String.length (digits 10 false width) + 2)%nat).
  set (x := ((lpre ++ [nul; "{"%char]) ++ lnum ++ ","%char :: lwd
               ++ [","%char; b; "}"%char])%list).
  assert (Ex : ((lpre ++ [nul; "{"%char]) ++ body)%list = (x ++ lpost)%list).
  { unfold x, body. rewrite <- !app_assoc. cbn [app]. rewrite <- !app_assoc. reflexivity. }
  assert (Eq : S q = List.length x).
  { unfold q, x, lnum, lwd. rewrite !length_app. cbn [List.length].
    rewrite !length_app. cbn [List.length]. rewrite !length_list_ascii. lia. }
  assert (Hbr : parse_braces ((lpre ++ [nul; "{"%char]) ++ body) (List.length lpre)
                = inr (offset, width, b, q)).
  { unfold body, lnum, lwd, q.
    apply parse_braces_full; auto. rewrite length_app. cbn [List.length]. lia. }
  destruct (literal_first post Hpost) as [_ Hnul]. fold lpost in Hnul.
  set (P := set_placeholder (open_placeholder [Literal 0] (List.length lpre))
                            offset width b).
  assert (HP : P = if Nat.eqb 0 (List.length lpre) then [Placeholder offset width b]
                   else [Literal 0; Placeholder offset width b]).
  { unfold P, open_placeholder, set_placeholder. cbn [rev app].
    destruct (Nat.eqb 0 (List.length lpre)); reflexivity. }
  set (P' := if String.eqb post "" then P else (P ++ [Literal (List.length x)])%list).
  assert (Hstep : gen_step (mk_gen (lpre ++ "$"%char :: "{"%char :: body) [Literal 0]
                                   (List.length lpre) false)
                  = inr (mk_gen (x ++ lpost) P' q false)).
  { rewrite gen_step_braces by (cbn; unfold MAX_GEN_PARTS; lia).
    rewrite Hbr. fold P. rewrite Ex. unfold after_placeholder. rewrite Eq.
    replace (List.length x) with (List.length x + 0)%nat at 1 by lia.
    rewrite line_at_skip, Hnul. unfold P'.
    destruct (String.eqb post ""); cbn [negb]; [reflexivity|].
    replace (Z.of_nat (List.length P) >=? MAX_GEN_PARTS) with false; [reflexivity|].
    rewrite HP. destruct (Nat.eqb 0 (List.length lpre)); reflexivity. }
  assert (Cpre : c_str (x ++ lpost) = pre).
  { rewrite <- Ex, <- app_assoc. cbn [app]. apply (c_str_literal pre _ Hpre). }
  assert (Cpost : c_str (skipn (List.length x) (x ++ lpost)) = post).
  { rewrite skipn_app_length. apply (c_str_literal post [] Hpost). }
  exists (x ++ lpost)%list, P'. split.
  - unfold parse_gen_string. rewrite El, length_app. cbn [List.length].
    replace (S (List.length lpre + S (S (List.length body))))
      with (String.length pre + S (S (S (List.length body))))%nat by lia.
    pose proof (parse_literal pre [] ("$"%char :: "{"%char :: body) [Literal 0]
                              (S (S (S (List.length body)))) Hpre) as Hp.
    cbn [app List.length Nat.add] in Hp. fold lpre in Hp. rewrite Hp. clear Hp.
    rewrite Elen.
    erewrite parse_next; [|cbn [gline ptr]; now rewrite line_at_mid|exact Hstep].
    cbn [gline parts ptr gin_quote]. rewrite Eq.
    apply parse_to_end; [exact Hpost|].
    unfold body, lpost. rewrite !length_app. cbn [List.length].
    rewrite !length_app. cbn [List.length]. rewrite length_list_ascii. lia.
  - unfold P'. rewrite HP.
    assert (Hph : forall l, part_text l (Placeholder offset width b) iter
                            = part_text [] (Placeholder offset width b) iter)
      by reflexivity.
    destruct (Nat.eqb_spec 0 (List.length lpre)) as [E0|E0];
      destruct (String.eqb_spec post "") as [Ep|Ep]; cbn [app whole].
    + rewrite (Hph (x ++ lpost)%list), Ep, !append_nil_r.
      destruct pre; [reflexivity | discriminate].
    + rewrite (Hph (x ++ lpost)%list), append_nil_r.
      change (part_text (x ++ lpost) (Literal (List.length x)) iter)
        with (c_str (skipn (List.length x) (x ++ lpost))).
      rewrite Cpost. destruct pre; [reflexivity | discriminate].
    + rewrite (Hph (x ++ lpost)%list), Ep, !append_nil_r.
      change (part_text (x ++ lpost) (Literal 0) iter) with (c_str (x ++ lpost)).
      now rewrite Cpre.
    + rewrite (Hph (x ++ lpost)%list), append_nil_r.
      change (part_text (x ++ lpost) (Literal 0) iter) with (c_str (x ++ lpost)).
      change (part_text (x ++ lpost) (Literal (List.length x)) iter)
        with (c_str (skipn (List.length x) (x ++ lpost))).
      now rewrite Cpre, Cpost.
Qed.

End BracesFacts.

(** X20: a placeholder written with braces.  In a template the text
    dollar sign, opening brace, offset, comma, width, comma, base letter,
    closing brace, between two texts with no dollar sign and no backslash,
    is replaced at each iteration by what [printf] writes for the iterator
    value plus the offset under the zero flag, the width and the
    conversion the letter names; the two texts are copied.  When the
    iterator value plus the offset is not negative, that is its digits in
    base 10 for d, 8 for o and 16 for x and X (with capital letters for
    X), with zeros on the left up to the width. *)
Theorem expand_template_braces (pre post : string) (offset width : Z) (b : ascii)
        (iter : Z) :
  Template.literal pre = true ->
  Template.literal post = true ->
  - 2 ^ 31 < offset < 2 ^ 31 ->
  0 <= width < 2 ^ 31 ->
  Template.base_letter b = true ->
  (strlen (pre ++ Template.printed b width (i32 (iter + offset)) ++ post) < DOMAIN_STR_LEN ->
   expand_template (pre ++ Template.braces offset width b ++ post) iter
   = Some (pre ++ Template.printed b width (i32 (iter + offset)) ++ post))
  /\ (0 <= iter + offset < 2 ^ 31 ->
      strlen (pre ++ Template.zero_padded
                       width (digits (Template.radix b) (Template.capitals b) (iter + offset))
                  ++ post) < DOMAIN_STR_LEN ->
      expand_template (pre ++ Template.braces offset width b ++ post) iter
      = Some (pre ++ Template.zero_padded
                       width (digits (Template.radix b) (Template.capitals b) (iter + offset))
                  ++ post)).
Proof.
  intros Hpre Hpost Ho Hw Hb.
  assert (Hp : part_text [] (Placeholder offset width b) iter
               = Template.printed b width (i32 (iter + offset))).
  { unfold Template.base_letter in Hb. unfold part_text, Template.printed,
      Template.radix, Template.capitals.
    destruct (b =? "d")%char eqn:Ed;
      [apply Ascii.eqb_eq in Ed; subst b; reflexivity|].
    destruct (b =? "o")%char eqn:Eo;
      [apply Ascii.eqb_eq in Eo; subst b; reflexivity|].
    destruct (b =? "x")%char eqn:Ex;
      [apply Ascii.eqb_eq in Ex; subst b; reflexivity|].
    destruct (b =? "X")%char eqn:EX; [|discriminate].
    apply Ascii.eqb_eq in EX. subst b. reflexivity. }
  assert (Hgen : strlen (pre ++ Template.printed b width (i32 (iter + offset)) ++ post)
                 < DOMAIN_STR_LEN ->
                 expand_template (pre ++ Template.braces offset width b ++ post) iter
                 = Some (pre ++ Template.printed b width (i32 (iter + offset)) ++ post)).
  { intros Hl. rewrite <- Hp in *.
    destruct (BracesFacts.parse_one_braces pre post offset width b iter Hpre Hpost Ho Hw Hb)
      as (l & ps & Hparse & Hwhole).
    unfold expand_template. rewrite Hparse.
    rewrite TemplateFacts.construct_fits; rewrite Hwhole; [reflexivity | exact Hl]. }
  split; [exact Hgen|].
  intros Hv.
  assert (Hz : Template.printed b width (i32 (iter + offset))
               = Template.zero_padded
                   width (digits (Template.radix b) (Template.capitals b) (iter + offset))).
  { assert (Hi : i32 (iter + offset) = iter + offset)
      by (apply NumberFacts.i32_small; lia).
    rewrite Hi. unfold Template.printed, Template.zero_padded, fmt_d, fmt_unsigned, pad.
    rewrite Hi, u32_small by lia.
    destruct (Z.ltb_spec width 0) as [|_]; [lia|].
    destruct (Z.ltb_spec (iter + offset) 0) as [|_]; [lia|].
    change (strlen "") with 0. rewrite Z.sub_0_r. cbn [append].
    unfold Template.radix, Template.capitals.
    destruct (b =? "d")%char eqn:Ed; [|reflexivity].
    apply Ascii.eqb_eq in Ed. subst b. reflexivity. }
  rewrite <- Hz. exact Hgen.
Qed.

Lemma expand_template_braces_witness :
  expand_template "host${0,3,d}.lan" 7 = Some "host007.lan"
  /\ expand_template "m${8,4,o}" 56 = Some "m0100"
  /\ expand_template "${1,2,x}-" 254 = Some "ff-"
  /\ expand_template "n${0,3,X}" 171 = Some "n0AB"
  /\ expand_template "${-1,2,x}" 0 = Some "ffffffff"
  /\ expand_template "${-20,4,d}." 8 = Some "-012.".
Proof.
  split; [|split; [|split; [|split; [|split]]]].
  - apply (proj2 (expand_template_braces "host" ".lan" 0 3 "d" 7
                    ltac:(reflexivity) ltac:(reflexivity) ltac:(lia) ltac:(lia)
                    ltac:(reflexivity)));
      [lia | vm_compute; reflexivity].
  - apply (proj2 (expand_template_braces "m" "" 8 4 "o" 56
                    ltac:(reflexivity) ltac:(reflexivity) ltac:(lia) ltac:(lia)
                    ltac:(reflexivity)));
      [lia | vm_compute; reflexivity].
  - apply (proj2 (expand_template_braces "" "-" 1 2 "x" 254
                    ltac:(reflexivity) ltac:(reflexivity) ltac:(lia) ltac:(lia)
                    ltac:(reflexivity)));
      [lia | vm_compute; reflexivity].
  - apply (proj2 (expand_template_braces "n" "" 0 3 "X" 171
                    ltac:(reflexivity) ltac:(reflexivity) ltac:(lia) ltac:(lia)
                    ltac:(reflexivity)));
      [lia | vm_compute; reflexivity].
  - apply (proj1 (expand_template_braces "" "" (-1) 2 "x" 0
                    ltac:(reflexivity) ltac:(reflexivity) ltac:(lia) ltac:(lia)
                    ltac:(reflexivity)));
      vm_compute; reflexivity.
  - apply (proj1 (expand_template_braces "" "." (-20) 4 "d" 8
                    ltac:(reflexivity) ltac:(reflexivity) ltac:(lia) ltac:(lia)
                    ltac:(reflexivity)));
      vm_compute; reflexivity.
Defined.

Module RangeFacts.

Import Duration DurationFacts NumberFacts AddressFacts GenerateFacts.

(** The text does not start with a digit. *)
Lemma int_prefix_value (ds : string) :
  forall acc found rest,
    all_digits ds = true -> 0 <= acc -> decimal_value ds acc < 2 ^ 31 ->
    match rest with String c _ => is_digit c = false | EmptyString => True end ->
    int_prefix (ds ++ rest) acc found
    = (decimal_value ds acc, found || negb (String.eqb ds ""), rest).
Proof.
  induction ds as [|d ds IH]; intros acc found rest H Ha Hv Hr.
  - cbn [append decimal_value String.eqb negb]. rewrite orb_false_r.
    destruct rest as [|c rest]; [reflexivity|]. cbn [int_prefix].
    now rewrite (not_digit_schar c Hr).
  - cbn [all_digits] in H. apply andb_true_iff in H as [Hd H].
    destruct (is_digit_schar d Hd) as [Hs Hrg]. cbn [decimal_value] in Hv.
    pose proof (decimal_value_grows ds (acc * 10 + (code d - 48)) H ltac:(lia)) as Hg.
    cbn [append int_prefix decimal_value].
    rewrite (digit_schar d Hd), Hs.
    rewrite (i32_small (acc * 10)) by lia. rewrite i32_small by lia.
    rewrite IH by (auto; lia). cbn [String.eqb negb orb]. now rewrite orb_true_r.
Qed.

Lemma text_from_tail (c : ascii) (r : string) : text_from (String c r) 1 = r.
Proof.
  unfold text_from. change (Z.to_nat 1) with 1%nat. cbn [String.length Nat.sub substring].
  rewrite Nat.sub_0_r. apply substring_all. apply le_n.
Qed.

(** A number of the range, read from its digits. *)
Lemma int_prefix_number (n : Z) (rest : string) :
  0 <= n < 2 ^ 31 ->
  match rest with String c _ => is_digit c = false | EmptyString => True end ->
  int_prefix (digits 10 false n ++ rest) 0 false = (n, true, rest).
Proof.
  intros Hn Hr. destruct (digits_value n ltac:(lia)) as (Hd & Hv & Hne).
  rewrite int_prefix_value by (auto; rewrite ?Hv; lia).
  rewrite Hv. destruct (digits 10 false n); [congruence | reflexivity].
Qed.

End RangeFacts.

(** X21: the range of a [$GENERATE] directive.  The text of a start,
    a minus sign and a stop, each a number below 2^31 in decimal digits, is
    read as that start and stop with a step of 1; followed by a slash and a
    step, it is read with that step, and a step of 0 is refused. *)
Theorem parse_range_reads_numbers (start stop step : Z) :
  0 <= start < 2 ^ 31 -> 0 <= stop < 2 ^ 31 -> 0 <= step < 2 ^ 31 ->
  parse_range (digits 10 false start ++ "-" ++ digits 10 false stop)
  = inr (start, stop, 1)
  /\ parse_range (digits 10 false start ++ "-" ++ digits 10 false stop
                    ++ "/" ++ digits 10 false step)
     = if step =? 0
       then inl "$GENERATE directive has invalid range (unable to parse step)"
       else inr (start, stop, step).
Proof.
  intros Ha Hb Hc. split.
  - unfold parse_range.
    rewrite RangeFacts.int_prefix_number by (auto; reflexivity).
    cbn [negb orb char_at Z.ltb Z.compare Z.to_nat append String.get].
    change ("-" =? "-")%char with true. cbn [negb].
    rewrite RangeFacts.text_from_tail.
    rewrite <- (append_nil_r (digits 10 false stop)).
    rewrite RangeFacts.int_prefix_number by (auto; exact I).
    reflexivity.
  - unfold parse_range.
    rewrite RangeFacts.int_prefix_number by (auto; reflexivity).
    cbn [negb orb char_at Z.ltb Z.compare Z.to_nat append String.get].
    change ("-" =? "-")%char with true. cbn [negb].
    rewrite RangeFacts.text_from_tail.
    rewrite RangeFacts.int_prefix_number by (auto; reflexivity).
    cbn [negb orb char_at Z.ltb Z.compare Z.to_nat append String.get].
    change ("/" =? nul)%char with false. change ("/" =? "/")%char with true.
    cbn [negb andb]. rewrite RangeFacts.text_from_tail.
    rewrite <- (append_nil_r (digits 10 false step)).
    rewrite RangeFacts.int_prefix_number by (auto; exact I).
    cbn [negb orb char_at Z.ltb Z.compare Z.to_nat append String.get].
    change (nul =? nul)%char with true. cbn [negb orb].
    destruct (step =? 0); reflexivity.
Qed.

Lemma parse_range_reads_numbers_witness :
  parse_range "1-254" = inr (1, 254, 1)
  /\ parse_range "0-100/10" = inr (0, 100, 10).
Proof.
  split.
  - exact (proj1 (parse_range_reads_numbers 1 254 0 ltac:(lia) ltac:(lia) ltac:(lia))).
  - exact (proj2 (parse_range_reads_numbers 0 100 10 ltac:(lia) ltac:(lia) ltac:(lia))).
Defined.

(** ** handle_entry: zones, state and record forms *)

Module ZoneFacts.

Import Qualify QualifyFacts GenerateFacts NamesFacts Zone.

Lemma strcaseeq_length (a : string) :
  forall b, strcaseeq a b = true -> String.length a = String.length b.
Proof.
  induction a as [|x a IH]; intros [|y b] H; try discriminate; [reflexivity|].
  cbn [strcaseeq] in H. apply andb_true_iff in H as [_ H].
  cbn [String.length]. now rewrite (IH b H).
Qed.

Lemma substring_skip (pre suf : string) (n : nat) :
  substring (String.length pre) n (pre ++ suf) = substring 0 n suf.
Proof. induction pre as [|c pre IH]; [reflexivity | exact IH]. Qed.

Lemma text_from_app (pre suf : string) : text_from (pre ++ suf) (strlen pre) = suf.
Proof.
  unfold text_from, strlen. rewrite Nat2Z.id, length_append.
  replace (String.length pre + String.length suf - String.length pre)%nat
    with (String.length suf) by lia.
  rewrite substring_skip. apply substring_all. apply le_n.
Qed.

Lemma get_app_l (pre suf : string) (n : nat) :
  (n < String.length pre)%nat -> String.get n (pre ++ suf) = String.get n pre.
Proof.
  revert n. induction pre as [|c pre IH]; intros n H; [cbn in H; lia|].
  destruct n as [|n]; [reflexivity|]. cbn [append String.get]. apply IH.
  cbn [String.length] in H. lia.
Qed.

Lemma char_at_app_l (pre suf : string) (k : Z) :
  0 <= k < strlen pre -> char_at (pre ++ suf) k = char_at pre k.
Proof.
  intros H. unfold char_at, strlen in *. destruct (Z.ltb_spec k 0); [lia|].
  rewrite get_app_l by lia. reflexivity.
Qed.

(** A text cut at [n]: the part before and the part from [n]. *)
Lemma split_at (s : string) (n : nat) :
  (n <= String.length s)%nat ->
  s = substring 0 n s ++ substring n (String.length s - n) s.
Proof.
  revert n. induction s as [|c s IH]; intros n H.
  - destruct n; [reflexivity | cbn in H; lia].
  - destruct n as [|n].
    + cbn [substring append String.length Nat.sub].
      now rewrite substring_all by apply le_n.
    + cbn [substring append String.length Nat.sub]. f_equal. apply IH.
      cbn [String.length] in H. lia.
Qed.

(** The test of the zone, on names whose [real_len] is the length of
    their text. *)
Lemma in_zone_iff (top o : string_t) :
  real_len top = strlen (text top) -> real_len o = strlen (text o) ->
  (out_of_zone top o = false <-> below (text top) (text o)).
Proof.
  intros Ht Ho. unfold out_of_zone, below. rewrite Ht, Ho. split.
  - intros H. apply orb_false_iff in H as [H H3]. apply orb_false_iff in H as [H1 H2].
    apply negb_false_iff in H2.
    destruct (Z.gtb_spec (strlen (text top)) (strlen (text o))) as [|Hle]; [discriminate|].
    unfold strlen in *.
    set (n := (String.length (text o) - String.length (text top))%nat).
    assert (Hn : Z.of_nat (String.length (text o)) - Z.of_nat (String.length (text top))
                 = Z.of_nat n) by (unfold n; lia).
    rewrite Hn in *.
    exists (substring 0 n (text o)), (text_from (text o) (Z.of_nat n)).
    split; [|split; [exact H2|]].
    + unfold text_from. rewrite Nat2Z.id. apply split_at. unfold n. lia.
    + destruct (Nat.eq_dec n 0) as [E|E]; [left; rewrite E; now destruct (text o)|right].
      destruct (Z.gtb_spec (Z.of_nat (String.length (text o)))
                           (Z.of_nat (String.length (text top)))) as [_|]; [|lia].
      cbn [andb] in H3. apply negb_false_iff in H3.
      rewrite <- char_at_last. unfold strlen. rewrite length_substring.
      replace (Z.of_nat (Nat.min n (String.length (text o)))) with (Z.of_nat n)
        by (unfold n; lia).
      assert (Hc : char_at (text o) (Z.of_nat n - 1)
                   = char_at (substring 0 n (text o)) (Z.of_nat n - 1)).
      { rewrite (split_at (text o) n) at 1 by (unfold n; lia).
        apply char_at_app_l. unfold strlen. rewrite length_substring. unfold n. lia. }
      rewrite <- Hc. exact H3.
  - intros (pre & suf & E & Hs & Hp). rewrite E.
    pose proof (strcaseeq_length _ _ Hs) as Hl.
    unfold strlen. rewrite length_append.
    destruct (Z.gtb_spec (Z.of_nat (String.length (text top)))
                         (Z.of_nat (String.length pre + String.length suf))); [lia|].
    replace (Z.of_nat (String.length pre + String.length suf)
             - Z.of_nat (String.length (text top))) with (strlen pre)
      by (unfold strlen; lia).
    rewrite text_from_app, Hs. cbn [negb orb].
    destruct Hp as [->|Hd].
    + cbn [String.length Nat.add].
      destruct (Z.gtb_spec (Z.of_nat (String.length suf))
                           (Z.of_nat (String.length (text top)))); [lia | reflexivity].
    + assert (Hne : (0 < String.length pre)%nat) by (destruct pre; [discriminate | cbn; lia]).
      rewrite char_at_app_l by (unfold strlen; lia).
      rewrite char_at_last, Hd. cbn [negb]. now rewrite andb_false_r.
Qed.

Lemma tolower_dot (y : ascii) : (tolower "." =? tolower y)%char = true -> y = "."%char.
Proof.
  change (tolower ".") with "."%char. unfold tolower. intros H.
  apply Ascii.eqb_eq in H.
  destruct ((65 <=? code y) && (code y <=? 90)) eqn:E; [|now symmetry].
  apply andb_true_iff in E as [E1 E2]. apply Z.leb_le in E1, E2.
  apply (f_equal code) in H. rewrite SanitizeFacts.code_chr in H by lia.
  change (code ".") with 46 in H. lia.
Qed.

Lemma strcaseeq_root (suffix : string) : strcaseeq "." suffix = true -> suffix = ".".
Proof.
  destruct suffix as [|y [|z s]]; cbn [strcaseeq]; try discriminate.
  - intros H. apply andb_true_iff in H as [H _]. now rewrite (tolower_dot y H).
  - intros H. apply andb_true_iff in H as [_ H]. discriminate.
Qed.

End ZoneFacts.

(** X22: the test of the zone.  For an owner and a zone origin whose
    [real_len] is the length of their text, the owner passes the test of
    lines 719 to 725 exactly when its text is the text of the origin, compared
    without regard to case, or ends with a dot followed by that text. *)
Theorem out_of_zone_test (top o : string_t) :
  real_len top = strlen (text top) ->
  real_len o = strlen (text o) ->
  (out_of_zone top o = false <-> Zone.below (text top) (text o)).
Proof. apply ZoneFacts.in_zone_iff. Qed.

Lemma out_of_zone_test_witness :
  out_of_zone example_origin (mk_string "WWW.Example.COM." 16 16) = false.
Proof.
  apply (out_of_zone_test example_origin (mk_string "WWW.Example.COM." 16 16));
    [reflexivity | reflexivity |].
  exists "WWW.", "Example.COM.". repeat split. now right.
Defined.

(** X23: the root as the zone origin.  When the zone origin is the root,
    every owner other than the root itself, with no empty label, fails the
    test of the zone: the character before the final dot is never a dot.
    A record with an explicit owner other than the root is therefore not
    written: [handle_entry] prints the warning of data out of the zone and
    returns 1, with the owner stored, whatever the type of the record
    is. *)
Theorem root_zone_rejects_names :
  (forall o,
      real_len o = strlen (text o) ->
      has_dotdot (text o) = false ->
      text o <> "." ->
      out_of_zone root_origin o = true)
  /\ (forall sln tokens st o,
         (3 <= List.length tokens)%nat ->
         (char_at (tk tokens 0) 0 =? "$")%char = false ->
         tk tokens 0 <> " " ->
         Bounds.inside (tk tokens 0) = true ->
         Names.qualified (cur_origin st) ->
         qualify_domain (tk tokens 0) (Some (cur_origin st)) = Ok o ->
         text o <> "." ->
         handle_entry root_origin sln tokens st
         = Go (1, with_owner st o) "" [Warning m_out_of_zone sln]).
Proof.
  assert (Hzone : forall o,
             real_len o = strlen (text o) ->
             has_dotdot (text o) = false ->
             text o <> "." ->
             out_of_zone root_origin o = true).
  { intros o Hr Hd Hne.
    destruct (out_of_zone root_origin o) eqn:E; [reflexivity|]. exfalso.
    apply (ZoneFacts.in_zone_iff root_origin o eq_refl Hr) in E.
    destruct E as (pre & suf & Et & Hs & Hp).
    change (text root_origin) with "." in Hs.
    apply ZoneFacts.strcaseeq_root in Hs. subst suf.
    destruct Hp as [->|Hp]; [now apply Hne|].
    rewrite Et, NamesFacts.has_dotdot_app, Hp in Hd.
    cbn in Hd. rewrite orb_true_r in Hd. discriminate. }
  split; [exact Hzone|].
  intros sln tokens st o Hn Hd Hb _ Ho Hq Hne.
  assert (Hk : Names.qualified o).
  { apply (NamesFacts.keeps_qualified (tk tokens 0) (Some (cur_origin st)) o); [|exact Hq].
    intros o' E. injection E as <-. exact Ho. }
  destruct Hk as (_ & _ & Hdd & Hr & _).
  apply Entry.out_of_zone_outcome; auto.
Qed.

Lemma root_zone_rejects_names_witness :
  out_of_zone root_origin (mk_string "www." 4 4) = true
  /\ handle_entry root_origin 7 ["www"; "MX"; "10"; "mail"] (init_state root_origin)
     = Go (1, with_owner (init_state root_origin) (mk_string "www." 4 4)) ""
          [Warning m_out_of_zone 7].
Proof.
  split.
  - apply (proj1 root_zone_rejects_names (mk_string "www." 4 4));
      [reflexivity | reflexivity | discriminate].
  - apply (proj2 root_zone_rejects_names 7 ["www"; "MX"; "10"; "mail"]
                 (init_state root_origin) (mk_string "www." 4 4));
      [simpl; lia | reflexivity | discriminate | reflexivity | | reflexivity | discriminate].
    unfold Names.qualified. cbn. repeat split; try reflexivity; try discriminate; lia.
Defined.

Module StateFacts.

(** A computation that goes on went on in both of its parts. *)
Lemma bind_go {A B : Type} (m : run A) (k : A -> run B) (b : B) (out : string)
      (d : list diag) :
  bind m k = Go b out d ->
  exists a o1 d1 o2 d2,
    m = Go a o1 d1 /\ k a = Go b o2 d2 /\ out = o1 ++ o2 /\ d = (d1 ++ d2)%list.
Proof.
  unfold bind. destruct m as [d0| |a o1 d1]; try discriminate.
  destruct (k a) as [d0| |b' o2 d2] eqn:Ek; try discriminate.
  intros H. injection H as <- <- <-. exists a, o1, d1, o2, d2. auto.
Qed.

Lemma check_go (c : bool) (m : string) (sln : Z) (u : unit) (out : string) (d : list diag) :
  check c m sln = Go u out d -> c = false.
Proof. unfold check. destruct c; [discriminate | reflexivity]. Qed.

(** The lines of the owner leave the origin and the default TTL alone. *)
Lemma rr_owner_keeps (top : string_t) (sln : Z) (tokens : list string) (st st1 : run_state)
      (r : option Z) (out : string) (d : list diag) :
  rr_owner top sln tokens st = Go (r, st1) out d ->
  cur_origin st1 = cur_origin st /\ ttl st1 = ttl st.
Proof.
  unfold rr_owner. destruct (negb (String.eqb (tk tokens 0) " ")).
  - intros H. apply bind_go in H as (o & o1 & d1 & o2 & d2 & _ & H & _).
    cbv beta in H. destruct (out_of_zone top (owner (with_owner st o))).
    + apply bind_go in H as (u & o3 & d3 & o4 & d4 & _ & H & _).
      injection H as _ <- _ _. split; reflexivity.
    + injection H as _ <- _ _. split; reflexivity.
  - intros H. apply bind_go in H as (u & o1 & d1 & o2 & d2 & _ & H & _).
    injection H as _ <- _ _. split; reflexivity.
Qed.

Lemma handle_rr_keeps (top : string_t) (sln : Z) (tokens : list string) (st st' : run_state)
      (v : Z) (out : string) (d : list diag) :
  handle_rr top sln tokens st = Go (v, st') out d ->
  cur_origin st' = cur_origin st /\ ttl st' = ttl st.
Proof.
  unfold handle_rr. intros H.
  apply bind_go in H as (u & o1 & d1 & o2 & d2 & _ & H & _).
  apply bind_go in H as ([r st1] & o3 & d3 & o4 & d4 & Ho & H & _).
  apply rr_owner_keeps in Ho. destruct r as [v1|].
  - injection H as _ <- _ _. exact Ho.
  - apply bind_go in H as ([l n] & o5 & d5 & o6 & d6 & _ & H & _).
    destruct (n >=? Z.of_nat (List.length tokens)); [discriminate|].
    apply bind_go in H as (u2 & o7 & d7 & o8 & d8 & _ & H & _).
    injection H as _ <- _ _. exact Ho.
Qed.

(** An entry of three tokens that goes on is a record. *)
Lemma three_tokens_keep (f : Z -> list string -> run_state -> run (Z * run_state))
      (top : string_t) (sln : Z) (tokens : list string) (st st' : run_state)
      (v : Z) (out : string) (d : list diag) :
  List.length tokens = 3%nat ->
  handle_entry_with f top sln tokens st = Go (v, st') out d ->
  cur_origin st' = cur_origin st /\ ttl st' = ttl st.
Proof.
  intros Hl. unfold handle_entry_with, handle_generate. rewrite Hl.
  change (Z.of_nat 3 =? 0) with false. cbv iota.
  destruct (strcaseeq (tk tokens 0) "$ORIGIN"); [discriminate|].
  destruct (strcaseeq (tk tokens 0) "$TTL"); [discriminate|].
  destruct (strcaseeq (tk tokens 0) "$GENERATE"); [discriminate|].
  destruct (strcaseeq (tk tokens 0) "$INCLUDE"); [discriminate|].
  destruct (char_at (tk tokens 0) 0 =? "$")%char; [discriminate|].
  apply handle_rr_keeps.
Qed.

Lemma generate_loop_keeps (self : Z -> list string -> run_state -> run (Z * run_state))
      (count : nat) :
  (forall sln tokens st v st' out d,
      List.length tokens = 3%nat ->
      self sln tokens st = Go (v, st') out d ->
      cur_origin st' = cur_origin st /\ ttl st' = ttl st) ->
  forall i step sln lhs rhs type st st' out d,
    generate_loop self count i step sln lhs rhs type st = Go st' out d ->
    cur_origin st' = cur_origin st /\ ttl st' = ttl st.
Proof.
  intros Hself. induction count as [|count IH]; intros i step sln lhs rhs type st st' out d H.
  - injection H as <- _ _. split; reflexivity.
  - cbn [generate_loop] in H.
    apply bind_go in H as (l & o1 & d1 & o2 & d2 & _ & H & _).
    apply bind_go in H as (r & o3 & d3 & o4 & d4 & _ & H & _).
    apply bind_go in H as ([v st1] & o5 & d5 & o6 & d6 & Hs & H & _).
    apply Hself in Hs; [|reflexivity].
    destruct (i + step >? 2147483647); [discriminate|].
    apply IH in H. cbn [snd] in H. destruct H as [H1 H2], Hs as [H3 H4].
    split; congruence.
Qed.

Lemma handle_generate_keeps (top : string_t) (sln : Z) (tokens : list string)
      (st st' : run_state) (v : Z) (out : string) (d : list diag) :
  handle_generate
    (fun sln' tokens' st' =>
       handle_entry_with (fun _ _ _ => Unspecified) top sln' tokens' st')
    sln tokens st = Go (v, st') out d ->
  cur_origin st' = cur_origin st /\ ttl st' = ttl st.
Proof.
  unfold handle_generate. intros H.
  apply bind_go in H as (u & o1 & d1 & o2 & d2 & _ & H & _).
  apply bind_go in H as (u2 & o3 & d3 & o4 & d4 & _ & H & _).
  destruct (parse_range (tk tokens 1)) as [m|[[start stop] step]]; [discriminate|].
  apply bind_go in H as (lhs & o5 & d5 & o6 & d6 & _ & H & _).
  apply bind_go in H as (rhs & o7 & d7 & o8 & d8 & _ & H & _).
  destruct (step <? 0); [discriminate|].
  apply bind_go in H as (st1 & o9 & d9 & o10 & d10 & Hl & H & _).
  injection H as _ <- _ _.
  eapply generate_loop_keeps; [|exact Hl].
  intros sln' tokens' st0 v' st0' out' d' Hlen Hs.
  now apply three_tokens_keep in Hs.
Qed.

End StateFacts.

(** X24: what an entry changes.  When [handle_entry] returns, the
    origin is the one it was called with unless the entry is an [$ORIGIN]
    directive, and the default TTL is the one it was called with unless the
    entry is a [$TTL] directive: a TTL written in a record applies to that
    record only, and the records of a [$GENERATE] directive change
    neither.  The two directives leave the stored owner as it was. *)
Theorem handle_entry_state (top : string_t) (sln : Z) (tokens : list string)
        (st st' : run_state) (v : Z) (out : string) (d : list diag) :
  handle_entry top sln tokens st = Go (v, st') out d ->
  (strcaseeq (tk tokens 0) "$ORIGIN" = false -> cur_origin st' = cur_origin st)
  /\ (strcaseeq (tk tokens 0) "$TTL" = false -> ttl st' = ttl st)
  /\ (strcaseeq (tk tokens 0) "$ORIGIN" || strcaseeq (tk tokens 0) "$TTL" = true ->
      owner st' = owner st /\ prev_owner st' = prev_owner st).
Proof.
  unfold handle_entry, handle_entry_with. intros H.
  destruct (Z.of_nat (List.length tokens) =? 0).
  { injection H as _ <- _ _. repeat split. }
  destruct (strcaseeq (tk tokens 0) "$ORIGIN") eqn:Eo.
  { apply StateFacts.bind_go in H as (u & o1 & d1 & o2 & d2 & _ & H & _).
    apply StateFacts.bind_go in H as (o & o3 & d3 & o4 & d4 & _ & H & _).
    injection H as _ <- _ _. repeat split. discriminate. }
  destruct (strcaseeq (tk tokens 0) "$TTL") eqn:Et.
  { apply StateFacts.bind_go in H as (u & o1 & d1 & o2 & d2 & _ & H & _).
    apply StateFacts.bind_go in H as (r & o3 & d3 & o4 & d4 & _ & H & _).
    destruct r as [n|]; [|discriminate].
    apply StateFacts.bind_go in H as (u2 & o5 & d5 & o6 & d6 & _ & H & _).
    injection H as _ <- _ _. repeat split. discriminate. }
  cbn [orb].
  assert (Hk : cur_origin st' = cur_origin st /\ ttl st' = ttl st).
  { destruct (strcaseeq (tk tokens 0) "$GENERATE").
    { now apply StateFacts.handle_generate_keeps in H. }
    destruct (strcaseeq (tk tokens 0) "$INCLUDE"); [discriminate|].
    destruct (char_at (tk tokens 0) 0 =? "$")%char; [discriminate|].
    now apply StateFacts.handle_rr_keeps in H. }
  destruct Hk as [H1 H2]. repeat split; auto; discriminate.
Qed.

Lemma handle_entry_state_witness :
  ttl (mk_run example_origin DEFAULT_TTL (mk_string "a.example.com." 14 14) true)
  = ttl (init_state example_origin).
Proof.
  pose proof (handle_entry_state example_origin 1 ["a"; "300"; "A"; "1.2.3.4"]
                (init_state example_origin)
                (mk_run example_origin DEFAULT_TTL (mk_string "a.example.com." 14 14) true)
                0 ("+a.example.com.:1.2.3.4:300" ++ eol) []
                ltac:(vm_compute; reflexivity)) as (_ & H & _).
  apply H. reflexivity.
Defined.

Module FormsFacts.

Import DurationFacts NumberFacts.

(** A class token is not a number: [str_to_uint] fails on it without a
    warning. *)
Lemma class_char_not_digit (x y : ascii) :
  (tolower x =? tolower y)%char = true ->
  Duration.is_digit y = false ->
  (65 <=? code y) && (code y <=? 90) = true ->
  Duration.is_digit x = false.
Proof.
  intros H Hy Hu. apply Ascii.eqb_eq in H.
  destruct (Duration.is_digit x) eqn:Ex; [|reflexivity]. exfalso.
  destruct (is_digit_schar x Ex) as [_ Hr].
  apply andb_true_iff in Hu as [H1 H2]. apply Z.leb_le in H1, H2.
  unfold tolower in H.
  destruct (Z.leb_spec 65 (code x)); [lia|]. cbn [andb] in H.
  destruct (Z.leb_spec 65 (code y)); [|lia].
  destruct (Z.leb_spec (code y) 90); [|lia]. cbn [andb] in H.
  apply (f_equal code) in H. rewrite SanitizeFacts.code_chr in H by lia. lia.
Qed.

Lemma class_unparsed (cls : string) :
  strcaseeq cls "IN" = true -> str_to_uint cls true = Err [].
Proof.
  destruct cls as [|x cls]; [discriminate|]. cbn [strcaseeq]. intros H.
  apply andb_true_iff in H as [Hx _].
  pose proof (class_char_not_digit x "I" Hx eq_refl eq_refl) as Hd.
  unfold str_to_uint. cbn [str_to_uint_loop]. now rewrite (not_digit_schar x Hd).
Qed.

Lemma bind_Go {A B : Type} (a : A) (out : string) (d : list diag) (k : A -> run B) :
  bind (Go a out d) k
  = match k a with
    | Stop d' => Stop (d ++ d')%list
    | Unspecified => Unspecified
    | Go b out' d' => Go b (out ++ out') (d ++ d')%list
    end.
Proof. reflexivity. Qed.

Lemma rr_owner_head (top : string_t) (sln : Z) (a b : list string) (st : run_state) :
  tk a 0 = tk b 0 -> rr_owner top sln a st = rr_owner top sln b st.
Proof. intros H. unfold rr_owner. now rewrite H. Qed.

(** Two records with the same owner token that are handled alike after
    the owner are handled alike. *)
Lemma handle_rr_ext (top : string_t) (sln : Z) (a b : list string) (st : run_state) :
  (Z.of_nat (List.length a) <? 3) = (Z.of_nat (List.length b) <? 3) ->
  tk a 0 = tk b 0 ->
  (forall st1,
      (p <- rr_ttl_class sln a st1 ;;
       let '(local_ttl, next) := p in
       if next >=? Z.of_nat (List.length a) then Unspecified
       else rr_rdata sln a st1 local_ttl next ;;; ret (0, st1))
      = (p <- rr_ttl_class sln b st1 ;;
         let '(local_ttl, next) := p in
         if next >=? Z.of_nat (List.length b) then Unspecified
         else rr_rdata sln b st1 local_ttl next ;;; ret (0, st1))) ->
  handle_rr top sln a st = handle_rr top sln b st.
Proof.
  intros Hl Hh Hk. unfold handle_rr. rewrite Hl, (rr_owner_head top sln a b st Hh).
  destruct (check (Z.of_nat (List.length b) <? 3) "RR does not have enough tokens" sln)
    as [d| |u out d]; try reflexivity.
  destruct (rr_owner top sln b st) as [d1| |[[v|] st1] out1 d1]; try reflexivity.
  specialize (Hk st1).
  rewrite !bind_Go. cbv beta iota. now rewrite Hk.
Qed.

Lemma enough_tokens (a b c : string) (more : list string) :
  (Z.of_nat (List.length (a :: b :: c :: more)) <? 3) = false.
Proof. apply Z.ltb_ge. cbn [List.length]. lia. Qed.

Lemma next_in_range (next : Z) (tokens : list string) :
  next < Z.of_nat (List.length tokens) ->
  (next >=? Z.of_nat (List.length tokens)) = false.
Proof. intros H. rewrite Z.geb_leb. apply Z.leb_gt. exact H. Qed.

(** An entry whose first token does not start with a dollar sign is a
    record. *)
Lemma record_entry (top : string_t) (sln : Z) (name : string) (more : list string)
      (st : run_state) :
  (char_at name 0 =? "$")%char = false ->
  handle_entry top sln (name :: more) st = handle_rr top sln (name :: more) st.
Proof.
  intros Hd. unfold handle_entry, handle_entry_with.
  change (tk (name :: more) 0) with name.
  rewrite !Entry.not_a_directive by exact Hd. rewrite Hd. reflexivity.
Qed.

(** The type and the RDATA are read from [next] on. *)
Lemma rr_rdata_from_2 (sln : Z) (a b a' : string) (rest : list string) (st : run_state)
      (local_ttl : Z) :
  rr_rdata sln (a :: b :: rest) st local_ttl 2 = rr_rdata sln (a' :: rest) st local_ttl 1.
Proof.
  unfold rr_rdata.
  replace (Z.of_nat (List.length (a :: b :: rest)) - 2 - 1)
    with (Z.of_nat (List.length (a' :: rest)) - 1 - 1) by (cbn [List.length]; lia).
  reflexivity.
Qed.

Lemma rr_rdata_from_3 (sln : Z) (a b c a' : string) (rest : list string) (st : run_state)
      (local_ttl : Z) :
  rr_rdata sln (a :: b :: c :: rest) st local_ttl 3
  = rr_rdata sln (a' :: rest) st local_ttl 1.
Proof.
  unfold rr_rdata.
  replace (Z.of_nat (List.length (a :: b :: c :: rest)) - 3 - 1)
    with (Z.of_nat (List.length (a' :: rest)) - 1 - 1) by (cbn [List.length]; lia).
  reflexivity.
Qed.

End FormsFacts.

(** X25: the TTL and the class of a record.  A record with a TTL and
    the class IN is handled in the same way with the TTL before the class
    and with the class before the TTL; and the class can be left out: a
    record with the class, with or without a TTL, is handled as the record
    without it. *)
Theorem rr_ttl_and_class_forms (top : string_t) (sln : Z) (name t cls : string)
        (st : run_state) (v : Z) :
  (char_at name 0 =? "$")%char = false ->
  strcaseeq cls "IN" = true ->
  str_to_uint t true = Ok v ->
  (forall rest,
      handle_entry top sln (name :: t :: cls :: rest) st
      = handle_entry top sln (name :: cls :: t :: rest) st)
  /\ (forall ty more,
         strcaseeq ty "IN" = false ->
         handle_entry top sln (name :: t :: cls :: ty :: more) st
         = handle_entry top sln (name :: t :: ty :: more) st)
  /\ (forall ty rd more,
         strcaseeq ty "IN" = false ->
         str_to_uint ty true = Err [] ->
         handle_entry top sln (name :: cls :: ty :: rd :: more) st
         = handle_entry top sln (name :: ty :: rd :: more) st).
Proof.
  intros Hd Hc Hv. pose proof (FormsFacts.class_unparsed cls Hc) as Hu.
  split; [|split].
  - intros rest. rewrite !FormsFacts.record_entry by exact Hd.
    apply FormsFacts.handle_rr_ext; [reflexivity | reflexivity|]. intros st1.
    unfold rr_ttl_class.
    change (tk (name :: t :: cls :: rest) 1) with t.
    change (tk (name :: t :: cls :: rest) 2) with cls.
    change (tk (name :: cls :: t :: rest) 1) with cls.
    change (tk (name :: cls :: t :: rest) 2) with t.
    rewrite Hv, Hu, Hc. unfold probe, ret. rewrite !FormsFacts.bind_Go.
    destruct (check (u32 (ttl st1) >? 2147483646) "invalid TTL in RR" sln)
      as [d0| |u0 o0 d0]; reflexivity.
  - intros ty more Hty. rewrite !FormsFacts.record_entry by exact Hd.
    apply FormsFacts.handle_rr_ext;
      [now rewrite !FormsFacts.enough_tokens | reflexivity|]. intros st1.
    unfold rr_ttl_class.
    change (tk (name :: t :: cls :: ty :: more) 1) with t.
    change (tk (name :: t :: cls :: ty :: more) 2) with cls.
    change (tk (name :: t :: ty :: more) 1) with t.
    change (tk (name :: t :: ty :: more) 2) with ty.
    rewrite Hv, Hc, Hty. unfold probe, ret. rewrite !FormsFacts.bind_Go.
    destruct (check (u32 (ttl st1) >? 2147483646) "invalid TTL in RR" sln)
      as [d0| |u0 o0 d0]; try reflexivity.
    rewrite !FormsFacts.bind_Go. cbv beta iota.
    rewrite !FormsFacts.next_in_range by (cbn [List.length]; lia).
    rewrite (FormsFacts.rr_rdata_from_3 sln _ _ _ "" (ty :: more)).
    rewrite (FormsFacts.rr_rdata_from_2 sln _ _ "" (ty :: more)). reflexivity.
  - intros ty rd more Hty Hn. rewrite !FormsFacts.record_entry by exact Hd.
    apply FormsFacts.handle_rr_ext;
      [now rewrite !FormsFacts.enough_tokens | reflexivity|]. intros st1.
    unfold rr_ttl_class.
    change (tk (name :: cls :: ty :: rd :: more) 1) with cls.
    change (tk (name :: cls :: ty :: rd :: more) 2) with ty.
    change (tk (name :: ty :: rd :: more) 1) with ty.
    rewrite Hu, Hc, Hn, Hty. unfold probe, ret. rewrite !FormsFacts.bind_Go.
    cbv beta iota.
    rewrite !FormsFacts.next_in_range by (cbn [List.length]; lia).
    rewrite (FormsFacts.rr_rdata_from_2 sln _ _ name (ty :: rd :: more)). reflexivity.
Qed.

Lemma rr_ttl_and_class_forms_witness :
  handle_entry example_origin 1 ["www"; "1h"; "in"; "A"; "10.0.0.1"]
               (init_state example_origin)
  = handle_entry example_origin 1 ["www"; "in"; "1h"; "A"; "10.0.0.1"]
                 (init_state example_origin)
  /\ handle_entry example_origin 1 ["www"; "in"; "A"; "10.0.0.1"]
                  (init_state example_origin)
     = handle_entry example_origin 1 ["www"; "A"; "10.0.0.1"]
                    (init_state example_origin).
Proof.
  pose proof (rr_ttl_and_class_forms example_origin 1 "www" "1h" "in"
                (init_state example_origin) 3600
                ltac:(reflexivity) ltac:(reflexivity) ltac:(reflexivity))
    as (H1 & _ & H3).
  split; [apply H1 | apply H3; reflexivity].
Defined.

(** ** Directives and whole runs *)

Module DirectiveFacts.

Import ZoneFacts.

(** A token that reads as one keyword does not read as a keyword of
    another length. *)
Lemma other_keyword (t p q : string) :
  strcaseeq t p = true -> String.length p <> String.length q -> strcaseeq t q = false.
Proof.
  intros Hp Hl. destruct (strcaseeq t q) eqn:Hq; [|reflexivity].
  apply strcaseeq_length in Hp, Hq. congruence.
Qed.

Lemma i32_of_u32 (v : Z) :
  0 <= v < 2 ^ 32 -> i32 v = if v <? 2 ^ 31 then v else v - 2 ^ 32.
Proof. intros H. unfold i32. now rewrite Z.mod_small by exact H. Qed.

End DirectiveFacts.

(** X26: the [$TTL] directive.  With one argument that [str_to_uint]
    reads as [v], the directive stores [v] as an [int] in the default TTL
    and writes nothing, whatever [v] is, except for 2147483647, on which it
    calls [fatal]: a value from 2^31 up is stored as the negative number
    [v - 2^32]. *)
Theorem ttl_directive (top : string_t) (sln : Z) (kw t : string) (st : run_state) (v : Z) :
  strcaseeq kw "$TTL" = true ->
  str_to_uint t true = Ok v ->
  handle_entry top sln [kw; t] st
  = if v =? 2147483647 then Stop [FatalMsg "invalid $TTL value" sln]
    else Go (0, with_ttl st (if v <? 2 ^ 31 then v else v - 2 ^ 32)) "" [].
Proof.
  intros Hk Hv.
  assert (Hr : 0 <= v < 2 ^ 32).
  { unfold str_to_uint in Hv. destruct t as [|c t]; [discriminate|].
    apply (NumberFacts.loop_range _ _ _ _ _ _ v) in Hv; [exact Hv | |];
      split; try lia; reflexivity. }
  unfold handle_entry, handle_entry_with. change (tk [kw; t] 0) with kw.
  change (tk [kw; t] 1) with t.
  rewrite (DirectiveFacts.other_keyword kw "$TTL" "$ORIGIN" Hk) by (cbn; lia).
  rewrite Hk, Hv.
  change (Z.of_nat (List.length [kw; t]) =? 0) with false.
  change (Z.of_nat (List.length [kw; t]) =? 2) with true.
  unfold check at 1. unfold probe, ret. cbn [negb]. rewrite !FormsFacts.bind_Go.
  cbv beta iota. rewrite (DirectiveFacts.i32_of_u32 v Hr).
  destruct (Z.eqb_spec v 2147483647) as [->|Hne]; [reflexivity|].
  destruct (Z.ltb_spec v (2 ^ 31)).
  - destruct (Z.gtb_spec v 2147483646); [lia | reflexivity].
  - destruct (Z.gtb_spec (v - 2 ^ 32) 2147483646); [lia | reflexivity].
Qed.

Lemma ttl_directive_witness :
  handle_entry example_origin 1 ["$ttl"; "1h"] (init_state example_origin)
  = Go (0, with_ttl (init_state example_origin) 3600) "" []
  /\ handle_entry example_origin 1 ["$TTL"; "4294967295"] (init_state example_origin)
     = Go (0, with_ttl (init_state example_origin) (-1)) "" [].
Proof.
  split.
  - apply (ttl_directive example_origin 1 "$ttl" "1h" (init_state example_origin) 3600);
      reflexivity.
  - apply (ttl_directive example_origin 1 "$TTL" "4294967295" (init_state example_origin)
                         4294967295); reflexivity.
Defined.

Module RunFacts.

Import Words Lines LinesFacts DirectiveFacts.

Lemma length_quiet_lines (ls : list (nat * list ascii)) :
  (List.length ls <= List.length (quiet_lines ls))%nat.
Proof.
  induction ls as [|l ls IH]; [apply le_n|]. cbn [quiet_lines List.length].
  rewrite !length_app. cbn [List.length]. lia.
Qed.

(** The loop of [main] walks over lines that hold no entry. *)
Lemma main_loop_skip (ls : list (nat * list ascii)) :
  forall f top rest ln st file d,
    forallb quiet ls = true ->
    main_loop (List.length ls + f) top (quiet_lines ls ++ rest) ln st file d
    = main_loop f top rest (ln + Z.of_nat (List.length ls)) st file d.
Proof.
  induction ls as [|[k t] ls IH]; intros f top rest ln st file d H.
  - cbn [List.length Nat.add quiet_lines app Z.of_nat]. now rewrite Z.add_0_r.
  - cbn [forallb] in H. apply andb_true_iff in H as [Hq H]. unfold quiet in Hq.
    cbn [fst snd] in Hq. apply andb_true_iff in Hq as [Ht Hl]. apply Z.ltb_lt in Hl.
    cbn [List.length Nat.add quiet_lines fst snd main_loop].
    rewrite <- !app_assoc. cbn [app].
    pose proof (tokenize_line k [] t (quiet_lines ls ++ rest) ln eq_refl Ht) as Htok.
    cbn [joined app List.length] in Htok. rewrite Htok.
    2:{ unfold slots. cbn [List.length]. unfold MAX_TOKENS.
        destruct (Nat.eqb k 0); cbn; lia. }
    2:{ rewrite Nat.add_0_r. exact Hl. }
    cbn [result entry_tokens stdin_left line_num start_line_num printed].
    change (handle_entry top ln [] st) with (Go (0, st) "" [] : run (Z * run_state)).
    cbv iota. cbn [snd]. rewrite append_nil_r, app_nil_r.
    rewrite IH by exact H. f_equal. lia.
Qed.

End RunFacts.

(** X27: a zone of comments.  When the input holds nothing but lines of
    blanks and comments, [main] ends with status 0, the output file is
    empty, and nothing is printed. *)
Theorem main_comments_only (origin_arg : string) (origin : string_t)
        (ls : list (nat * list ascii)) :
  qualify_domain origin_arg (Some root_origin) = Ok origin ->
  forallb Lines.quiet ls = true ->
  main origin_arg (Lines.quiet_lines ls) = Exit 0 (Some "") [].
Proof.
  intros Ho Hq. unfold main. rewrite Ho.
  pose proof (RunFacts.length_quiet_lines ls) as Hlen.
  replace (S (List.length (Lines.quiet_lines ls)))
    with (List.length ls + S (List.length (Lines.quiet_lines ls) - List.length ls))%nat
    by lia.
  rewrite <- (app_nil_r (Lines.quiet_lines ls)) at 2.
  rewrite RunFacts.main_loop_skip by exact Hq.
  reflexivity.
Qed.

Lemma main_comments_only_witness :
  main "example.com" (zone ("; zone of example.com" ++ eol ++ eol ++ "   ; end" ++ eol))
  = Exit 0 (Some "") [].
Proof.
  apply (main_comments_only "example.com" example_origin
           [(0%nat, zone "; zone of example.com"); (0%nat, []); (3%nat, zone "; end")]);
    reflexivity.
Defined.

(** X28: the [$INCLUDE] directive is refused.  When the first entry of
    the input, after any lines of blanks and comments, starts with the
    word [$INCLUDE] in any case, [main] ends with status 1, no output file
    is left, and the message names the line of the directive; what follows
    in the input is not read. *)
Theorem main_include_refused (origin_arg : string) (origin : string_t)
        (ls : list (nat * list ascii)) (kw : list ascii) (words : list (list ascii))
        (t rest : list ascii) :
  qualify_domain origin_arg (Some root_origin) = Ok origin ->
  forallb Lines.quiet ls = true ->
  strcaseeq (string_of_list_ascii kw) "$INCLUDE" = true ->
  forallb Words.word (kw :: words) = true ->
  Lines.trailing t = true ->
  Z.of_nat (List.length (kw :: words)) <= MAX_TOKENS ->
  Z.of_nat (List.length (Lines.joined (kw :: words)) + List.length t) < LINE_LEN ->
  main origin_arg
       (Lines.quiet_lines ls ++ Lines.joined (kw :: words) ++ t ++ newline :: rest)
  = Exit 1 None [FatalMsg "sorry, $INCLUDE directive is not implemented"
                          (1 + Z.of_nat (List.length ls))].
Proof.
  intros Ho Hq Hk Hw Ht Hn Hl. unfold main. rewrite Ho.
  pose proof (RunFacts.length_quiet_lines ls) as Hlen.
  set (line := (Lines.joined (kw :: words) ++ t ++ newline :: rest)%list).
  assert (Hline : (1 <= List.length line)%nat).
  { unfold line. rewrite !length_app. cbn [List.length]. lia. }
  replace (S (List.length (Lines.quiet_lines ls ++ line)))
    with (List.length ls
          + S (List.length (Lines.quiet_lines ls) - List.length ls + List.length line))%nat
    by (rewrite length_app; lia).
  rewrite RunFacts.main_loop_skip by exact Hq.
  cbn [main_loop]. unfold line.
  pose proof (LinesFacts.tokenize_line 0 (kw :: words) t rest
                (1 + Z.of_nat (List.length ls)) Hw Ht) as Htok.
  cbn [Lines.margin repeat app] in Htok. rewrite Htok; [|exact Hn|exact Hl].
  cbn [result Lines.entry_tokens Nat.eqb app start_line_num printed map].
  unfold handle_entry, handle_entry_with.
  change (tk (string_of_list_ascii kw :: map string_of_list_ascii words) 0)
    with (string_of_list_ascii kw).
  rewrite (DirectiveFacts.other_keyword _ "$INCLUDE" "$ORIGIN" Hk) by (cbn; lia).
  rewrite (DirectiveFacts.other_keyword _ "$INCLUDE" "$TTL" Hk) by (cbn; lia).
  rewrite (DirectiveFacts.other_keyword _ "$INCLUDE" "$GENERATE" Hk) by (cbn; lia).
  rewrite Hk. reflexivity.
Qed.

Lemma main_include_refused_witness :
  main "example.com"
       (zone ("; hosts" ++ eol ++ "$include hosts.db; more" ++ eol ++ "www A 10.0.0.1" ++ eol))
  = Exit 1 None [FatalMsg "sorry, $INCLUDE directive is not implemented" 2].
Proof.
  apply (main_include_refused "example.com" example_origin [(0%nat, zone "; hosts")]
           (zone "$include") [zone "hosts.db"] (zone "; more")
           (zone ("www A 10.0.0.1" ++ eol)));
    [reflexivity | reflexivity | reflexivity | reflexivity | reflexivity
     | vm_compute; discriminate | vm_compute; reflexivity].
Defined.

Module TxtFacts.

Import Zone.

(** The loop over the TXT tokens writes each text after its length. *)
Lemma txt_rdata_written (sln : Z) (strs : list string) :
  forall rs, sanitized strs rs -> txt_rdata sln strs = Go tt (txt_text rs) [].
Proof.
  induction strs as [|s strs IH]; intros [|r rs] H; cbn [sanitized] in H;
    try contradiction; [reflexivity|].
  destruct H as [Hs H]. cbn [txt_rdata txt_text]. rewrite Hs.
  unfold or_fatal, ret, fprintf. rewrite !FormsFacts.bind_Go. cbv beta iota.
  rewrite (IH rs H). cbn [app append]. now rewrite append_assoc.
Qed.

Lemma sanitized_length (strs : list string) :
  forall rs, sanitized strs rs -> List.length strs = List.length rs.
Proof.
  induction strs as [|s strs IH]; intros [|r rs] H; cbn [sanitized] in H;
    try contradiction; [reflexivity|].
  destruct H as [_ H]. cbn [List.length]. now rewrite (IH rs H).
Qed.

End TxtFacts.

(** X29: a TXT record.  For an owner inside the zone and one or more
    texts that [sanitize_string] accepts, the owner and the texts being
    such that [sanitize_string] writes inside its buffer, [handle_entry]
    writes one line: a colon, the owner, the type number 16, then each text
    in its sanitized form after the octal escape of its length, and the
    default TTL; the owner is stored for the records that follow. *)
Theorem txt_record_line (top : string_t) (sln : Z) (name : string) (strs : list string)
        (rs : list string_t) (st : run_state) (o : string_t) :
  (char_at name 0 =? "$")%char = false ->
  name <> " " ->
  Bounds.inside name = true ->
  qualify_domain name (Some (cur_origin st)) = Ok o ->
  out_of_zone top o = false ->
  strs <> [] ->
  Bounds.all_inside strs = true ->
  Zone.sanitized strs rs ->
  handle_entry top sln (name :: "TXT" :: strs) st
  = Go (0, with_prev_owner (with_owner st o) true)
       (":" ++ text o ++ ":16:" ++ Zone.txt_text rs ++ ":" ++ fmt_d 0 (u32 (ttl st)) ++ eol)
       [].
Proof.
  intros Hd Hb _ Hq Hz Hne _ Hs.
  rewrite FormsFacts.record_entry by exact Hd.
  unfold handle_rr, rr_owner. change (tk (name :: "TXT" :: strs) 0) with name.
  apply String.eqb_neq in Hb. rewrite Hb, Hq. cbn [negb].
  destruct strs as [|s strs]; [congruence|].
  rewrite FormsFacts.enough_tokens.
  unfold check at 1. unfold or_fatal, ret. rewrite !FormsFacts.bind_Go. cbv beta iota.
  change (owner (with_owner st o)) with o. rewrite Hz.
  rewrite !FormsFacts.bind_Go. cbv beta iota.
  unfold rr_ttl_class. change (tk (name :: "TXT" :: s :: strs) 1) with "TXT".
  change (str_to_uint "TXT" true) with (@Err Z []).
  change (strcaseeq "TXT" "IN") with false.
  unfold probe, ret. rewrite !FormsFacts.bind_Go. cbv beta iota.
  rewrite FormsFacts.next_in_range by (cbn [List.length]; lia).
  unfold rr_rdata. change (tk (name :: "TXT" :: s :: strs) 1) with "TXT".
  change (strcaseeq "TXT" "SOA") with false. change (strcaseeq "TXT" "NS") with false.
  change (strcaseeq "TXT" "MX") with false. change (strcaseeq "TXT" "A") with false.
  change (strcaseeq "TXT" "CNAME") with false. change (strcaseeq "TXT" "PTR") with false.
  change (strcaseeq "TXT" "TXT") with true. cbv iota.
  replace (Z.of_nat (List.length (name :: "TXT" :: s :: strs)) - 1 - 1 <? 1) with false
    by (symmetry; apply Z.ltb_ge; cbn [List.length]; lia).
  change (skipn (Z.to_nat (1 + 1)) (name :: "TXT" :: s :: strs)) with (s :: strs).
  rewrite (TxtFacts.txt_rdata_written sln (s :: strs) rs Hs).
  unfold check, fprintf, ret. rewrite !FormsFacts.bind_Go. cbv beta iota.
  cbn [app]. change (ttl (with_prev_owner (with_owner st o) true)) with (ttl st).
  change (text (owner (with_prev_owner (with_owner st o) true))) with (text o).
  f_equal. cbn [append]. rewrite ?append_assoc. cbn [append].
  rewrite ?append_nil_r. reflexivity.
Qed.

Lemma txt_record_line_witness :
  handle_entry example_origin 1 ["www"; "TXT"; "v=spf1 -all"; "a:b"]
               (init_state example_origin)
  = Go (0, mk_run example_origin DEFAULT_TTL (mk_string "www.example.com." 16 16) true)
       (":www.example.com.:16:\013v=spf1 -all\003a\072b:86400" ++ eol) [].
Proof.
  apply (txt_record_line example_origin 1 "www" ["v=spf1 -all"; "a:b"]
           [mk_string "v=spf1 -all" 11 11; mk_string "a\072b" 3 6]
           (init_state example_origin) (mk_string "www.example.com." 16 16));
    [reflexivity | discriminate | reflexivity | reflexivity | reflexivity | discriminate
     | reflexivity | repeat split].
Defined.

(** ** tokenize: an entry over several lines *)

Module EntriesFacts.

Import Words WordsFacts Lines LinesFacts Entries.

Lemma read_weak (tok : bool) (done : list ascii) (toks : list token_ptr)
      (strs : list string) :
  read tok done toks strs ->
  forall tail, map (token_str (done ++ nul :: tail)) toks = strs.
Proof. destruct tok; [auto|]. intros H tail. apply H. Qed.

Lemma read_cut (tok : bool) (done : list ascii) (toks : list token_ptr)
      (strs : list string) :
  read tok done toks strs -> tokens_read (done ++ [nul]) toks strs.
Proof.
  intros H tail. rewrite <- app_assoc. cbn [app]. now apply (read_weak tok).
Qed.

Lemma read_more (done more : list ascii) (toks : list token_ptr) (strs : list string) :
  tokens_read done toks strs -> tokens_read (done ++ more) toks strs.
Proof. intros H tail. rewrite <- app_assoc. apply H. Qed.

(** An opening parenthesis, outside quotes. *)
Lemma scan_char_open (done todo : list ascii) (p : Z) (txt : bool)
      (toks : list token_ptr) (tok found : bool) :
  Z.of_nat (List.length done) < LINE_LEN ->
  p + 1 <= MAX_PAREN ->
  scan_char (mk_tok (done ++ "("%char :: todo) (List.length done)
                    false p false false txt toks tok found)
  = Next (mk_tok (done ++ nul :: todo) (List.length done) false (p + 1) false false txt
                 toks false found).
Proof.
  intros Hl Hp. unfold scan_char, escape_step. cbn [i line set_in_quote in_quote].
  destruct (Z.eqb_spec (Z.of_nat (List.length done)) LINE_LEN); [lia|].
  rewrite line_at_mid. change ("(" =? "\")%char with false. cbn [andb].
  unfold syntax_step. cbn [i line in_doublequote andb]. rewrite line_at_mid.
  change ("(" =? ";")%char with false. change ("(" =? "(")%char with true. cbv iota.
  unfold end_token, cut_here, with_in_token, with_line, with_paren_level.
  cbn [line i in_doublequote paren_level in_quote set_in_quote in_txt token
       in_token found_nonblank_token].
  destruct (Z.gtb_spec (p + 1) MAX_PAREN); [lia|].
  now rewrite line_set_app.
Qed.

(** A closing parenthesis, outside quotes. *)
Lemma scan_char_close (done todo : list ascii) (p : Z) (txt : bool)
      (toks : list token_ptr) (tok found : bool) :
  Z.of_nat (List.length done) < LINE_LEN ->
  0 <= p - 1 ->
  scan_char (mk_tok (done ++ ")"%char :: todo) (List.length done)
                    false p false false txt toks tok found)
  = Next (mk_tok (done ++ nul :: todo) (List.length done) false (p - 1) false false txt
                 toks false found).
Proof.
  intros Hl Hp. unfold scan_char, escape_step. cbn [i line set_in_quote in_quote].
  destruct (Z.eqb_spec (Z.of_nat (List.length done)) LINE_LEN); [lia|].
  rewrite line_at_mid. change (")" =? "\")%char with false. cbn [andb].
  unfold syntax_step. cbn [i line in_doublequote andb]. rewrite line_at_mid.
  change (")" =? ";")%char with false. change (")" =? "(")%char with false.
  change (")" =? ")")%char with true. cbv iota.
  unfold end_token, cut_here, with_in_token, with_line, with_paren_level.
  cbn [line i in_doublequote paren_level in_quote set_in_quote in_txt token
       in_token found_nonblank_token].
  destruct (Z.ltb_spec (p - 1) 0); [lia|].
  now rewrite line_set_app.
Qed.

Lemma walk_cons (it : item) (r : list item) (p : Z) (aw : bool) :
  walk (it :: r) p aw
  = match walk [it] p aw with
    | Some (q, aw') => walk r q aw'
    | None => None
    end.
Proof.
  destruct it as [k|w| |]; cbn [walk].
  - destruct (Nat.eqb k 0); reflexivity.
  - destruct (aw || negb (word w)); reflexivity.
  - destruct (p + 1 >? MAX_PAREN); reflexivity.
  - destruct (p - 1 <? 0); reflexivity.
Qed.

(** One item of a line. *)
Lemma scan_item (it : item) :
  forall done toks strs todo p txt tok found f q aw,
    walk [it] p tok = Some (q, aw) ->
    read tok done toks strs ->
    (done = [] -> tok = false) ->
    Z.of_nat (List.length toks + List.length (item_strs (is_nil done) it)) <= MAX_TOKENS ->
    Z.of_nat (List.length done + List.length (item_text it)) < LINE_LEN ->
    exists done' toks',
      scan (List.length (item_text it) + f)
           (mk_tok (done ++ item_text it ++ todo) (List.length done)
                   false p false false txt toks tok found)
      = scan f (mk_tok (done' ++ todo) (List.length done')
                       false q false false txt toks' aw (found || is_word it))
      /\ read aw done' toks' (strs ++ item_strs (is_nil done) it)
      /\ List.length done' = (List.length done + List.length (item_text it))%nat
      /\ List.length toks' = (List.length toks + List.length (item_strs (is_nil done) it))%nat
      /\ done' <> [].
Proof.
  intros done toks strs todo p txt tok found f q aw Hw Hr H0 Ht Hl.
  destruct it as [k|w| |]; cbn [walk] in Hw; cbn [item_text item_strs is_word] in *.
  - (* blanks *)
    destruct k as [|m]; [discriminate|]. cbn [Nat.eqb] in Hw. injection Hw as <- <-.
    rewrite repeat_length in *. rewrite orb_false_r.
    destruct done as [|c0 done0].
    + specialize (H0 eq_refl). subst tok. cbn [is_nil app List.length Nat.add repeat].
      exists (" "%char :: repeat nul m), (toks ++ [BlankToken])%list.
      split; [|split; [|split; [|split]]].
      * erewrite scan_next; [|reflexivity|apply scan_char_first_blank].
        unfold with_i.
        cbn [line i in_doublequote paren_level in_quote set_in_quote in_txt token
             in_token found_nonblank_token].
        pose proof (scan_blanks m [" "%char] todo p txt (toks ++ [BlankToken]) found f
                                ltac:(discriminate)) as H.
        cbn [List.length app Nat.add] in H. rewrite H by (cbn [List.length] in Hl; lia).
        cbn [List.length]. now rewrite repeat_length.
      * intros tail. rewrite map_app. cbn [map token_str]. f_equal.
        apply (Hr ((" "%char :: repeat nul m) ++ tail)%list).
      * cbn [List.length]. now rewrite repeat_length.
      * rewrite length_app. reflexivity.
      * discriminate.
    + change (is_nil (c0 :: done0)) with false in *. cbv beta iota in *.
      set (done := c0 :: done0) in *.
      exists ((done ++ [nul]) ++ repeat nul m)%list, toks.
      split; [|split; [|split; [|split]]].
      * cbn [repeat app Nat.add]. rewrite scan_blank by (try discriminate; lia).
        rewrite (app_snoc done nul), <- (length_snoc done nul).
        rewrite scan_blanks;
          [|destruct done; discriminate|rewrite length_snoc; cbn [List.length] in Hl; lia].
        rewrite !length_app, repeat_length. reflexivity.
      * rewrite app_nil_r. apply read_more. now apply (read_cut tok).
      * rewrite !length_app, repeat_length. cbn [List.length]. lia.
      * cbn [List.length]. lia.
      * destruct done; discriminate.
  - (* a word *)
    destruct tok; [discriminate|]. cbn [orb] in Hw.
    destruct (word w) eqn:Ew; [|discriminate]. cbn [negb] in Hw. injection Hw as <- <-.
    exists (done ++ w)%list, (toks ++ [LinePtr (List.length done)])%list.
    assert (Hlen : List.length (item_strs (is_nil done) (Word w)) = 1%nat) by reflexivity.
    cbn [item_strs] in Hlen.
    split; [|split; [|split; [|split]]].
    + rewrite scan_word by (auto; cbn [List.length] in Ht; lia).
      rewrite <- app_assoc, length_app, orb_true_r. reflexivity.
    + intros tail. unfold word in Ew. apply andb_true_iff in Ew as [_ Ho].
      pose proof (tokens_read_word done w toks strs Ho Hr tail) as E.
      replace ((done ++ w) ++ nul :: tail)%list with ((done ++ w ++ [nul]) ++ tail)%list
        by (rewrite <- !app_assoc; reflexivity).
      exact E.
    + apply length_app.
    + rewrite length_app. reflexivity.
    + unfold word in Ew. apply andb_true_iff in Ew as [Hne _].
      destruct w; [discriminate|]. destruct done; discriminate.
  - (* an opening parenthesis *)
    destruct (Z.gtb_spec (p + 1) MAX_PAREN) as [|Hp]; [discriminate|].
    injection Hw as <- <-. rewrite orb_false_r, app_nil_r.
    exists (done ++ [nul])%list, toks. cbn [List.length app Nat.add] in *.
    split; [|split; [|split; [|split]]].
    + erewrite scan_next;
        [|cbn [line i]; now rewrite line_at_mid|apply scan_char_open; lia].
      unfold with_i.
      cbn [line i in_doublequote paren_level in_quote set_in_quote in_txt token
           in_token found_nonblank_token].
      now rewrite (app_snoc done nul), <- (length_snoc done nul).
    + now apply (read_cut tok).
    + rewrite length_snoc. lia.
    + lia.
    + destruct done; discriminate.
  - (* a closing parenthesis *)
    destruct (Z.ltb_spec (p - 1) 0) as [|Hp]; [discriminate|].
    injection Hw as <- <-. rewrite orb_false_r, app_nil_r.
    exists (done ++ [nul])%list, toks. cbn [List.length app Nat.add] in *.
    split; [|split; [|split; [|split]]].
    + erewrite scan_next;
        [|cbn [line i]; now rewrite line_at_mid|apply scan_char_close; lia].
      unfold with_i.
      cbn [line i in_doublequote paren_level in_quote set_in_quote in_txt token
           in_token found_nonblank_token].
      now rewrite (app_snoc done nul), <- (length_snoc done nul).
    + now apply (read_cut tok).
    + rewrite length_snoc. lia.
    + lia.
    + destruct done; discriminate.
Qed.

Lemma walk_moves (its : list item) (p q : Z) (tok aw : bool) :
  walk its p tok = Some (q, aw) -> q <> p -> items_text its <> [].
Proof.
  destruct its as [|it r]; cbn [walk].
  - intros H. injection H as <- <-. congruence.
  - intros H _. unfold items_text. cbn [flat_map].
    destruct it as [k|w| |]; cbn [item_text]; try discriminate.
    + destruct k; [discriminate|]. discriminate.
    + destruct (tok || negb (word w)) eqn:E; [discriminate|].
      apply orb_false_iff in E as [_ E]. apply negb_false_iff in E.
      unfold word in E. apply andb_true_iff in E as [E _].
      destruct w; discriminate.
Qed.

Lemma no_newline_items (its : list item) :
  forall p tok q aw,
    walk its p tok = Some (q, aw) ->
    forallb (fun c => negb (c =? newline)%char) (items_text its) = true.
Proof.
  induction its as [|it r IH]; intros p tok q aw H; [reflexivity|].
  rewrite walk_cons in H.
  destruct (walk [it] p tok) as [[q1 aw1]|] eqn:E; [|discriminate].
  unfold items_text in *. cbn [flat_map]. rewrite forallb_app, (IH _ _ _ _ H), andb_true_r.
  destruct it as [k|w| |]; cbn [walk item_text] in *; try reflexivity.
  - apply no_newline_margin.
  - destruct (tok || negb (word w)) eqn:Ew; [discriminate|].
    apply orb_false_iff in Ew as [_ Ew]. apply negb_false_iff in Ew.
    unfold word in Ew. apply andb_true_iff in Ew as [_ Ew].
    now apply no_newline_word.
Qed.

(** The items of a line. *)
Lemma scan_items (its : list item) :
  forall done toks strs todo p txt tok found f q aw,
    walk its p tok = Some (q, aw) ->
    read tok done toks strs ->
    (done = [] -> tok = false) ->
    Z.of_nat (List.length toks + List.length (items_strs (is_nil done) its)) <= MAX_TOKENS ->
    Z.of_nat (List.length done + List.length (items_text its)) < LINE_LEN ->
    exists done' toks',
      scan (List.length (items_text its) + f)
           (mk_tok (done ++ items_text its ++ todo) (List.length done)
                   false p false false txt toks tok found)
      = scan f (mk_tok (done' ++ todo) (List.length done')
                       false q false false txt toks' aw (found || existsb is_word its))
      /\ read aw done' toks' (strs ++ items_strs (is_nil done) its)
      /\ List.length done' = (List.length done + List.length (items_text its))%nat
      /\ List.length toks'
         = (List.length toks + List.length (items_strs (is_nil done) its))%nat.
Proof.
  induction its as [|it r IH];
    intros done toks strs todo p txt tok found f q aw Hw Hr H0 Ht Hl.
  - cbn [walk] in Hw. injection Hw as <- <-.
    exists done, toks. unfold items_text. cbn [flat_map items_strs existsb app List.length Nat.add].
    rewrite orb_false_r, app_nil_r, !Nat.add_0_r. auto.
  - rewrite walk_cons in Hw.
    destruct (walk [it] p tok) as [[q1 aw1]|] eqn:E; [|discriminate].
    unfold items_text in *. cbn [flat_map items_strs existsb] in *.
    rewrite length_app in *.
    destruct (scan_item it done toks strs (flat_map item_text r ++ todo) p txt tok found
                        (List.length (flat_map item_text r) + f) q1 aw1 E Hr H0)
      as (d1 & t1 & Hs1 & Hr1 & Hd1 & Ht1 & Hn1); [lia|lia|].
    assert (En : is_nil d1 = false) by (destruct d1; [congruence|reflexivity]).
    destruct (IH d1 t1 (strs ++ item_strs (is_nil done) it)%list todo q1 txt aw1
                 (found || is_word it) f q aw Hw Hr1)
      as (d2 & t2 & Hs2 & Hr2 & Hd2 & Ht2);
      [congruence|rewrite En; lia|lia|].
    exists d2, t2. rewrite En in *.
    split; [|split; [|split]].
    + rewrite <- Nat.add_assoc, <- app_assoc, Hs1, Hs2, orb_assoc. reflexivity.
    + now rewrite app_assoc.
    + lia.
    + rewrite length_app. lia.
Qed.

(** The end of a line: the end-of-line character, or a comment. *)
Lemma scan_line_end (t : list ascii) (done : list ascii) (p : Z) (txt : bool)
      (toks : list token_ptr) (tok found : bool) (f : nat) :
  trailing t = true ->
  Z.of_nat (List.length done + List.length t) < LINE_LEN ->
  exists kept junk junk',
    scan (S (S f)) (mk_tok (done ++ t ++ [newline]) (List.length done)
                          false p false false txt toks tok found)
    = ScanEnd (mk_tok (kept ++ junk) (List.length kept)
                      false p false false txt toks false found)
    /\ kept = (if is_nil t then done ++ [nul] else done)%list
    /\ (kept ++ junk = done ++ nul :: junk')%list.
Proof.
  intros Ht Hl. destruct t as [|c t].
  - exists (done ++ [nul])%list, [], []. cbn [app is_nil].
    split; [|split; [reflexivity|now rewrite app_nil_r]].
    erewrite scan_next;
      [|cbn [line i]; now rewrite line_at_mid|apply scan_char_newline; cbn in Hl; lia].
    unfold with_i.
    cbn [line i in_doublequote paren_level in_quote set_in_quote in_txt token
         in_token found_nonblank_token].
    rewrite <- (length_snoc done nul). rewrite app_nil_r.
    apply scan_end.
  - cbn [trailing] in Ht. apply andb_true_iff in Ht as [Hc _].
    apply Ascii.eqb_eq in Hc. subst c.
    exists done, (nul :: t ++ [newline])%list, (t ++ [newline])%list. cbn [app is_nil].
    split; [|split; reflexivity].
    erewrite scan_break;
      [reflexivity|cbn [line i]; now rewrite line_at_mid
       |apply scan_char_semicolon; cbn in Hl; lia].
Qed.

(** [fgets] into the buffer from position [n] on, when the line fits. *)
Lemma fgets_at (n : nat) (pre rest : list ascii) :
  forallb (fun c => negb (c =? newline)%char) pre = true ->
  Z.of_nat (n + List.length pre) < LINE_LEN ->
  fgets (LINE_LEN + 1 - Z.of_nat n) (pre ++ newline :: rest)
  = Some ((pre ++ [newline])%list, rest).
Proof.
  intros Hp Hl. unfold fgets.
  destruct (Z.leb_spec (LINE_LEN + 1 - Z.of_nat n) 1) as [H|H]; [lia|].
  rewrite fgets_read_line; [|exact Hp|lia].
  destruct pre; reflexivity.
Qed.

Lemma firstn_length_app (a b : list ascii) : firstn (List.length a) (a ++ b) = a.
Proof. induction a as [|c a IH]; [reflexivity|]. cbn [List.length firstn app]. now rewrite IH. Qed.

Lemma length_entry_text (ls : list (list item * list ascii)) :
  (List.length ls <= List.length (entry_text ls))%nat.
Proof.
  induction ls as [|l ls IH]; [reflexivity|].
  unfold entry_text in *. cbn [flat_map List.length]. unfold line_text at 1.
  rewrite !length_app. cbn [List.length]. lia.
Qed.

(** The passes of the loop of [tokenize] over the lines of an entry. *)
Lemma tokenize_lines (ls : list (list item * list ascii)) :
  forall kept junk toks strs p txt found rest ln start d f,
    balanced ls p = true ->
    tokens_read kept toks strs ->
    (kept = [] -> p = 0) ->
    Z.of_nat (List.length toks + List.length (lines_strs (is_nil kept) ls)) <= MAX_TOKENS ->
    Z.of_nat (List.length kept + List.length (entry_text ls)) <= LINE_LEN ->
    tokenize_loop (List.length ls + f)
                  (mk_tok (kept ++ junk) (List.length kept)
                          false p false false txt toks false found)
                  (entry_text ls ++ rest) ln start d
    = mk_tok_out (TokEntry (if found || has_word ls
                            then strs ++ lines_strs (is_nil kept) ls else []))
                 rest (ln + Z.of_nat (List.length ls)) start d.
Proof.
  induction ls as [|[its t] ls IH];
    intros kept junk toks strs p txt found rest ln start d f Hb Hr H0 Ht Hl;
    [discriminate|].
  cbn [balanced fst snd] in Hb. apply andb_true_iff in Hb as [Htr Hb].
  destruct (walk its p false) as [[q aw]|] eqn:Ew; [|discriminate].
  unfold entry_text in Hl |- *. cbn [flat_map lines_strs fst snd] in *.
  unfold line_text at 1 in Hl. unfold line_text at 1. cbn [fst snd] in *.
  rewrite !length_app in Hl. cbn [List.length] in Hl. rewrite length_app in Ht.
  cbn [List.length Nat.add tokenize_loop i].
  replace (((items_text its ++ t ++ [newline]) ++ flat_map line_text ls) ++ rest)%list
    with ((items_text its ++ t) ++ newline :: (flat_map line_text ls ++ rest))%list
    by (rewrite <- !app_assoc; reflexivity).
  rewrite fgets_at;
    [|rewrite forallb_app, (no_newline_items its _ _ _ _ Ew), no_newline_trailing by exact Htr;
      reflexivity
     |rewrite length_app; lia].
  unfold with_line. cbn [line i in_doublequote paren_level in_quote set_in_quote in_txt token
                         in_token found_nonblank_token].
  rewrite firstn_length_app, <- !app_assoc, !length_app. cbn [List.length].
  destruct (scan_items its kept toks strs (t ++ [newline]) p txt false found
                       (S (S (List.length t))) q aw Ew Hr ltac:(reflexivity))
    as (d1 & t1 & Hs1 & Hr1 & Hd1 & Ht1); [lia|lia|].
  replace (S (List.length (items_text its) + (List.length t + 1)))
    with (List.length (items_text its) + S (S (List.length t)))%nat by lia.
  rewrite Hs1. clear Hs1.
  destruct (scan_line_end t d1 q txt t1 aw (found || existsb is_word its)
                          (List.length t) Htr)
    as (k2 & j2 & j2' & Hs2 & Hk2 & Hj2); [lia|].
  rewrite Hs2. clear Hs2.
  cbn [paren_level]. unfold end_of_line_warnings. cbn [in_quote in_doublequote app].
  rewrite app_nil_r.
  destruct ls as [|l2 ls2].
  - apply Z.eqb_eq in Hb. subst q. cbn [Z.eqb negb found_nonblank_token line token].
    cbn [flat_map has_word existsb lines_strs List.length fst Nat.add].
    rewrite Hj2, (read_weak aw d1 t1 _ Hr1 j2'), !orb_false_r, app_nil_r.
    f_equal.
  - apply andb_true_iff in Hb as [Hb Hb3]. apply andb_true_iff in Hb as [Hb1 Hb2].
    rewrite Hb1.
    assert (Hlk : (List.length k2 <= S (List.length d1))%nat).
    { subst k2. destruct (is_nil t); [rewrite length_snoc|]; lia. }
    assert (Hnk : k2 <> []).
    { subst k2. destruct t as [|c t]; cbn [is_nil]; [destruct d1; discriminate|].
      intros ->. destruct kept as [|c0 kept]; [|discriminate].
      specialize (H0 eq_refl). subst p.
      apply negb_true_iff, Z.eqb_neq in Hb1.
      apply (walk_moves its 0 q false aw Ew Hb1).
      destruct (items_text its); [reflexivity|discriminate]. }
    assert (En : is_nil k2 = false) by (destruct k2; [congruence|reflexivity]).
    assert (Hrk : tokens_read k2 t1 (strs ++ items_strs (is_nil kept) its)).
    { subst k2. destruct t as [|c t]; cbn [is_nil] in *.
      - now apply (read_cut aw).
      - rewrite orb_false_r in Hb2. apply negb_true_iff in Hb2. subst aw. exact Hr1. }
    set (ls := l2 :: ls2) in *. fold (entry_text ls) in *.
    rewrite (IH k2 j2 t1 (strs ++ items_strs (is_nil kept) its)%list q txt
                (found || existsb is_word its) rest (ln + 1) start d f Hb3 Hrk);
      [|congruence|rewrite En; lia|lia].
    rewrite En. unfold has_word. cbn [existsb fst].
    rewrite orb_assoc, <- app_assoc. f_equal. lia.
Qed.

End EntriesFacts.

(** X30: an entry over several lines.  Take lines made of blanks, words
    and parentheses, each ended by the end of the line or by a comment,
    where the parentheses nest at most three deep, every line but the last
    ends inside parentheses and the last one ends outside them, no line
    inside the parentheses has a comment right after a word, and the whole
    entry fits the line buffer and the token array.  Then [tokenize] reads
    exactly these lines and returns the words of all of them in order as
    the tokens, with the blank token in front when the first line starts
    with a blank, and no tokens when there is no word; the line counter goes
    up by the number of lines, the entry is reported at its first line, and
    nothing is printed. *)
Theorem tokenize_entry (ls : list (list Entries.item * list ascii)) (rest : list ascii)
        (ln : Z) :
  Entries.balanced ls 0 = true ->
  Entries.fits ls = true ->
  tokenize (Entries.entry_text ls ++ rest) ln
  = mk_tok_out (TokEntry (Entries.tokens_of ls)) rest
               (ln + Z.of_nat (List.length ls)) ln [].
Proof.
  intros Hb Hf. unfold Entries.fits in Hf.
  apply andb_true_iff in Hf as [Ht Hl]. apply Z.leb_le in Ht, Hl.
  pose proof (EntriesFacts.length_entry_text ls) as Hn.
  unfold tokenize. rewrite length_app.
  replace (S (List.length (Entries.entry_text ls) + List.length rest))
    with (List.length ls
          + (S (List.length (Entries.entry_text ls) + List.length rest) - List.length ls))%nat
    by lia.
  change tok_init
    with (mk_tok ([] ++ []) (List.length (@nil ascii)) false 0 false false false [] false false).
  rewrite (EntriesFacts.tokenize_lines ls [] [] [] [] 0 false false rest ln ln []
             _ Hb);
    [reflexivity|intros tail; reflexivity|reflexivity|exact Ht|exact Hl].
Qed.

Lemma tokenize_entry_witness :
  tokenize (zone ("example.com. IN SOA ns admin ( ; start of authority" ++ eol
                  ++ "  2024010101 ; serial" ++ eol
                  ++ "  3600 7200" ++ eol
                  ++ "604800 (86400))" ++ eol
                  ++ "www A 10.0.0.1" ++ eol)) 1
  = mk_tok_out (TokEntry ["example.com."; "IN"; "SOA"; "ns"; "admin"; "2024010101";
                          "3600"; "7200"; "604800"; "86400"])
               (zone ("www A 10.0.0.1" ++ eol)) 5 1 [].
Proof.
  apply (tokenize_entry
           [([Entries.Word (zone "example.com."); Entries.Gap 1; Entries.Word (zone "IN");
              Entries.Gap 1; Entries.Word (zone "SOA"); Entries.Gap 1;
              Entries.Word (zone "ns"); Entries.Gap 1; Entries.Word (zone "admin");
              Entries.Gap 1; Entries.Open; Entries.Gap 1], zone "; start of authority");
            ([Entries.Gap 2; Entries.Word (zone "2024010101"); Entries.Gap 1],
             zone "; serial");
            ([Entries.Gap 2; Entries.Word (zone "3600"); Entries.Gap 1;
              Entries.Word (zone "7200")], []);
            ([Entries.Word (zone "604800"); Entries.Gap 1; Entries.Open;
              Entries.Word (zone "86400"); Entries.Close; Entries.Close], [])]
           (zone ("www A 10.0.0.1" ++ eol)) 1);
    vm_compute; reflexivity.
Defined.

(** ** handle_entry: the records of a blank owner *)

Module RecordFacts.

Import FormsFacts Records Keywords.

(** Two texts that read the same without regard to case compare alike
    with every text. *)
Lemma strcaseeq_same (t : string) :
  forall p q, strcaseeq t p = true -> strcaseeq t q = strcaseeq p q.
Proof.
  induction t as [|x t IH]; intros [|y p] [|z q] H; try discriminate; try reflexivity.
  cbn [strcaseeq] in *. apply andb_true_iff in H as [Hx H].
  apply Ascii.eqb_eq in Hx. rewrite Hx, (IH p q H). reflexivity.
Qed.

(** A token that reads as a word starting with a capital letter is not a
    number: [str_to_uint] fails on it without a warning. *)
Lemma keyword_unparsed (ty : string) (y : ascii) (kw : string) :
  strcaseeq ty (String y kw) = true ->
  (65 <=? code y) && (code y <=? 90) = true ->
  str_to_uint ty true = Err [].
Proof.
  destruct ty as [|x ty]; [discriminate|]. cbn [strcaseeq]. intros H Hu.
  apply andb_true_iff in H as [Hx _].
  assert (Hy : Duration.is_digit y = false).
  { unfold Duration.is_digit. apply andb_true_iff in Hu as [H1 H2].
    apply Z.leb_le in H1, H2. apply andb_false_iff. right. apply Z.leb_gt. lia. }
  pose proof (class_char_not_digit x y Hx Hy Hu) as Hd.
  unfold str_to_uint. cbn [str_to_uint_loop].
  now rewrite (NumberFacts.not_digit_schar x Hd).
Qed.

(** The tokens before the type are read as the heading says. *)
Lemma heading_read (sln : Z) (st : run_state) (pre : list string) (v : Z)
      (ty a : string) (more : list string) :
  heading st pre v ->
  str_to_uint ty true = Err [] ->
  strcaseeq ty "IN" = false ->
  rr_ttl_class sln (" " :: pre ++ ty :: a :: more) st
  = Go (v, 1 + Z.of_nat (List.length pre)) "" [].
Proof.
  intros Hh Hu Hi. unfold rr_ttl_class.
  destruct Hh as [|cls Hc|t v Hv Hb|t cls v Hv Hb Hc|cls t v Hv Hb Hc]; cbn [app].
  - change (tk (" " :: ty :: a :: more) 1) with ty.
    rewrite Hu, Hi. reflexivity.
  - change (tk (" " :: cls :: ty :: a :: more) 1) with cls.
    change (tk (" " :: cls :: ty :: a :: more) 2) with ty.
    rewrite (class_unparsed cls Hc), Hc, Hu. reflexivity.
  - change (tk (" " :: t :: ty :: a :: more) 1) with t.
    change (tk (" " :: t :: ty :: a :: more) 2) with ty.
    rewrite Hv, Hi. unfold probe, ret, check. rewrite !bind_Go.
    destruct (Z.gtb_spec (u32 (ttl st)) 2147483646) as [|_]; [lia|]. reflexivity.
  - change (tk (" " :: t :: cls :: ty :: a :: more) 1) with t.
    change (tk (" " :: t :: cls :: ty :: a :: more) 2) with cls.
    rewrite Hv, Hc. unfold probe, ret, check. rewrite !bind_Go.
    destruct (Z.gtb_spec (u32 (ttl st)) 2147483646) as [|_]; [lia|]. reflexivity.
  - change (tk (" " :: cls :: t :: ty :: a :: more) 1) with cls.
    change (tk (" " :: cls :: t :: ty :: a :: more) 2) with t.
    rewrite (class_unparsed cls Hc), Hc, Hv. unfold probe, ret, check. rewrite !bind_Go.
    cbv beta iota.
    destruct (Z.gtb_spec (u32 (ttl st)) 2147483646) as [|_]; [lia|]. reflexivity.
Qed.

Lemma heading_length (st : run_state) (pre : list string) (v : Z) :
  heading st pre v -> (List.length pre <= 2)%nat.
Proof. intros H. destruct H; cbn [List.length]; lia. Qed.

(** The type and the RDATA are read from the token after the heading. *)
Lemma rr_rdata_after (sln : Z) (st : run_state) (pre rest : list string) (v : Z) :
  rr_rdata sln (" " :: pre ++ rest) st v (1 + Z.of_nat (List.length pre))
  = rr_rdata sln (" " :: rest) st v 1.
Proof.
  unfold rr_rdata.
  replace (Z.of_nat (List.length (" " :: pre ++ rest)) - (1 + Z.of_nat (List.length pre)) - 1)
    with (Z.of_nat (List.length (" " :: rest)) - 1 - 1)
    by (cbn [List.length]; rewrite length_app; lia).
  assert (Hk : forall k, 0 <= k ->
                 tk (" " :: pre ++ rest) (1 + Z.of_nat (List.length pre) + k)
                 = tk (" " :: rest) (1 + k)).
  { intros k Hk. unfold tk.
    replace (Z.to_nat (1 + Z.of_nat (List.length pre) + k))
      with (S (List.length pre + Z.to_nat k)) by lia.
    replace (Z.to_nat (1 + k)) with (S (Z.to_nat k)) by lia.
    cbn [nth]. rewrite app_nth2 by lia. f_equal. lia. }
  assert (Hs : skipn (Z.to_nat (1 + Z.of_nat (List.length pre) + 1)) (" " :: pre ++ rest)
               = skipn (Z.to_nat (1 + 1)) (" " :: rest)).
  { replace (Z.to_nat (1 + Z.of_nat (List.length pre) + 1))
      with (S (List.length pre + 1)) by lia.
    change (Z.to_nat (1 + 1)) with 2%nat. cbn [skipn].
    rewrite skipn_app, skipn_all2 by lia.
    replace (List.length pre + 1 - List.length pre)%nat with 1%nat by lia. reflexivity. }
  pose proof (Hk 0 ltac:(lia)) as H0. rewrite Z.add_0_r in H0.
  rewrite H0, Hs, !Hk by lia. reflexivity.
Qed.

(** A record under the stored owner: the heading is read and the type
    and the RDATA are handled in the state as it is. *)
Lemma blank_record (top : string_t) (sln : Z) (st : run_state) (pre : list string)
      (v : Z) (ty a : string) (more : list string) (line : string) :
  prev_owner st = true ->
  heading st pre v ->
  str_to_uint ty true = Err [] ->
  strcaseeq ty "IN" = false ->
  rr_rdata sln (" " :: ty :: a :: more) st v 1 = Go tt line [] ->
  handle_entry top sln (" " :: pre ++ ty :: a :: more) st = Go (0, st) line [].
Proof.
  intros Hp Hh Hu Hi Hr.
  rewrite Entry.blank_owner_outcome;
    [|cbn [List.length]; rewrite length_app; cbn [List.length]; lia|reflexivity|exact Hp].
  rewrite (heading_read sln st pre v ty a more Hh Hu Hi).
  rewrite bind_Go. cbv beta iota. cbn [fst snd].
  rewrite next_in_range
    by (cbn [List.length]; rewrite length_app; cbn [List.length]; lia).
  rewrite rr_rdata_after, Hr. rewrite bind_Go. unfold ret.
  cbn [app append]. now rewrite append_nil_r.
Qed.

Lemma rdata_a (sln : Z) (st : run_state) (v : Z) (ty a ip : string) :
  strcaseeq ty "A" = true ->
  sanitize_ip a = Some ip ->
  rr_rdata sln [" "; ty; a] st v 1
  = Go tt ("+" ++ text (owner st) ++ ":" ++ ip ++ ":" ++ fmt_d 0 v ++ eol) [].
Proof.
  intros Ht Hip. branch strcaseeq_same Ht. run_on. rewrite Hip.
  rewrite ?append_nil_r. reflexivity.
Qed.

Lemma rdata_ns (sln : Z) (st : run_state) (v : Z) (ty n : string) (d : string_t) :
  strcaseeq ty "NS" = true ->
  qualify_domain n (Some (cur_origin st)) = Ok d ->
  rr_rdata sln [" "; ty; n] st v 1
  = Go tt ("&" ++ text (owner st) ++ "::" ++ text d ++ ":" ++ fmt_d 0 v ++ eol) [].
Proof.
  intros Ht Hq. branch strcaseeq_same Ht. run_on. rewrite Hq.
  rewrite ?append_nil_r. reflexivity.
Qed.

Lemma rdata_cname (sln : Z) (st : run_state) (v : Z) (ty n : string) (d : string_t) :
  strcaseeq ty "CNAME" = true ->
  qualify_domain n (Some (cur_origin st)) = Ok d ->
  rr_rdata sln [" "; ty; n] st v 1
  = Go tt ("C" ++ text (owner st) ++ ":" ++ text d ++ ":" ++ fmt_d 0 v ++ eol) [].
Proof.
  intros Ht Hq. branch strcaseeq_same Ht. run_on. rewrite Hq.
  rewrite ?append_nil_r. reflexivity.
Qed.

Lemma rdata_ptr (sln : Z) (st : run_state) (v : Z) (ty n : string) (d : string_t) :
  strcaseeq ty "PTR" = true ->
  qualify_domain n (Some (cur_origin st)) = Ok d ->
  rr_rdata sln [" "; ty; n] st v 1
  = Go tt ("^" ++ text (owner st) ++ ":" ++ text d ++ ":" ++ fmt_d 0 v ++ eol) [].
Proof.
  intros Ht Hq. branch strcaseeq_same Ht. run_on. rewrite Hq.
  rewrite ?append_nil_r. reflexivity.
Qed.

Lemma rdata_mx (sln : Z) (st : run_state) (v : Z) (ty p n : string) (priority : Z)
      (d : string_t) :
  strcaseeq ty "MX" = true ->
  short p priority ->
  qualify_domain n (Some (cur_origin st)) = Ok d ->
  rr_rdata sln [" "; ty; p; n] st v 1
  = Go tt ("@" ++ text (owner st) ++ "::" ++ text d ++ ":" ++ fmt_d 0 priority ++ ":"
               ++ fmt_d 0 v ++ eol) [].
Proof.
  intros Ht [Hp Hb] Hq. branch strcaseeq_same Ht. run_on. rewrite Hp.
  destruct (Z.gtb_spec priority 65535) as [|_]; [lia|]. rewrite Hq.
  rewrite ?append_nil_r. reflexivity.
Qed.

Lemma rdata_srv (sln : Z) (st : run_state) (v : Z) (ty p w q n : string)
      (priority weight port : Z) (d : string_t) :
  strcaseeq ty "SRV" = true ->
  short p priority -> short w weight -> short q port ->
  qualify_domain n (Some (cur_origin st)) = Ok d ->
  rr_rdata sln [" "; ty; p; w; q; n] st v 1
  = Go tt (":" ++ text (owner st) ++ ":33:"
               ++ octal (priority / 256) ++ octal (priority mod 256)
               ++ octal (weight / 256) ++ octal (weight mod 256)
               ++ octal (port / 256) ++ octal (port mod 256)
               ++ octal (len d) ++ text d ++ ":" ++ fmt_d 0 v ++ eol) [].
Proof.
  intros Ht [Hp Hpb] [Hw Hwb] [Hq Hqb] Hd. branch strcaseeq_same Ht. run_on.
  rewrite Hp. destruct (Z.gtb_spec priority 65535) as [|_]; [lia|].
  rewrite Hw. destruct (Z.gtb_spec weight 65535) as [|_]; [lia|].
  rewrite Hq. destruct (Z.gtb_spec port 65535) as [|_]; [lia|].
  rewrite Hd. rewrite ?append_nil_r. reflexivity.
Qed.

Lemma rdata_soa (sln : Z) (st : run_state) (v : Z) (ty m r s1 s2 s3 s4 s5 : string)
      (mname rname : string_t) (serial refresh retry expire minimum : Z) :
  strcaseeq ty "SOA" = true ->
  qualify_domain m (Some (cur_origin st)) = Ok mname ->
  qualify_domain r (Some (cur_origin st)) = Ok rname ->
  str_to_uint s1 false = Ok serial ->
  str_to_uint s2 true = Ok refresh ->
  str_to_uint s3 true = Ok retry ->
  str_to_uint s4 true = Ok expire ->
  str_to_uint s5 true = Ok minimum ->
  rr_rdata sln [" "; ty; m; r; s1; s2; s3; s4; s5] st v 1
  = Go tt ("Z" ++ text (owner st) ++ ":" ++ text mname ++ ":" ++ text rname ++ ":"
               ++ fmt_unsigned 10 false 0 serial ++ ":"
               ++ fmt_unsigned 10 false 0 refresh ++ ":"
               ++ fmt_unsigned 10 false 0 retry ++ ":"
               ++ fmt_unsigned 10 false 0 expire ++ ":"
               ++ fmt_unsigned 10 false 0 minimum ++ eol) [].
Proof.
  intros Ht Hm Hr H1 H2 H3 H4 H5. branch strcaseeq_same Ht. run_on.
  rewrite Hm, Hr, H1, H2, H3, H4, H5. rewrite ?append_nil_r. reflexivity.
Qed.

(** The loop over the TXT tokens writes each text after its length. *)
Lemma txt_strings (sln : Z) (strs : list string) :
  forall rs, texts strs rs -> txt_rdata sln strs = Go tt (strings rs) [].
Proof.
  induction strs as [|s strs IH]; intros [|r rs] H; cbn [texts] in H;
    try contradiction; [reflexivity|].
  destruct H as [Hs H]. cbn [txt_rdata strings]. rewrite Hs.
  unfold or_fatal, ret, fprintf. rewrite !bind_Go. cbv beta iota.
  rewrite (IH rs H). cbn [app append]. now rewrite append_assoc.
Qed.

Lemma rdata_txt (sln : Z) (st : run_state) (v : Z) (ty s : string) (strs : list string)
      (rs : list string_t) :
  strcaseeq ty "TXT" = true ->
  texts (s :: strs) rs ->
  rr_rdata sln (" " :: ty :: s :: strs) st v 1
  = Go tt (":" ++ text (owner st) ++ ":16:" ++ strings rs ++ ":" ++ fmt_d 0 v ++ eol) [].
Proof.
  intros Ht Hs. branch strcaseeq_same Ht.
  replace (Z.of_nat (List.length (" " :: ty :: s :: strs)) - 1 - 1 <? 1) with false
    by (symmetry; apply Z.ltb_ge; cbn [List.length]; lia).
  change (skipn (Z.to_nat (1 + 1)) (" " :: ty :: s :: strs)) with (s :: strs).
  rewrite (txt_strings sln (s :: strs) rs Hs).
  unfold check, fprintf, ret. rewrite !bind_Go. cbv beta iota.
  cbn [app]. f_equal. unfold eol. cbn [append]. rewrite ?append_assoc. cbn [append].
  rewrite ?append_nil_r. reflexivity.
Qed.

End RecordFacts.

(** C9: a record whose first token is the blank token is handled without
    any test against the top origin: the outcome is the same for every top
    origin.  When a previous owner is established, a record of each type,
    with its TTL and class in any of the forms the program reads, is
    written under the stored owner, whatever that owner is and wherever it
    lies, with no warning and in the state as it is: the line holds the
    text of the stored owner, the RDATA as the tokens give it, and the TTL
    of the record.  The names and texts of the RDATA are those that
    [sanitize_string] writes inside its buffer, and the address one that
    fits the sixteen bytes it is written to. *)
Theorem blank_owner_skips_zone_check :
  (forall top top' sln tokens st,
      tk tokens 0 = " " ->
      handle_entry top sln tokens st = handle_entry top' sln tokens st)
  /\ (forall top sln st pre v,
         prev_owner st = true ->
         Records.heading st pre v ->
         (forall ty a ip,
             strcaseeq ty "A" = true ->
             sanitize_ip a = Some ip -> Bounds.ip_fits ip = true ->
             handle_entry top sln (" " :: pre ++ [ty; a]) st
             = Go (0, st)
                  ("+" ++ text (owner st) ++ ":" ++ ip ++ ":" ++ fmt_d 0 v ++ eol) [])
         /\ (forall ty n d,
                strcaseeq ty "NS" = true ->
                Records.named st n d ->
                handle_entry top sln (" " :: pre ++ [ty; n]) st
                = Go (0, st)
                     ("&" ++ text (owner st) ++ "::" ++ text d ++ ":" ++ fmt_d 0 v ++ eol) [])
         /\ (forall ty n d,
                strcaseeq ty "CNAME" = true ->
                Records.named st n d ->
                handle_entry top sln (" " :: pre ++ [ty; n]) st
                = Go (0, st)
                     ("C" ++ text (owner st) ++ ":" ++ text d ++ ":" ++ fmt_d 0 v ++ eol) [])
         /\ (forall ty n d,
                strcaseeq ty "PTR" = true ->
                Records.named st n d ->
                handle_entry top sln (" " :: pre ++ [ty; n]) st
                = Go (0, st)
                     ("^" ++ text (owner st) ++ ":" ++ text d ++ ":" ++ fmt_d 0 v ++ eol) [])
         /\ (forall ty p n priority d,
                strcaseeq ty "MX" = true ->
                Records.short p priority ->
                Records.named st n d ->
                handle_entry top sln (" " :: pre ++ [ty; p; n]) st
                = Go (0, st)
                     ("@" ++ text (owner st) ++ "::" ++ text d ++ ":" ++ fmt_d 0 priority
                          ++ ":" ++ fmt_d 0 v ++ eol) [])
         /\ (forall ty s strs rs,
                strcaseeq ty "TXT" = true ->
                Bounds.all_inside (s :: strs) = true ->
                Records.texts (s :: strs) rs ->
                handle_entry top sln (" " :: pre ++ ty :: s :: strs) st
                = Go (0, st)
                     (":" ++ text (owner st) ++ ":16:" ++ Records.strings rs ++ ":"
                          ++ fmt_d 0 v ++ eol) [])
         /\ (forall ty m r s1 s2 s3 s4 s5 mname rname serial refresh retry expire minimum,
                strcaseeq ty "SOA" = true ->
                Records.named st m mname ->
                Records.named st r rname ->
                str_to_uint s1 false = Ok serial ->
                str_to_uint s2 true = Ok refresh ->
                str_to_uint s3 true = Ok retry ->
                str_to_uint s4 true = Ok expire ->
                str_to_uint s5 true = Ok minimum ->
                handle_entry top sln (" " :: pre ++ [ty; m; r; s1; s2; s3; s4; s5]) st
                = Go (0, st)
                     ("Z" ++ text (owner st) ++ ":" ++ text mname ++ ":" ++ text rname ++ ":"
                          ++ fmt_unsigned 10 false 0 serial ++ ":"
                          ++ fmt_unsigned 10 false 0 refresh ++ ":"
                          ++ fmt_unsigned 10 false 0 retry ++ ":"
                          ++ fmt_unsigned 10 false 0 expire ++ ":"
                          ++ fmt_unsigned 10 false 0 minimum ++ eol) [])
         /\ (forall ty p w q n priority weight port d,
                strcaseeq ty "SRV" = true ->
                Records.short p priority ->
                Records.short w weight ->
                Records.short q port ->
                Records.named st n d ->
                handle_entry top sln (" " :: pre ++ [ty; p; w; q; n]) st
                = Go (0, st)
                     (":" ++ text (owner st) ++ ":33:"
                          ++ Records.octal (priority / 256) ++ Records.octal (priority mod 256)
                          ++ Records.octal (weight / 256) ++ Records.octal (weight mod 256)
                          ++ Records.octal (port / 256) ++ Records.octal (port mod 256)
                          ++ Records.octal (len d) ++ text d ++ ":" ++ fmt_d 0 v ++ eol) [])).
Proof.
  split; [exact Entry.blank_owner_ignores_top|].
  intros top sln st pre v Hp Hh.
  assert (Hkey : forall ty y kw,
             strcaseeq ty (String y kw) = true ->
             (65 <=? code y) && (code y <=? 90) = true ->
             strcaseeq (String y kw) "IN" = false ->
             str_to_uint ty true = Err [] /\ strcaseeq ty "IN" = false).
  { intros ty y kw Ht Hu Hi. split.
    - exact (RecordFacts.keyword_unparsed ty y kw Ht Hu).
    - now rewrite (RecordFacts.strcaseeq_same ty _ "IN" Ht). }
  repeat split.
  - intros ty a ip Ht Hip _.
    destruct (Hkey ty _ _ Ht eq_refl eq_refl) as [Hu Hi].
    apply (RecordFacts.blank_record top sln st pre v); auto using RecordFacts.rdata_a.
  - intros ty n d Ht [_ Hq].
    destruct (Hkey ty _ _ Ht eq_refl eq_refl) as [Hu Hi].
    apply (RecordFacts.blank_record top sln st pre v); auto using RecordFacts.rdata_ns.
  - intros ty n d Ht [_ Hq].
    destruct (Hkey ty _ _ Ht eq_refl eq_refl) as [Hu Hi].
    apply (RecordFacts.blank_record top sln st pre v); auto using RecordFacts.rdata_cname.
  - intros ty n d Ht [_ Hq].
    destruct (Hkey ty _ _ Ht eq_refl eq_refl) as [Hu Hi].
    apply (RecordFacts.blank_record top sln st pre v); auto using RecordFacts.rdata_ptr.
  - intros ty p n priority d Ht Hs [_ Hq].
    destruct (Hkey ty _ _ Ht eq_refl eq_refl) as [Hu Hi].
    apply (RecordFacts.blank_record top sln st pre v); auto using RecordFacts.rdata_mx.
  - intros ty s strs rs Ht _ Hs.
    destruct (Hkey ty _ _ Ht eq_refl eq_refl) as [Hu Hi].
    apply (RecordFacts.blank_record top sln st pre v); auto using RecordFacts.rdata_txt.
  - intros ty m r s1 s2 s3 s4 s5 mname rname serial refresh retry expire minimum
           Ht [_ Hm] [_ Hr] H1 H2 H3 H4 H5.
    destruct (Hkey ty _ _ Ht eq_refl eq_refl) as [Hu Hi].
    apply (RecordFacts.blank_record top sln st pre v); auto using RecordFacts.rdata_soa.
  - intros ty p w q n priority weight port d Ht Hpp Hw Hq [_ Hd].
    destruct (Hkey ty _ _ Ht eq_refl eq_refl) as [Hu Hi].
    apply (RecordFacts.blank_record top sln st pre v); auto using RecordFacts.rdata_srv.
Qed.

Lemma blank_owner_skips_zone_check_witness :
  out_of_zone example_origin (owner outsider) = true
  /\ handle_entry example_origin 3 [" "; "MX"; "10"; "mail"] outsider
     = handle_entry root_origin 3 [" "; "MX"; "10"; "mail"] outsider
  /\ handle_entry example_origin 3 [" "; "A"; "1.2.3.5"] outsider
     = Go (0, outsider) ("+b.other.org.:1.2.3.5:86400" ++ eol) []
  /\ handle_entry example_origin 3 [" "; "300"; "IN"; "NS"; "ns1"] outsider
     = Go (0, outsider) ("&b.other.org.::ns1.example.com.:300" ++ eol) []
  /\ handle_entry example_origin 3 [" "; "in"; "cname"; "www"] outsider
     = Go (0, outsider) ("Cb.other.org.:www.example.com.:86400" ++ eol) []
  /\ handle_entry example_origin 3 [" "; "60"; "PTR"; "host.example.net."] outsider
     = Go (0, outsider) ("^b.other.org.:host.example.net.:60" ++ eol) []
  /\ handle_entry example_origin 3 [" "; "IN"; "1h"; "MX"; "10"; "mail"] outsider
     = Go (0, outsider) ("@b.other.org.::mail.example.com.:10:3600" ++ eol) []
  /\ handle_entry example_origin 3 [" "; "TXT"; "v=spf1 -all"; "a:b"] outsider
     = Go (0, outsider) (":b.other.org.:16:\013v=spf1 -all\003a\072b:86400" ++ eol) []
  /\ handle_entry example_origin 3
                  [" "; "SOA"; "ns1"; "admin"; "2024010101"; "1h"; "15m"; "1w"; "1d"] outsider
     = Go (0, outsider)
          ("Zb.other.org.:ns1.example.com.:admin.example.com.:2024010101:3600:900:604800:86400"
             ++ eol) []
  /\ handle_entry example_origin 3 [" "; "2d"; "SRV"; "10"; "20"; "5060"; "sip"] outsider
     = Go (0, outsider)
          (":b.other.org.:33:\000\012\000\024\023\304\020sip.example.com.:172800" ++ eol) [].
Proof.
  destruct blank_owner_skips_zone_check as [Htop Hrec].
  assert (Hb : u32 (ttl outsider) <= 2147483646) by (vm_compute; discriminate).
  split; [reflexivity|]. split; [apply Htop; reflexivity|].
  split; [|split; [|split; [|split; [|split; [|split; [|split]]]]]].
  - apply (proj1 (Hrec example_origin 3 outsider [] 86400 eq_refl (Records.no_ttl outsider))
                 "A" "1.2.3.5" "1.2.3.5"); reflexivity.
  - apply (proj1 (proj2 (Hrec example_origin 3 outsider ["300"; "IN"] 300 eq_refl
                              (Records.ttl_class outsider "300" "IN" 300 eq_refl Hb eq_refl)))
                 "NS" "ns1" (mk_string "ns1.example.com." 16 16));
      [reflexivity | split; reflexivity].
  - apply (proj1 (proj2 (proj2 (Hrec example_origin 3 outsider ["in"] 86400 eq_refl
                                     (Records.class_only outsider "in" eq_refl))))
                 "cname" "www" (mk_string "www.example.com." 16 16));
      [reflexivity | split; reflexivity].
  - apply (proj1 (proj2 (proj2 (proj2
                   (Hrec example_origin 3 outsider ["60"] 60 eq_refl
                         (Records.ttl_only outsider "60" 60 eq_refl Hb)))))
                 "PTR" "host.example.net." (mk_string "host.example.net." 17 17));
      [reflexivity | split; reflexivity].
  - apply (proj1 (proj2 (proj2 (proj2 (proj2
                   (Hrec example_origin 3 outsider ["IN"; "1h"] 3600 eq_refl
                         (Records.class_ttl outsider "IN" "1h" 3600 eq_refl Hb eq_refl))))))
                 "MX" "10" "mail" 10 (mk_string "mail.example.com." 17 17));
      [reflexivity | split; [reflexivity | lia] | split; reflexivity].
  - apply (proj1 (proj2 (proj2 (proj2 (proj2 (proj2
                   (Hrec example_origin 3 outsider [] 86400 eq_refl (Records.no_ttl outsider)))))))
                 "TXT" "v=spf1 -all" ["a:b"]
                 [mk_string "v=spf1 -all" 11 11; mk_string "a\072b" 3 6]);
      [reflexivity | reflexivity | repeat split].
  - apply (proj1 (proj2 (proj2 (proj2 (proj2 (proj2 (proj2
                   (Hrec example_origin 3 outsider [] 86400 eq_refl (Records.no_ttl outsider))))))))
                 "SOA" "ns1" "admin" "2024010101" "1h" "15m" "1w" "1d"
                 (mk_string "ns1.example.com." 16 16)
                 (mk_string "admin.example.com." 18 18)
                 2024010101 3600 900 604800 86400);
      try reflexivity; split; reflexivity.
  - apply (proj2 (proj2 (proj2 (proj2 (proj2 (proj2 (proj2
                   (Hrec example_origin 3 outsider ["2d"] 172800 eq_refl
                         (Records.ttl_only outsider "2d" 172800 eq_refl Hb))))))))
                 "SRV" "10" "20" "5060" "sip" 10 20 5060
                 (mk_string "sip.example.com." 16 16));
      [reflexivity | split; [reflexivity | lia] | split; [reflexivity | lia]
       | split; [reflexivity | lia] | split; reflexivity].
Defined.
